(** * Messaging core of mini-office: conversation identity, message entity,
      message store queries and the REST / socket entry points.

    Shallow embedding of
      - the Message model [models/Message.js] (schema, pre-save hook,
        methods, statics), found in [frontend/models/Group.js];
      - the messages router [routes/messages.js] (REST facade), found in
        [frontend/middleware/upload.js];
      - the socket handlers [send_message], [send_group_message] and
        [mark_as_read], found in [unnamed/part_001];
      - [isMember] and [isAdmin] of the Group model.

    Conventions.
      - An [ObjectId] is represented by its canonical string rendering, so
        [x.toString()] is the identity and [a.toString() === b.toString()]
        is string equality.
      - A JS string is a [string]; each [ascii] stands for one code unit.
      - A [Date] is its millisecond time value, a [Z].
      - A collection is a list of documents in insertion order.
      - A message has the fields its schema declares and [createdAt]; the
        [updatedAt] stamp kept by the [timestamps] option is not modelled.
      - [populate] only decorates the copies handed to the client and is
        left out. *)

From Stdlib Require Import List String Ascii ZArith Lia Bool.
From Stdlib Require Import Sorting.Permutation.
Import ListNotations.

Local Open Scope string_scope.
Local Open Scope list_scope.

(* ------------------------------------------------------------------ *)
(** ** JavaScript built-ins used by the code *)

Module Js.

(** Stable insertion of [x] in front of the first element not below it. *)
Fixpoint insert_by {A : Type} (le : A -> A -> bool) (x : A) (l : list A) : list A :=
  match l with
  | [] => [x]
  | y :: l' => if le x y then x :: y :: l' else y :: insert_by le x l'
  end.

(** A stable sort, as [Array.prototype.sort] is since ES2019. *)
Fixpoint sort_by {A : Type} (le : A -> A -> bool) (l : list A) : list A :=
  match l with
  | [] => []
  | x :: l' => insert_by le x (sort_by le l')
  end.

(** [arr.sort()] on an array of strings: code-unit order. *)
Definition sort (l : list string) : list string := sort_by String.leb l.

(** [arr.join(sep)]. *)
Fixpoint join (sep : string) (l : list string) : string :=
  match l with
  | [] => ""
  | [x] => x
  | x :: l' => x ++ sep ++ join sep l'
  end.

(** [arr.some(p)], [arr.find(p)], [arr.filter(p)]. *)
Definition some {A : Type} (p : A -> bool) (l : list A) : bool := existsb p l.
Definition find {A : Type} (p : A -> bool) (l : list A) : option A := List.find p l.
Definition filter {A : Type} (p : A -> bool) (l : list A) : list A := List.filter p l.

(** [arr.push(x)]. *)
Definition push {A : Type} (l : list A) (x : A) : list A := l ++ [x].

(** White space removed by [String.prototype.trim], restricted to the
    one-byte code units: TAB, LF, VT, FF, CR, SPACE and NBSP. *)
Definition is_space (c : ascii) : bool :=
  let n := nat_of_ascii c in
  (Nat.leb 9 n && Nat.leb n 13) || Nat.eqb n 32 || Nat.eqb n 160.

Fixpoint trim_start (s : string) : string :=
  match s with
  | EmptyString => EmptyString
  | String c s' => if is_space c then trim_start s' else s
  end.

(** Drops the trailing white space: a character is kept when it is not a
    space or when something is kept after it. *)
Fixpoint trim_end (s : string) : string :=
  match s with
  | EmptyString => EmptyString
  | String c s' =>
      match trim_end s' with
      | EmptyString => if is_space c then EmptyString else String c EmptyString
      | r => String c r
      end
  end.

Definition trim (s : string) : string := trim_end (trim_start s).

End Js.

(* ------------------------------------------------------------------ *)
(** ** Identities and the conversation key *)

Definition ObjectId := string.
Definition Date := Z.
Bind Scope Z_scope with Date.

Definition toString (x : ObjectId) : string := x.

(** [const ids = [a.toString(), b.toString()].sort();
     const conversationId = ids.join('_');]
    as written in the pre-save hook, in [getConversation] and in the
    conversation search route. *)
Definition conversationId (a b : ObjectId) : string :=
  let ids := Js.sort [toString a; toString b] in
  Js.join "_" ids.

(* ------------------------------------------------------------------ *)
(** ** Data model ([messageSchema]) *)

Module Reaction.
Record t := mk { user : ObjectId; emoji : string; createdAt : Date }.
End Reaction.

Module ReadReceipt.
Record t := mk { user : ObjectId; readAt : Date }.
End ReadReceipt.

Module Attachment.
Record t := mk { type : string; url : string; filename : string;
                 size : Z; publicId : string }.
End Attachment.

Module Link.
Record t := mk { url : string; title : string; description : string;
                 image : string }.
End Link.

Record Edited := mkEdited {
  isEdited : bool;
  editedAt : option Date;
  originalContent : option string
}.

Record Message := mkMessage {
  _id : ObjectId;
  sender : ObjectId;
  content : string;
  type : string;
  attachments : list Attachment.t;
  group : option ObjectId;
  recipient : option ObjectId;
  conversation : option string;
  replyTo : option ObjectId;
  reactions : list Reaction.t;
  readBy : list ReadReceipt.t;
  edited : Edited;
  isDeleted : bool;
  deletedAt : option Date;
  mentions : list ObjectId;
  links : list Link.t;
  createdAt : Date
}.

(** Field assignments [this.f = v]. *)
Definition set_content (v : string) (m : Message) : Message :=
  mkMessage (_id m) (sender m) v (type m) (attachments m) (group m)
    (recipient m) (conversation m) (replyTo m) (reactions m) (readBy m)
    (edited m) (isDeleted m) (deletedAt m) (mentions m) (links m) (createdAt m).

Definition set_conversation (v : option string) (m : Message) : Message :=
  mkMessage (_id m) (sender m) (content m) (type m) (attachments m) (group m)
    (recipient m) v (replyTo m) (reactions m) (readBy m)
    (edited m) (isDeleted m) (deletedAt m) (mentions m) (links m) (createdAt m).

Definition set_reactions (v : list Reaction.t) (m : Message) : Message :=
  mkMessage (_id m) (sender m) (content m) (type m) (attachments m) (group m)
    (recipient m) (conversation m) (replyTo m) v (readBy m)
    (edited m) (isDeleted m) (deletedAt m) (mentions m) (links m) (createdAt m).

Definition set_readBy (v : list ReadReceipt.t) (m : Message) : Message :=
  mkMessage (_id m) (sender m) (content m) (type m) (attachments m) (group m)
    (recipient m) (conversation m) (replyTo m) (reactions m) v
    (edited m) (isDeleted m) (deletedAt m) (mentions m) (links m) (createdAt m).

Definition set_edited (v : Edited) (m : Message) : Message :=
  mkMessage (_id m) (sender m) (content m) (type m) (attachments m) (group m)
    (recipient m) (conversation m) (replyTo m) (reactions m) (readBy m)
    v (isDeleted m) (deletedAt m) (mentions m) (links m) (createdAt m).

Definition set_isDeleted (v : bool) (m : Message) : Message :=
  mkMessage (_id m) (sender m) (content m) (type m) (attachments m) (group m)
    (recipient m) (conversation m) (replyTo m) (reactions m) (readBy m)
    (edited m) v (deletedAt m) (mentions m) (links m) (createdAt m).

Definition set_deletedAt (v : option Date) (m : Message) : Message :=
  mkMessage (_id m) (sender m) (content m) (type m) (attachments m) (group m)
    (recipient m) (conversation m) (replyTo m) (reactions m) (readBy m)
    (edited m) (isDeleted m) v (mentions m) (links m) (createdAt m).

Definition set_mentions (v : list ObjectId) (m : Message) : Message :=
  mkMessage (_id m) (sender m) (content m) (type m) (attachments m) (group m)
    (recipient m) (conversation m) (replyTo m) (reactions m) (readBy m)
    (edited m) (isDeleted m) (deletedAt m) v (links m) (createdAt m).

Module User.
Record t := mk { _id : ObjectId; name : string; joinedGroups : list ObjectId }.
End User.

Module Group.
Record t := mk { _id : ObjectId; name : string; owner : ObjectId;
                 admins : list ObjectId; members : list ObjectId;
                 totalMessages : Z }.

(** [groupSchema.methods.isMember] *)
Definition isMember (g : t) (userId : ObjectId) : bool :=
  Js.some (fun m => String.eqb (toString m) (toString userId)) (members g).

(** [groupSchema.methods.isAdmin] *)
Definition isAdmin (g : t) (userId : ObjectId) : bool :=
  String.eqb (toString (owner g)) (toString userId)
  || Js.some (fun a => String.eqb (toString a) (toString userId)) (admins g).
End Group.

(** The database: one list per collection, documents in insertion order. *)
Record Db := mkDb {
  messages : list Message;
  users : list User.t;
  groups : list Group.t
}.

Definition set_messages (v : list Message) (db : Db) : Db :=
  mkDb v (users db) (groups db).

(* ------------------------------------------------------------------ *)
(** ** Effects: database state and thrown errors *)

Inductive Outcome (A : Type) : Type :=
| Return (a : A)
| Throw (e : string).
Arguments Return {A} a.
Arguments Throw {A} e.

(** An [async] computation over the database that may throw. Writes done
    before a throw stay in the database. *)
Definition M (A : Type) : Type := Db -> Outcome A * Db.

Definition ret {A : Type} (a : A) : M A := fun db => (Return a, db).
Definition throw {A : Type} (e : string) : M A := fun db => (Throw e, db).
Definition bind {A B : Type} (c : M A) (k : A -> M B) : M B :=
  fun db => match c db with
            | (Return a, db') => k a db'
            | (Throw e, db') => (Throw e, db')
            end.
Definition get : M Db := fun db => (Return db, db).
Definition put (db' : Db) : M unit := fun _ => (Return tt, db').

Declare Scope m_scope.
Delimit Scope m_scope with M.
Notation "x <- c ;; k" := (bind c (fun x => k))
  (at level 61, c at next level, right associativity) : m_scope.
Notation "c ;;; k" := (bind c (fun _ => k))
  (at level 61, right associativity) : m_scope.

(** [try { body } catch (error) { handler }] *)
Definition try_catch {A : Type} (body : M A) (handler : string -> M A) : M A :=
  fun db => match body db with
            | (Return a, db') => (Return a, db')
            | (Throw e, db') => handler e db'
            end.

(* ------------------------------------------------------------------ *)
(** ** Saving a document *)

(** Schema validation: [sender] and [content] are required, [content] has
    at most 2000 characters and [type] is one of the enumerated values. *)
Definition type_enum : list string := ["text"; "image"; "file"; "system"].

Definition validate (m : Message) : bool :=
  negb (String.eqb (content m) "")
  && Nat.leb (String.length (content m)) 2000
  && existsb (String.eqb (type m)) type_enum.

(** [messageSchema.pre('save', ...)]; [contentModified] is
    [this.isModified('content')]. *)
Definition pre_save (contentModified : bool) (this : Message) : Message :=
  let this1 :=
    match group this, recipient this with
    | None, Some r => set_conversation (Some (conversationId (sender this) r)) this
    | _, _ => this
    end in
  if contentModified then set_mentions [] this1 else this1.

(** The write of an existing document: the stored document with the same
    [_id] is replaced, in place. *)
Fixpoint replace_doc (doc : Message) (l : list Message) : list Message :=
  match l with
  | [] => []
  | x :: l' => if String.eqb (_id x) (_id doc) then doc :: l'
               else x :: replace_doc doc l'
  end.

Definition has_id (id : ObjectId) (l : list Message) : bool :=
  existsb (fun m => String.eqb (_id m) id) l.

(** [await this.save()]: validation, the pre-save hook, then the write.
    A new document ([isNew]) is inserted at the end of the collection and
    a duplicate [_id] is refused; an existing one is replaced and must
    still be there. Returns the document as the hook left it. *)
Definition save (isNew contentModified : bool) (this : Message) : M Message :=
  if validate this then
    let this' := pre_save contentModified this in
    (db <- get ;;
     if isNew then
       if has_id (_id this') (messages db) then throw "E11000 duplicate key"
       else put (set_messages (messages db ++ [this']) db) ;;; ret this'
     else
       if has_id (_id this') (messages db)
       then put (set_messages (replace_doc this' (messages db)) db) ;;; ret this'
       else throw "DocumentNotFoundError")%M
  else throw "ValidationError".

(** [Message.findById(id)] *)
Definition findById (id : ObjectId) : M (option Message) :=
  (db <- get ;;
   ret (List.find (fun m => String.eqb (_id m) id) (messages db)))%M.

(* ------------------------------------------------------------------ *)
(** ** Instance methods of [messageSchema] *)

(** [messageSchema.methods.addReaction]; [now] is the value of
    [Date.now] taken by the [createdAt] default. *)
Definition addReaction (userId : ObjectId) (emoji : string) (now : Date)
    (this : Message) : M (Message * bool) :=
  let existingReaction :=
    Js.find (fun r => String.eqb (toString (Reaction.user r)) (toString userId)
                      && String.eqb (Reaction.emoji r) emoji) (reactions this) in
  match existingReaction with
  | None =>
      let this1 := set_reactions
        (Js.push (reactions this) (Reaction.mk userId emoji now)) this in
      (this2 <- save false false this1 ;; ret (this2, true))%M
  | Some _ => ret (this, false)
  end.

(** [messageSchema.methods.removeReaction] *)
Definition removeReaction (userId : ObjectId) (emoji : string)
    (this : Message) : M Message :=
  let this1 := set_reactions
    (Js.filter (fun r => negb (String.eqb (toString (Reaction.user r)) (toString userId)
                               && String.eqb (Reaction.emoji r) emoji))
       (reactions this)) this in
  save false false this1.

(** [messageSchema.methods.markAsRead] *)
Definition markAsRead (userId : ObjectId) (now : Date) (this : Message) : M Message :=
  let alreadyRead :=
    Js.some (fun r => String.eqb (toString (ReadReceipt.user r)) (toString userId))
      (readBy this) in
  if negb alreadyRead then
    let this1 := set_readBy
      (Js.push (readBy this) (ReadReceipt.mk userId now)) this in
    save false false this1
  else ret this.

(** [messageSchema.methods.editContent]; [now] is [new Date()]. *)
Definition editContent (newContent : string) (now : Date) (this : Message) : M Message :=
  let this1 :=
    if negb (isEdited (edited this))
    then set_edited (mkEdited (isEdited (edited this)) (editedAt (edited this))
                       (Some (content this))) this
    else this in
  let contentModified := negb (String.eqb (content this1) newContent) in
  let this2 := set_content newContent this1 in
  let this3 := set_edited (mkEdited true (editedAt (edited this2))
                             (originalContent (edited this2))) this2 in
  let this4 := set_edited (mkEdited (isEdited (edited this3)) (Some now)
                             (originalContent (edited this3))) this3 in
  save false contentModified this4.

(* ------------------------------------------------------------------ *)
(** ** The query layer (filters and cursors of the document store) *)

(** The filter documents the code writes. An object with several keys is
    the conjunction of its keys; [$or] is a disjunction. *)
Inductive Filter : Type :=
| FAnd (a b : Filter)
| FOr (a b : Filter)
| SenderEq (u : ObjectId)                (* { sender: u } *)
| SenderNe (u : ObjectId)                (* { sender: { $ne: u } } *)
| RecipientEq (u : ObjectId)             (* { recipient: u } *)
| GroupEq (g : ObjectId)                 (* { group: g } *)
| GroupIn (gs : list ObjectId)           (* { group: { $in: gs } } *)
| ConversationEq (k : string)            (* { conversation: k } *)
| ContentRegex (q : string)              (* { content: { $regex: q, $options: 'i' } } *)
| IsDeletedEq (b : bool)                 (* { isDeleted: b } *)
| ReadByUserNe (u : ObjectId).           (* { 'readBy.user': { $ne: u } } *)

(** A cursor under construction: [find(f).sort(..).limit(..).skip(..)].
    The options are recorded in the cursor; the order of the calls does
    not matter. *)
Record Query := mkQuery {
  q_filter : Filter;
  q_sortCreatedAtDesc : bool;
  q_limit : option Z;
  q_skip : option Z
}.

Definition find (f : Filter) : Query := mkQuery f false None None.
Definition sortCreatedAtDesc (q : Query) : Query :=
  mkQuery (q_filter q) true (q_limit q) (q_skip q).
Definition limit (n : Z) (q : Query) : Query :=
  mkQuery (q_filter q) (q_sortCreatedAtDesc q) (Some n) (q_skip q).
Definition skip (n : Z) (q : Query) : Query :=
  mkQuery (q_filter q) (q_sortCreatedAtDesc q) (q_limit q) (Some n).

Definition option_eqb (a : option ObjectId) (b : ObjectId) : bool :=
  match a with
  | Some x => String.eqb x b
  | None => false
  end.

Definition readBy_has (u : ObjectId) (m : Message) : bool :=
  existsb (fun r => String.eqb (ReadReceipt.user r) u) (readBy m).

Section Store.

(** [regex_test q s]: the store's case-insensitive regular-expression
    match of pattern [q] against [s]. *)
Variable regex_test : string -> string -> bool.

Fixpoint matches (f : Filter) (m : Message) : bool :=
  match f with
  | FAnd a b => matches a m && matches b m
  | FOr a b => matches a m || matches b m
  | SenderEq u => String.eqb (sender m) u
  | SenderNe u => negb (String.eqb (sender m) u)
  | RecipientEq u => option_eqb (recipient m) u
  | GroupEq g => option_eqb (group m) g
  | GroupIn gs => existsb (option_eqb (group m)) gs
  | ConversationEq k => match conversation m with
                        | Some c => String.eqb c k
                        | None => false
                        end
  | ContentRegex q => regex_test q (content m)
  | IsDeletedEq b => Bool.eqb (isDeleted m) b
  | ReadByUserNe u => negb (readBy_has u m)
  end.

(** [{ createdAt: -1 }]: newest first; documents with equal time keep
    their stored order. *)
Definition newer_first (a b : Message) : bool := Z.leb (createdAt b) (createdAt a).

(** Running a cursor: filter, sort, skip, then limit. A negative skip is
    refused by the store; limit [0] means no limit and a negative limit
    counts as its absolute value. *)
Definition exec (q : Query) : M (list Message) :=
  (db <- get ;;
   let found := List.filter (matches (q_filter q)) (messages db) in
   let sorted := if q_sortCreatedAtDesc q then Js.sort_by newer_first found
                 else found in
   match q_skip q with
   | Some k =>
       if Z.ltb k 0 then throw "MongoServerError"
       else
         let skipped := List.skipn (Z.to_nat k) sorted in
         ret (match q_limit q with
              | None => skipped
              | Some n => if Z.eqb n 0 then skipped
                          else List.firstn (Z.to_nat (Z.abs n)) skipped
              end)
   | None =>
       ret (match q_limit q with
            | None => sorted
            | Some n => if Z.eqb n 0 then sorted
                        else List.firstn (Z.to_nat (Z.abs n)) sorted
            end)
   end)%M.

(** [Message.countDocuments(f)] *)
Definition countDocuments (f : Filter) : M Z :=
  (db <- get ;;
   ret (Z.of_nat (List.length (List.filter (matches f) (messages db)))))%M.

(** [Message.updateMany(f, { $push: { readBy: { user: u } } })];
    [readAt] takes its default, the current time [now]. *)
Definition updateMany_push_readBy (f : Filter) (u : ObjectId) (now : Date) : M unit :=
  (db <- get ;;
   put (set_messages
          (List.map (fun m => if matches f m
                              then set_readBy (readBy m ++ [ReadReceipt.mk u now]) m
                              else m)
             (messages db)) db))%M.

(* ---------------------------------------------------------------- *)
(** ** Static methods of [messageSchema] *)

(** [messageSchema.statics.getConversation]. The [populate] calls only
    decorate the returned copies and are left out. *)
Definition getConversation (userId1 userId2 : ObjectId) (page lim : Z)
    : M (list Message) :=
  let ids := Js.sort [toString userId1; toString userId2] in
  let conversationId := Js.join "_" ids in
  exec (skip ((page - 1) * lim)
          (limit (lim * page)
             (sortCreatedAtDesc
                (find (FAnd (ConversationEq conversationId) (IsDeletedEq false)))))).

(** [messageSchema.statics.getGroupMessages] *)
Definition getGroupMessages (groupId : ObjectId) (page lim : Z)
    : M (list Message) :=
  exec (skip ((page - 1) * lim)
          (limit (lim * page)
             (sortCreatedAtDesc
                (find (FAnd (GroupEq groupId) (IsDeletedEq false)))))).

End Store.

(** The [$cond] under [unreadCount] in
    [messageSchema.statics.getUserConversations]: a message counts as
    unread for [userId] when
    [$and: [{ $ne: ['$sender', userId] },
            { $not: { $in: [userId, '$readBy.user'] } }]]. *)
Definition summary_counts_unread (userId : ObjectId) (m : Message) : bool :=
  negb (String.eqb (sender m) userId) && negb (readBy_has userId m).

(* ------------------------------------------------------------------ *)
(** ** Construction of a message *)

(** [new Message({ sender, recipient, group, content, type, replyTo })]:
    the fields given, the schema defaults for the others. [fresh] is the
    generated [_id]; [now] becomes [createdAt] when the document is saved,
    which every caller does at once. *)
Definition newMessage (fresh : ObjectId) (now : Date) (sender0 : ObjectId)
    (recipient0 group0 : option ObjectId) (content0 type0 : string)
    (replyTo0 : option ObjectId) : Message :=
  mkMessage fresh sender0 content0 type0 [] group0 recipient0 None replyTo0
    [] [] (mkEdited false None None) false None [] [] now.

(* ------------------------------------------------------------------ *)
(** ** Request validation helpers *)

(** [parseInt(x) || d]: [None] stands for an absent or non-numeric
    parameter. *)
Definition parseInt_or (x : option Z) (d : Z) : Z :=
  match x with
  | Some n => if Z.eqb n 0 then d else n
  | None => d
  end.

(** Destructuring default [{ x = d }]: used only when the parameter is
    absent. *)
Definition default_to {A : Type} (x : option A) (d : A) : A :=
  match x with
  | Some v => v
  | None => d
  end.

Definition is_hex (c : ascii) : bool :=
  let n := nat_of_ascii c in
  (Nat.leb 48 n && Nat.leb n 57) || (Nat.leb 65 n && Nat.leb n 70)
  || (Nat.leb 97 n && Nat.leb n 102).

Fixpoint all_chars (p : ascii -> bool) (s : string) : bool :=
  match s with
  | EmptyString => true
  | String c s' => p c && all_chars p s'
  end.

(** [isMongoId()]: 24 hexadecimal digits. *)
Definition isMongoId (s : string) : bool :=
  Nat.eqb (String.length s) 24 && all_chars is_hex s.

(** [isLength({ min, max })] *)
Definition isLength (lo hi : nat) (s : string) : bool :=
  Nat.leb lo (String.length s) && Nat.leb (String.length s) hi.

(** [optional().isIn(values)] *)
Definition optional_isIn (values : list string) (x : option string) : bool :=
  match x with
  | Some v => existsb (String.eqb v) values
  | None => true
  end.

Definition optional_isMongoId (x : option string) : bool :=
  match x with
  | Some v => isMongoId v
  | None => true
  end.

(* ------------------------------------------------------------------ *)
(** ** Responses and emitted events *)

Inductive Body : Type :=
| BMessage (message : string)
| BPage (msgs : list Message) (page : Z) (hasMore : bool)
| BData (message : string) (data : Message)
| BReactions (message : string) (reactions0 : list Reaction.t)
| BSearch (msgs : list Message) (totalCount : Z) (page : Z)
| BUnread (unreadCount : Z).

Record Response := mkResponse { status : nat; body : Body }.

(** An event sent by a socket handler: to the socket itself ([room = None])
    or to a room. *)
Record Emit := mkEmit {
  room : option string;
  event : string;
  payload : option Message;
  info : string
}.

Record Socket := mkSocket { userId : option ObjectId }.

Definition User_findById (id : ObjectId) : M (option User.t) :=
  (db <- get ;;
   ret (List.find (fun u => String.eqb (User._id u) id) (users db)))%M.

Definition Group_findById (id : ObjectId) : M (option Group.t) :=
  (db <- get ;;
   ret (List.find (fun g => String.eqb (Group._id g) id) (groups db)))%M.

(** [Group.findByIdAndUpdate(groupId, { $inc: { 'stats.totalMessages': 1 } })] *)
Definition Group_incTotalMessages (id : ObjectId) : M unit :=
  (db <- get ;;
   put (mkDb (messages db) (users db)
          (List.map (fun g => if String.eqb (Group._id g) id
                              then Group.mk (Group._id g) (Group.name g) (Group.owner g)
                                     (Group.admins g) (Group.members g)
                                     (Group.totalMessages g + 1)
                              else g) (groups db))))%M.

(** Modelled from the spec: the [requireGroupMember] middleware of
    [middleware/auth.js], which is not among the sources. The spec gives a
    group-membership gate ([isMember(groupId, userId)]) answering with
    not-found or access-denied; it yields the group on success. *)
Definition requireGroupMember (user : User.t) (groupId : ObjectId)
    : M (Response + Group.t) :=
  (g <- Group_findById groupId ;;
   match g with
   | None => ret (inl (mkResponse 404 (BMessage "Group not found")))
   | Some grp =>
       if Group.isMember grp (User._id user) then ret (inr grp)
       else ret (inl (mkResponse 403 (BMessage "Access denied")))
   end)%M.

Definition server_error : string -> M Response :=
  fun _ => ret (mkResponse 500 (BMessage "Server error")).

(* ------------------------------------------------------------------ *)
(** ** REST facade ([routes/messages.js])

    [user] is [req.user], set by [authenticateToken]. The real-time
    [io.to(room).emit] calls of the routes do not touch the database and
    are left out. *)

Section Rest.

Variable regex_test : string -> string -> bool.

(** [router.get('/conversations/:userId')] *)
Definition get_conversation_messages (user : User.t) (userId : ObjectId)
    (query_page query_limit : option Z) (now : Date) : M Response :=
  try_catch
    (let page := parseInt_or query_page 1 in
     let lim := parseInt_or query_limit 50 in
     otherUser <- User_findById userId ;;
     match otherUser with
     | None => ret (mkResponse 404 (BMessage "User not found"))
     | Some _ =>
         msgs <- getConversation regex_test (User._id user) userId page lim ;;
         updateMany_push_readBy regex_test
           (FAnd (SenderEq userId)
              (FAnd (RecipientEq (User._id user)) (ReadByUserNe (User._id user))))
           (User._id user) now ;;;
         ret (mkResponse 200
                (BPage (List.rev msgs) page
                   (Z.eqb (Z.of_nat (List.length msgs)) lim)))
     end)%M
    server_error.

(** [router.post('/direct')] *)
Definition post_direct (user : User.t) (body_recipient body_content : string)
    (body_type : option string) (fresh : ObjectId) (now : Date) : M Response :=
  try_catch
    (let content1 := Js.trim body_content in
     if negb (isMongoId body_recipient && isLength 1 2000 content1
              && optional_isIn ["text"; "image"; "file"] body_type)
     then ret (mkResponse 400 (BMessage "Validation failed"))
     else
       let type1 := default_to body_type "text" in
       recipientUser <- User_findById body_recipient ;;
       match recipientUser with
       | None => ret (mkResponse 404 (BMessage "Recipient not found"))
       | Some _ =>
           let message := newMessage fresh now (User._id user)
                            (Some body_recipient) None content1 type1 None in
           message' <- save true true message ;;
           ret (mkResponse 201 (BData "Message sent successfully" message'))
       end)%M
    server_error.

(** [router.get('/groups/:groupId')] *)
Definition get_group_messages (user : User.t) (groupId : ObjectId)
    (query_page query_limit : option Z) (now : Date) : M Response :=
  (gate <- requireGroupMember user groupId ;;
   match gate with
   | inl denied => ret denied
   | inr _ =>
       try_catch
         (let page := parseInt_or query_page 1 in
          let lim := parseInt_or query_limit 50 in
          msgs <- getGroupMessages regex_test groupId page lim ;;
          updateMany_push_readBy regex_test
            (FAnd (GroupEq groupId)
               (FAnd (SenderNe (User._id user)) (ReadByUserNe (User._id user))))
            (User._id user) now ;;;
          ret (mkResponse 200
                 (BPage (List.rev msgs) page
                    (Z.eqb (Z.of_nat (List.length msgs)) lim))))
         server_error
   end)%M.

(** [router.post('/groups/:groupId')] *)
Definition post_group_message (user : User.t) (groupId : ObjectId)
    (body_content : string) (body_type body_replyTo : option string)
    (fresh : ObjectId) (now : Date) : M Response :=
  (gate <- requireGroupMember user groupId ;;
   match gate with
   | inl denied => ret denied
   | inr _ =>
       try_catch
         (let content1 := Js.trim body_content in
          if negb (isLength 1 2000 content1
                   && optional_isIn ["text"; "image"; "file"] body_type
                   && optional_isMongoId body_replyTo)
          then ret (mkResponse 400 (BMessage "Validation failed"))
          else
            let type1 := default_to body_type "text" in
            let message := newMessage fresh now (User._id user)
                             None (Some groupId) content1 type1 body_replyTo in
            message' <- save true true message ;;
            Group_incTotalMessages groupId ;;;
            ret (mkResponse 201 (BData "Message sent successfully" message')))
         server_error
   end)%M.

(** [router.post('/:messageId/reaction')] *)
Definition post_reaction (user : User.t) (messageId : ObjectId)
    (body_emoji : string) (now : Date) : M Response :=
  try_catch
    (let emoji1 := Js.trim body_emoji in
     if negb (isLength 1 10 emoji1)
     then ret (mkResponse 400 (BMessage "Validation failed"))
     else
       found <- findById messageId ;;
       match found with
       | None => ret (mkResponse 404 (BMessage "Message not found"))
       | Some message =>
           if isDeleted message
           then ret (mkResponse 404 (BMessage "Message not found"))
           else
             db <- get ;;
             let hasAccess :=
               String.eqb (toString (sender message)) (toString (User._id user))
               || option_eqb (recipient message) (User._id user)
               || match group message with
                  | Some g =>
                      existsb (fun grp => String.eqb (Group._id grp) g
                                          && existsb (String.eqb (User._id user))
                                               (Group.members grp))
                        (groups db)
                  | None => false
                  end in
             if negb hasAccess
             then ret (mkResponse 403 (BMessage "Access denied"))
             else
               r <- addReaction (User._id user) emoji1 now message ;;
               let (message1, added) := r in
               message2 <- (if negb added
                            then removeReaction (User._id user) emoji1 message1
                            else ret message1) ;;
               ret (mkResponse 200
                      (BReactions (if added then "Reaction added" else "Reaction removed")
                         (reactions message2)))
       end)%M
    server_error.

(** [router.put('/:messageId')]; [now] is the time of the request, read
    by [Date.now()] and by [new Date()] in [editContent]. *)
Definition put_message (user : User.t) (messageId : ObjectId)
    (body_content : string) (now : Date) : M Response :=
  try_catch
    (let content1 := Js.trim body_content in
     if negb (isLength 1 2000 content1)
     then ret (mkResponse 400 (BMessage "Validation failed"))
     else
       found <- findById messageId ;;
       match found with
       | None => ret (mkResponse 404 (BMessage "Message not found"))
       | Some message =>
           if isDeleted message
           then ret (mkResponse 404 (BMessage "Message not found"))
           else if negb (String.eqb (toString (sender message))
                           (toString (User._id user)))
           then ret (mkResponse 403 (BMessage "You can only edit your own messages"))
           else
             let fiveMinutesAgo := (now - 5 * 60 * 1000)%Z in
             if Z.ltb (createdAt message) fiveMinutesAgo
             then ret (mkResponse 400
                         (BMessage "Message can only be edited within 5 minutes"))
             else
               message' <- editContent content1 now message ;;
               ret (mkResponse 200 (BData "Message edited successfully" message'))
       end)%M
    server_error.

(** The [canDelete] computation of [router.delete('/:messageId')]: the
    sender, or an admin of the message's group. *)
Definition can_delete (user : User.t) (message : Message) : M bool :=
  (let canDelete := String.eqb (toString (sender message))
                      (toString (User._id user)) in
   match group message with
   | Some g =>
       if negb canDelete then
         grp <- Group_findById g ;;
         ret (match grp with
              | Some gr => Group.isAdmin gr (User._id user)
              | None => false
              end)
       else ret canDelete
   | None => ret canDelete
   end)%M.

(** [router.delete('/:messageId')] *)
Definition delete_message (user : User.t) (messageId : ObjectId) (now : Date)
    : M Response :=
  try_catch
    (found <- findById messageId ;;
     match found with
     | None => ret (mkResponse 404 (BMessage "Message not found"))
     | Some message =>
         if isDeleted message
         then ret (mkResponse 404 (BMessage "Message not found"))
         else
           canDelete <- can_delete user message ;;
           if negb canDelete
           then ret (mkResponse 403 (BMessage "Access denied"))
           else
             let message1 := set_isDeleted true message in
             let message2 := set_deletedAt (Some now) message1 in
             save false false message2 ;;;
             ret (mkResponse 200 (BMessage "Message deleted successfully"))
     end)%M
    server_error.

(** The query guard of both search routes: [!q || q.trim().length < 2]. *)
Definition bad_query (q : option string) : bool :=
  match q with
  | None => true
  | Some s => String.eqb s "" || Nat.ltb (String.length (Js.trim s)) 2
  end.

(** [router.get('/search/conversation/:userId')]. [totalPages] is a
    floating-point quotient and is not part of the modelled body. *)
Definition search_conversation (user : User.t) (userId : ObjectId)
    (q : option string) (query_page query_limit : option Z) : M Response :=
  try_catch
    (let page := default_to query_page 1%Z in
     let lim := default_to query_limit 20%Z in
     if bad_query q
     then ret (mkResponse 400
                 (BMessage "Search query must be at least 2 characters"))
     else
       let q1 := default_to q "" in
       let ids := Js.sort [toString (User._id user); toString userId] in
       let conversationId := Js.join "_" ids in
       let f := FAnd (ConversationEq conversationId)
                  (FAnd (ContentRegex q1) (IsDeletedEq false)) in
       msgs <- exec regex_test
                 (skip ((page - 1) * lim)
                    (limit (lim * 1) (sortCreatedAtDesc (find f)))) ;;
       totalCount <- countDocuments regex_test f ;;
       ret (mkResponse 200 (BSearch msgs totalCount page)))%M
    server_error.


(** The filter of [router.get('/unread/count')]. *)
Definition unread_filter (user : User.t) : Filter :=
  FAnd (FOr (RecipientEq (User._id user))
            (FAnd (GroupIn (User.joinedGroups user)) (SenderNe (User._id user))))
       (FAnd (ReadByUserNe (User._id user)) (IsDeletedEq false)).

(** [router.get('/unread/count')] *)
Definition unread_count (user : User.t) : M Response :=
  try_catch
    (unreadCount <- countDocuments regex_test (unread_filter user) ;;
     ret (mkResponse 200 (BUnread unreadCount)))%M
    server_error.

End Rest.

(* ------------------------------------------------------------------ *)
(** ** Real-time gateway ([socket/socketHandlers.js]) *)

Definition emit_self (ev msg : string) (m : option Message) : Emit :=
  mkEmit None ev m msg.
Definition emit_room (r ev : string) (m : option Message) : Emit :=
  mkEmit (Some r) ev m "".

(** [socket.on('send_message')] *)
Definition send_message (socket : Socket) (recipientId : ObjectId)
    (content0 : string) (type0 : option string) (fresh : ObjectId) (now : Date)
    : M (list Emit) :=
  try_catch
    (match userId socket with
     | None => ret [emit_self "error" "Not authenticated" None]
     | Some me =>
         let type1 := default_to type0 "text" in
         recipientUser <- User_findById recipientId ;;
         match recipientUser with
         | None => ret [emit_self "error" "Recipient not found" None]
         | Some _ =>
             let message := newMessage fresh now me (Some recipientId) None
                              content0 type1 None in
             message' <- save true true message ;;
             ret [emit_room ("user_" ++ recipientId) "new_message" (Some message');
                  emit_self "message_sent" "" (Some message')]
         end
     end)%M
    (fun _ => ret [emit_self "error" "Failed to send message" None]).

(** [socket.on('send_group_message')] *)
Definition send_group_message (socket : Socket) (groupId : ObjectId)
    (content0 : string) (type0 : option string) (replyTo0 : option ObjectId)
    (fresh : ObjectId) (now : Date) : M (list Emit) :=
  try_catch
    (match userId socket with
     | None => ret [emit_self "error" "Not authenticated" None]
     | Some me =>
         let type1 := default_to type0 "text" in
         grp <- Group_findById groupId ;;
         match grp with
         | None => ret [emit_self "error" "Access denied to group" None]
         | Some g =>
             if negb (Group.isMember g me)
             then ret [emit_self "error" "Access denied to group" None]
             else
               let message := newMessage fresh now me None (Some groupId)
                                content0 type1 replyTo0 in
               message' <- save true true message ;;
               ret [emit_room ("group_" ++ groupId) "new_group_message" (Some message');
                    emit_self "group_message_sent" "" (Some message')]
         end
     end)%M
    (fun _ => ret [emit_self "error" "Failed to send group message" None]).

(** [socket.on('mark_as_read')] *)
Definition mark_as_read (socket : Socket) (messageId : ObjectId)
    (groupId : option ObjectId) (now : Date) : M (list Emit) :=
  try_catch
    (match userId socket with
     | None => ret []
     | Some me =>
         found <- findById messageId ;;
         match found with
         | None => ret []
         | Some message =>
             message' <- markAsRead me now message ;;
             match groupId with
             | Some g => ret [emit_room ("group_" ++ g) "message_read" (Some message')]
             | None => ret [emit_room ("user_" ++ sender message') "message_read"
                              (Some message')]
             end
         end
     end)%M
    (fun _ => ret []).



From Stdlib Require Import Sorting.Sorted.

(* ================================================================== *)
(** * The rest of the models and handlers *)

(** ** Effects over any state

    The computations below run over states other than [Db]; they use the
    same outcome type. *)

Definition St (S A : Type) : Type := S -> Outcome A * S.

Definition sret {S A : Type} (a : A) : St S A := fun s => (Return a, s).
Definition sthrow {S A : Type} (e : string) : St S A := fun s => (Throw e, s).
Definition sbind {S A B : Type} (c : St S A) (k : A -> St S B) : St S B :=
  fun s => match c s with
           | (Return a, s') => k a s'
           | (Throw e, s') => (Throw e, s')
           end.
Definition sget {S : Type} : St S S := fun s => (Return s, s).
Definition sput {S : Type} (s' : S) : St S unit := fun _ => (Return tt, s').
Definition stry {S A : Type} (body : St S A) (handler : string -> St S A) : St S A :=
  fun s => match body s with
           | (Return a, s') => (Return a, s')
           | (Throw e, s') => handler e s'
           end.

Declare Scope st_scope.
Delimit Scope st_scope with St.
Notation "x <- c ;; k" := (sbind c (fun x => k))
  (at level 61, c at next level, right associativity) : st_scope.
Notation "c ;;; k" := (sbind c (fun _ => k))
  (at level 61, right associativity) : st_scope.

(* ------------------------------------------------------------------ *)
(** ** The Group model ([groupSchema]) with its member records

    [GroupDoc.t] is the group document with the fields its methods and
    its validation read; [Group.t] above is its view with the members
    reduced to their user ids. Avatar, tags, rules, settings and the
    other counters are not touched by the code below and are left out. *)

Module Member.
Record t := mk { user : ObjectId; joinedAt : Date; role : string }.
End Member.

Module GroupDoc.

Record t := mk {
  _id : ObjectId;
  name : string;
  description : string;
  owner : ObjectId;
  admins : list ObjectId;
  members : list Member.t;
  category : string;
  isPrivate : bool;
  maxMembers : Z;
  totalMessages : Z;
  isDeleted : bool
}.

Definition set_members (v : list Member.t) (g : t) : t :=
  mk (_id g) (name g) (description g) (owner g) (admins g) v (category g)
     (isPrivate g) (maxMembers g) (totalMessages g) (isDeleted g).

Definition set_admins (v : list ObjectId) (g : t) : t :=
  mk (_id g) (name g) (description g) (owner g) v (members g) (category g)
     (isPrivate g) (maxMembers g) (totalMessages g) (isDeleted g).

(** The view used by the message routes. *)
Definition view (g : t) : Group.t :=
  Group.mk (_id g) (name g) (owner g) (admins g)
    (List.map Member.user (members g)) (totalMessages g).

(** [groupSchema.methods.isMember] and [isAdmin]. *)
Definition isMember (g : t) (userId : ObjectId) : bool :=
  Js.some (fun m => String.eqb (toString (Member.user m)) (toString userId))
    (members g).

Definition isAdmin (g : t) (userId : ObjectId) : bool :=
  String.eqb (toString (owner g)) (toString userId)
  || Js.some (fun a => String.eqb (toString a) (toString userId)) (admins g).

(** [groupSchema.virtual('memberCount')] *)
Definition memberCount (g : t) : Z := Z.of_nat (List.length (members g)).

Definition category_enum : list string :=
  ["general"; "technology"; "business"; "creative"; "social"; "gaming"].
Definition role_enum : list string := ["member"; "moderator"].

(** Schema validation: name and description required and bounded, the
    category and every member's role in their enumerations. *)
Definition validate (g : t) : bool :=
  negb (String.eqb (name g) "")
  && Nat.leb (String.length (name g)) 50
  && negb (String.eqb (description g) "")
  && Nat.leb (String.length (description g)) 500
  && existsb (String.eqb (category g)) category_enum
  && forallb (fun m => existsb (String.eqb (Member.role m)) role_enum) (members g).

End GroupDoc.

(** The groups and users collections. *)
Record GDb := mkGDb {
  gdocs : list GroupDoc.t;
  gusers : list User.t
}.

(** Replaces the first element satisfying [p] by its image under [f]:
    the write of [findByIdAndUpdate] and of [save]. *)
Fixpoint update_first {A : Type} (p : A -> bool) (f : A -> A) (l : list A) : list A :=
  match l with
  | [] => []
  | x :: l' => if p x then f x :: l' else x :: update_first p f l'
  end.

(** [await this.save()] on a group document loaded from the collection. *)
Definition group_save (this : GroupDoc.t) : St GDb GroupDoc.t :=
  if GroupDoc.validate this then
    (s <- sget ;;
     if existsb (fun g => String.eqb (GroupDoc._id g) (GroupDoc._id this)) (gdocs s)
     then sput (mkGDb (update_first
                         (fun g => String.eqb (GroupDoc._id g) (GroupDoc._id this))
                         (fun _ => this) (gdocs s))
                  (gusers s)) ;;; sret this
     else sthrow "DocumentNotFoundError")%St
  else sthrow "ValidationError".

(** [Group.findById(id)] *)
Definition GroupDoc_findById (id : ObjectId) : St GDb (option GroupDoc.t) :=
  (s <- sget ;;
   sret (List.find (fun g => String.eqb (GroupDoc._id g) id) (gdocs s)))%St.

(** [$addToSet: { joinedGroups: g }] and [$pull: { joinedGroups: g }] on
    one user document. *)
Definition addToSet_joinedGroups (g : ObjectId) (u : User.t) : User.t :=
  User.mk (User._id u) (User.name u)
    (if existsb (String.eqb g) (User.joinedGroups u) then User.joinedGroups u
     else User.joinedGroups u ++ [g]).

Definition pull_joinedGroups (g : ObjectId) (u : User.t) : User.t :=
  User.mk (User._id u) (User.name u)
    (List.filter (fun x => negb (String.eqb x g)) (User.joinedGroups u)).

(** [this.model('User').findByIdAndUpdate(userId, update)] *)
Definition User_findByIdAndUpdate (userId : ObjectId) (f : User.t -> User.t)
    : St GDb unit :=
  (s <- sget ;;
   sput (mkGDb (gdocs s)
           (update_first (fun u => String.eqb (User._id u) userId) f (gusers s))))%St.

(** [groupSchema.methods.addMember]; [now] is the [joinedAt] default. *)
Definition addMember (userId : ObjectId) (role : string) (now : Date)
    (this : GroupDoc.t) : St GDb (GroupDoc.t * bool) :=
  let existingMember :=
    Js.find (fun m => String.eqb (toString (Member.user m)) (toString userId))
      (GroupDoc.members this) in
  match existingMember with
  | None =>
      if Z.ltb (Z.of_nat (List.length (GroupDoc.members this)))
           (GroupDoc.maxMembers this)
      then
        let this1 := GroupDoc.set_members
                       (Js.push (GroupDoc.members this) (Member.mk userId now role))
                       this in
        (this2 <- group_save this1 ;;
         User_findByIdAndUpdate userId (addToSet_joinedGroups (GroupDoc._id this2)) ;;;
         sret (this2, true))%St
      else sret (this, false)
  | Some _ => sret (this, false)
  end.

(** [groupSchema.methods.removeMember] *)
Definition removeMember (userId : ObjectId) (this : GroupDoc.t)
    : St GDb GroupDoc.t :=
  let this1 := GroupDoc.set_members
                 (Js.filter (fun m => negb (String.eqb (toString (Member.user m))
                                              (toString userId)))
                    (GroupDoc.members this)) this in
  (this2 <- group_save this1 ;;
   User_findByIdAndUpdate userId (pull_joinedGroups (GroupDoc._id this2)) ;;;
   sret this2)%St.

(** [arr.includes(x)] and [arr.indexOf(x)] on an array of ids, which
    compare the ids by value. *)
Definition includes (l : list ObjectId) (x : ObjectId) : bool :=
  existsb (String.eqb x) l.

Fixpoint indexOf (l : list ObjectId) (x : ObjectId) : Z :=
  match l with
  | [] => -1
  | y :: l' => if String.eqb y x then 0
               else let i := indexOf l' x in
                    if Z.ltb i 0 then -1 else i + 1
  end.

(** [arr.splice(index, 1)] for [index >= 0]. *)
Fixpoint splice1 {A : Type} (index : nat) (l : list A) : list A :=
  match l, index with
  | [], _ => []
  | _ :: l', O => l'
  | x :: l', S i => x :: splice1 i l'
  end.

(** [groupSchema.methods.promoteToAdmin] *)
Definition promoteToAdmin (userId : ObjectId) (this : GroupDoc.t)
    : St GDb (GroupDoc.t * bool) :=
  if GroupDoc.isMember this userId && negb (includes (GroupDoc.admins this) userId)
  then
    let this1 := GroupDoc.set_admins (Js.push (GroupDoc.admins this) userId) this in
    (this2 <- group_save this1 ;; sret (this2, true))%St
  else sret (this, false).

(** [groupSchema.methods.demoteFromAdmin] *)
Definition demoteFromAdmin (userId : ObjectId) (this : GroupDoc.t)
    : St GDb (GroupDoc.t * bool) :=
  let index := indexOf (GroupDoc.admins this) userId in
  if Z.ltb (-1) index
  then
    let this1 := GroupDoc.set_admins
                   (splice1 (Z.to_nat index) (GroupDoc.admins this)) this in
    (this2 <- group_save this1 ;; sret (this2, true))%St
  else sret (this, false).

(* ------------------------------------------------------------------ *)
(** ** Joining and leaving a group ([routes/groups.js]) *)

Definition gerror : string -> St GDb Response :=
  fun _ => sret (mkResponse 500 (BMessage "Server error")).

(** [router.post('/:id/join')] *)
Definition post_join (user : User.t) (id : ObjectId) (now : Date) : St GDb Response :=
  stry
    (found <- GroupDoc_findById id ;;
     match found with
     | None => sret (mkResponse 404 (BMessage "Group not found"))
     | Some grp =>
         if GroupDoc.isDeleted grp
         then sret (mkResponse 404 (BMessage "Group not found"))
         else
           r <- addMember (User._id user) "member" now grp ;;
           let (_, success) := r in
           if negb success
           then sret (mkResponse 400 (BMessage "Already a member or group is full"))
           else sret (mkResponse 200 (BMessage "Successfully joined the group"))
     end)%St
    gerror.

(** [router.post('/:id/leave')] *)
Definition post_leave (user : User.t) (id : ObjectId) : St GDb Response :=
  stry
    (found <- GroupDoc_findById id ;;
     match found with
     | None => sret (mkResponse 404 (BMessage "Group not found"))
     | Some grp =>
         if GroupDoc.isDeleted grp
         then sret (mkResponse 404 (BMessage "Group not found"))
         else if String.eqb (toString (GroupDoc.owner grp)) (toString (User._id user))
         then sret (mkResponse 400 (BMessage "Group owner cannot leave the group"))
         else
           removeMember (User._id user) grp ;;;
           sret (mkResponse 200 (BMessage "Successfully left the group"))
     end)%St
    gerror.

(* ------------------------------------------------------------------ *)
(** ** String operations of the Post model

    [toLowerCase] is given on the code units below 128; the hook applies
    it to matches of the hashtag pattern, which hold no others. *)

Module Str.

(** The class [[a-zA-Z0-9_]]. *)
Definition is_word (c : ascii) : bool :=
  let n := nat_of_ascii c in
  (Nat.leb 97 n && Nat.leb n 122) || (Nat.leb 65 n && Nat.leb n 90)
  || (Nat.leb 48 n && Nat.leb n 57) || Nat.eqb n 95.

Definition hash : ascii := "#"%char.

Definition lower (c : ascii) : ascii :=
  let n := nat_of_ascii c in
  if Nat.leb 65 n && Nat.leb n 90 then ascii_of_nat (n + 32) else c.

(** [s.toLowerCase()] *)
Fixpoint toLowerCase (s : string) : string :=
  match s with
  | EmptyString => EmptyString
  | String c s' => String (lower c) (toLowerCase s')
  end.

(** [s.replace(c, '')] with a one-character string pattern: the first
    occurrence is removed. *)
Fixpoint replace_first (c : ascii) (s : string) : string :=
  match s with
  | EmptyString => EmptyString
  | String d s' => if Ascii.eqb d c then s' else String d (replace_first c s')
  end.

(** The match being read, if any, once it cannot be extended: a [#] with
    nothing of the class after it is no match. *)
Definition flush (cur : option string) : list string :=
  match cur with
  | Some (String c w) => [String hash (String c w)]
  | _ => []
  end.

Definition start (c : ascii) : option string :=
  if Ascii.eqb c hash then Some EmptyString else None.

(** [s.match(/#[a-zA-Z0-9_]+/g) || []]: the scan from left to right,
    where [cur] holds the class characters read since the [#] of the
    match in progress. A match takes the longest run; the scan resumes
    right after it. *)
Fixpoint scan (cur : option string) (s : string) : list string :=
  match s with
  | EmptyString => flush cur
  | String c s' =>
      match cur with
      | Some w =>
          if is_word c then scan (Some (String.append w (String c EmptyString))) s'
          else flush cur ++ scan (start c) s'
      | None => scan (start c) s'
      end
  end.

Definition match_hashtags (s : string) : list string := scan None s.

(** [[...new Set(l)]]: the distinct elements in order of first
    appearance. *)
Definition Set_of (l : list string) : list string :=
  List.fold_left
    (fun acc x => if existsb (String.eqb x) acc then acc else acc ++ [x]) l [].

(** [/^https?:\/\/.+/.test(v)]: the dot takes any code unit but a line
    terminator (LF and CR among the one-byte ones). *)
Definition is_line_terminator (c : ascii) : bool :=
  let n := nat_of_ascii c in Nat.eqb n 10 || Nat.eqb n 13.

Definition then_some (s : string) : bool :=
  match s with
  | EmptyString => false
  | String c _ => negb (is_line_terminator c)
  end.

Definition is_http_url (v : string) : bool :=
  (String.prefix "http://" v && then_some (String.substring 7 (String.length v - 7) v))
  || (String.prefix "https://" v
      && then_some (String.substring 8 (String.length v - 8) v)).

End Str.

(* ------------------------------------------------------------------ *)
(** ** The Post model ([postSchema]) and the part of the User model the
       post routes use

    Of a post: the fields the code below reads or writes (images, the
    pin flag and the view counter are left out); of a comment: author and
    content; of a user: name, role and the notifications; of a
    notification: the fields the routes give. *)

Module Comment.
Record t := mk { author : ObjectId; content : string }.
End Comment.

Module PostDoc.

Record t := mk {
  _id : ObjectId;
  author : ObjectId;
  title : string;
  description : string;
  link : option string;
  hashtags : list string;
  likes : list ObjectId;
  comments : list Comment.t;
  group : option ObjectId;
  isDeleted : bool
}.

Definition set_title (v : string) (p : t) : t :=
  mk (_id p) (author p) v (description p) (link p) (hashtags p) (likes p)
     (comments p) (group p) (isDeleted p).
Definition set_description (v : string) (p : t) : t :=
  mk (_id p) (author p) (title p) v (link p) (hashtags p) (likes p)
     (comments p) (group p) (isDeleted p).
Definition set_link (v : option string) (p : t) : t :=
  mk (_id p) (author p) (title p) (description p) v (hashtags p) (likes p)
     (comments p) (group p) (isDeleted p).
Definition set_hashtags (v : list string) (p : t) : t :=
  mk (_id p) (author p) (title p) (description p) (link p) v (likes p)
     (comments p) (group p) (isDeleted p).
Definition set_likes (v : list ObjectId) (p : t) : t :=
  mk (_id p) (author p) (title p) (description p) (link p) (hashtags p) v
     (comments p) (group p) (isDeleted p).
Definition set_comments (v : list Comment.t) (p : t) : t :=
  mk (_id p) (author p) (title p) (description p) (link p) (hashtags p) (likes p)
     v (group p) (isDeleted p).
Definition set_isDeleted (v : bool) (p : t) : t :=
  mk (_id p) (author p) (title p) (description p) (link p) (hashtags p) (likes p)
     (comments p) (group p) v.

(** The [link] validator: [!v || /^https?:\/\/.+/.test(v)]; it is not
    run on an absent link. *)
Definition link_valid (l : option string) : bool :=
  match l with
  | None => true
  | Some v => String.eqb v "" || Str.is_http_url v
  end.

Definition required_max (n : nat) (s : string) : bool :=
  negb (String.eqb s "") && Nat.leb (String.length s) n.

(** Schema validation. *)
Definition validate (p : t) : bool :=
  required_max 100 (title p)
  && required_max 2000 (description p)
  && link_valid (link p)
  && forallb (fun c => required_max 500 (Comment.content c)) (comments p).

(** [postSchema.virtual('likeCount')] and [('commentCount')]. *)
Definition likeCount (p : t) : nat := List.length (likes p).
Definition commentCount (p : t) : nat := List.length (comments p).

(** [postSchema.pre('save')]; the schema lower-cases every hashtag set. *)
Definition pre_save (descriptionModified : bool) (this : t) : t :=
  if descriptionModified then
    let hashtags := Str.match_hashtags (description this) in
    set_hashtags
      (List.map Str.toLowerCase
         (Str.Set_of
            (List.map (fun tag => Str.replace_first Str.hash (Str.toLowerCase tag))
               hashtags)))
      this
  else this.

End PostDoc.

Module Notification.
Record t := mk {
  type : string;
  from : ObjectId;
  post : option ObjectId;
  message : string
}.
Definition type_enum : list string :=
  ["like"; "comment"; "follow"; "message"; "group_invite"].
End Notification.

Module UserDoc.

Record t := mk {
  _id : ObjectId;
  name : string;
  role : string;
  notifications : list Notification.t
}.

Definition set_notifications (v : list Notification.t) (u : t) : t :=
  mk (_id u) (name u) (role u) v.

Definition role_enum : list string := ["user"; "admin"].

Definition validate (u : t) : bool :=
  negb (String.eqb (name u) "")
  && Nat.leb (String.length (name u)) 50
  && existsb (String.eqb (role u)) role_enum
  && forallb (fun n => existsb (String.eqb (Notification.type n))
                         Notification.type_enum)
       (notifications u).

End UserDoc.

(** The posts and users collections. *)
Record PDb := mkPDb {
  posts : list PostDoc.t;
  accounts : list UserDoc.t
}.

(** [await this.save()] on a post: validation, the hook, then the write,
    as for a message. *)
Definition post_save (isNew descriptionModified : bool) (this : PostDoc.t)
    : St PDb PostDoc.t :=
  if PostDoc.validate this then
    let this' := PostDoc.pre_save descriptionModified this in
    (s <- sget ;;
     let present := existsb (fun p => String.eqb (PostDoc._id p) (PostDoc._id this'))
                      (posts s) in
     if isNew then
       if present then sthrow "E11000 duplicate key"
       else sput (mkPDb (posts s ++ [this']) (accounts s)) ;;; sret this'
     else
       if present
       then sput (mkPDb (update_first
                           (fun p => String.eqb (PostDoc._id p) (PostDoc._id this'))
                           (fun _ => this') (posts s))
                    (accounts s)) ;;; sret this'
       else sthrow "DocumentNotFoundError")%St
  else sthrow "ValidationError".

(** [await this.save()] on a user loaded from the collection. *)
Definition user_save (this : UserDoc.t) : St PDb UserDoc.t :=
  if UserDoc.validate this then
    (s <- sget ;;
     if existsb (fun u => String.eqb (UserDoc._id u) (UserDoc._id this)) (accounts s)
     then sput (mkPDb (posts s)
                  (update_first
                     (fun u => String.eqb (UserDoc._id u) (UserDoc._id this))
                     (fun _ => this) (accounts s))) ;;; sret this
     else sthrow "DocumentNotFoundError")%St
  else sthrow "ValidationError".

(** [Post.findById(id)] and [User.findById(id)]. *)
Definition Post_findById (id : ObjectId) : St PDb (option PostDoc.t) :=
  (s <- sget ;;
   sret (List.find (fun p => String.eqb (PostDoc._id p) id) (posts s)))%St.

Definition UserDoc_findById (id : ObjectId) : St PDb (option UserDoc.t) :=
  (s <- sget ;;
   sret (List.find (fun u => String.eqb (UserDoc._id u) id) (accounts s)))%St.

(** [postSchema.methods.addLike] *)
Definition addLike (userId : ObjectId) (this : PostDoc.t)
    : St PDb (PostDoc.t * bool) :=
  if negb (includes (PostDoc.likes this) userId)
  then
    let this1 := PostDoc.set_likes (Js.push (PostDoc.likes this) userId) this in
    (this2 <- post_save false false this1 ;; sret (this2, true))%St
  else sret (this, false).

(** [postSchema.methods.removeLike] *)
Definition removeLike (userId : ObjectId) (this : PostDoc.t)
    : St PDb (PostDoc.t * bool) :=
  let index := indexOf (PostDoc.likes this) userId in
  if Z.ltb (-1) index
  then
    let this1 := PostDoc.set_likes
                   (splice1 (Z.to_nat index) (PostDoc.likes this)) this in
    (this2 <- post_save false false this1 ;; sret (this2, true))%St
  else sret (this, false).

(** [postSchema.methods.addComment]: returns the document and its last
    comment. *)
Definition addComment (userId : ObjectId) (content : string) (this : PostDoc.t)
    : St PDb (PostDoc.t * option Comment.t) :=
  let this1 := PostDoc.set_comments
                 (Js.push (PostDoc.comments this) (Comment.mk userId content))
                 this in
  (this2 <- post_save false false this1 ;;
   sret (this2, List.last (List.map Some (PostDoc.comments this2)) None))%St.

(** [arr.slice(0, n)] and [arr.unshift(x)]. *)
Definition slice0 {A : Type} (n : nat) (l : list A) : list A := List.firstn n l.
Definition unshift {A : Type} (l : list A) (x : A) : list A := x :: l.

(** [userSchema.methods.addNotification] *)
Definition addNotification (notification : Notification.t) (this : UserDoc.t)
    : St PDb UserDoc.t :=
  let l1 := unshift (UserDoc.notifications this) notification in
  let l2 := if Nat.ltb 50 (List.length l1) then slice0 50 l1 else l1 in
  user_save (UserDoc.set_notifications l2 this).

(* ------------------------------------------------------------------ *)
(** ** The post routes ([routes/posts.js]) *)

Inductive PBody : Type :=
| PMessage (message : string)
| PPost (message : string) (post : option PostDoc.t)
| PLiked (message : string) (post : option PostDoc.t) (isLiked : bool)
| PComment (message : string) (comment : option Comment.t).

Record PResponse := mkPResponse { pstatus : nat; pbody : PBody }.

Definition perror : string -> St PDb PResponse :=
  fun _ => sret (mkPResponse 500 (PMessage "Server error")).

(** [await postAuthor.addNotification(n)] where [postAuthor] is the
    result of [User.findById]: a missing user makes the call throw. *)
Definition notify_author (authorId : ObjectId) (n : Notification.t)
    : St PDb unit :=
  (postAuthor <- UserDoc_findById authorId ;;
   match postAuthor with
   | None => sthrow "TypeError"
   | Some a => addNotification n a ;;; sret tt
   end)%St.

(** [optional()] in front of a check: an absent field passes. *)
Definition optional {A : Type} (check : A -> bool) (x : option A) : bool :=
  match x with
  | Some v => check v
  | None => true
  end.

(** [if (x) ...] on an optional string: present and not empty. *)
Definition truthy (x : option string) : option string :=
  match x with
  | Some v => if String.eqb v "" then None else Some v
  | None => None
  end.

(** [router.post('/:id/like')] *)
Definition post_like (user : UserDoc.t) (id : ObjectId) : St PDb PResponse :=
  stry
    (found <- Post_findById id ;;
     match found with
     | None => sret (mkPResponse 404 (PMessage "Post not found"))
     | Some post =>
         if PostDoc.isDeleted post
         then sret (mkPResponse 404 (PMessage "Post not found"))
         else
           let userId := UserDoc._id user in
           let isLiked := includes (PostDoc.likes post) userId in
           message <-
             (if isLiked
              then removeLike userId post ;;; sret "Post unliked"
              else
                addLike userId post ;;;
                (if negb (String.eqb (toString (PostDoc.author post))
                            (toString userId))
                 then notify_author (PostDoc.author post)
                        (Notification.mk "like" userId (Some (PostDoc._id post))
                           (String.append (UserDoc.name user) " liked your post"))
                 else sret tt) ;;;
                sret "Post liked") ;;
           updatedPost <- Post_findById id ;;
           sret (mkPResponse 200 (PLiked message updatedPost (negb isLiked)))
     end)%St
    perror.

(** [router.post('/:id/comment')] *)
Definition post_comment (user : UserDoc.t) (id : ObjectId) (body_content : string)
    : St PDb PResponse :=
  stry
    (let content := Js.trim body_content in
     if negb (isLength 1 500 content)
     then sret (mkPResponse 400 (PMessage "Validation failed"))
     else
       found <- Post_findById id ;;
       match found with
       | None => sret (mkPResponse 404 (PMessage "Post not found"))
       | Some post =>
           if PostDoc.isDeleted post
           then sret (mkPResponse 404 (PMessage "Post not found"))
           else
             r <- addComment (UserDoc._id user) content post ;;
             let (post1, _) := r in
             (if negb (String.eqb (toString (PostDoc.author post1))
                         (toString (UserDoc._id user)))
              then notify_author (PostDoc.author post1)
                     (Notification.mk "comment" (UserDoc._id user)
                        (Some (PostDoc._id post1))
                        (String.append (UserDoc.name user) " commented on your post"))
              else sret tt) ;;;
             sret (mkPResponse 201
                     (PComment "Comment added successfully"
                        (List.last (List.map Some (PostDoc.comments post1)) None)))
       end)%St
    perror.

(** [router.delete('/:id')] *)
Definition delete_post (user : UserDoc.t) (id : ObjectId) : St PDb PResponse :=
  stry
    (found <- Post_findById id ;;
     match found with
     | None => sret (mkPResponse 404 (PMessage "Post not found"))
     | Some post =>
         if PostDoc.isDeleted post
         then sret (mkPResponse 404 (PMessage "Post not found"))
         else
           let canDelete :=
             String.eqb (toString (PostDoc.author post)) (toString (UserDoc._id user))
             || String.eqb (UserDoc.role user) "admin" in
           if negb canDelete
           then sret (mkPResponse 403 (PMessage "You can only delete your own posts"))
           else
             post_save false false (PostDoc.set_isDeleted true post) ;;;
             sret (mkPResponse 200 (PMessage "Post deleted successfully"))
     end)%St
    perror.

(** [new Post(postData)] with the schema defaults. *)
Definition newPost (fresh : ObjectId) (author0 : ObjectId)
    (title0 description0 : string) (link0 : option string)
    (group0 : option ObjectId) : PostDoc.t :=
  PostDoc.mk fresh author0 title0 description0 link0 [] [] [] group0 false.

(** [Post.findByIdAndUpdate(id, updateData, { new: true, runValidators:
    true })]: the fields given are set on the stored document after the
    validators of those fields passed; no [save] hook runs. *)
Definition Post_findByIdAndUpdate (id : ObjectId)
    (title0 description0 : option string) (link0 : option (option string))
    : St PDb (option PostDoc.t) :=
  if optional (PostDoc.required_max 100) title0
     && optional (PostDoc.required_max 2000) description0
     && optional PostDoc.link_valid link0
  then
    (s <- sget ;;
     match List.find (fun p => String.eqb (PostDoc._id p) id) (posts s) with
     | None => sret None
     | Some p =>
         let p1 := match title0 with Some v => PostDoc.set_title v p | None => p end in
         let p2 := match description0 with
                   | Some v => PostDoc.set_description v p1
                   | None => p1
                   end in
         let p3 := match link0 with Some v => PostDoc.set_link v p2 | None => p2 end in
         sput (mkPDb (update_first (fun q => String.eqb (PostDoc._id q) id)
                        (fun _ => p3) (posts s))
                 (accounts s)) ;;;
         sret (Some p3)
     end)%St
  else sthrow "ValidationError".

Section PostRoutes.

(** [isURL] of express-validator. *)
Variable isURL : string -> bool.

(** [router.post('/')]; the uploaded images and the group's post counter
    are left out. *)
Definition create_post (user : UserDoc.t) (body_title body_description : string)
    (body_link body_groupId : option string) (fresh : ObjectId)
    : St PDb PResponse :=
  stry
    (let title := Js.trim body_title in
     let description := Js.trim body_description in
     if negb (isLength 1 100 title && isLength 1 2000 description
              && optional isURL body_link && optional isMongoId body_groupId)
     then sret (mkPResponse 400 (PMessage "Validation failed"))
     else
       let post := newPost fresh (UserDoc._id user) title description
                     (truthy body_link) (truthy body_groupId) in
       post1 <- post_save true true post ;;
       sret (mkPResponse 201 (PPost "Post created successfully" (Some post1))))%St
    perror.

(** [router.put('/:id')] *)
Definition put_post (user : UserDoc.t) (id : ObjectId)
    (body_title body_description body_link : option string) : St PDb PResponse :=
  stry
    (let title := option_map Js.trim body_title in
     let description := option_map Js.trim body_description in
     if negb (optional (isLength 1 100) title
              && optional (isLength 1 2000) description
              && optional isURL body_link)
     then sret (mkPResponse 400 (PMessage "Validation failed"))
     else
       found <- Post_findById id ;;
       match found with
       | None => sret (mkPResponse 404 (PMessage "Post not found"))
       | Some post =>
           if PostDoc.isDeleted post
           then sret (mkPResponse 404 (PMessage "Post not found"))
           else if negb (String.eqb (toString (PostDoc.author post))
                           (toString (UserDoc._id user)))
           then sret (mkPResponse 403 (PMessage "You can only edit your own posts"))
           else
             updatedPost <- Post_findByIdAndUpdate id (truthy title)
                              (truthy description)
                              (option_map Some body_link) ;;
             sret (mkPResponse 200 (PPost "Post updated successfully" updatedPost))
       end)%St
    perror.

End PostRoutes.

(* ------------------------------------------------------------------ *)
(** ** The socket hub ([socket/socketHandlers.js]): presence, rooms and
       relayed signals

    A [Map] is the list of its entries in insertion order, with unique
    keys. Of a user: the fields the handlers read or write. Of a payload:
    its string and date fields, a user object being given by its id; an
    offer, an answer and a notification are opaque strings. *)

Module JsMap.

Fixpoint set {V : Type} (k : string) (v : V) (m : list (string * V))
    : list (string * V) :=
  match m with
  | [] => [(k, v)]
  | (k', v') :: m' => if String.eqb k' k then (k, v) :: m'
                      else (k', v') :: set k v m'
  end.

Definition delete {V : Type} (k : string) (m : list (string * V))
    : list (string * V) :=
  List.filter (fun e => negb (String.eqb (fst e) k)) m.

Definition get {V : Type} (k : string) (m : list (string * V)) : option V :=
  option_map snd (List.find (fun e => String.eqb (fst e) k) m).

Definition has {V : Type} (k : string) (m : list (string * V)) : bool :=
  existsb (fun e => String.eqb (fst e) k) m.

Definition values {V : Type} (m : list (string * V)) : list V := List.map snd m.

End JsMap.

Module Profile.
Record t := mk {
  _id : ObjectId;
  name : string;
  joinedGroups : list ObjectId;
  isOnline : bool;
  lastSeen : Date
}.
Definition set_presence (online : bool) (now : Date) (u : t) : t :=
  mk (_id u) (name u) (joinedGroups u) online now.
Definition set_lastSeen (now : Date) (u : t) : t :=
  mk (_id u) (name u) (joinedGroups u) (isOnline u) now.
End Profile.

Record Connection := mkConnection {
  socketId : string;
  conn_user : Profile.t;
  conn_lastSeen : Date
}.

(** The module-level [connectedUsers] with the two collections the
    handlers reach. *)
Record Hub := mkHub {
  connectedUsers : list (string * Connection);
  profiles : list Profile.t;
  hub_groups : list GroupDoc.t
}.

(** A socket: its id, [socket.userId], [socket.user] and the rooms it is
    in. *)
Record Sock := mkSock {
  sock_id : string;
  sock_userId : option string;
  sock_user : option Profile.t;
  rooms : list string
}.

(** [socket.emit], [socket.to(room).emit] and [socket.broadcast.emit]. *)
Inductive Target : Type :=
| ToSelf
| ToRoom (r : string)
| ToOthers.

Inductive Val : Type :=
| VStr (s : string)
| VDate (d : Date)
| VUndefined.

Record Signal := mkSignal {
  target : Target;
  signal : string;
  data : list (string * Val)
}.

Definition Handled : Type := Sock * Hub * list Signal.

Definition socket_join (r : string) (k : Sock) : Sock :=
  mkSock (sock_id k) (sock_userId k) (sock_user k)
    (if existsb (String.eqb r) (rooms k) then rooms k else rooms k ++ [r]).

Definition socket_leave (r : string) (k : Sock) : Sock :=
  mkSock (sock_id k) (sock_userId k) (sock_user k)
    (List.filter (fun x => negb (String.eqb x r)) (rooms k)).

(** A value inside a template literal. *)
Definition template (x : option string) : string :=
  match x with
  | Some v => v
  | None => "undefined"
  end.

Definition user_room (id : option string) : string :=
  String.append "user_" (template id).
Definition group_room (id : option string) : string :=
  String.append "group_" (template id).

Definition val_of (x : option string) : Val :=
  match x with
  | Some v => VStr v
  | None => VUndefined
  end.

Definition message_to_self (event text : string) : Signal :=
  mkSignal ToSelf event [("message", VStr text)].

(** [User.findByIdAndUpdate(id, update)] on the profiles. *)
Definition Profile_update (id : ObjectId) (f : Profile.t -> Profile.t) (h : Hub)
    : Hub :=
  mkHub (connectedUsers h)
    (update_first (fun u => String.eqb (Profile._id u) id) f (profiles h))
    (hub_groups h).

Section Sockets.

(** [jwt.verify(token, secret)]: [None] when it throws, otherwise the
    [userId] of the decoded payload, if it has one. *)
Variable verify : string -> option (option ObjectId).

(** [socket.on('authenticate')] *)
Definition authenticate (token : option string) (now : Date) (k : Sock) (h : Hub)
    : Handled :=
  match truthy token with
  | None => (k, h, [message_to_self "auth_error" "Token required"])
  | Some t =>
      match verify t with
      | None => (k, h, [message_to_self "auth_error" "Authentication failed"])
      | Some decoded =>
          match match decoded with
                | Some id => List.find (fun u => String.eqb (Profile._id u) id)
                               (profiles h)
                | None => None
                end with
          | None => (k, h, [message_to_self "auth_error" "User not found"])
          | Some user =>
              let userId := toString (Profile._id user) in
              let k1 := mkSock (sock_id k) (Some userId) (Some user) (rooms k) in
              let h1 := mkHub (JsMap.set userId
                                 (mkConnection (sock_id k) user now)
                                 (connectedUsers h))
                          (profiles h) (hub_groups h) in
              let h2 := Profile_update (Profile._id user)
                          (Profile.set_presence true now) h1 in
              let k2 := socket_join (user_room (Some (Profile._id user))) k1 in
              let k3 := List.fold_left
                          (fun s groupId => socket_join (group_room (Some groupId)) s)
                          (Profile.joinedGroups user) k2 in
              (k3, h2,
               [mkSignal ToSelf "authenticated"
                  [("message", VStr "Authentication successful");
                   ("user", VStr (Profile._id user))];
                mkSignal ToOthers "user_online"
                  [("userId", VStr (Profile._id user));
                   ("name", VStr (Profile.name user))]])
          end
      end
  end.

End Sockets.

(** [socket.on('join_group')] *)
Definition join_group (groupId : option string) (k : Sock) (h : Hub) : Handled :=
  match sock_userId k with
  | None => (k, h, [message_to_self "error" "Not authenticated"])
  | Some userId =>
      match match groupId with
            | Some g => List.find (fun x => String.eqb (GroupDoc._id x) g)
                          (hub_groups h)
            | None => None
            end with
      | None => (k, h, [message_to_self "error" "Access denied to group"])
      | Some grp =>
          if negb (GroupDoc.isMember grp userId)
          then (k, h, [message_to_self "error" "Access denied to group"])
          else (socket_join (group_room groupId) k, h,
                [mkSignal ToSelf "joined_group"
                   [("groupId", val_of groupId);
                    ("groupName", VStr (GroupDoc.name grp))]])
      end
  end.

(** [socket.on('leave_group')] *)
Definition leave_group (groupId : option string) (k : Sock) (h : Hub) : Handled :=
  (socket_leave (group_room groupId) k, h,
   [mkSignal ToSelf "left_group" [("groupId", val_of groupId)]]).

(** [socket.on('typing_start')] and [socket.on('typing_stop')] *)
Definition typing_start (conversationId groupId recipientId : option string)
    (k : Sock) (h : Hub) : Handled :=
  match sock_userId k with
  | None => (k, h, [])
  | Some userId =>
      let userName := val_of (option_map Profile.name (sock_user k)) in
      match truthy groupId, truthy recipientId with
      | Some g, _ =>
          (k, h, [mkSignal (ToRoom (group_room (Some g))) "user_typing"
                    [("userId", VStr userId); ("userName", userName);
                     ("groupId", VStr g)]])
      | None, Some r =>
          (k, h, [mkSignal (ToRoom (user_room (Some r))) "user_typing"
                    [("userId", VStr userId); ("userName", userName);
                     ("conversationId", val_of conversationId)]])
      | None, None => (k, h, [])
      end
  end.

Definition typing_stop (conversationId groupId recipientId : option string)
    (k : Sock) (h : Hub) : Handled :=
  match sock_userId k with
  | None => (k, h, [])
  | Some userId =>
      match truthy groupId, truthy recipientId with
      | Some g, _ =>
          (k, h, [mkSignal (ToRoom (group_room (Some g))) "user_stop_typing"
                    [("userId", VStr userId); ("groupId", VStr g)]])
      | None, Some r =>
          (k, h, [mkSignal (ToRoom (user_room (Some r))) "user_stop_typing"
                    [("userId", VStr userId);
                     ("conversationId", val_of conversationId)]])
      | None, None => (k, h, [])
      end
  end.

(** [socket.on('update_status')]: the schema has no [status] path, so the
    update writes [lastSeen] only. *)
Definition update_status (status : option string) (now : Date) (k : Sock) (h : Hub)
    : Handled :=
  match sock_userId k with
  | None => (k, h, [])
  | Some userId =>
      (k, Profile_update userId (Profile.set_lastSeen now) h,
       [mkSignal ToOthers "user_status_update"
          [("userId", VStr userId); ("status", val_of status)]])
  end.

(** [socket.on('send_notification')] *)
Definition send_notification (recipientId notification : option string)
    (k : Sock) (h : Hub) : Handled :=
  match truthy recipientId, truthy notification with
  | Some r, Some n =>
      (k, h, [mkSignal (ToRoom (user_room (Some r))) "new_notification"
                [("notification", VStr n)]])
  | _, _ => (k, h, [])
  end.

(** [socket.on('call_user')], [('answer_call')] and [('end_call')] *)
Definition call_user (recipientId callType offer : option string)
    (k : Sock) (h : Hub) : Handled :=
  match sock_userId k with
  | None => (k, h, [])
  | Some userId =>
      (k, h, [mkSignal (ToRoom (user_room recipientId)) "incoming_call"
                [("from", VStr userId);
                 ("caller", val_of (option_map Profile.name (sock_user k)));
                 ("callType", val_of callType); ("offer", val_of offer)]])
  end.

Definition answer_call (callerId answer : option string) (k : Sock) (h : Hub)
    : Handled :=
  (k, h, [mkSignal (ToRoom (user_room callerId)) "call_answered"
            [("from", val_of (sock_userId k)); ("answer", val_of answer)]]).

Definition end_call (recipientId : option string) (k : Sock) (h : Hub) : Handled :=
  (k, h, [mkSignal (ToRoom (user_room recipientId)) "call_ended"
            [("from", val_of (sock_userId k))]]).

(** [socket.on('disconnect')] *)
Definition disconnect (now : Date) (k : Sock) (h : Hub) : Handled :=
  match sock_userId k with
  | None => (k, h, [])
  | Some userId =>
      let h1 := mkHub (JsMap.delete userId (connectedUsers h)) (profiles h)
                  (hub_groups h) in
      (k, Profile_update userId (Profile.set_presence false now) h1,
       [mkSignal ToOthers "user_offline"
          [("userId", VStr userId); ("lastSeen", VDate now)]])
  end.

(** The exported helpers. *)
Definition getConnectedUsers (h : Hub) : list (ObjectId * string * Date) :=
  List.map (fun connection =>
              (Profile._id (conn_user connection),
               Profile.name (conn_user connection),
               conn_lastSeen connection))
    (JsMap.values (connectedUsers h)).

Definition getUserSocketId (userId : ObjectId) (h : Hub) : option string :=
  match JsMap.get (toString userId) (connectedUsers h) with
  | Some connection => Some (socketId connection)
  | None => None
  end.

Definition isUserOnline (userId : ObjectId) (h : Hub) : bool :=
  JsMap.has (toString userId) (connectedUsers h).

(* ------------------------------------------------------------------ *)
(** ** Following ([userSchema.methods.follow], [unfollow] and the routes
       of [routes/users.js])

    Of a user: the fields these paths read or write. A [save] writes the
    paths the method modified: a [push] appends to the stored array, a
    [pull] removes from it, and the notifications are set as a whole. *)

Module Account.
Record t := mk {
  _id : ObjectId;
  name : string;
  following : list ObjectId;
  followers : list ObjectId;
  notifications : list Notification.t
}.
Definition set_following (v : list ObjectId) (u : t) : t :=
  mk (_id u) (name u) v (followers u) (notifications u).
Definition set_followers (v : list ObjectId) (u : t) : t :=
  mk (_id u) (name u) (following u) v (notifications u).
Definition set_notifications (v : list Notification.t) (u : t) : t :=
  mk (_id u) (name u) (following u) (followers u) v.

Definition validate (u : t) : bool :=
  negb (String.eqb (name u) "")
  && Nat.leb (String.length (name u)) 50
  && forallb (fun n => existsb (String.eqb (Notification.type n))
                         Notification.type_enum)
       (notifications u).
End Account.

Definition FDb : Type := list Account.t.

Definition Account_findById (id : ObjectId) : St FDb (option Account.t) :=
  (s <- sget ;;
   sret (List.find (fun u => String.eqb (Account._id u) id) s))%St.

(** [User.findByIdAndUpdate(id, update)] *)
Definition Account_findByIdAndUpdate (id : ObjectId) (f : Account.t -> Account.t)
    : St FDb unit :=
  (s <- sget ;;
   sput (update_first (fun u => String.eqb (Account._id u) id) f s))%St.

(** [await this.save()] after the method changed one path of [this]:
    the document is validated and [write] is applied to the stored
    document. *)
Definition account_save (this : Account.t) (write : Account.t -> Account.t)
    : St FDb unit :=
  if Account.validate this then
    (s <- sget ;;
     if existsb (fun u => String.eqb (Account._id u) (Account._id this)) s
     then sput (update_first (fun u => String.eqb (Account._id u) (Account._id this))
                  write s)
     else sthrow "DocumentNotFoundError")%St
  else sthrow "ValidationError".

Definition addToSet (x : ObjectId) (l : list ObjectId) : list ObjectId :=
  if existsb (String.eqb x) l then l else l ++ [x].

Definition pull (x : ObjectId) (l : list ObjectId) : list ObjectId :=
  List.filter (fun y => negb (String.eqb y x)) l.

(** [userSchema.methods.follow] *)
Definition follow (userId : ObjectId) (this : Account.t) : St FDb unit :=
  if negb (includes (Account.following this) userId)
  then
    let this1 := Account.set_following (Js.push (Account.following this) userId)
                   this in
    (account_save this1
       (fun stored => Account.set_following
                        (Js.push (Account.following stored) userId) stored) ;;;
     Account_findByIdAndUpdate userId
       (fun u => Account.set_followers
                   (addToSet (Account._id this1) (Account.followers u)) u))%St
  else sret tt.

(** [userSchema.methods.unfollow] *)
Definition unfollow (userId : ObjectId) (this : Account.t) : St FDb unit :=
  let this1 := Account.set_following (pull userId (Account.following this)) this in
  (account_save this1
     (fun stored => Account.set_following
                      (pull userId (Account.following stored)) stored) ;;;
   Account_findByIdAndUpdate userId
     (fun u => Account.set_followers
                 (pull (Account._id this1) (Account.followers u)) u))%St.

(** [userSchema.methods.addNotification], on these documents. *)
Definition account_addNotification (notification : Notification.t)
    (this : Account.t) : St FDb unit :=
  let l1 := unshift (Account.notifications this) notification in
  let l2 := if Nat.ltb 50 (List.length l1) then slice0 50 l1 else l1 in
  account_save (Account.set_notifications l2 this) (Account.set_notifications l2).

Definition ferror : string -> St FDb Response :=
  fun _ => sret (mkResponse 500 (BMessage "Server error")).

(** [router.post('/follow/:id')] *)
Definition post_follow (user : Account.t) (id : string) : St FDb Response :=
  stry
    (if String.eqb id (toString (Account._id user))
     then sret (mkResponse 400 (BMessage "Cannot follow yourself"))
     else
       userToFollow <- Account_findById id ;;
       match userToFollow with
       | None => sret (mkResponse 404 (BMessage "User not found"))
       | Some target =>
           follow id user ;;;
           account_addNotification
             (Notification.mk "follow" (Account._id user) None
                (String.append (Account.name user) " started following you"))
             target ;;;
           sret (mkResponse 200 (BMessage "User followed successfully"))
       end)%St
    ferror.

(** [router.delete('/follow/:id')] *)
Definition delete_follow (user : Account.t) (id : string) : St FDb Response :=
  stry
    (unfollow id user ;;;
     sret (mkResponse 200 (BMessage "User unfollowed successfully")))%St
    ferror.

(* ------------------------------------------------------------------ *)
(** ** The admin routes ([routes/admin.js]) on roles and posts

    [deletedBy] and [deletedAt] are no paths of the post schema, so
    setting them on a document stores nothing. *)





(** [router.delete('/posts/:id')] and [router.put('/posts/:id/restore')]
    of the admin router. *)
Definition admin_delete_post (id : ObjectId) : St PDb PResponse :=
  stry
    (found <- Post_findById id ;;
     match found with
     | None => sret (mkPResponse 404 (PMessage "Post not found"))
     | Some post =>
         post_save false false (PostDoc.set_isDeleted true post) ;;;
         sret (mkPResponse 200 (PMessage "Post deleted successfully"))
     end)%St
    perror.

Definition admin_restore_post (id : ObjectId) : St PDb PResponse :=
  stry
    (found <- Post_findById id ;;
     match found with
     | None => sret (mkPResponse 404 (PMessage "Post not found"))
     | Some post =>
         post_save false false (PostDoc.set_isDeleted false post) ;;;
         sret (mkPResponse 200 (PMessage "Post restored successfully"))
     end)%St
    perror.
(* ------------------------------------------------------------------ *)
(** ** Vocabulary of the properties *)

(** The document [findById] loads. *)
Definition stored (db : Db) (id : ObjectId) : option Message :=
  List.find (fun m => String.eqb (_id m) id) (messages db).

(** Number of [readBy] entries of user [u] on a message. *)
Definition readBy_count (u : ObjectId) (m : Message) : nat :=
  List.length
    (List.filter (fun r => String.eqb (ReadReceipt.user r) u) (readBy m)).

(** The document [markAsRead] leaves when the user has no entry yet. *)
Definition marked (u : ObjectId) (now : Date) (this : Message) : Message :=
  pre_save false (set_readBy (readBy this ++ [ReadReceipt.mk u now]) this).


(** Number of reactions of user [u] with emoji [e] on a message. *)
Definition reaction_count (u : ObjectId) (e : string) (m : Message) : nat :=
  List.length
    (List.filter (fun r => String.eqb (Reaction.user r) u
                           && String.eqb (Reaction.emoji r) e) (reactions m)).

(** The document [addReaction] leaves when it adds the reaction. *)
Definition reacted (u : ObjectId) (e : string) (now : Date) (this : Message) : Message :=
  pre_save false (set_reactions (reactions this ++ [Reaction.mk u e now]) this).

(** The document [removeReaction] leaves. *)
Definition unreacted (u : ObjectId) (e : string) (this : Message) : Message :=
  pre_save false
    (set_reactions
       (List.filter (fun r => negb (String.eqb (Reaction.user r) u
                                    && String.eqb (Reaction.emoji r) e))
          (reactions this)) this).

(** The document [editContent] leaves. *)
Definition edited_doc (c : string) (now : Date) (this : Message) : Message :=
  pre_save (negb (String.eqb (content this) c))
    (set_edited
       (mkEdited true (Some now)
          (if isEdited (edited this) then originalContent (edited this)
           else Some (content this)))
       (set_content c this)).

(** What a computation returned: the list, or nothing when it threw. *)
Definition result_of (r : Outcome (list Message) * Db) : list Message :=
  match fst r with
  | Return l => l
  | Throw _ => []
  end.

(** The messages a response carries. *)
Definition response_messages (r : Outcome Response * Db) : list Message :=
  match fst r with
  | Return resp =>
      match body resp with
      | BPage l _ _ => l
      | BSearch l _ _ => l
      | _ => []
      end
  | Throw _ => []
  end.


(** The live messages of a conversation, newest first. *)
Definition conversation_live (db : Db) (u1 u2 : ObjectId) : list Message :=
  Js.sort_by newer_first
    (List.filter (fun m => match conversation m with
                           | Some c => String.eqb c (conversationId u1 u2)
                           | None => false
                           end && negb (isDeleted m))
       (messages db)).

(** The live messages of a group, newest first. *)
Definition group_live (db : Db) (g : ObjectId) : list Message :=
  Js.sort_by newer_first
    (List.filter (fun m => option_eqb (group m) g && negb (isDeleted m))
       (messages db)).

(** The page the specification describes: [pageSize] messages from offset
    [(p - 1) * pageSize]. *)
Definition page_of (l : list Message) (p pageSize : Z) : list Message :=
  List.firstn (Z.to_nat pageSize) (List.skipn (Z.to_nat ((p - 1) * pageSize)) l).

(** Who may delete: the answer [can_delete] computes. *)
Definition can_delete_value (user : User.t) (m : Message) (db : Db) : bool :=
  String.eqb (sender m) (User._id user)
  || match group m with
     | Some g =>
         match List.find (fun gr => String.eqb (Group._id gr) g) (groups db) with
         | Some gr => Group.isAdmin gr (User._id user)
         | None => false
         end
     | None => false
     end.

(** The user and the group the lookups find. *)
Definition user_of (db : Db) (id : ObjectId) : option User.t :=
  List.find (fun u => String.eqb (User._id u) id) (users db).

Definition group_of (db : Db) (id : ObjectId) : option Group.t :=
  List.find (fun g => String.eqb (Group._id g) id) (groups db).

(** The answer of the membership gate. *)
Definition member_gate (user : User.t) (g : ObjectId) (db : Db)
    : Response + Group.t :=
  match group_of db g with
  | None => inl (mkResponse 404 (BMessage "Group not found"))
  | Some grp =>
      if Group.isMember grp (User._id user) then inr grp
      else inl (mkResponse 403 (BMessage "Access denied"))
  end.

(** Number of stored messages satisfying [p]. *)
Definition count_where (p : Message -> bool) (db : Db) : Z :=
  Z.of_nat (List.length (List.filter p (messages db))).

(** A message addressed to the user: sent directly to the user, or in one
    of the user's joined groups. *)
Definition addressed_to (user : User.t) (m : Message) : bool :=
  option_eqb (recipient m) (User._id user)
  || existsb (option_eqb (group m)) (User.joinedGroups user).

(** C5 as the specification words it: non-deleted, addressed to the user,
    sent by someone else, and not read by the user. *)
Definition unread_claimed (user : User.t) (m : Message) : bool :=
  negb (isDeleted m)
  && addressed_to user m
  && negb (String.eqb (sender m) (User._id user))
  && negb (readBy_has (User._id user) m).

Definition unread_count_as_claimed : Prop :=
  forall (regex_test : string -> string -> bool) (user : User.t) (db : Db),
    unread_count regex_test user db
    = (Return (mkResponse 200 (BUnread (count_where (unread_claimed user) db))), db).

(** What the route counts: non-deleted, not read by the user, and either
    sent directly to the user (by anyone) or sent by someone else in one of
    the user's joined groups. *)
Definition unread_counted (user : User.t) (m : Message) : bool :=
  negb (isDeleted m)
  && negb (readBy_has (User._id user) m)
  && (option_eqb (recipient m) (User._id user)
      || (existsb (option_eqb (group m)) (User.joinedGroups user)
          && negb (String.eqb (sender m) (User._id user)))).

Definition unread_for (user : User.t) (m : Message) : Prop :=
  isDeleted m = false
  /\ (forall r, In r (readBy m) -> ReadReceipt.user r <> User._id user)
  /\ (recipient m = Some (User._id user)
      \/ (exists g, group m = Some g
                    /\ In g (User.joinedGroups user)
                    /\ sender m <> User._id user)).

(** A handler run from [db] to [db'] created no message, or exactly one
    message satisfying [P]. *)
Definition created_only (db db' : Db) (P : Message -> Prop) : Prop :=
  messages db' = messages db
  \/ exists m, messages db' = messages db ++ [m] /\ P m.

(** Addressing of a direct message to [r]. *)
Definition direct_to (r : ObjectId) (m : Message) : Prop :=
  recipient m = Some r
  /\ group m = None
  /\ conversation m = Some (conversationId (sender m) r).

(** Addressing of a message of group [g]. *)
Definition in_group (g : ObjectId) (m : Message) : Prop :=
  group m = Some g
  /\ recipient m = None
  /\ conversation m = None.

(** The messages [GET /conversations/:userId] marks: sent by [other] to
    [me] and without a [readBy] entry of [me]. *)
Definition from_other_unread (other me : ObjectId) (m : Message) : bool :=
  String.eqb (sender m) other
  && option_eqb (recipient m) me
  && negb (readBy_has me m).

(** The messages [GET /groups/:groupId] marks: of group [g], not sent by
    [me] and without a [readBy] entry of [me]. *)
Definition group_unread (g me : ObjectId) (m : Message) : bool :=
  option_eqb (group m) g
  && negb (String.eqb (sender m) me)
  && negb (readBy_has me m).

(** [m'] is [m] with a [readBy] entry of [me] appended when [m] is
    selected by [sel], and [m] itself otherwise. *)
Definition read_marked (me : ObjectId) (now : Date) (sel : Message -> bool)
    (m m' : Message) : Prop :=
  if sel m then m' = set_readBy (readBy m ++ [ReadReceipt.mk me now]) m
  else m' = m.


(** The schema invariant on read receipts: at most one entry per user. *)
Definition readBy_unique (m : Message) : Prop :=
  forall u, readBy_count u m <= 1.

(** The last part of C7 as the specification words it: on every stored
    message, a [removeReaction] after an [addReaction] gives back the
    reaction count the message had before the add. *)
Definition remove_after_add_restores_count : Prop :=
  forall (db : Db) (id u : ObjectId) (e : string) (t : Date)
         (this this1 : Message) (added : bool) (db1 : Db)
         (this2 : Message) (db2 : Db),
    stored db id = Some this ->
    validate this = true ->
    addReaction u e t this db = (Return (this1, added), db1) ->
    removeReaction u e this1 db1 = (Return this2, db2) ->
    List.length (reactions this2) = List.length (reactions this).

(** *** Sample data *)

Module Sample.

Definition alice : ObjectId := "64b0000000000000000000a1".
Definition bob : ObjectId := "64b0000000000000000000b1".
Definition carol : ObjectId := "64b0000000000000000000c1".
Definition general : ObjectId := "64b0000000000000000000e1".

Definition u_alice : User.t := User.mk alice "Alice" [general].
Definition u_bob : User.t := User.mk bob "Bob" [general].
Definition u_carol : User.t := User.mk carol "Carol" [].

Definition g_general : Group.t :=
  Group.mk general "General" alice [] [alice; bob] 0.

(** Documents as [save] stores them. *)
Definition direct (id : ObjectId) (t : Date) (from to : ObjectId) (c : string)
    : Message :=
  pre_save true (newMessage id t from (Some to) None c "text" None).

Definition grouped (id : ObjectId) (t : Date) (from g : ObjectId) (c : string)
    : Message :=
  pre_save true (newMessage id t from None (Some g) c "text" None).

Definition d1 : ObjectId := "64b0000000000000000000d1".
Definition d2 : ObjectId := "64b0000000000000000000d2".
Definition d3 : ObjectId := "64b0000000000000000000d3".
Definition d4 : ObjectId := "64b0000000000000000000d4".
Definition d5 : ObjectId := "64b0000000000000000000d5".

(** Three direct messages between Alice and Bob and one group message. *)
Definition db0 : Db :=
  mkDb [direct d1 1000 bob alice "one";
        direct d2 2000 alice bob "two";
        direct d3 3000 bob alice "three";
        grouped d4 4000 bob general "hello all"]
       [u_alice; u_bob; u_carol]
       [g_general].

(** Three messages in the group. *)
Definition db_group : Db :=
  mkDb [grouped d1 1000 alice general "first";
        grouped d2 2000 bob general "second";
        grouped d3 3000 alice general "third"]
       [u_alice; u_bob]
       [g_general].

(** A message Bob has already reacted to. *)
Definition liked : Message :=
  set_reactions [Reaction.mk bob "+1" 1500] (direct d1 1000 alice bob "one").

Definition db_liked : Db := mkDb [liked] [u_alice; u_bob] [].

(** A note Alice sent to herself. *)
Definition db_self : Db :=
  mkDb [direct d1 1000 alice alice "note to self"] [u_alice] [].

End Sample.

(* ------------------------------------------------------------------ *)
(** ** The entry points as a transition system *)

(** One call of an entry point that writes messages, with its inputs. *)
Inductive Call : Type :=
| CallSendMessage (socket : Socket) (recipientId : ObjectId) (content0 : string)
    (type0 : option string) (fresh : ObjectId) (now : Date)
| CallSendGroupMessage (socket : Socket) (groupId : ObjectId) (content0 : string)
    (type0 : option string) (replyTo0 : option ObjectId) (fresh : ObjectId)
    (now : Date)
| CallMarkAsRead (socket : Socket) (messageId : ObjectId)
    (groupId : option ObjectId) (now : Date)
| CallPostDirect (user : User.t) (body_recipient body_content : string)
    (body_type : option string) (fresh : ObjectId) (now : Date)
| CallPostGroupMessage (user : User.t) (groupId : ObjectId) (body_content : string)
    (body_type body_replyTo : option string) (fresh : ObjectId) (now : Date)
| CallGetConversation (user : User.t) (userId : ObjectId)
    (query_page query_limit : option Z) (now : Date)
| CallGetGroupMessages (user : User.t) (groupId : ObjectId)
    (query_page query_limit : option Z) (now : Date)
| CallPostReaction (user : User.t) (messageId : ObjectId) (body_emoji : string)
    (now : Date)
| CallPutMessage (user : User.t) (messageId : ObjectId) (body_content : string)
    (now : Date)
| CallDeleteMessage (user : User.t) (messageId : ObjectId) (now : Date).

(** The database a call leaves. *)
Definition run (regex_test : string -> string -> bool) (c : Call) (db : Db) : Db :=
  match c with
  | CallSendMessage s r c0 ty f t => snd (send_message s r c0 ty f t db)
  | CallSendGroupMessage s g c0 ty rt f t =>
      snd (send_group_message s g c0 ty rt f t db)
  | CallMarkAsRead s id g t => snd (mark_as_read s id g t db)
  | CallPostDirect u r c0 ty f t => snd (post_direct u r c0 ty f t db)
  | CallPostGroupMessage u g c0 ty rt f t =>
      snd (post_group_message u g c0 ty rt f t db)
  | CallGetConversation u o p l t =>
      snd (get_conversation_messages regex_test u o p l t db)
  | CallGetGroupMessages u g p l t =>
      snd (get_group_messages regex_test u g p l t db)
  | CallPostReaction u id e t => snd (post_reaction u id e t db)
  | CallPutMessage u id c0 t => snd (put_message u id c0 t db)
  | CallDeleteMessage u id t => snd (delete_message u id t db)
  end.

(** The database after a sequence of calls, first call first. *)
Fixpoint run_all (regex_test : string -> string -> bool) (cs : list Call) (db : Db)
    : Db :=
  match cs with
  | [] => db
  | c :: cs' => run_all regex_test cs' (run regex_test c db)
  end.

(** What one call can do to one stored message. *)
Inductive step : Message -> Message -> Prop :=
| step_same m : step m m
| step_mark m u t :
    readBy_has u m = false -> step m (marked u t m)
| step_mark_bulk m u t :
    readBy_has u m = false ->
    step m (set_readBy (readBy m ++ [ReadReceipt.mk u t]) m)
| step_react m u e t :
    reaction_count u e m = 0 -> isDeleted m = false -> step m (reacted u e t m)
| step_unreact m u e :
    isDeleted m = false -> step m (unreacted u e m)
| step_edit m c t :
    isLength 1 2000 c = true -> isDeleted m = false -> step m (edited_doc c t m)
| step_delete m t :
    isDeleted m = false ->
    step m (pre_save false (set_deletedAt (Some t) (set_isDeleted true m))).

(** A message as a send path stores it. *)
Definition born (m : Message) : Prop :=
  exists fresh now s r g c ty rt,
    m = pre_save true (newMessage fresh now s r g c ty rt)
    /\ validate m = true
    /\ ((r <> None /\ g = None) \/ (r = None /\ g <> None)).

(** A call keeps every stored message in its place, changed by at most one
    step, and appends at most one new message. *)
Definition evolves (db db' : Db) : Prop :=
  exists l' new,
    messages db' = l' ++ new
    /\ Forall2 step (messages db) l'
    /\ (new = [] \/ exists m, new = [m] /\ born m
                             /\ has_id (_id m) (messages db) = false).

(** No two reactions of a message have the same user and emoji. *)
Definition reactions_unique (m : Message) : Prop :=
  forall u e, reaction_count u e m <= 1.

(** The addressing invariant of the data model: a recipient or a group,
    not both and not neither; a direct message carries the key of its
    sender and recipient, a group message none. *)
Definition well_addressed (m : Message) : Prop :=
  match recipient m, group m with
  | Some r, None => conversation m = Some (conversationId (sender m) r)
  | None, Some _ => conversation m = None
  | _, _ => False
  end.

(** The invariant of the message collection. *)
Definition message_ok (m : Message) : Prop :=
  validate m = true /\ readBy_unique m /\ reactions_unique m /\ well_addressed m
  /\ mentions m = [].

Definition store_ok (db : Db) : Prop :=
  Forall message_ok (messages db)
  /\ NoDup (List.map _id (messages db)).

(** What never changes on a stored message, and what only grows. *)
Definition keeps_identity (m m' : Message) : Prop :=
  _id m' = _id m /\ sender m' = sender m /\ recipient m' = recipient m
  /\ group m' = group m /\ type m' = type m /\ replyTo m' = replyTo m
  /\ createdAt m' = createdAt m /\ attachments m' = attachments m.

Definition only_grows (m m' : Message) : Prop :=
  (exists more, readBy m' = readBy m ++ more)
  /\ (isDeleted m = true ->
      isDeleted m' = true /\ deletedAt m' = deletedAt m
      /\ content m' = content m /\ edited m' = edited m
      /\ reactions m' = reactions m)
  /\ (isEdited (edited m) = true ->
      isEdited (edited m') = true
      /\ originalContent (edited m') = originalContent (edited m)).

(** Who may react to a message: its sender, its recipient, or a member of
    its group. *)
Definition has_access (user : User.t) (m : Message) (db : Db) : bool :=
  String.eqb (sender m) (User._id user)
  || option_eqb (recipient m) (User._id user)
  || match group m with
     | Some g =>
         existsb (fun grp => String.eqb (Group._id grp) g
                             && existsb (String.eqb (User._id user))
                                  (Group.members grp))
           (groups db)
     | None => false
     end.

(** A session from an empty collection: Alice writes to Bob over the
    socket, Bob answers over REST, reacts, Alice edits, Bob fetches the
    conversation and marks Alice's message read, Alice deletes her
    message. *)
Definition sample_start : Db :=
  mkDb [] [Sample.u_alice; Sample.u_bob; Sample.u_carol] [Sample.g_general].

Definition sample_session : list Call :=
  [CallSendMessage (mkSocket (Some Sample.alice)) Sample.bob "hi" None Sample.d1 1000;
   CallPostDirect Sample.u_bob Sample.alice " hello " None Sample.d2 2000;
   CallPostReaction Sample.u_bob Sample.d1 "+1" 2500;
   CallPutMessage Sample.u_alice Sample.d1 "hi!" 3000;
   CallGetConversation Sample.u_bob Sample.alice None None 4000;
   CallMarkAsRead (mkSocket (Some Sample.alice)) Sample.d2 None 4500;
   CallDeleteMessage Sample.u_alice Sample.d1 5000].

(** The collection after Alice's first message, and the rest of the
    session. *)
Definition sample_first : Db :=
  mkDb [Sample.direct Sample.d1 1000 Sample.alice Sample.bob "hi"]
       [Sample.u_alice; Sample.u_bob; Sample.u_carol] [Sample.g_general].

Definition sample_rest : list Call := List.tl sample_session.

(** Oldest first by creation time. *)
Definition oldest_first (l : list Message) : Prop :=
  StronglySorted (fun a b => (createdAt a <= createdAt b)%Z) l.

(** Newest first by creation time. *)
Definition newest_first (l : list Message) : Prop :=
  StronglySorted (fun a b => (createdAt b <= createdAt a)%Z) l.


(** The events a socket handler emitted. *)
Definition events_of (r : Outcome (list Emit) * Db) : list Emit :=
  match fst r with
  | Return evs => evs
  | Throw _ => []
  end.

(** An event is scoped when an error goes to the emitting socket only and
    an event sent to a room carries a message stored in [db']. *)
Definition scoped (db' : Db) (ev : Emit) : Prop :=
  (event ev = "error" -> room ev = None /\ payload ev = None)
  /\ (room ev <> None ->
      exists m, payload ev = Some m /\ In m (messages db')).

(* ------------------------------------------------------------------ *)
(** ** Vocabulary for groups *)

(** The group document and the user document the lookups find. *)
Definition group_at (s : GDb) (id : ObjectId) : option GroupDoc.t :=
  List.find (fun g => String.eqb (GroupDoc._id g) id) (gdocs s).

Definition user_at (s : GDb) (id : ObjectId) : option User.t :=
  List.find (fun u => String.eqb (User._id u) id) (gusers s).

(** The group after [userId] joined it at [now]. *)
Definition with_member (userId : ObjectId) (now : Date) (g : GroupDoc.t)
    : GroupDoc.t :=
  GroupDoc.set_members (GroupDoc.members g ++ [Member.mk userId now "member"]) g.

(** The group after [userId] left it. *)
Definition without_member (userId : ObjectId) (g : GroupDoc.t) : GroupDoc.t :=
  GroupDoc.set_members
    (List.filter (fun m => negb (String.eqb (Member.user m) userId))
       (GroupDoc.members g)) g.

(** The state after group [g] was rewritten as [g'] and user [userId]
    updated by [f]. *)
Definition rewritten (s : GDb) (g' : GroupDoc.t) (userId : ObjectId)
    (f : User.t -> User.t) : GDb :=
  mkGDb (update_first (fun g => String.eqb (GroupDoc._id g) (GroupDoc._id g'))
           (fun _ => g') (gdocs s))
        (update_first (fun u => String.eqb (User._id u) userId) f (gusers s)).

(** The state after the group document [g'] was saved. *)
Definition saved (s : GDb) (g' : GroupDoc.t) : GDb :=
  mkGDb (update_first (fun g => String.eqb (GroupDoc._id g) (GroupDoc._id g'))
           (fun _ => g') (gdocs s))
        (gusers s).

(** Ids are unique in both collections. *)
Definition unique_ids (s : GDb) : Prop :=
  NoDup (List.map GroupDoc._id (gdocs s))
  /\ NoDup (List.map User._id (gusers s)).

(** The member list of every group and the [joinedGroups] of every user
    agree. *)
Definition synced (s : GDb) : Prop :=
  forall g u, In g (gdocs s) -> In u (gusers s) ->
    (GroupDoc.isMember g (User._id u) = true
     <-> In (GroupDoc._id g) (User.joinedGroups u)).

(** The membership requests of the group routes, and a session of them. *)
Inductive GCall : Type :=
| Join (user : User.t) (id : ObjectId) (now : Date)
| Leave (user : User.t) (id : ObjectId).

Definition grun (c : GCall) (s : GDb) : Outcome Response * GDb :=
  match c with
  | Join user id now => post_join user id now s
  | Leave user id => post_leave user id s
  end.

Fixpoint grun_all (cs : list GCall) (s : GDb) : GDb :=
  match cs with
  | [] => s
  | c :: cs' => grun_all cs' (snd (grun c s))
  end.

Module SampleG.

Definition team : GroupDoc.t :=
  GroupDoc.mk Sample.general "General" "Everything" Sample.alice []
    [Member.mk Sample.alice 100 "member"] "general" false 2 0 false.

Definition s0 : GDb :=
  mkGDb [team]
        [User.mk Sample.alice "Alice" [Sample.general];
         User.mk Sample.bob "Bob" [];
         User.mk Sample.carol "Carol" []].

(** The same after Bob joined at time 200. *)
Definition team_bob : GroupDoc.t := with_member Sample.bob 200 team.

Definition s_bob : GDb :=
  rewritten s0 team_bob Sample.bob (addToSet_joinedGroups Sample.general).

End SampleG.

(* ------------------------------------------------------------------ *)
(** ** Vocabulary for posts *)

(** The next character, if any, is not of the hashtag class. *)
Definition boundary (post : string) : Prop :=
  match post with
  | EmptyString => True
  | String c _ => Str.is_word c = false
  end.

(** [w] is written as a hashtag in [s]: right after a [#], a non-empty
    run of class characters that cannot be extended. *)
Definition tagged (s w : string) : Prop :=
  exists pre post,
    s = (pre ++ String Str.hash (w ++ post))%string
    /\ w <> EmptyString
    /\ all_chars Str.is_word w = true
    /\ boundary post.

(** Lower-case letters, digits and the underscore. *)
Definition is_tag_char (c : ascii) : bool :=
  let n := nat_of_ascii c in
  (Nat.leb 97 n && Nat.leb n 122) || (Nat.leb 48 n && Nat.leb n 57)
  || Nat.eqb n 95.

Definition post_at (s : PDb) (id : ObjectId) : option PostDoc.t :=
  List.find (fun p => String.eqb (PostDoc._id p) id) (posts s).

Definition account_at (s : PDb) (id : ObjectId) : option UserDoc.t :=
  List.find (fun u => String.eqb (UserDoc._id u) id) (accounts s).

(** The state after the post [p'], or the user [a'], was written back. *)
Definition with_post (s : PDb) (p' : PostDoc.t) : PDb :=
  mkPDb (update_first (fun p => String.eqb (PostDoc._id p) (PostDoc._id p'))
           (fun _ => p') (posts s))
        (accounts s).

Definition with_account (s : PDb) (a' : UserDoc.t) : PDb :=
  mkPDb (posts s)
        (update_first (fun u => String.eqb (UserDoc._id u) (UserDoc._id a'))
           (fun _ => a') (accounts s)).

(** The user after notification [n] arrived. *)
Definition notified (n : Notification.t) (a : UserDoc.t) : UserDoc.t :=
  UserDoc.set_notifications (List.firstn 50 (n :: UserDoc.notifications a)) a.

Definition like_notice (user : UserDoc.t) (p : PostDoc.t) : Notification.t :=
  Notification.mk "like" (UserDoc._id user) (Some (PostDoc._id p))
    (String.append (UserDoc.name user) " liked your post").

(** The requests of the post routes, and a session of them. *)
Inductive PCall : Type :=
| Create (user : UserDoc.t) (title description : string)
    (link groupId : option string) (fresh : ObjectId)
| Put (user : UserDoc.t) (id : ObjectId) (title description link : option string)
| DeletePost (user : UserDoc.t) (id : ObjectId)
| Like (user : UserDoc.t) (id : ObjectId)
| CommentOn (user : UserDoc.t) (id : ObjectId) (content : string).

Definition prun (isURL : string -> bool) (c : PCall) (s : PDb)
    : Outcome PResponse * PDb :=
  match c with
  | Create user title description link groupId fresh =>
      create_post isURL user title description link groupId fresh s
  | Put user id title description link =>
      put_post isURL user id title description link s
  | DeletePost user id => delete_post user id s
  | Like user id => post_like user id s
  | CommentOn user id content => post_comment user id content s
  end.

Fixpoint prun_all (isURL : string -> bool) (cs : list PCall) (s : PDb) : PDb :=
  match cs with
  | [] => s
  | c :: cs' => prun_all isURL cs' (snd (prun isURL c s))
  end.

(** A post, and a user, as the collection should hold them. *)
Definition post_ok (p : PostDoc.t) : Prop :=
  PostDoc.validate p = true /\ NoDup (PostDoc.likes p).

Definition account_ok (a : UserDoc.t) : Prop :=
  UserDoc.validate a = true /\ List.length (UserDoc.notifications a) <= 50.

Definition pstore_ok (s : PDb) : Prop :=
  NoDup (List.map PostDoc._id (posts s))
  /\ Forall post_ok (posts s)
  /\ NoDup (List.map UserDoc._id (accounts s))
  /\ Forall account_ok (accounts s).

(** [c] keeps the collections well-formed, and a value it returns
    satisfies [Q]. *)
Definition keeps {A : Type} (c : St PDb A) (Q : A -> Prop) : Prop :=
  forall s, pstore_ok s ->
    pstore_ok (snd (c s))
    /\ match fst (c s) with Return a => Q a | Throw _ => True end.

Module SampleP.

Definition a_alice : UserDoc.t := UserDoc.mk Sample.alice "Alice" "user" [].
Definition a_bob : UserDoc.t := UserDoc.mk Sample.bob "Bob" "user" [].
Definition a_carol : UserDoc.t := UserDoc.mk Sample.carol "Carol" "admin" [].

Definition p1 : ObjectId := "64b0000000000000000000f1".
Definition p2 : ObjectId := "64b0000000000000000000f2".

(** Alice's post, as [save] stores it. *)
Definition hello : PostDoc.t :=
  PostDoc.pre_save true
    (newPost p1 Sample.alice "Hello" "First #Post of the #team" None None).

Definition s0 : PDb := mkPDb [hello] [a_alice; a_bob; a_carol].

Definition accept_all : string -> bool := fun _ => true.

Definition session : list PCall :=
  [Create a_bob " News " "Some #news, #News and #more_news" None None p2;
   Like a_bob p1;
   CommentOn a_carol p1 " nice ";
   Put a_alice p1 None (Some "Now about #cats") None;
   Like a_bob p1;
   DeletePost a_carol p2].

End SampleP.

(** The post after an edit with the given (optional) fields: nothing
    else is touched. *)
Definition edited_post (t d l : option string) (p : PostDoc.t) : PostDoc.t :=
  PostDoc.mk (PostDoc._id p) (PostDoc.author p)
    (default_to t (PostDoc.title p)) (default_to d (PostDoc.description p))
    (match l with Some v => Some v | None => PostDoc.link p end)
    (PostDoc.hashtags p) (PostDoc.likes p) (PostDoc.comments p)
    (PostDoc.group p) (PostDoc.isDeleted p).

(** The post with the like of [u] added, and taken away. *)
Definition liked_by (u : ObjectId) (p : PostDoc.t) : PostDoc.t :=
  PostDoc.set_likes (PostDoc.likes p ++ [u]) p.

Definition unliked_by (u : ObjectId) (p : PostDoc.t) : PostDoc.t :=
  PostDoc.set_likes
    (splice1 (Z.to_nat (indexOf (PostDoc.likes p) u)) (PostDoc.likes p)) p.

Definition commented (u : ObjectId) (content : string) (p : PostDoc.t)
    : PostDoc.t :=
  PostDoc.set_comments (PostDoc.comments p ++ [Comment.mk u content]) p.

Definition comment_notice (user : UserDoc.t) (p : PostDoc.t) : Notification.t :=
  Notification.mk "comment" (UserDoc._id user) (Some (PostDoc._id p))
    (String.append (UserDoc.name user) " commented on your post").

Definition not_found : PResponse := mkPResponse 404 (PMessage "Post not found").

(* ------------------------------------------------------------------ *)
(** ** Vocabulary for the socket hub *)

Definition profile_at (h : Hub) (id : ObjectId) : option Profile.t :=
  List.find (fun u => String.eqb (Profile._id u) id) (profiles h).

(** Every entry of the registry is filed under the id of its user, once. *)
Definition registered (h : Hub) : Prop :=
  NoDup (List.map fst (connectedUsers h))
  /\ Forall (fun e => fst e = Profile._id (conn_user (snd e))) (connectedUsers h).

Definition sock_of (r : Handled) : Sock := fst (fst r).
Definition hub_of (r : Handled) : Hub := snd (fst r).
Definition signals_of (r : Handled) : list Signal := snd r.

(** A signal that leaves the socket: to a room or to everybody else. *)
Definition outbound (g : Signal) : bool :=
  match target g with
  | ToSelf => false
  | _ => true
  end.

(** A socket that has not authenticated. *)
Definition anonymous (k : Sock) : Prop := sock_userId k = None.

Module SampleH.

Definition dave : Profile.t :=
  Profile.mk Sample.alice "Alice" [Sample.general] false 0.
Definition erin : Profile.t := Profile.mk Sample.bob "Bob" [] false 0.

Definition h0 : Hub := mkHub [] [dave; erin] [SampleG.team].

Definition k1 : Sock := mkSock "socket-1" None None [].
Definition k2 : Sock := mkSock "socket-2" None None [].

(** A token check that takes the token for the user id. *)
Definition verify (t : string) : option (option ObjectId) :=
  if String.eqb t "bad" then None else Some (Some t).

End SampleH.

(** The events a client can send on a socket, apart from the message
    events, and their dispatch. *)
Inductive Ev : Type :=
| EvAuthenticate (token : option string) (now : Date)
| EvJoinGroup (groupId : option string)
| EvLeaveGroup (groupId : option string)
| EvTypingStart (conversationId groupId recipientId : option string)
| EvTypingStop (conversationId groupId recipientId : option string)
| EvUpdateStatus (status : option string) (now : Date)
| EvSendNotification (recipientId notification : option string)
| EvCallUser (recipientId callType offer : option string)
| EvAnswerCall (callerId answer : option string)
| EvEndCall (recipientId : option string)
| EvDisconnect (now : Date).

Definition handle (verify : string -> option (option ObjectId)) (e : Ev)
    (k : Sock) (h : Hub) : Handled :=
  match e with
  | EvAuthenticate token now => authenticate verify token now k h
  | EvJoinGroup g => join_group g k h
  | EvLeaveGroup g => leave_group g k h
  | EvTypingStart c g r => typing_start c g r k h
  | EvTypingStop c g r => typing_stop c g r k h
  | EvUpdateStatus st now => update_status st now k h
  | EvSendNotification r n => send_notification r n k h
  | EvCallUser r t o => call_user r t o k h
  | EvAnswerCall c a => answer_call c a k h
  | EvEndCall r => end_call r k h
  | EvDisconnect now => disconnect now k h
  end.

(** A session on one socket: the final socket and hub and all signals
    sent, in order. *)
Fixpoint handle_all (verify : string -> option (option ObjectId)) (es : list Ev)
    (k : Sock) (h : Hub) : Handled :=
  match es with
  | [] => (k, h, [])
  | e :: es' =>
      let r := handle verify e k h in
      let r' := handle_all verify es' (sock_of r) (hub_of r) in
      (sock_of r', hub_of r', signals_of r ++ signals_of r')
  end.

(** The token of an authentication attempt is refused. *)
Definition refused (verify : string -> option (option ObjectId)) (h : Hub)
    (e : Ev) : Prop :=
  match e with
  | EvAuthenticate token _ =>
      match truthy token with
      | None => True
      | Some t =>
          match verify t with
          | None => True
          | Some None => True
          | Some (Some id) => profile_at h id = None
          end
      end
  | _ => True
  end.

(** The signals an unauthenticated socket can have relayed. *)
Definition relayed (g : Signal) : Prop :=
  exists r, target g = ToRoom (user_room r)
    /\ (signal g = "new_notification"
        \/ (In ("from", VUndefined) (data g)
            /\ (signal g = "call_answered" \/ signal g = "call_ended"))).


(* ------------------------------------------------------------------ *)
(** ** Vocabulary for following *)


(** [f] applied to the user [id], the others untouched. *)
Definition at_user (id : ObjectId) (f : Account.t -> Account.t) (s : FDb) : FDb :=
  List.map (fun u => if String.eqb (Account._id u) id then f u else u) s.

(** Who follows whom is recorded on both sides alike. *)
Definition mutual (s : FDb) : Prop :=
  forall a b, In a s -> In b s ->
    (In (Account._id b) (Account.following a)
     <-> In (Account._id a) (Account.followers b)).


(** The three writes of a follow request. *)
Definition now_following (id : ObjectId) (u : Account.t) : Account.t :=
  Account.set_following (Account.following u ++ [id]) u.
Definition followed_by (uid : ObjectId) (u : Account.t) : Account.t :=
  Account.set_followers (addToSet uid (Account.followers u)) u.

Module SampleF.
Definition ann : Account.t := Account.mk Sample.alice "Alice" [] [] [].
Definition ben : Account.t := Account.mk Sample.bob "Bob" [] [] [].
Definition s0 : FDb := [ann; ben].
End SampleF.
(* ================================================================== *)
(** * Properties *)

(** ** Conversation key *)

Example sort_example : Js.sort ["b1"; "a1"] = ["a1"; "b1"].
Proof. reflexivity. Qed.

Example join_example : Js.join "_" ["a1"; "b1"] = "a1_b1".
Proof. reflexivity. Qed.

Example trim_example : Js.trim "  hello world  " = "hello world".
Proof. reflexivity. Qed.

Example conversationId_example :
  conversationId "b1" "a1" = "a1_b1" /\ conversationId "a1" "a1" = "a1_a1".
Proof. split; reflexivity. Qed.

Lemma sort_pair (a b : string) :
  Js.sort [a; b] = if String.leb a b then [a; b] else [b; a].
Proof. reflexivity. Qed.

Lemma conversationId_unfold (a b : ObjectId) :
  conversationId a b =
  if String.leb a b then (a ++ "_" ++ b)%string else (b ++ "_" ++ a)%string.
Proof.
  unfold conversationId, toString. rewrite sort_pair.
  destruct (String.leb a b); reflexivity.
Qed.

Lemma conversationId_comm (a b : ObjectId) :
  conversationId a b = conversationId b a.
Proof.
  rewrite !conversationId_unfold.
  destruct (String.leb a b) eqn:Hab, (String.leb b a) eqn:Hba; try reflexivity.
  - rewrite (String.leb_antisym _ _ Hab Hba). reflexivity.
  - destruct (String.leb_total a b); congruence.
Qed.

(** C1. The conversation key of a pair of user ids does not depend on the
    order of the pair, the self pair included; it is the two canonical id
    strings in lexicographic order joined by ["_"]; and it is the key the
    pre-save hook stores on a direct message, whichever of the two users
    is the sender. *)
Theorem conversation_key_symmetric_sorted (a b : ObjectId) :
  conversationId a b = conversationId b a
  /\ (exists lo hi : string,
        Js.sort [toString a; toString b] = [lo; hi]
        /\ Permutation [lo; hi] [toString a; toString b]
        /\ String.leb lo hi = true
        /\ conversationId a b = (lo ++ "_" ++ hi)%string)
  /\ (forall (f1 f2 : ObjectId) (t1 t2 : Date) (c1 c2 ty1 ty2 : string)
             (r1 r2 : option ObjectId),
        conversation (pre_save true (newMessage f1 t1 a (Some b) None c1 ty1 r1))
        = Some (conversationId a b)
        /\ conversation (pre_save true (newMessage f1 t1 a (Some b) None c1 ty1 r1))
           = conversation (pre_save true (newMessage f2 t2 b (Some a) None c2 ty2 r2))).
Proof.
  split; [apply conversationId_comm|]. split.
  - unfold toString. rewrite conversationId_unfold, sort_pair.
    destruct (String.leb a b) eqn:Hab.
    + exists a, b. repeat split; auto.
    + exists b, a. repeat split; auto using perm_swap.
      destruct (String.leb_total a b); congruence.
  - intros. cbn. split; [reflexivity|].
    f_equal. apply conversationId_comm.
Qed.

(* ------------------------------------------------------------------ *)
(** ** Stored documents and [save] *)

Lemma findById_stored (id : ObjectId) (db : Db) :
  findById id db = (Return (stored db id), db).
Proof. reflexivity. Qed.

Lemma stored_id (db : Db) (id : ObjectId) (m : Message) :
  stored db id = Some m -> _id m = id.
Proof.
  unfold stored. intros H. apply List.find_some in H.
  destruct H as [_ H]. now apply String.eqb_eq in H.
Qed.

Lemma stored_has_id (db : Db) (id : ObjectId) (m : Message) :
  stored db id = Some m -> has_id id (messages db) = true.
Proof.
  unfold stored, has_id. intros H. apply List.find_some in H.
  apply existsb_exists. exists m. exact H.
Qed.

Lemma find_replace_doc (d : Message) (l : list Message) :
  has_id (_id d) l = true ->
  List.find (fun m => String.eqb (_id m) (_id d)) (replace_doc d l) = Some d.
Proof.
  unfold has_id. induction l as [|x l IH]; simpl; [discriminate|].
  destruct (String.eqb (_id x) (_id d)) eqn:E; simpl.
  - intros _. now rewrite String.eqb_refl.
  - rewrite E. exact IH.
Qed.

Lemma find_replace_doc_other (d : Message) (id : ObjectId) (l : list Message) :
  id <> _id d ->
  List.find (fun m => String.eqb (_id m) id) (replace_doc d l)
  = List.find (fun m => String.eqb (_id m) id) l.
Proof.
  intros Hne. induction l as [|x l IH]; simpl; [reflexivity|].
  destruct (String.eqb (_id x) (_id d)) eqn:E; simpl.
  - apply String.eqb_eq in E.
    assert (String.eqb (_id d) id = false) as ->
      by (apply String.eqb_neq; congruence).
    assert (String.eqb (_id x) id = false) as ->
      by (apply String.eqb_neq; congruence).
    reflexivity.
  - now rewrite IH.
Qed.

Lemma replace_doc_length (d : Message) (l : list Message) :
  List.length (replace_doc d l) = List.length l.
Proof.
  induction l as [|x l IH]; simpl; [reflexivity|].
  destruct (String.eqb (_id x) (_id d)); simpl; congruence.
Qed.

Lemma pre_save_frame (cm : bool) (m : Message) :
  _id (pre_save cm m) = _id m
  /\ sender (pre_save cm m) = sender m
  /\ content (pre_save cm m) = content m
  /\ type (pre_save cm m) = type m
  /\ group (pre_save cm m) = group m
  /\ recipient (pre_save cm m) = recipient m
  /\ reactions (pre_save cm m) = reactions m
  /\ readBy (pre_save cm m) = readBy m
  /\ edited (pre_save cm m) = edited m
  /\ isDeleted (pre_save cm m) = isDeleted m
  /\ createdAt (pre_save cm m) = createdAt m.
Proof.
  unfold pre_save. destruct m as [i s c t a g r cv rt rs rb e d da mn ls ca].
  destruct g, r, cm; cbn; repeat split; reflexivity.
Qed.

Lemma pre_save_validate (cm : bool) (m : Message) :
  validate (pre_save cm m) = validate m.
Proof.
  unfold validate.
  destruct (pre_save_frame cm m) as (_ & _ & -> & -> & _). reflexivity.
Qed.

Lemma pre_save_id (cm : bool) (m : Message) : _id (pre_save cm m) = _id m.
Proof. apply pre_save_frame. Qed.

(** Saving a valid document that is in the collection succeeds and
    stores the document as the hook left it. *)
Lemma save_existing (cm : bool) (this : Message) (db : Db) :
  validate this = true ->
  has_id (_id this) (messages db) = true ->
  save false cm this db
  = (Return (pre_save cm this),
     set_messages (replace_doc (pre_save cm this) (messages db)) db).
Proof.
  intros Hv Hid. unfold save. rewrite Hv.
  unfold bind, get, put, ret. rewrite pre_save_id, Hid. reflexivity.
Qed.

Lemma stored_after_replace (d : Message) (db : Db) :
  has_id (_id d) (messages db) = true ->
  stored (set_messages (replace_doc d (messages db)) db) (_id d) = Some d.
Proof. intros H. unfold stored. cbn. now apply find_replace_doc. Qed.

(* ------------------------------------------------------------------ *)
(** ** Read receipts *)

Lemma existsb_filter_length {A : Type} (p : A -> bool) (l : list A) :
  existsb p l = negb (Nat.eqb (List.length (List.filter p l)) 0).
Proof.
  induction l as [|x l IH]; simpl; [reflexivity|].
  destruct (p x); simpl; [reflexivity | exact IH].
Qed.

Lemma readBy_has_count (u : ObjectId) (m : Message) :
  readBy_has u m = negb (Nat.eqb (readBy_count u m) 0).
Proof. apply existsb_filter_length. Qed.

Lemma marked_readBy (u : ObjectId) (now : Date) (this : Message) :
  readBy (marked u now this) = readBy this ++ [ReadReceipt.mk u now].
Proof.
  unfold marked.
  destruct (pre_save_frame false
              (set_readBy (readBy this ++ [ReadReceipt.mk u now]) this))
    as (_ & _ & _ & _ & _ & _ & _ & H & _).
  exact H.
Qed.

Lemma marked_count (u : ObjectId) (now : Date) (this : Message) :
  readBy_count u (marked u now this) = S (readBy_count u this).
Proof.
  unfold readBy_count. rewrite marked_readBy, List.filter_app, List.length_app.
  simpl. rewrite String.eqb_refl. simpl. lia.
Qed.

Lemma markAsRead_already (u : ObjectId) (now : Date) (this : Message) (db : Db) :
  readBy_has u this = true ->
  markAsRead u now this db = (Return this, db).
Proof.
  intros H. unfold markAsRead, Js.some, toString.
  unfold readBy_has in H. rewrite H. reflexivity.
Qed.

Lemma markAsRead_fresh (u : ObjectId) (now : Date) (this : Message) (db : Db) :
  readBy_has u this = false ->
  validate this = true ->
  has_id (_id this) (messages db) = true ->
  markAsRead u now this db
  = (Return (marked u now this),
     set_messages (replace_doc (marked u now this) (messages db)) db).
Proof.
  intros H Hv Hid. unfold markAsRead, Js.some, toString, Js.push.
  unfold readBy_has in H. rewrite H. cbn [negb].
  apply save_existing; [exact Hv | exact Hid].
Qed.

Lemma mark_as_read_stored (u id : ObjectId) (g : option ObjectId) (now : Date)
    (this : Message) (db : Db) (r : Message) (db' : Db) :
  stored db id = Some this ->
  markAsRead u now this db = (Return r, db') ->
  exists ev, mark_as_read (mkSocket (Some u)) id g now db = (Return ev, db').
Proof.
  intros Hs Hm. unfold mark_as_read, try_catch, bind. cbn [userId].
  rewrite findById_stored, Hs, Hm.
  destruct g; cbn; eauto.
Qed.

(** C6. Marking a stored message as read twice for the same user (through
    the [mark_as_read] event, which loads the message by id and calls
    [markAsRead]) succeeds both times; the second call changes nothing;
    an entry is appended by the first call exactly when the user had none,
    and otherwise the message and the database stay as they were. The
    user's entries afterwards number one, or as many as before when there
    were already some: exactly one whenever the message had at most one,
    as the schema's one-entry-per-user invariant says. *)
Theorem markAsRead_idempotent (db : Db) (id u : ObjectId) (g : option ObjectId)
    (t1 t2 : Date) (this : Message) :
  stored db id = Some this ->
  validate this = true ->
  exists (this1 : Message) (db1 : Db) (ev1 ev2 : list Emit),
    mark_as_read (mkSocket (Some u)) id g t1 db = (Return ev1, db1)
    /\ markAsRead u t1 this db = (Return this1, db1)
    /\ stored db1 id = Some this1
    /\ mark_as_read (mkSocket (Some u)) id g t2 db1 = (Return ev2, db1)
    /\ markAsRead u t2 this1 db1 = (Return this1, db1)
    /\ readBy_count u this1 = Nat.max 1 (readBy_count u this)
    /\ (readBy_count u this <= 1 -> readBy_count u this1 = 1)
    /\ (readBy_count u this = 0 ->
        readBy this1 = readBy this ++ [ReadReceipt.mk u t1])
    /\ (readBy_count u this <> 0 -> this1 = this /\ db1 = db).
Proof.
  intros Hs Hv.
  pose proof (stored_id _ _ _ Hs) as Hid.
  pose proof (stored_has_id _ _ _ Hs) as Hhas. rewrite <- Hid in Hhas.
  destruct (readBy_has u this) eqn:Hr.
  - (* already read: nothing happens, twice *)
    pose proof (markAsRead_already u t1 this db Hr) as H1.
    pose proof (markAsRead_already u t2 this db Hr) as H2.
    destruct (mark_as_read_stored u id g t1 this db this db Hs H1) as [ev1 E1].
    destruct (mark_as_read_stored u id g t2 this db this db Hs H2) as [ev2 E2].
    rewrite readBy_has_count in Hr.
    destruct (readBy_count u this) as [|n] eqn:Hc; [discriminate|].
    exists this, db, ev1, ev2.
    repeat split; auto; try lia.
  - (* first call appends and saves; second finds the entry *)
    pose proof (markAsRead_fresh u t1 this db Hr Hv Hhas) as H1.
    set (this1 := marked u t1 this) in *.
    set (db1 := set_messages (replace_doc this1 (messages db)) db) in *.
    assert (Hid1 : _id this1 = _id this).
    { unfold this1, marked. now rewrite pre_save_id. }
    assert (Hs1 : stored db1 id = Some this1).
    { rewrite <- Hid, <- Hid1. apply stored_after_replace. now rewrite Hid1. }
    assert (Hr1 : readBy_has u this1 = true).
    { rewrite readBy_has_count. unfold this1. now rewrite marked_count. }
    pose proof (markAsRead_already u t2 this1 db1 Hr1) as H2.
    destruct (mark_as_read_stored u id g t1 this db this1 db1 Hs H1) as [ev1 E1].
    destruct (mark_as_read_stored u id g t2 this1 db1 this1 db1 Hs1 H2) as [ev2 E2].
    rewrite readBy_has_count in Hr.
    destruct (readBy_count u this) as [|n] eqn:Hc; [|discriminate].
    exists this1, db1, ev1, ev2.
    assert (Hc1 : readBy_count u this1 = 1).
    { unfold this1. rewrite marked_count. now rewrite Hc. }
    repeat split; auto; try lia.
    all: try (intros _; apply marked_readBy); congruence.
Qed.

Lemma markAsRead_idempotent_witness :
  stored Sample.db0 Sample.d1 = Some (Sample.direct Sample.d1 1000 Sample.bob Sample.alice "one")
  /\ exists (this1 : Message) (db1 : Db),
       markAsRead Sample.alice 5000 (Sample.direct Sample.d1 1000 Sample.bob Sample.alice "one")
         Sample.db0 = (Return this1, db1)
       /\ markAsRead Sample.alice 6000 this1 db1 = (Return this1, db1)
       /\ readBy_count Sample.alice this1 = 1.
Proof.
  split; [reflexivity|].
  destruct (markAsRead_idempotent Sample.db0 Sample.d1 Sample.alice None 5000 6000
              (Sample.direct Sample.d1 1000 Sample.bob Sample.alice "one")
              eq_refl eq_refl)
    as (this1 & db1 & ev1 & ev2 & _ & H1 & _ & _ & H2 & _ & H3 & _).
  exists this1, db1. repeat split; auto.
Defined.

(* ------------------------------------------------------------------ *)
(** ** Reactions *)

Lemma filter_negb_length {A : Type} (p : A -> bool) (l : list A) :
  List.length (List.filter (fun x => negb (p x)) l)
  + List.length (List.filter p l) = List.length l.
Proof.
  induction l as [|x l IH]; simpl; [reflexivity|].
  destruct (p x); simpl; lia.
Qed.

Lemma filter_negb_none {A : Type} (p : A -> bool) (l : list A) :
  List.length (List.filter p l) = 0 ->
  List.filter (fun x => negb (p x)) l = l.
Proof.
  induction l as [|x l IH]; simpl; [reflexivity|].
  destruct (p x); simpl; [discriminate|]. intros H. now rewrite IH.
Qed.

Lemma filter_filter_negb {A : Type} (p : A -> bool) (l : list A) :
  List.filter p (List.filter (fun x => negb (p x)) l) = [].
Proof.
  induction l as [|x l IH]; simpl; [reflexivity|].
  destruct (p x) eqn:E; simpl; [exact IH|]. now rewrite E.
Qed.

Lemma find_filter_length {A : Type} (p : A -> bool) (l : list A) :
  (List.find p l = None <-> List.length (List.filter p l) = 0).
Proof.
  induction l as [|x l IH]; simpl; [tauto|].
  destruct (p x); simpl; [split; discriminate | exact IH].
Qed.

Lemma reacted_reactions (u : ObjectId) (e : string) (now : Date) (this : Message) :
  reactions (reacted u e now this) = reactions this ++ [Reaction.mk u e now].
Proof.
  unfold reacted.
  destruct (pre_save_frame false
              (set_reactions (reactions this ++ [Reaction.mk u e now]) this))
    as (_ & _ & _ & _ & _ & _ & H & _).
  exact H.
Qed.

Lemma unreacted_reactions (u : ObjectId) (e : string) (this : Message) :
  reactions (unreacted u e this)
  = List.filter (fun r => negb (String.eqb (Reaction.user r) u
                                && String.eqb (Reaction.emoji r) e))
      (reactions this).
Proof.
  unfold unreacted.
  match goal with
  | |- reactions (pre_save false ?m) = _ =>
      destruct (pre_save_frame false m) as (_ & _ & _ & _ & _ & _ & H & _)
  end.
  exact H.
Qed.

Lemma reacted_count (u : ObjectId) (e : string) (now : Date) (this : Message) :
  reaction_count u e (reacted u e now this) = S (reaction_count u e this).
Proof.
  unfold reaction_count. rewrite reacted_reactions, List.filter_app, List.length_app.
  simpl. rewrite !String.eqb_refl. simpl. lia.
Qed.

Lemma addReaction_present (u : ObjectId) (e : string) (now : Date)
    (this : Message) (db : Db) :
  reaction_count u e this <> 0 ->
  addReaction u e now this db = (Return (this, false), db).
Proof.
  intros H. unfold addReaction, Js.find, toString.
  destruct (List.find _ (reactions this)) eqn:F; [reflexivity|].
  apply find_filter_length in F. contradiction.
Qed.

Lemma addReaction_absent (u : ObjectId) (e : string) (now : Date)
    (this : Message) (db : Db) :
  reaction_count u e this = 0 ->
  validate this = true ->
  has_id (_id this) (messages db) = true ->
  addReaction u e now this db
  = (Return (reacted u e now this, true),
     set_messages (replace_doc (reacted u e now this) (messages db)) db).
Proof.
  intros H Hv Hid. unfold addReaction, Js.find, toString, Js.push.
  apply find_filter_length in H. rewrite H.
  unfold bind. rewrite save_existing; [reflexivity | exact Hv | exact Hid].
Qed.

Lemma removeReaction_stored (u : ObjectId) (e : string) (this : Message) (db : Db) :
  validate this = true ->
  has_id (_id this) (messages db) = true ->
  removeReaction u e this db
  = (Return (unreacted u e this),
     set_messages (replace_doc (unreacted u e this) (messages db)) db).
Proof.
  intros Hv Hid. unfold removeReaction, Js.filter, toString.
  apply save_existing; [exact Hv | exact Hid].
Qed.

(** C7 (amended). On a stored message, a first [addReaction] reports
    [true] exactly when the user did not yet hold that reaction; a second
    [addReaction] with the same user and emoji reports [false] and leaves
    the message and the database as they are, so no duplicate is inserted;
    a [removeReaction] afterwards leaves no such reaction, and it gives
    back the reaction list (hence the count) the message had before the
    add when that add reported [true]. When the add reported [false], the
    reaction was there before and the remove takes it away. *)
Theorem addReaction_twice_then_remove (db : Db) (id u : ObjectId) (e : string)
    (t1 t2 : Date) (this : Message) :
  stored db id = Some this ->
  validate this = true ->
  exists (this1 : Message) (added : bool) (db1 : Db) (this2 : Message) (db2 : Db),
    addReaction u e t1 this db = (Return (this1, added), db1)
    /\ added = Nat.eqb (reaction_count u e this) 0
    /\ stored db1 id = Some this1
    /\ addReaction u e t2 this1 db1 = (Return (this1, false), db1)
    /\ reaction_count u e this1 = Nat.max 1 (reaction_count u e this)
    /\ removeReaction u e this1 db1 = (Return this2, db2)
    /\ stored db2 id = Some this2
    /\ reaction_count u e this2 = 0
    /\ (added = true ->
        reactions this2 = reactions this
        /\ List.length (reactions this2) = List.length (reactions this))
    /\ (added = false ->
        List.length (reactions this2) + reaction_count u e this
        = List.length (reactions this)).
Proof.
  intros Hs Hv.
  pose proof (stored_id _ _ _ Hs) as Hid.
  pose proof (stored_has_id _ _ _ Hs) as Hhas. rewrite <- Hid in Hhas.
  assert (Hun : forall m, reaction_count u e (unreacted u e m) = 0).
  { intros m. unfold reaction_count. rewrite unreacted_reactions.
    now rewrite (filter_filter_negb
                   (fun r => String.eqb (Reaction.user r) u
                             && String.eqb (Reaction.emoji r) e)). }
  assert (Hunid : forall m, _id (unreacted u e m) = _id m).
  { intros m. unfold unreacted. now rewrite pre_save_id. }
  destruct (reaction_count u e this) as [|n] eqn:Hc.
  - (* absent: added, then refused, then removed again *)
    pose proof (addReaction_absent u e t1 this db Hc Hv Hhas) as H1.
    set (this1 := reacted u e t1 this) in *.
    set (db1 := set_messages (replace_doc this1 (messages db)) db) in *.
    assert (Hid1 : _id this1 = _id this).
    { unfold this1, reacted. now rewrite pre_save_id. }
    assert (Hs1 : stored db1 id = Some this1).
    { rewrite <- Hid, <- Hid1. apply stored_after_replace. now rewrite Hid1. }
    assert (Hc1 : reaction_count u e this1 = 1).
    { unfold this1. rewrite reacted_count. now rewrite Hc. }
    assert (Hv1 : validate this1 = true).
    { unfold this1, reacted. now rewrite pre_save_validate. }
    pose proof (stored_has_id _ _ _ Hs1) as Hhas1.
    rewrite <- Hid, <- Hid1 in Hhas1.
    exists this1, true, db1, (unreacted u e this1),
      (set_messages (replace_doc (unreacted u e this1) (messages db1)) db1).
    assert (Hback : reactions (unreacted u e this1) = reactions this).
    { rewrite unreacted_reactions. unfold this1. rewrite reacted_reactions.
      rewrite List.filter_app. simpl. rewrite !String.eqb_refl. simpl.
      rewrite List.app_nil_r.
      apply (filter_negb_none
               (fun r => String.eqb (Reaction.user r) u
                         && String.eqb (Reaction.emoji r) e)).
      exact Hc. }
    repeat split; auto.
    + apply addReaction_present. rewrite Hc1. discriminate.
    + now apply removeReaction_stored.
    + rewrite <- Hid, <- Hid1, <- (Hunid this1).
      apply stored_after_replace. now rewrite Hunid.
    + now rewrite Hback.
    + discriminate.
  - (* present: both adds are refused, the remove takes the reaction away *)
    assert (Hne : reaction_count u e this <> 0) by (rewrite Hc; discriminate).
    exists this, false, db, (unreacted u e this),
      (set_messages (replace_doc (unreacted u e this) (messages db)) db).
    repeat split; auto.
    + now apply addReaction_present.
    + now apply addReaction_present.
    + now apply removeReaction_stored.
    + rewrite <- Hid, <- (Hunid this).
      apply stored_after_replace. now rewrite Hunid.
    + discriminate.
    + discriminate.
    + intros _. rewrite unreacted_reactions. rewrite <- Hc. unfold reaction_count.
      apply filter_negb_length.
Qed.

Lemma addReaction_twice_then_remove_witness :
  stored Sample.db0 Sample.d1
  = Some (Sample.direct Sample.d1 1000 Sample.bob Sample.alice "one")
  /\ exists (this1 : Message) (db1 : Db) (this2 : Message) (db2 : Db),
       addReaction Sample.alice "+1" 5000
         (Sample.direct Sample.d1 1000 Sample.bob Sample.alice "one") Sample.db0
       = (Return (this1, true), db1)
       /\ addReaction Sample.alice "+1" 6000 this1 db1 = (Return (this1, false), db1)
       /\ removeReaction Sample.alice "+1" this1 db1 = (Return this2, db2)
       /\ List.length (reactions this2) = 0.
Proof.
  split; [reflexivity|].
  destruct (addReaction_twice_then_remove Sample.db0 Sample.d1 Sample.alice "+1"
              5000 6000
              (Sample.direct Sample.d1 1000 Sample.bob Sample.alice "one")
              eq_refl eq_refl)
    as (this1 & added & db1 & this2 & db2 & H1 & Ha & _ & H2 & _ & H3 & _ & _ & H4 & _).
  change (added = true) in Ha. subst added.
  exists this1, db1, this2, db2. repeat split; auto.
  destruct (H4 eq_refl) as [_ ->]. reflexivity.
Defined.

(** The message [Sample.liked] already carries Bob's reaction: the add is
    refused, the remove deletes the reaction, and the count drops from one
    to zero. *)
Lemma remove_after_add_restores_count_counterexample :
  ~ remove_after_add_restores_count.
Proof.
  intros H.
  specialize (H Sample.db_liked Sample.d1 Sample.bob "+1"%string 2000%Z
                Sample.liked Sample.liked false Sample.db_liked
                (unreacted Sample.bob "+1" Sample.liked)
                (set_messages
                   (replace_doc (unreacted Sample.bob "+1" Sample.liked)
                      (messages Sample.db_liked)) Sample.db_liked)
                eq_refl eq_refl eq_refl eq_refl).
  vm_compute in H. discriminate H.
Qed.

(* ------------------------------------------------------------------ *)
(** ** Editing *)

Lemma isLength_nonempty (hi : nat) (c : string) :
  isLength 1 hi c = true -> String.eqb c "" = false.
Proof.
  unfold isLength. destruct c; simpl; [discriminate | reflexivity].
Qed.

Lemma validate_content_type (c : string) (m m' : Message) :
  validate m = true ->
  isLength 1 2000 c = true ->
  content m' = c ->
  type m' = type m ->
  validate m' = true.
Proof.
  unfold validate. intros Hv Hl -> ->.
  rewrite (isLength_nonempty _ _ Hl).
  unfold isLength in Hl.
  apply andb_true_iff in Hl as [_ Hl]. rewrite Hl.
  apply andb_true_iff in Hv as [_ Hv]. rewrite Hv. reflexivity.
Qed.

Lemma validate_new_content (c : string) (e : Edited) (m : Message) :
  validate m = true ->
  isLength 1 2000 c = true ->
  validate (set_edited e (set_content c m)) = true.
Proof.
  intros Hv Hl. now apply (validate_content_type c m).
Qed.

Lemma edited_doc_frame (c : string) (now : Date) (this : Message) :
  _id (edited_doc c now this) = _id this
  /\ content (edited_doc c now this) = c
  /\ edited (edited_doc c now this)
     = mkEdited true (Some now)
         (if isEdited (edited this) then originalContent (edited this)
          else Some (content this)).
Proof.
  unfold edited_doc.
  match goal with
  | |- context [pre_save ?cm ?m] =>
      destruct (pre_save_frame cm m)
        as (H1 & _ & H2 & _ & _ & _ & _ & _ & H3 & _)
  end.
  rewrite H1, H2, H3. cbn. repeat split; reflexivity.
Qed.

Lemma editContent_stored (c : string) (now : Date) (this : Message) (db : Db) :
  validate this = true ->
  isLength 1 2000 c = true ->
  has_id (_id this) (messages db) = true ->
  editContent c now this db
  = (Return (edited_doc c now this),
     set_messages (replace_doc (edited_doc c now this) (messages db)) db).
Proof.
  intros Hv Hl Hid. unfold editContent, edited_doc.
  destruct this as [i s c0 ty a g r cv rt rs rb e d da mn ls ca].
  destruct e as [ie ea oc].
  destruct ie; cbn in *;
    (rewrite save_existing;
     [reflexivity
     | now apply (validate_content_type c
                    (mkMessage i s c0 ty a g r cv rt rs rb (mkEdited false ea oc)
                       d da mn ls ca))
     | exact Hid]).
Qed.

(** C8. The first [editContent] on a stored message that was never edited
    records the message's original content in the edited record; a later
    [editContent] keeps that snapshot; and every call, on any stored
    message, replaces the content, sets the edited flag and stamps the
    edit time, leaving the snapshot of an already edited message alone. *)
Theorem editContent_snapshot_first_only (db : Db) (id : ObjectId)
    (c1 c2 : string) (t1 t2 : Date) (this : Message) :
  stored db id = Some this ->
  validate this = true ->
  isEdited (edited this) = false ->
  isLength 1 2000 c1 = true ->
  isLength 1 2000 c2 = true ->
  (exists (this1 : Message) (db1 : Db) (this2 : Message) (db2 : Db),
     editContent c1 t1 this db = (Return this1, db1)
     /\ stored db1 id = Some this1
     /\ content this1 = c1
     /\ edited this1 = mkEdited true (Some t1) (Some (content this))
     /\ editContent c2 t2 this1 db1 = (Return this2, db2)
     /\ stored db2 id = Some this2
     /\ content this2 = c2
     /\ edited this2 = mkEdited true (Some t2) (Some (content this)))
  /\ (forall (m : Message) (dbm : Db) (c : string) (t : Date),
        validate m = true ->
        isLength 1 2000 c = true ->
        has_id (_id m) (messages dbm) = true ->
        exists (m' : Message) (dbm' : Db),
          editContent c t m dbm = (Return m', dbm')
          /\ content m' = c
          /\ isEdited (edited m') = true
          /\ editedAt (edited m') = Some t
          /\ (isEdited (edited m) = true ->
              originalContent (edited m') = originalContent (edited m))).
Proof.
  intros Hs Hv He Hl1 Hl2.
  pose proof (stored_id _ _ _ Hs) as Hid.
  pose proof (stored_has_id _ _ _ Hs) as Hhas. rewrite <- Hid in Hhas.
  split.
  - set (this1 := edited_doc c1 t1 this).
    set (db1 := set_messages (replace_doc this1 (messages db)) db).
    destruct (edited_doc_frame c1 t1 this) as (Hi1 & Hc1 & He1).
    fold this1 in Hi1, Hc1, He1. rewrite He in He1.
    assert (Hs1 : stored db1 id = Some this1).
    { rewrite <- Hid, <- Hi1. apply stored_after_replace. now rewrite Hi1. }
    assert (Hv1 : validate this1 = true).
    { unfold this1, edited_doc. rewrite pre_save_validate.
      now apply validate_new_content. }
    pose proof (stored_has_id _ _ _ Hs1) as Hhas1. rewrite <- Hid, <- Hi1 in Hhas1.
    set (this2 := edited_doc c2 t2 this1).
    destruct (edited_doc_frame c2 t2 this1) as (Hi2 & Hc2 & He2).
    fold this2 in Hi2, Hc2, He2. rewrite He1 in He2. cbn in He2.
    exists this1, db1, this2,
      (set_messages (replace_doc this2 (messages db1)) db1).
    repeat split; auto.
    + now apply editContent_stored.
    + now apply editContent_stored.
    + rewrite <- Hid, <- Hi1, <- Hi2. apply stored_after_replace.
      now rewrite Hi2.
  - intros m dbm c t Hvm Hlc Hhm.
    destruct (edited_doc_frame c t m) as (_ & Hc & Hed).
    exists (edited_doc c t m),
      (set_messages (replace_doc (edited_doc c t m) (messages dbm)) dbm).
    repeat split; auto.
    + now apply editContent_stored.
    + now rewrite Hed.
    + now rewrite Hed.
    + intros Hm. rewrite Hed, Hm. reflexivity.
Qed.

Lemma editContent_snapshot_first_only_witness :
  stored Sample.db0 Sample.d2
  = Some (Sample.direct Sample.d2 2000 Sample.alice Sample.bob "two")
  /\ exists (this1 : Message) (db1 : Db) (this2 : Message) (db2 : Db),
       editContent "deux" 2500
         (Sample.direct Sample.d2 2000 Sample.alice Sample.bob "two") Sample.db0
       = (Return this1, db1)
       /\ originalContent (edited this1) = Some "two"
       /\ editContent "zwei" 2600 this1 db1 = (Return this2, db2)
       /\ originalContent (edited this2) = Some "two"
       /\ editedAt (edited this2) = Some 2600%Z
       /\ content this2 = "zwei".
Proof.
  split; [reflexivity|].
  destruct (editContent_snapshot_first_only Sample.db0 Sample.d2 "deux" "zwei"
              2500 2600
              (Sample.direct Sample.d2 2000 Sample.alice Sample.bob "two")
              eq_refl eq_refl eq_refl eq_refl eq_refl)
    as ((this1 & db1 & this2 & db2 & H1 & _ & _ & E1 & H2 & _ & C2 & E2) & _).
  exists this1, db1, this2, db2.
  rewrite E1, E2. repeat split; auto.
Defined.

(* ------------------------------------------------------------------ *)
(** ** The edit window of [PUT /:messageId] *)

Lemma put_message_unfold (user : User.t) (id : ObjectId) (c : string)
    (now : Date) (this : Message) (db : Db) :
  stored db id = Some this ->
  put_message user id c now db =
  if negb (isLength 1 2000 (Js.trim c))
  then (Return (mkResponse 400 (BMessage "Validation failed")), db)
  else if isDeleted this
  then (Return (mkResponse 404 (BMessage "Message not found")), db)
  else if negb (String.eqb (sender this) (User._id user))
  then (Return (mkResponse 403 (BMessage "You can only edit your own messages")), db)
  else if Z.ltb (createdAt this) (now - 5 * 60 * 1000)
  then (Return (mkResponse 400
                  (BMessage "Message can only be edited within 5 minutes")), db)
  else match editContent (Js.trim c) now this db with
       | (Return this', db') =>
           (Return (mkResponse 200 (BData "Message edited successfully" this')), db')
       | (Throw _, db') => (Return (mkResponse 500 (BMessage "Server error")), db')
       end.
Proof.
  intros Hs. unfold put_message, try_catch, toString.
  destruct (negb (isLength 1 2000 (Js.trim c))); [reflexivity|].
  unfold bind at 1. rewrite findById_stored, Hs.
  destruct (isDeleted this); [reflexivity|].
  destruct (negb (String.eqb (sender this) (User._id user))); [reflexivity|].
  destruct (Z.ltb (createdAt this) (now - 5 * 60 * 1000)); [reflexivity|].
  unfold bind.
  destruct (editContent (Js.trim c) now this db) as [[this'|e] db']; reflexivity.
Qed.

(** C9. For a stored message, an edit request arriving more than five
    minutes after the message's creation is rejected and leaves the
    database as it was (with the edit-window answer when nothing else is
    wrong with the request); an edit request by the sender of a live
    message, with a body of 1 to 2000 characters, arriving no later than
    five minutes after creation succeeds, stores the new content and
    keeps the original content in the edited record. *)
Theorem put_message_edit_window (db : Db) (user : User.t) (id : ObjectId)
    (c : string) (now : Date) (this : Message) :
  stored db id = Some this ->
  ((createdAt this + 5 * 60 * 1000 < now)%Z ->
   exists r : Response,
     put_message user id c now db = (Return r, db)
     /\ status r <> 200
     /\ (isLength 1 2000 (Js.trim c) = true ->
         isDeleted this = false ->
         sender this = User._id user ->
         r = mkResponse 400
               (BMessage "Message can only be edited within 5 minutes")))
  /\ ((now <= createdAt this + 5 * 60 * 1000)%Z ->
      validate this = true ->
      isDeleted this = false ->
      sender this = User._id user ->
      isLength 1 2000 (Js.trim c) = true ->
      exists (this' : Message) (db' : Db),
        put_message user id c now db
        = (Return (mkResponse 200 (BData "Message edited successfully" this')), db')
        /\ stored db' id = Some this'
        /\ content this' = Js.trim c
        /\ isEdited (edited this') = true
        /\ editedAt (edited this') = Some now
        /\ (isEdited (edited this) = false ->
            originalContent (edited this') = Some (content this))).
Proof.
  intros Hs.
  pose proof (stored_id _ _ _ Hs) as Hid.
  pose proof (stored_has_id _ _ _ Hs) as Hhas. rewrite <- Hid in Hhas.
  rewrite (put_message_unfold user id c now this db Hs).
  split.
  - intros Hlate.
    assert (Hlt : Z.ltb (createdAt this) (now - 5 * 60 * 1000) = true)
      by (apply Z.ltb_lt; lia).
    rewrite Hlt.
    destruct (isLength 1 2000 (Js.trim c)) eqn:El; cbn [negb].
    2:{ eexists. split; [reflexivity|]. split; [cbn; discriminate|].
        intros; discriminate. }
    destruct (isDeleted this) eqn:Ed.
    { eexists. split; [reflexivity|]. split; [cbn; discriminate|].
      intros; discriminate. }
    destruct (String.eqb (sender this) (User._id user)) eqn:Es; cbn [negb].
    2:{ eexists. split; [reflexivity|]. split; [cbn; discriminate|].
        intros _ _ Hsend. apply String.eqb_neq in Es. contradiction. }
    eexists. split; [reflexivity|]. split; [cbn; discriminate|].
    intros; reflexivity.
  - intros Hin Hv Hd Hsend Hl.
    assert (Hlt : Z.ltb (createdAt this) (now - 5 * 60 * 1000) = false)
      by (apply Z.ltb_ge; lia).
    rewrite Hl, Hd, Hsend, String.eqb_refl, Hlt. cbn [negb].
    rewrite (editContent_stored (Js.trim c) now this db Hv Hl Hhas).
    destruct (edited_doc_frame (Js.trim c) now this) as (Hi & Hc & He).
    eexists; eexists. split; [reflexivity|].
    repeat split; auto.
    + rewrite <- Hid, <- Hi. apply stored_after_replace. now rewrite Hi.
    + now rewrite He.
    + now rewrite He.
    + intros Hn. rewrite He, Hn. reflexivity.
Qed.

Lemma put_message_edit_window_witness :
  stored Sample.db0 Sample.d2
  = Some (Sample.direct Sample.d2 2000 Sample.alice Sample.bob "two")
  /\ (exists r : Response,
        put_message Sample.u_alice Sample.d2 " deux " (2000 + 6 * 60 * 1000) Sample.db0
        = (Return r, Sample.db0) /\ status r <> 200)
  /\ (exists (this' : Message) (db' : Db),
        put_message Sample.u_alice Sample.d2 " deux " (2000 + 4 * 60 * 1000) Sample.db0
        = (Return (mkResponse 200 (BData "Message edited successfully" this')), db')
        /\ content this' = "deux"
        /\ originalContent (edited this') = Some "two").
Proof.
  split; [reflexivity|]. split.
  - destruct (put_message_edit_window Sample.db0 Sample.u_alice Sample.d2 " deux "
                (2000 + 6 * 60 * 1000)
                (Sample.direct Sample.d2 2000 Sample.alice Sample.bob "two") eq_refl)
      as [H _].
    destruct (H eq_refl) as (r & H1 & H2 & _). exists r. split; assumption.
  - destruct (put_message_edit_window Sample.db0 Sample.u_alice Sample.d2 " deux "
                (2000 + 4 * 60 * 1000)
                (Sample.direct Sample.d2 2000 Sample.alice Sample.bob "two") eq_refl)
      as [_ H].
    assert (Hle : (2000 + 4 * 60 * 1000
                   <= createdAt (Sample.direct Sample.d2 2000 Sample.alice
                                   Sample.bob "two") + 5 * 60 * 1000)%Z)
      by (vm_compute; discriminate).
    destruct (H Hle eq_refl eq_refl eq_refl eq_refl)
      as (this' & db' & H1 & _ & H2 & _ & _ & H3).
    exists this', db'. repeat split; auto.
Defined.

(* ------------------------------------------------------------------ *)
(** ** Cursors *)

Lemma In_insert_by {A : Type} (le : A -> A -> bool) (x y : A) (l : list A) :
  In x (Js.insert_by le y l) <-> x = y \/ In x l.
Proof.
  induction l as [|z l IH]; simpl.
  - intuition.
  - destruct (le y z); simpl; [intuition | rewrite IH; intuition].
Qed.

Lemma In_sort_by {A : Type} (le : A -> A -> bool) (x : A) (l : list A) :
  In x (Js.sort_by le l) <-> In x l.
Proof.
  induction l as [|y l IH]; simpl; [tauto|].
  rewrite In_insert_by, IH. intuition.
Qed.



Lemma In_skipn {A : Type} (n : nat) (x : A) (l : list A) :
  In x (List.skipn n l) -> In x l.
Proof.
  revert l. induction n as [|n IH]; intros [|y l]; simpl; auto.
Qed.

Lemma In_firstn {A : Type} (n : nat) (x : A) (l : list A) :
  In x (List.firstn n l) -> In x l.
Proof.
  revert l. induction n as [|n IH]; intros [|y l]; simpl; intuition.
Qed.

Section CursorFacts.

Variable regex_test : string -> string -> bool.

(** A cursor leaves the database alone and returns documents of the
    collection that match its filter. *)
Lemma exec_sound (q : Query) (db : Db) :
  snd (exec regex_test q db) = db
  /\ Forall (fun m => In m (messages db)
                      /\ matches regex_test (q_filter q) m = true)
       (result_of (exec regex_test q db)).
Proof.
  unfold exec, result_of, bind, get, ret, throw.
  assert (Hin : forall m,
             In m (if q_sortCreatedAtDesc q
                   then Js.sort_by newer_first
                          (List.filter (matches regex_test (q_filter q)) (messages db))
                   else List.filter (matches regex_test (q_filter q)) (messages db)) ->
             In m (messages db) /\ matches regex_test (q_filter q) m = true).
  { intros m H. apply List.filter_In.
    destruct (q_sortCreatedAtDesc q); [now apply In_sort_by in H | exact H]. }
  destruct (q_skip q) as [k|]; [destruct (Z.ltb k 0)|]; cbn.
  - split; [reflexivity | constructor].
  - split; [reflexivity|]. apply Forall_forall. intros m H. apply Hin.
    destruct (q_limit q) as [n|]; [destruct (Z.eqb n 0)|].
    + now apply In_skipn in H.
    + apply In_firstn in H. now apply In_skipn in H.
    + now apply In_skipn in H.
  - split; [reflexivity|]. apply Forall_forall. intros m H. apply Hin.
    destruct (q_limit q) as [n|]; [destruct (Z.eqb n 0)|].
    + exact H.
    + now apply In_firstn in H.
    + exact H.
Qed.




End CursorFacts.

(* ------------------------------------------------------------------ *)
(** ** Soft delete and the read paths *)

Lemma can_delete_returns (user : User.t) (m : Message) (db : Db) :
  can_delete user m db = (Return (can_delete_value user m db), db).
Proof.
  unfold can_delete, can_delete_value, toString, Group_findById, bind, get, ret.
  destruct (group m) as [g|];
    destruct (String.eqb (sender m) (User._id user)); reflexivity.
Qed.


Section ReadPaths.

Variable regex_test : string -> string -> bool.

Lemma exec_cases (q : Query) (db : Db) :
  (exists l, exec regex_test q db = (Return l, db)
             /\ Forall (fun m => In m (messages db)
                                 /\ matches regex_test (q_filter q) m = true) l)
  \/ (exists e, exec regex_test q db = (Throw e, db)).
Proof.
  destruct (exec_sound regex_test q db) as [Hd Hl].
  unfold result_of in Hl.
  destruct (exec regex_test q db) as [[l|e] d]; cbn in *; subst d.
  - left. now exists l.
  - right. now exists e.
Qed.



Lemma User_findById_eq (id : ObjectId) (db : Db) :
  User_findById id db = (Return (user_of db id), db).
Proof. reflexivity. Qed.

Lemma requireGroupMember_eq (user : User.t) (g : ObjectId) (db : Db) :
  requireGroupMember user g db = (Return (member_gate user g db), db).
Proof.
  unfold requireGroupMember, member_gate, Group_findById, group_of, bind, get, ret.
  destruct (List.find _ (groups db)) as [grp|]; [|reflexivity].
  destruct (Group.isMember grp (User._id user)); reflexivity.
Qed.






End ReadPaths.



(* ------------------------------------------------------------------ *)
(** ** Pagination *)

Section Pagination.

Variable regex_test : string -> string -> bool.

Lemma conversation_filter (db : Db) (u1 u2 : ObjectId) :
  List.filter
    (matches regex_test
       (FAnd (ConversationEq (conversationId u1 u2)) (IsDeletedEq false)))
    (messages db)
  = List.filter (fun m => match conversation m with
                          | Some c => String.eqb c (conversationId u1 u2)
                          | None => false
                          end && negb (isDeleted m)) (messages db).
Proof.
  apply List.filter_ext. intros m. cbn.
  destruct (isDeleted m); reflexivity.
Qed.

Lemma group_filter (db : Db) (g : ObjectId) :
  List.filter (matches regex_test (FAnd (GroupEq g) (IsDeletedEq false)))
    (messages db)
  = List.filter (fun m => option_eqb (group m) g && negb (isDeleted m))
      (messages db).
Proof.
  apply List.filter_ext. intros m. cbn.
  destruct (isDeleted m); reflexivity.
Qed.

(** What the cursor of [getConversation] returns for a page [p >= 1] and a
    positive page size: up to [lim * p] messages from offset
    [(p - 1) * lim]. *)
Lemma getConversation_cursor (db : Db) (u1 u2 : ObjectId) (p lim : Z) :
  (1 <= p)%Z -> (1 <= lim)%Z ->
  getConversation regex_test u1 u2 p lim db
  = (Return (List.firstn (Z.to_nat (lim * p))
               (List.skipn (Z.to_nat ((p - 1) * lim))
                  (conversation_live db u1 u2))), db).
Proof.
  intros Hp Hl. unfold getConversation, exec, bind, get, ret.
  cbn [q_skip q_limit q_filter q_sortCreatedAtDesc skip limit sortCreatedAtDesc find].
  assert (Z.ltb ((p - 1) * lim) 0 = false) as -> by (apply Z.ltb_ge; nia).
  assert (Z.eqb (lim * p) 0 = false) as -> by (apply Z.eqb_neq; nia).
  rewrite Z.abs_eq by nia.
  change (Js.join "_" (Js.sort [toString u1; toString u2]))
    with (conversationId u1 u2).
  rewrite conversation_filter. reflexivity.
Qed.

Lemma getGroupMessages_cursor (db : Db) (g : ObjectId) (p lim : Z) :
  (1 <= p)%Z -> (1 <= lim)%Z ->
  getGroupMessages regex_test g p lim db
  = (Return (List.firstn (Z.to_nat (lim * p))
               (List.skipn (Z.to_nat ((p - 1) * lim)) (group_live db g))), db).
Proof.
  intros Hp Hl. unfold getGroupMessages, exec, bind, get, ret.
  cbn [q_skip q_limit q_filter q_sortCreatedAtDesc skip limit sortCreatedAtDesc find].
  assert (Z.ltb ((p - 1) * lim) 0 = false) as -> by (apply Z.ltb_ge; nia).
  assert (Z.eqb (lim * p) 0 = false) as -> by (apply Z.eqb_neq; nia).
  rewrite Z.abs_eq by nia.
  rewrite group_filter. reflexivity.
Qed.

(** The first page is the page the specification describes. *)
Lemma getConversation_first_page (db : Db) (u1 u2 : ObjectId) (lim : Z) :
  (1 <= lim)%Z ->
  getConversation regex_test u1 u2 1 lim db
  = (Return (page_of (conversation_live db u1 u2) 1 lim), db).
Proof.
  intros Hl. rewrite getConversation_cursor by lia.
  unfold page_of. now rewrite Z.mul_1_r.
Qed.

Lemma getGroupMessages_first_page (db : Db) (g : ObjectId) (lim : Z) :
  (1 <= lim)%Z ->
  getGroupMessages regex_test g 1 lim db
  = (Return (page_of (group_live db g) 1 lim), db).
Proof.
  intros Hl. rewrite getGroupMessages_cursor by lia.
  unfold page_of. now rewrite Z.mul_1_r.
Qed.

End Pagination.

(** The search routes limit their cursor to [limit * 1]: their second
    page of size 1 is one message. *)
Lemma search_second_page_sized :
  List.map _id
    (response_messages
       (search_conversation (fun _ _ => true) Sample.u_alice Sample.bob
          (Some "on") (Some 2%Z) (Some 1%Z) Sample.db0))
  = [Sample.d2].
Proof. vm_compute. reflexivity. Qed.

(** C4 (the code departs from the claim). With three live messages in a
    conversation, page 2 of size 1 is the single second-newest message;
    [getConversation] returns two messages, the second and the third
    newest, because its cursor is limited to [limit * page] documents
    after the skip. [getGroupMessages] does the same on a group with three
    messages. *)
Theorem getConversation_second_page_oversized
    (regex_test : string -> string -> bool) :
  List.map _id (page_of (conversation_live Sample.db0 Sample.alice Sample.bob) 2 1)
  = [Sample.d2]
  /\ List.map _id
       (result_of (getConversation regex_test Sample.alice Sample.bob 2 1 Sample.db0))
     = [Sample.d2; Sample.d1]
  /\ List.map _id (page_of (group_live Sample.db_group Sample.general) 2 1)
     = [Sample.d2]
  /\ List.map _id
       (result_of (getGroupMessages regex_test Sample.general 2 1 Sample.db_group))
     = [Sample.d2; Sample.d1].
Proof.
  rewrite getConversation_cursor, getGroupMessages_cursor by lia.
  repeat split; vm_compute; reflexivity.
Qed.

(* ------------------------------------------------------------------ *)
(** ** Unread count *)

Lemma option_eqb_true (a : option ObjectId) (b : ObjectId) :
  option_eqb a b = true <-> a = Some b.
Proof.
  destruct a as [x|]; simpl.
  - rewrite String.eqb_eq. split; congruence.
  - split; discriminate.
Qed.

Lemma group_in_true (m : Message) (gs : list ObjectId) :
  existsb (option_eqb (group m)) gs = true
  <-> exists g, group m = Some g /\ In g gs.
Proof.
  rewrite existsb_exists. split.
  - intros (g & Hin & H). apply option_eqb_true in H. eauto.
  - intros (g & H & Hin). exists g. split; [exact Hin|]. now apply option_eqb_true.
Qed.

Lemma readBy_has_false (u : ObjectId) (m : Message) :
  readBy_has u m = false
  <-> forall r, In r (readBy m) -> ReadReceipt.user r <> u.
Proof.
  unfold readBy_has. split.
  - intros H r Hin E.
    assert (existsb (fun r0 => String.eqb (ReadReceipt.user r0) u) (readBy m) = true).
    { apply existsb_exists. exists r. split; [exact Hin|]. now apply String.eqb_eq. }
    congruence.
  - intros H.
    destruct (existsb _ (readBy m)) eqn:E; [|reflexivity].
    apply existsb_exists in E as (r & Hin & Hr).
    apply String.eqb_eq in Hr. now apply H in Hin.
Qed.

Lemma unread_counted_iff (user : User.t) (m : Message) :
  unread_counted user m = true <-> unread_for user m.
Proof.
  unfold unread_counted, unread_for.
  rewrite !andb_true_iff, orb_true_iff, andb_true_iff, !negb_true_iff.
  rewrite readBy_has_false, option_eqb_true, group_in_true, String.eqb_neq.
  split.
  - intros [[Hd Hr] [Hrec | [(g & Hg & Hin) Hs]]]; repeat split; eauto.
  - intros (Hd & Hr & [Hrec | (g & Hg & Hin & Hs)]); repeat split; eauto.
Qed.

Lemma unread_filter_counted (regex_test : string -> string -> bool)
    (user : User.t) (m : Message) :
  matches regex_test (unread_filter user) m = unread_counted user m.
Proof.
  unfold unread_filter, unread_counted. cbn.
  destruct (isDeleted m), (readBy_has (User._id user) m),
    (option_eqb (recipient m) (User._id user)),
    (existsb (option_eqb (group m)) (User.joinedGroups user)),
    (String.eqb (sender m) (User._id user)); reflexivity.
Qed.

Lemma count_where_ext (p q : Message -> bool) (l : list Message) :
  (forall m, In m l -> p m = q m) ->
  List.length (List.filter p l) = List.length (List.filter q l).
Proof.
  induction l as [|x l IH]; simpl; [reflexivity|]. intros H.
  rewrite (H x) by now left.
  destruct (q x); simpl; rewrite IH; auto.
Qed.

(** What the unread-count route counts: the stored messages that are not
    soft-deleted, carry no [readBy] entry of the user, and are either
    direct messages whose recipient is the user, whoever sent them, or
    messages of one of the user's joined groups sent by someone else. On a
    database without a direct message from the user to themselves this is
    the count the specification words. *)
Lemma unread_count_counts (regex_test : string -> string -> bool)
    (user : User.t) (db : Db) :
  unread_count regex_test user db
  = (Return (mkResponse 200 (BUnread (count_where (unread_counted user) db))), db)
  /\ (forall m, unread_counted user m = true <-> unread_for user m)
  /\ ((forall m, In m (messages db) ->
                 recipient m = Some (User._id user) ->
                 sender m <> User._id user) ->
      count_where (unread_counted user) db = count_where (unread_claimed user) db).
Proof.
  split; [|split].
  - unfold unread_count, try_catch, countDocuments, bind, get, ret, count_where.
    do 3 f_equal. f_equal. f_equal.
    apply count_where_ext. intros m _. apply unread_filter_counted.
  - apply unread_counted_iff.
  - intros Hself. unfold count_where. f_equal.
    apply count_where_ext. intros m Hin.
    unfold unread_counted, unread_claimed, addressed_to.
    destruct (option_eqb (recipient m) (User._id user)) eqn:Er.
    + apply option_eqb_true in Er. apply (Hself m Hin) in Er.
      apply String.eqb_neq in Er. rewrite Er.
      destruct (isDeleted m), (readBy_has (User._id user) m); reflexivity.
    + destruct (isDeleted m), (readBy_has (User._id user) m),
        (existsb (option_eqb (group m)) (User.joinedGroups user)),
        (String.eqb (sender m) (User._id user)); reflexivity.
Qed.

Lemma unread_count_sample :
  unread_count (fun _ _ => true) Sample.u_alice Sample.db0
  = (Return (mkResponse 200 (BUnread 3)), Sample.db0)
  /\ count_where (unread_claimed Sample.u_alice) Sample.db0 = 3%Z.
Proof.
  destruct (unread_count_counts (fun _ _ => true) Sample.u_alice Sample.db0)
    as (H1 & _ & H3).
  split.
  - rewrite H1. vm_compute. reflexivity.
  - rewrite <- H3; [vm_compute; reflexivity|].
    intros m Hin Hrec.
    cbn in Hin.
    repeat (destruct Hin as [<- | Hin]; [vm_compute; discriminate|]).
    contradiction.
Defined.

Lemma unread_count_not_as_claimed : ~ unread_count_as_claimed.
Proof.
  intros H.
  specialize (H (fun _ _ => true) Sample.u_alice Sample.db_self).
  vm_compute in H. discriminate H.
Qed.

(** C5 (the code departs from the claim). Alice's only stored message is a
    note she sent to herself and has not read. No message of another
    sender is addressed to her, so the count the specification words is
    zero; the route answers one, because its direct-message branch does
    not look at the sender, as the group branch and the conversation
    summaries do. *)
Theorem unread_count_self_message (regex_test : string -> string -> bool) :
  count_where (unread_claimed Sample.u_alice) Sample.db_self = 0%Z
  /\ count_where (summary_counts_unread Sample.alice) Sample.db_self = 0%Z
  /\ unread_count regex_test Sample.u_alice Sample.db_self
     = (Return (mkResponse 200 (BUnread 1)), Sample.db_self).
Proof.
  split; [vm_compute; reflexivity|].
  split; [vm_compute; reflexivity|].
  destruct (unread_count_counts regex_test Sample.u_alice Sample.db_self)
    as (H & _).
  rewrite H. vm_compute. reflexivity.
Qed.

(* ------------------------------------------------------------------ *)
(** ** Addressing of created messages *)

Lemma save_new_cases (m : Message) (db : Db) :
  save true true m db
  = (Return (pre_save true m), set_messages (messages db ++ [pre_save true m]) db)
  \/ exists e, save true true m db = (Throw e, db).
Proof.
  unfold save, bind, get, put, ret, throw.
  destruct (validate m); [|right; eauto].
  destruct (has_id (_id (pre_save true m)) (messages db)); [right; eauto | left].
  reflexivity.
Qed.

Lemma new_direct_shape (fresh : ObjectId) (now : Date) (me r : ObjectId)
    (c ty : string) :
  direct_to r (pre_save true (newMessage fresh now me (Some r) None c ty None))
  /\ sender (pre_save true (newMessage fresh now me (Some r) None c ty None)) = me.
Proof. repeat split. Qed.

Lemma new_group_shape (fresh : ObjectId) (now : Date) (me g : ObjectId)
    (c ty : string) (rt : option ObjectId) :
  in_group g (pre_save true (newMessage fresh now me None (Some g) c ty rt))
  /\ sender (pre_save true (newMessage fresh now me None (Some g) c ty rt)) = me.
Proof. repeat split. Qed.

(** A run that ended in [db'] left the messages alone or appended [m]. *)
Ltac created_by m :=
  match goal with
  | H : ?db' = _ \/ messages ?db' = _ ++ [m] |- created_only _ ?db' _ =>
      destruct H as [H | H];
      [left; now rewrite H
      | right; exists m; split;
        [exact H | first [apply new_direct_shape | apply new_group_shape]]]
  end.

Lemma send_message_creates (socket : Socket) (r : ObjectId) (c : string)
    (ty : option string) (fresh : ObjectId) (now : Date) (db : Db) :
  created_only db (snd (send_message socket r c ty fresh now db)) (direct_to r).
Proof.
  set (m := pre_save true
              (newMessage fresh now
                 match userId socket with Some me => me | None => "" end
                 (Some r) None c (default_to ty "text") None)).
  set (db' := snd (send_message socket r c ty fresh now db)).
  assert (H : db' = db \/ messages db' = messages db ++ [m]).
  { subst db' m. remember (send_message socket r c ty fresh now db) as X eqn:HX.
    unfold send_message, try_catch in HX.
    destruct (userId socket) as [me|]; [|subst X; left; reflexivity].
    unfold bind at 1 in HX. rewrite User_findById_eq in HX.
    destruct (user_of db r) as [u|]; [|subst X; left; reflexivity].
    unfold bind in HX.
    destruct (save_new_cases
                (newMessage fresh now me (Some r) None c (default_to ty "text") None)
                db)
      as [E | (e & E)]; rewrite E in HX; subst X; [right | left]; reflexivity. }
  created_by m.
Qed.

Lemma post_direct_creates (user : User.t) (r c : string) (ty : option string)
    (fresh : ObjectId) (now : Date) (db : Db) :
  created_only db (snd (post_direct user r c ty fresh now db)) (direct_to r).
Proof.
  set (m := pre_save true
              (newMessage fresh now (User._id user) (Some r) None (Js.trim c)
                 (default_to ty "text") None)).
  set (db' := snd (post_direct user r c ty fresh now db)).
  assert (H : db' = db \/ messages db' = messages db ++ [m]).
  { subst db' m. remember (post_direct user r c ty fresh now db) as X eqn:HX.
    unfold post_direct, try_catch, server_error in HX.
    destruct (negb _); [subst X; left; reflexivity|].
    unfold bind at 1 in HX. rewrite User_findById_eq in HX.
    destruct (user_of db r) as [u|]; [|subst X; left; reflexivity].
    unfold bind in HX.
    destruct (save_new_cases
                (newMessage fresh now (User._id user) (Some r) None (Js.trim c)
                   (default_to ty "text") None) db)
      as [E | (e & E)]; rewrite E in HX; subst X; [right | left]; reflexivity. }
  created_by m.
Qed.

Lemma send_group_message_creates (socket : Socket) (g : ObjectId) (c : string)
    (ty : option string) (rt : option ObjectId) (fresh : ObjectId) (now : Date)
    (db : Db) :
  created_only db (snd (send_group_message socket g c ty rt fresh now db))
    (in_group g).
Proof.
  set (m := pre_save true
              (newMessage fresh now
                 match userId socket with Some me => me | None => "" end
                 None (Some g) c (default_to ty "text") rt)).
  set (db' := snd (send_group_message socket g c ty rt fresh now db)).
  assert (H : db' = db \/ messages db' = messages db ++ [m]).
  { subst db' m.
    remember (send_group_message socket g c ty rt fresh now db) as X eqn:HX.
    unfold send_group_message, try_catch in HX.
    destruct (userId socket) as [me|]; [|subst X; left; reflexivity].
    unfold bind at 1 in HX.
    change (Group_findById g db) with (Return (group_of db g), db) in HX.
    destruct (group_of db g) as [grp|]; [|subst X; left; reflexivity].
    destruct (negb (Group.isMember grp me)); [subst X; left; reflexivity|].
    unfold bind in HX.
    destruct (save_new_cases
                (newMessage fresh now me None (Some g) c (default_to ty "text") rt)
                db)
      as [E | (e & E)]; rewrite E in HX; subst X; [right | left]; reflexivity. }
  created_by m.
Qed.

Lemma post_group_message_creates (user : User.t) (g : ObjectId) (c : string)
    (ty rt : option string) (fresh : ObjectId) (now : Date) (db : Db) :
  created_only db (snd (post_group_message user g c ty rt fresh now db))
    (in_group g).
Proof.
  set (m := pre_save true
              (newMessage fresh now (User._id user) None (Some g) (Js.trim c)
                 (default_to ty "text") rt)).
  set (db' := snd (post_group_message user g c ty rt fresh now db)).
  assert (H : db' = db \/ messages db' = messages db ++ [m]).
  { subst db' m.
    remember (post_group_message user g c ty rt fresh now db) as X eqn:HX.
    unfold post_group_message in HX.
    unfold bind at 1 in HX. rewrite requireGroupMember_eq in HX.
    destruct (member_gate user g db) as [denied|grp]; [subst X; left; reflexivity|].
    unfold try_catch, server_error in HX.
    destruct (negb _); [subst X; left; reflexivity|].
    unfold bind in HX.
    destruct (save_new_cases
                (newMessage fresh now (User._id user) None (Some g) (Js.trim c)
                   (default_to ty "text") rt) db)
      as [E | (e & E)]; rewrite E in HX; subst X; [right | left]; reflexivity. }
  created_by m.
Qed.

(** C2. Each of the four send paths creates at most one message. A message
    created by the gateway's [send_message] or by [POST /direct] has its
    recipient set, its group unset and a conversation key, the key of the
    pair (sender, recipient); a message created by [send_group_message] or
    by [POST /groups/:groupId] has its group set and its recipient (and
    conversation key) unset. *)
Theorem created_messages_addressing (db : Db) :
  (forall socket r c ty fresh now,
      created_only db (snd (send_message socket r c ty fresh now db)) (direct_to r))
  /\ (forall user r c ty fresh now,
         created_only db (snd (post_direct user r c ty fresh now db)) (direct_to r))
  /\ (forall socket g c ty rt fresh now,
         created_only db (snd (send_group_message socket g c ty rt fresh now db))
           (in_group g))
  /\ (forall user g c ty rt fresh now,
         created_only db (snd (post_group_message user g c ty rt fresh now db))
           (in_group g))
  /\ (forall r m, direct_to r m ->
                  recipient m <> None /\ group m = None /\ conversation m <> None)
  /\ (forall g m, in_group g m -> group m <> None /\ recipient m = None).
Proof.
  repeat split.
  - intros. apply send_message_creates.
  - intros. apply post_direct_creates.
  - intros. apply send_group_message_creates.
  - intros. apply post_group_message_creates.
  - destruct H as (H & _). congruence.
  - now destruct H as (_ & H & _).
  - destruct H as (_ & _ & H). congruence.
  - destruct H as (H & _). congruence.
  - now destruct H as (_ & H & _).
Qed.

Lemma created_messages_addressing_witness :
  exists m : Message,
    messages (snd (send_message (mkSocket (Some Sample.alice)) Sample.bob "hi" None
                     Sample.d5 5000 Sample.db0))
    = messages Sample.db0 ++ [m]
    /\ recipient m <> None /\ group m = None /\ conversation m <> None.
Proof.
  destruct (created_messages_addressing Sample.db0) as (H & _ & _ & _ & Hd & _).
  destruct (H (mkSocket (Some Sample.alice)) Sample.bob "hi"%string None
              Sample.d5 5000%Z) as [E | (m & E & Hm)].
  - apply (f_equal (@List.length Message)) in E. vm_compute in E. discriminate E.
  - exists m. split; [exact E|]. exact (Hd Sample.bob m Hm).
Defined.

(** The scenario of the specification: user [a1] sends ["hi"] to [b1]; the
    message is stored under the key ["a1_b1"] and the first page of the
    conversation returns it. *)
Lemma send_message_scenario (regex_test : string -> string -> bool) :
  let db := mkDb [] [User.mk "a1" "A" []; User.mk "b1" "B" []] [] in
  let db' := snd (send_message (mkSocket (Some "a1")) "b1" "hi" (Some "text")
                    "m1" 10 db) in
  List.map conversation (messages db') = [Some "a1_b1"]
  /\ List.map recipient (messages db') = [Some "b1"]
  /\ List.map group (messages db') = [None]
  /\ result_of (getConversation regex_test "a1" "b1" 1 50 db') = messages db'.
Proof. repeat split. Qed.

(* ------------------------------------------------------------------ *)
(** ** Read marking by the fetch routes *)

Lemma Forall2_map_self {A : Type} (R : A -> A -> Prop) (f : A -> A) (l : list A) :
  (forall x, R x (f x)) -> Forall2 R l (List.map f l).
Proof. intros H. induction l; simpl; constructor; auto. Qed.

Lemma Forall2_refl_on {A : Type} (R : A -> A -> Prop) (l : list A) :
  (forall x, R x x) -> Forall2 R l l.
Proof. intros H. induction l; constructor; auto. Qed.


Section Marking.

Variable regex_test : string -> string -> bool.

Lemma updateMany_marks (f : Filter) (sel : Message -> bool) (me : ObjectId)
    (now : Date) (db : Db) :
  (forall m, matches regex_test f m = sel m) ->
  exists db',
    updateMany_push_readBy regex_test f me now db = (Return tt, db')
    /\ users db' = users db
    /\ groups db' = groups db
    /\ Forall2 (read_marked me now sel) (messages db) (messages db').
Proof.
  intros Hsel. eexists. split; [reflexivity|]. cbn.
  repeat split.
  apply Forall2_map_self. intros m. unfold read_marked.
  rewrite Hsel. destruct (sel m); reflexivity.
Qed.

Lemma conversation_mark_filter (other me : ObjectId) (m : Message) :
  matches regex_test
    (FAnd (SenderEq other) (FAnd (RecipientEq me) (ReadByUserNe me))) m
  = from_other_unread other me m.
Proof. unfold from_other_unread. cbn. now rewrite andb_assoc. Qed.

Lemma group_mark_filter (g me : ObjectId) (m : Message) :
  matches regex_test
    (FAnd (GroupEq g) (FAnd (SenderNe me) (ReadByUserNe me))) m
  = group_unread g me m.
Proof. unfold group_unread. cbn. now rewrite andb_assoc. Qed.

Lemma get_conversation_messages_marks (user : User.t) (other : ObjectId)
    (qp ql : option Z) (now : Date) (db : Db) (r : Response) (db' : Db) :
  get_conversation_messages regex_test user other qp ql now db = (Return r, db') ->
  (status r = 200 ->
   users db' = users db
   /\ groups db' = groups db
   /\ Forall2 (read_marked (User._id user) now
                 (from_other_unread other (User._id user)))
        (messages db) (messages db'))
  /\ (status r <> 200 -> db' = db).
Proof.
  unfold get_conversation_messages, try_catch, server_error.
  unfold bind at 1. rewrite User_findById_eq.
  destruct (user_of db other) as [u|].
  2:{ cbn. intros H; inversion H; subst. cbn. split; [discriminate | reflexivity]. }
  unfold bind at 1. unfold getConversation.
  match goal with
  | |- context [exec regex_test ?Q db] =>
      destruct (exec_cases regex_test Q db) as [(l & -> & _) | (e & ->)]
  end.
  2:{ cbn. intros H; inversion H; subst. cbn. split; [discriminate | reflexivity]. }
  destruct (updateMany_marks _ _ (User._id user) now db
              (conversation_mark_filter other (User._id user)))
    as (db1 & Hu & Hus & Hgs & Hms).
  unfold bind. rewrite Hu. unfold ret.
  intros H; inversion H; subst. cbn.
  split; [auto | intros Hne; contradiction].
Qed.

Lemma get_group_messages_marks (user : User.t) (g : ObjectId)
    (qp ql : option Z) (now : Date) (db : Db) (r : Response) (db' : Db) :
  get_group_messages regex_test user g qp ql now db = (Return r, db') ->
  (status r = 200 ->
   users db' = users db
   /\ groups db' = groups db
   /\ Forall2 (read_marked (User._id user) now (group_unread g (User._id user)))
        (messages db) (messages db'))
  /\ (status r <> 200 -> db' = db).
Proof.
  unfold get_group_messages.
  unfold bind at 1. rewrite requireGroupMember_eq.
  destruct (member_gate user g db) as [denied|grp] eqn:Hg.
  { assert (Hden : status denied <> 200).
    { unfold member_gate in Hg. destruct (group_of db g) as [gr|].
      - destruct (Group.isMember gr (User._id user)); inversion Hg; subst;
          cbn; discriminate.
      - inversion Hg; subst; cbn; discriminate. }
    unfold ret. intros H; inversion H; subst.
    split; [intros; contradiction | reflexivity]. }
  unfold try_catch, server_error.
  unfold bind at 1. unfold getGroupMessages.
  match goal with
  | |- context [exec regex_test ?Q db] =>
      destruct (exec_cases regex_test Q db) as [(l & -> & _) | (e & ->)]
  end.
  2:{ cbn. intros H; inversion H; subst. cbn. split; [discriminate | reflexivity]. }
  destruct (updateMany_marks _ _ (User._id user) now db
              (group_mark_filter g (User._id user)))
    as (db1 & Hu & Hus & Hgs & Hms).
  unfold bind. rewrite Hu. unfold ret.
  intros H; inversion H; subst. cbn.
  split; [auto | intros Hne; contradiction].
Qed.

End Marking.





(* ------------------------------------------------------------------ *)
(** ** One read receipt per user

    The invariant under which C6 speaks of exactly one entry: it holds of
    a new message and every path that writes [readBy] keeps it. *)

Lemma newMessage_unique (fresh : ObjectId) (now : Date) (s : ObjectId)
    (r g : option ObjectId) (c ty : string) (rt : option ObjectId) :
  readBy_unique (pre_save true (newMessage fresh now s r g c ty rt)).
Proof.
  intros u. unfold readBy_count.
  destruct (pre_save_frame true (newMessage fresh now s r g c ty rt))
    as (_ & _ & _ & _ & _ & _ & _ & -> & _).
  cbn. lia.
Qed.

Lemma append_receipt_unique (me : ObjectId) (now : Date) (m m' : Message) :
  readBy m' = readBy m ++ [ReadReceipt.mk me now] ->
  readBy_has me m = false ->
  readBy_unique m ->
  readBy_unique m'.
Proof.
  intros Hr Hhas Hu u. unfold readBy_count. rewrite Hr.
  rewrite List.filter_app, List.length_app. cbn [List.filter ReadReceipt.user].
  specialize (Hu u). unfold readBy_count in Hu.
  destruct (String.eqb me u) eqn:E; cbn [List.length]; [|lia].
  apply String.eqb_eq in E. subst u.
  rewrite readBy_has_count in Hhas. unfold readBy_count in Hhas.
  apply negb_false_iff, Nat.eqb_eq in Hhas. lia.
Qed.

Lemma markAsRead_unique (u : ObjectId) (now : Date) (this this' : Message)
    (db db' : Db) :
  markAsRead u now this db = (Return this', db') ->
  validate this = true ->
  has_id (_id this) (messages db) = true ->
  readBy_unique this ->
  readBy_unique this'.
Proof.
  intros H Hv Hid Hu.
  destruct (readBy_has u this) eqn:Hr.
  - rewrite (markAsRead_already u now this db Hr) in H. now inversion H; subst.
  - rewrite (markAsRead_fresh u now this db Hr Hv Hid) in H.
    inversion H; subst.
    apply (append_receipt_unique u now this); auto using marked_readBy.
Qed.

Lemma read_marked_unique (me : ObjectId) (now : Date) (sel : Message -> bool)
    (l l' : list Message) :
  (forall m, sel m = true -> readBy_has me m = false) ->
  Forall2 (read_marked me now sel) l l' ->
  Forall readBy_unique l ->
  Forall readBy_unique l'.
Proof.
  intros Hsel H. induction H as [|m m' l l' Hm _ IH]; intros HF; [constructor|].
  inversion HF as [|? ? Hu HF']; subst. constructor; [|now apply IH].
  unfold read_marked in Hm. destruct (sel m) eqn:Es; subst m'; [|exact Hu].
  apply (append_receipt_unique me now m); auto.
Qed.

Lemma fetch_keeps_unique (regex_test : string -> string -> bool)
    (user : User.t) (other : ObjectId) (qp ql : option Z) (now : Date)
    (db : Db) (r : Response) (db' : Db) :
  get_conversation_messages regex_test user other qp ql now db = (Return r, db') ->
  Forall readBy_unique (messages db) ->
  Forall readBy_unique (messages db').
Proof.
  intros H HF.
  destruct (get_conversation_messages_marks regex_test user other qp ql now
              db r db' H) as [Hok Herr].
  destruct (Nat.eq_dec (status r) 200) as [E | E].
  - destruct (Hok E) as (_ & _ & Hm).
    apply (read_marked_unique _ _ _ _ _ (fun m Hs =>
             proj1 (negb_true_iff _)
               (proj2 (proj1 (andb_true_iff _ _) Hs))) Hm HF).
  - now rewrite (Herr E).
Qed.

(* ================================================================== *)
(** * The message life cycle over all entry points *)

(** ** Single steps *)

Lemma pre_save_fields (cm : bool) (m : Message) :
  keeps_identity m (pre_save cm m)
  /\ content (pre_save cm m) = content m
  /\ reactions (pre_save cm m) = reactions m
  /\ readBy (pre_save cm m) = readBy m
  /\ edited (pre_save cm m) = edited m
  /\ isDeleted (pre_save cm m) = isDeleted m
  /\ deletedAt (pre_save cm m) = deletedAt m
  /\ links (pre_save cm m) = links m
  /\ conversation (pre_save cm m)
     = match group m, recipient m with
       | None, Some r => Some (conversationId (sender m) r)
       | _, _ => conversation m
       end
  /\ mentions (pre_save cm m) = if cm then [] else mentions m.
Proof.
  unfold keeps_identity, pre_save.
  destruct m as [i s c0 ty a g r cv rt rs rb ed d da mn ls ca].
  destruct g, r, cm; cbn; repeat split; reflexivity.
Qed.

Lemma step_keeps_identity (m m' : Message) :
  step m m' -> keeps_identity m m'.
Proof.
  intros H.
  destruct H; unfold marked, reacted, unreacted, edited_doc;
    try match goal with
        | |- keeps_identity _ (pre_save ?cm ?x) =>
            destruct (pre_save_fields cm x) as (K & _);
            unfold keeps_identity in *; cbn in K; exact K
        end;
    unfold keeps_identity; cbn; repeat split; reflexivity.
Qed.

Lemma step_only_grows (m m' : Message) :
  step m m' -> only_grows m m'.
Proof.
  intros H. unfold only_grows.
  destruct H as [m | m u t Hr | m u t Hr | m u e t Hc Hd | m u e Hd
                | m c t Hl Hd | m t Hd].
  - repeat split; auto. exists []. now rewrite List.app_nil_r.
  - rewrite marked_readBy. unfold marked, pre_save.
    destruct m as [i s c0 ty a g r cv rt rs rb ed d da mn ls ca].
    split; [eexists; reflexivity|].
    destruct g, r; cbn; repeat split; auto.
  - destruct m as [i s c0 ty a g r cv rt rs rb ed d da mn ls ca]. cbn.
    split; [eexists; reflexivity|]. repeat split; auto.
  - split.
    + exists []. rewrite List.app_nil_r. unfold reacted.
      match goal with
      | |- readBy (pre_save ?cm ?x) = _ =>
          destruct (pre_save_frame cm x) as (_ & _ & _ & _ & _ & _ & _ & E & _)
      end. exact E.
    + split; [intros Hd'; congruence|].
      unfold reacted.
      match goal with
      | |- context [pre_save ?cm ?x] =>
          destruct (pre_save_frame cm x) as (_ & _ & _ & _ & _ & _ & _ & _ & E & _)
      end. rewrite E. cbn. auto.
  - split.
    + exists []. rewrite List.app_nil_r. unfold unreacted.
      match goal with
      | |- readBy (pre_save ?cm ?x) = _ =>
          destruct (pre_save_frame cm x) as (_ & _ & _ & _ & _ & _ & _ & E & _)
      end. exact E.
    + split; [intros Hd'; congruence|].
      unfold unreacted.
      match goal with
      | |- context [pre_save ?cm ?x] =>
          destruct (pre_save_frame cm x) as (_ & _ & _ & _ & _ & _ & _ & _ & E & _)
      end. rewrite E. cbn. auto.
  - split.
    + exists []. rewrite List.app_nil_r. unfold edited_doc.
      match goal with
      | |- readBy (pre_save ?cm ?x) = _ =>
          destruct (pre_save_frame cm x) as (_ & _ & _ & _ & _ & _ & _ & E & _)
      end. exact E.
    + split; [intros Hd'; congruence|].
      destruct (edited_doc_frame c t m) as (_ & _ & E). rewrite E.
      intros He. rewrite He. cbn. auto.
  - split.
    + exists []. rewrite List.app_nil_r.
      match goal with
      | |- readBy (pre_save ?cm ?x) = _ =>
          destruct (pre_save_frame cm x) as (_ & _ & _ & _ & _ & _ & _ & E & _)
      end. exact E.
    + split; [intros Hd'; congruence|].
      match goal with
      | |- context [pre_save ?cm ?x] =>
          destruct (pre_save_frame cm x) as (_ & _ & _ & _ & _ & _ & _ & _ & E & _)
      end. rewrite E. cbn. auto.
Qed.

Lemma validate_same_text (m m' : Message) :
  content m' = content m -> type m' = type m -> validate m' = validate m.
Proof. unfold validate. now intros -> ->. Qed.

Lemma step_validate (m m' : Message) :
  step m m' -> validate m = true -> validate m' = true.
Proof.
  intros H Hv.
  destruct H as [m | m u t Hr | m u t Hr | m u e t Hc Hd | m u e Hd
                | m c t Hl Hd | m t Hd];
    unfold marked, reacted, unreacted, edited_doc;
    rewrite ?pre_save_validate; auto.
  now apply validate_new_content.
Qed.

Lemma readBy_unique_same (m m' : Message) :
  readBy m' = readBy m -> readBy_unique m -> readBy_unique m'.
Proof. intros E H u. unfold readBy_count. rewrite E. apply H. Qed.

Lemma step_readBy_unique (m m' : Message) :
  step m m' -> readBy_unique m -> readBy_unique m'.
Proof.
  intros H Hu.
  destruct H as [m | m u t Hr | m u t Hr | m u e t Hc Hd | m u e Hd
                | m c t Hl Hd | m t Hd]; auto.
  - apply (append_receipt_unique u t m); auto using marked_readBy.
  - apply (append_receipt_unique u t m); auto.
  - apply (readBy_unique_same m); auto. unfold reacted.
    now destruct (pre_save_fields false
                    (set_reactions (reactions m ++ [Reaction.mk u e t]) m))
      as (_ & _ & _ & E & _).
  - apply (readBy_unique_same m); auto. unfold unreacted.
    match goal with
    | |- readBy (pre_save ?cm ?x) = _ =>
        now destruct (pre_save_fields cm x) as (_ & _ & _ & E & _)
    end.
  - apply (readBy_unique_same m); auto. unfold edited_doc.
    match goal with
    | |- readBy (pre_save ?cm ?x) = _ =>
        now destruct (pre_save_fields cm x) as (_ & _ & _ & E & _)
    end.
  - apply (readBy_unique_same m); auto.
    match goal with
    | |- readBy (pre_save ?cm ?x) = _ =>
        now destruct (pre_save_fields cm x) as (_ & _ & _ & E & _)
    end.
Qed.

Lemma reactions_unique_same (m m' : Message) :
  reactions m' = reactions m -> reactions_unique m -> reactions_unique m'.
Proof. intros E H u e. unfold reaction_count. rewrite E. apply H. Qed.

Lemma filter_length_le {A : Type} (p q : A -> bool) (l : list A) :
  List.length (List.filter p (List.filter q l)) <= List.length (List.filter p l).
Proof.
  induction l as [|x l IH]; simpl; [lia|].
  destruct (q x); simpl; destruct (p x); simpl; lia.
Qed.

Lemma step_reactions_unique (m m' : Message) :
  step m m' -> reactions_unique m -> reactions_unique m'.
Proof.
  intros H Hu.
  destruct H as [m | m u t Hr | m u t Hr | m u e t Hc Hd | m u e Hd
                | m c t Hl Hd | m t Hd]; auto.
  - apply (reactions_unique_same m); auto. unfold marked.
    match goal with
    | |- reactions (pre_save ?cm ?x) = _ =>
        now destruct (pre_save_fields cm x) as (_ & _ & E & _)
    end.
  - intros u' e'. unfold reaction_count. rewrite reacted_reactions.
    rewrite List.filter_app, List.length_app. cbn [List.filter Reaction.user Reaction.emoji].
    specialize (Hu u' e'). unfold reaction_count in Hu, Hc.
    destruct (String.eqb u u' && String.eqb e e') eqn:E; cbn [List.length]; [|lia].
    apply andb_true_iff in E as [E1 E2].
    apply String.eqb_eq in E1, E2. subst u' e'. lia.
  - intros u' e'. unfold reaction_count. rewrite unreacted_reactions.
    specialize (Hu u' e'). unfold reaction_count in Hu.
    etransitivity; [apply filter_length_le | exact Hu].
  - apply (reactions_unique_same m); auto. unfold edited_doc.
    match goal with
    | |- reactions (pre_save ?cm ?x) = _ =>
        now destruct (pre_save_fields cm x) as (_ & _ & E & _)
    end.
  - apply (reactions_unique_same m); auto.
    match goal with
    | |- reactions (pre_save ?cm ?x) = _ =>
        now destruct (pre_save_fields cm x) as (_ & _ & E & _)
    end.
Qed.

Lemma step_well_addressed (m m' : Message) :
  step m m' -> well_addressed m -> well_addressed m'.
Proof.
  intros H.
  destruct H; unfold marked, reacted, unreacted, edited_doc, well_addressed, pre_save;
    destruct m as [i s c0 ty a g r cv rt rs rb ed d da mn ls ca];
    destruct g, r; cbn; auto;
    try (destruct (negb (String.eqb c0 c)); cbn; auto).
Qed.

Lemma step_mentions (m m' : Message) :
  step m m' -> mentions m = [] -> mentions m' = [].
Proof.
  intros H.
  destruct H; unfold marked, reacted, unreacted, edited_doc, pre_save;
    destruct m as [i s c0 ty a g r cv rt rs rb ed d da mn ls ca];
    destruct g, r; cbn; auto;
    try (destruct (negb (String.eqb c0 c)); cbn; auto).
Qed.

Lemma step_message_ok (m m' : Message) :
  step m m' -> message_ok m -> message_ok m'.
Proof.
  intros H (Hv & Hr & Hx & Ha & Hm). repeat split.
  - now apply (step_validate m).
  - now apply (step_readBy_unique m).
  - now apply (step_reactions_unique m).
  - now apply (step_well_addressed m).
  - now apply (step_mentions m).
Qed.

Lemma born_message_ok (m : Message) : born m -> message_ok m.
Proof.
  intros (fresh & now & s & r & g & c & ty & rt & -> & Hv & Hrg).
  destruct (pre_save_fields true (newMessage fresh now s r g c ty rt))
    as (_ & _ & Hre & _ & _ & _ & _ & _ & _ & Hmn).
  split; [exact Hv|]. split; [apply newMessage_unique|].
  split; [|split; [|exact Hmn]].
  - intros u e. unfold reaction_count. rewrite Hre. cbn. lia.
  - unfold well_addressed, pre_save.
    destruct Hrg as [[Hr ->] | [-> Hg]].
    + destruct r as [r|]; [reflexivity | contradiction].
    + destruct g as [g|]; [reflexivity | contradiction].
Qed.

(* ------------------------------------------------------------------ *)
(** ** What each entry point does to the collection *)

Lemma save_cases (cm : bool) (x : Message) (db : Db) :
  (save false cm x db
   = (Return (pre_save cm x),
      set_messages (replace_doc (pre_save cm x) (messages db)) db)
   /\ validate x = true
   /\ has_id (_id x) (messages db) = true)
  \/ exists e, save false cm x db = (Throw e, db).
Proof.
  unfold save, bind, get, put, ret, throw.
  destruct (validate x); [|right; eauto].
  rewrite pre_save_id.
  destruct (has_id (_id x) (messages db)); [left; auto | right; eauto].
Qed.

Lemma save_new_cases_valid (m : Message) (db : Db) :
  (save true true m db
   = (Return (pre_save true m),
      set_messages (messages db ++ [pre_save true m]) db)
   /\ validate m = true
   /\ has_id (_id m) (messages db) = false)
  \/ exists e, save true true m db = (Throw e, db).
Proof.
  unfold save, bind, get, put, ret, throw.
  destruct (validate m); [|right; eauto].
  rewrite pre_save_id.
  destruct (has_id (_id m) (messages db)); [right; eauto | left; auto].
Qed.

Lemma evolves_refl (db : Db) : evolves db db.
Proof.
  exists (messages db), []. rewrite List.app_nil_r.
  repeat split; auto. apply Forall2_refl_on. constructor.
Qed.

Lemma evolves_same_messages (db db' : Db) :
  messages db' = messages db -> evolves db db'.
Proof.
  intros E. exists (messages db), []. rewrite List.app_nil_r.
  repeat split; auto. apply Forall2_refl_on. constructor.
Qed.

Lemma replace_doc_steps (d m : Message) (id : ObjectId) (l : list Message) :
  List.find (fun x => String.eqb (_id x) id) l = Some m ->
  _id d = id ->
  step m d ->
  Forall2 step l (replace_doc d l).
Proof.
  intros Hf Hid Hs. subst id.
  induction l as [|x l IH]; simpl in *; [discriminate|].
  destruct (String.eqb (_id x) (_id d)).
  - inversion Hf; subst. constructor; [exact Hs|].
    apply Forall2_refl_on. constructor.
  - constructor; [constructor | now apply IH].
Qed.

Lemma evolves_replace (db : Db) (id : ObjectId) (m d : Message) :
  stored db id = Some m ->
  step m d ->
  evolves db (set_messages (replace_doc d (messages db)) db).
Proof.
  intros Hs Hst.
  exists (replace_doc d (messages db)), []. rewrite List.app_nil_r.
  split; [reflexivity|]. split; [|now left].
  apply (replace_doc_steps d m id); auto.
  destruct (step_keeps_identity m d Hst) as (E & _).
  rewrite E. now apply (stored_id db).
Qed.

Lemma evolves_append (db db' : Db) (m : Message) :
  messages db' = messages db ++ [m] ->
  born m ->
  has_id (_id m) (messages db) = false ->
  evolves db db'.
Proof.
  intros E Hb Hid. exists (messages db), [m].
  split; [exact E|]. split; [apply Forall2_refl_on; constructor|].
  right. exists m. auto.
Qed.

Lemma evolves_marked (db db' : Db) (me : ObjectId) (now : Date)
    (sel : Message -> bool) :
  (forall m, sel m = true -> readBy_has me m = false) ->
  Forall2 (read_marked me now sel) (messages db) (messages db') ->
  evolves db db'.
Proof.
  intros Hsel H. exists (messages db'), []. rewrite List.app_nil_r.
  split; [reflexivity|]. split; [|now left].
  eapply Forall2_impl; [|exact H].
  intros m m' Hm. unfold read_marked in Hm.
  destruct (sel m) eqn:E; subst m'; [|constructor].
  apply step_mark_bulk. now apply Hsel.
Qed.

Lemma born_new (fresh : ObjectId) (now : Date) (s : ObjectId)
    (r g : option ObjectId) (c ty : string) (rt : option ObjectId) :
  validate (newMessage fresh now s r g c ty rt) = true ->
  (r <> None /\ g = None) \/ (r = None /\ g <> None) ->
  born (pre_save true (newMessage fresh now s r g c ty rt)).
Proof.
  intros Hv Hrg. exists fresh, now, s, r, g, c, ty, rt.
  split; [reflexivity|]. split; [|exact Hrg].
  now rewrite pre_save_validate.
Qed.

Lemma send_message_evolves (socket : Socket) (r : ObjectId) (c : string)
    (ty : option string) (fresh : ObjectId) (now : Date) (db : Db) :
  evolves db (snd (send_message socket r c ty fresh now db)).
Proof.
  unfold send_message, try_catch.
  destruct (userId socket) as [me|]; [|apply evolves_refl].
  unfold bind at 1. rewrite User_findById_eq.
  destruct (user_of db r) as [u|]; [|apply evolves_refl].
  unfold bind.
  destruct (save_new_cases_valid
              (newMessage fresh now me (Some r) None c (default_to ty "text") None)
              db)
    as [(-> & Hv & Hid) | (e & ->)]; [|apply evolves_refl].
  cbn [snd ret].
  eapply evolves_append; [reflexivity | | now rewrite pre_save_id].
  apply born_new; [exact Hv|]. left. split; [discriminate | reflexivity].
Qed.

Lemma post_direct_evolves (user : User.t) (r c : string) (ty : option string)
    (fresh : ObjectId) (now : Date) (db : Db) :
  evolves db (snd (post_direct user r c ty fresh now db)).
Proof.
  unfold post_direct, try_catch, server_error.
  destruct (negb _); [apply evolves_refl|].
  unfold bind at 1. rewrite User_findById_eq.
  destruct (user_of db r) as [u|]; [|apply evolves_refl].
  unfold bind.
  destruct (save_new_cases_valid
              (newMessage fresh now (User._id user) (Some r) None (Js.trim c)
                 (default_to ty "text") None) db)
    as [(-> & Hv & Hid) | (e & ->)]; [|apply evolves_refl].
  cbn [snd ret].
  eapply evolves_append; [reflexivity | | now rewrite pre_save_id].
  apply born_new; [exact Hv|]. left. split; [discriminate | reflexivity].
Qed.

Lemma send_group_message_evolves (socket : Socket) (g : ObjectId) (c : string)
    (ty : option string) (rt : option ObjectId) (fresh : ObjectId) (now : Date)
    (db : Db) :
  evolves db (snd (send_group_message socket g c ty rt fresh now db)).
Proof.
  unfold send_group_message, try_catch.
  destruct (userId socket) as [me|]; [|apply evolves_refl].
  unfold bind at 1.
  change (Group_findById g db) with (Return (group_of db g), db).
  destruct (group_of db g) as [grp|]; [|apply evolves_refl].
  destruct (negb (Group.isMember grp me)); [apply evolves_refl|].
  unfold bind.
  destruct (save_new_cases_valid
              (newMessage fresh now me None (Some g) c (default_to ty "text") rt) db)
    as [(-> & Hv & Hid) | (e & ->)]; [|apply evolves_refl].
  cbn [snd ret].
  eapply evolves_append; [reflexivity | | now rewrite pre_save_id].
  apply born_new; [exact Hv|]. right. split; [reflexivity | discriminate].
Qed.

Lemma post_group_message_evolves (user : User.t) (g : ObjectId) (c : string)
    (ty rt : option string) (fresh : ObjectId) (now : Date) (db : Db) :
  evolves db (snd (post_group_message user g c ty rt fresh now db)).
Proof.
  unfold post_group_message.
  unfold bind at 1. rewrite requireGroupMember_eq.
  destruct (member_gate user g db) as [denied|grp]; [apply evolves_refl|].
  unfold try_catch, server_error.
  destruct (negb _); [apply evolves_refl|].
  unfold bind.
  destruct (save_new_cases_valid
              (newMessage fresh now (User._id user) None (Some g) (Js.trim c)
                 (default_to ty "text") rt) db)
    as [(-> & Hv & Hid) | (e & ->)]; [|apply evolves_refl].
  cbn [snd ret Group_incTotalMessages get put].
  eapply evolves_append; [reflexivity | | now rewrite pre_save_id].
  apply born_new; [exact Hv|]. right. split; [reflexivity | discriminate].
Qed.

Lemma markAsRead_cases (u : ObjectId) (now : Date) (this : Message) (db : Db) :
  markAsRead u now this db = (Return this, db) /\ readBy_has u this = true
  \/ (markAsRead u now this db
      = (Return (marked u now this),
         set_messages (replace_doc (marked u now this) (messages db)) db)
      /\ readBy_has u this = false
      /\ validate this = true)
  \/ (exists e, markAsRead u now this db = (Throw e, db)).
Proof.
  destruct (readBy_has u this) eqn:Hr.
  - left. split; [now apply markAsRead_already | reflexivity].
  - right. unfold markAsRead, Js.some, toString, Js.push.
    unfold readBy_has in Hr. rewrite Hr. cbn [negb].
    destruct (save_cases false
                (set_readBy (readBy this ++ [ReadReceipt.mk u now]) this) db)
      as [(E & Hv & _) | (e & E)]; [left | right; eauto].
    split; [exact E|]. split; [reflexivity | exact Hv].
Qed.

Lemma mark_as_read_evolves (socket : Socket) (id : ObjectId)
    (g : option ObjectId) (now : Date) (db : Db) :
  evolves db (snd (mark_as_read socket id g now db)).
Proof.
  unfold mark_as_read, try_catch.
  destruct (userId socket) as [me|]; [|apply evolves_refl].
  unfold bind at 1. rewrite findById_stored.
  destruct (stored db id) as [this|] eqn:Hs; [|apply evolves_refl].
  unfold bind.
  destruct (markAsRead_cases me now this db)
    as [(-> & _) | [(-> & Hr & _) | (e & ->)]].
  - destruct g; apply evolves_refl.
  - destruct g; cbn [snd ret];
      apply (evolves_replace db id this); auto; now apply step_mark.
  - apply evolves_refl.
Qed.

Lemma editContent_as_save (c : string) (now : Date) (this : Message) :
  editContent c now this
  = save false (negb (String.eqb (content this) c))
      (set_edited
         (mkEdited true (Some now)
            (if isEdited (edited this) then originalContent (edited this)
             else Some (content this)))
         (set_content c this)).
Proof.
  unfold editContent.
  destruct this as [i s c0 ty a g r cv rt rs rb e d da mn ls ca].
  destruct e as [ie ea oc]. destruct ie; reflexivity.
Qed.

Lemma put_message_evolves (user : User.t) (id : ObjectId) (c : string)
    (now : Date) (db : Db) :
  evolves db (snd (put_message user id c now db)).
Proof.
  destruct (stored db id) as [this|] eqn:Hs.
  - rewrite (put_message_unfold user id c now this db Hs).
    destruct (isLength 1 2000 (Js.trim c)) eqn:El; cbn [negb];
      [|apply evolves_refl].
    destruct (isDeleted this) eqn:Hd; [apply evolves_refl|].
    destruct (String.eqb (sender this) (User._id user)); cbn [negb];
      [|apply evolves_refl].
    destruct (Z.ltb _ _); [apply evolves_refl|].
    rewrite editContent_as_save.
    match goal with
    | |- context [save false ?cm ?x db] =>
        destruct (save_cases cm x db) as [(-> & _) | (e & ->)]
    end; [|apply evolves_refl].
    cbn [snd]. apply (evolves_replace db id this); auto.
    apply step_edit; [exact El | exact Hd].
  - unfold put_message, try_catch, server_error.
    destruct (negb _); [apply evolves_refl|].
    unfold bind. rewrite findById_stored, Hs. apply evolves_refl.
Qed.

Lemma delete_message_evolves (user : User.t) (id : ObjectId) (now : Date)
    (db : Db) :
  evolves db (snd (delete_message user id now db)).
Proof.
  unfold delete_message, try_catch, server_error.
  unfold bind at 1. rewrite findById_stored.
  destruct (stored db id) as [this|] eqn:Hs; [|apply evolves_refl].
  destruct (isDeleted this) eqn:Hd; [apply evolves_refl|].
  unfold bind at 1. rewrite can_delete_returns.
  destruct (negb _); [apply evolves_refl|].
  unfold bind.
  destruct (save_cases false (set_deletedAt (Some now) (set_isDeleted true this)) db)
    as [(-> & _) | (e & ->)]; [|apply evolves_refl].
  cbn [snd ret]. apply (evolves_replace db id this); auto.
  now apply step_delete.
Qed.

Lemma post_reaction_unfold (user : User.t) (id : ObjectId) (e : string)
    (now : Date) (this : Message) (db : Db) :
  stored db id = Some this ->
  post_reaction user id e now db =
  if negb (isLength 1 10 (Js.trim e))
  then (Return (mkResponse 400 (BMessage "Validation failed")), db)
  else if isDeleted this
  then (Return (mkResponse 404 (BMessage "Message not found")), db)
  else if negb (has_access user this db)
  then (Return (mkResponse 403 (BMessage "Access denied")), db)
  else match addReaction (User._id user) (Js.trim e) now this db with
       | (Return (this1, true), db1) =>
           (Return (mkResponse 200 (BReactions "Reaction added" (reactions this1))),
            db1)
       | (Return (this1, false), db1) =>
           match removeReaction (User._id user) (Js.trim e) this1 db1 with
           | (Return this2, db2) =>
               (Return (mkResponse 200
                          (BReactions "Reaction removed" (reactions this2))), db2)
           | (Throw _, db2) => (Return (mkResponse 500 (BMessage "Server error")), db2)
           end
       | (Throw _, db1) => (Return (mkResponse 500 (BMessage "Server error")), db1)
       end.
Proof.
  intros Hs. unfold post_reaction, try_catch, server_error, toString.
  destruct (negb (isLength 1 10 (Js.trim e))); [reflexivity|].
  unfold bind at 1. rewrite findById_stored, Hs.
  destruct (isDeleted this); [reflexivity|].
  unfold bind at 1. unfold get at 1.
  change (String.eqb (sender this) (User._id user)
          || option_eqb (recipient this) (User._id user)
          || match group this with
             | Some g =>
                 existsb (fun grp => String.eqb (Group._id grp) g
                                     && existsb (String.eqb (User._id user))
                                          (Group.members grp)) (groups db)
             | None => false
             end) with (has_access user this db).
  destruct (negb (has_access user this db)); [reflexivity|].
  unfold bind at 1.
  destruct (addReaction (User._id user) (Js.trim e) now this db)
    as [[[this1 added]|err] db1]; [|reflexivity].
  destruct added; cbn [negb].
  - reflexivity.
  - unfold bind.
    destruct (removeReaction (User._id user) (Js.trim e) this1 db1)
      as [[this2|err] db2]; reflexivity.
Qed.

Lemma addReaction_cases (u : ObjectId) (e : string) (now : Date)
    (this : Message) (db : Db) :
  (addReaction u e now this db = (Return (this, false), db)
   /\ reaction_count u e this <> 0)
  \/ (addReaction u e now this db
      = (Return (reacted u e now this, true),
         set_messages (replace_doc (reacted u e now this) (messages db)) db)
      /\ reaction_count u e this = 0
      /\ validate this = true)
  \/ (exists err, addReaction u e now this db = (Throw err, db)).
Proof.
  destruct (Nat.eq_dec (reaction_count u e this) 0) as [Hc | Hc].
  - right. unfold addReaction, Js.find, toString, Js.push.
    pose proof Hc as Hf. apply find_filter_length in Hf. rewrite Hf.
    unfold bind.
    destruct (save_cases false
                (set_reactions (reactions this ++ [Reaction.mk u e now]) this) db)
      as [(-> & Hv & _) | (err & ->)]; [left | right; eauto].
    split; [reflexivity|]. split; [exact Hc | exact Hv].
  - left. split; [now apply addReaction_present | exact Hc].
Qed.

Lemma removeReaction_cases (u : ObjectId) (e : string) (this : Message) (db : Db) :
  (removeReaction u e this db
   = (Return (unreacted u e this),
      set_messages (replace_doc (unreacted u e this) (messages db)) db)
   /\ validate this = true)
  \/ (exists err, removeReaction u e this db = (Throw err, db)).
Proof.
  unfold removeReaction, Js.filter, toString.
  match goal with
  | |- context [save false ?cm ?x db] =>
      destruct (save_cases cm x db) as [(-> & Hv & _) | (err & ->)]
  end; [left | right; eauto].
  split; [reflexivity | exact Hv].
Qed.

Lemma post_reaction_evolves (user : User.t) (id : ObjectId) (e : string)
    (now : Date) (db : Db) :
  evolves db (snd (post_reaction user id e now db)).
Proof.
  destruct (stored db id) as [this|] eqn:Hs.
  - rewrite (post_reaction_unfold user id e now this db Hs).
    destruct (negb _); [apply evolves_refl|].
    destruct (isDeleted this) eqn:Hd; [apply evolves_refl|].
    destruct (negb _); [apply evolves_refl|].
    destruct (addReaction_cases (User._id user) (Js.trim e) now this db)
      as [(-> & Hc) | [(-> & Hc & _) | (err & ->)]].
    + destruct (removeReaction_cases (User._id user) (Js.trim e) this db)
        as [(-> & _) | (err & ->)]; [|apply evolves_refl].
      cbn [snd]. apply (evolves_replace db id this); auto.
      now apply step_unreact.
    + cbn [snd]. apply (evolves_replace db id this); auto.
      now apply step_react.
    + apply evolves_refl.
  - unfold post_reaction, try_catch, server_error.
    destruct (negb _); [apply evolves_refl|].
    unfold bind. rewrite findById_stored, Hs. apply evolves_refl.
Qed.

Section FetchEffects.

Variable regex_test : string -> string -> bool.

Lemma get_conversation_messages_returns (user : User.t) (other : ObjectId)
    (qp ql : option Z) (now : Date) (db : Db) :
  exists r db',
    get_conversation_messages regex_test user other qp ql now db = (Return r, db').
Proof.
  unfold get_conversation_messages, try_catch, server_error, ret.
  match goal with
  | |- context [match ?b db with _ => _ end] => destruct (b db) as [[r|e] d]
  end; eauto.
Qed.

Lemma get_group_messages_returns (user : User.t) (g : ObjectId)
    (qp ql : option Z) (now : Date) (db : Db) :
  exists r db',
    get_group_messages regex_test user g qp ql now db = (Return r, db').
Proof.
  unfold get_group_messages.
  unfold bind at 1. rewrite requireGroupMember_eq.
  destruct (member_gate user g db) as [denied|grp]; [unfold ret; eauto|].
  unfold try_catch, server_error, ret.
  match goal with
  | |- context [match ?b db with _ => _ end] => destruct (b db) as [[r|e] d]
  end; eauto.
Qed.

Lemma from_other_unread_fresh (other me : ObjectId) (m : Message) :
  from_other_unread other me m = true -> readBy_has me m = false.
Proof.
  unfold from_other_unread. intros H.
  apply andb_true_iff in H as [_ H]. now apply negb_true_iff in H.
Qed.

Lemma group_unread_fresh (g me : ObjectId) (m : Message) :
  group_unread g me m = true -> readBy_has me m = false.
Proof.
  unfold group_unread. intros H.
  apply andb_true_iff in H as [_ H]. now apply negb_true_iff in H.
Qed.

Lemma get_conversation_messages_evolves (user : User.t) (other : ObjectId)
    (qp ql : option Z) (now : Date) (db : Db) :
  evolves db (snd (get_conversation_messages regex_test user other qp ql now db)).
Proof.
  destruct (get_conversation_messages_returns user other qp ql now db)
    as (r & db' & E).
  rewrite E. cbn [snd].
  destruct (get_conversation_messages_marks regex_test user other qp ql now
              db r db' E) as [Hok Herr].
  destruct (Nat.eq_dec (status r) 200) as [Hs | Hs].
  - destruct (Hok Hs) as (_ & _ & Hm).
    eapply evolves_marked; [|exact Hm]. apply from_other_unread_fresh.
  - rewrite (Herr Hs). apply evolves_refl.
Qed.

Lemma get_group_messages_evolves (user : User.t) (g : ObjectId)
    (qp ql : option Z) (now : Date) (db : Db) :
  evolves db (snd (get_group_messages regex_test user g qp ql now db)).
Proof.
  destruct (get_group_messages_returns user g qp ql now db) as (r & db' & E).
  rewrite E. cbn [snd].
  destruct (get_group_messages_marks regex_test user g qp ql now db r db' E)
    as [Hok Herr].
  destruct (Nat.eq_dec (status r) 200) as [Hs | Hs].
  - destruct (Hok Hs) as (_ & _ & Hm).
    eapply evolves_marked; [|exact Hm]. apply group_unread_fresh.
  - rewrite (Herr Hs). apply evolves_refl.
Qed.

(** Every call is a life-cycle move of the collection. *)
Lemma run_evolves (c : Call) (db : Db) : evolves db (run regex_test c db).
Proof.
  destruct c; cbn [run].
  - apply send_message_evolves.
  - apply send_group_message_evolves.
  - apply mark_as_read_evolves.
  - apply post_direct_evolves.
  - apply post_group_message_evolves.
  - apply get_conversation_messages_evolves.
  - apply get_group_messages_evolves.
  - apply post_reaction_evolves.
  - apply put_message_evolves.
  - apply delete_message_evolves.
Qed.

End FetchEffects.

(* ------------------------------------------------------------------ *)
(** ** Invariants of the collection *)

Lemma Forall2_step_ids (l l' : list Message) :
  Forall2 step l l' -> List.map _id l' = List.map _id l.
Proof.
  induction 1 as [|m m' l l' Hs _ IH]; simpl; [reflexivity|].
  destruct (step_keeps_identity m m' Hs) as (E & _). now rewrite E, IH.
Qed.

Lemma has_id_false_not_in (id : ObjectId) (l : list Message) :
  has_id id l = false -> ~ In id (List.map _id l).
Proof.
  unfold has_id. intros H Hin.
  apply List.in_map_iff in Hin as (m & E & Hm).
  assert (existsb (fun x => String.eqb (_id x) id) l = true).
  { apply existsb_exists. exists m. split; [exact Hm|]. now apply String.eqb_eq. }
  congruence.
Qed.

Lemma evolves_store_ok (db db' : Db) :
  evolves db db' -> store_ok db -> store_ok db'.
Proof.
  intros (l' & new & E & Hst & Hnew) [Hok Hnd]. unfold store_ok. rewrite E.
  split.
  - apply Forall_app. split.
    + clear E Hnd Hnew. induction Hst as [|m m' l l' Hs _ IH]; [constructor|].
      inversion Hok; subst. constructor; [now apply (step_message_ok m) | auto].
    + destruct Hnew as [-> | (m & -> & Hb & _)]; [constructor|].
      constructor; [now apply born_message_ok | constructor].
  - rewrite List.map_app, (Forall2_step_ids _ _ Hst).
    destruct Hnew as [-> | (m & -> & _ & Hid)]; cbn.
    + now rewrite List.app_nil_r.
    + apply NoDup_app; [exact Hnd | repeat constructor; auto |].
      intros x Hx [<- | []]. now apply has_id_false_not_in in Hid.
Qed.

Lemma keeps_identity_trans (a b c : Message) :
  keeps_identity a b -> keeps_identity b c -> keeps_identity a c.
Proof.
  unfold keeps_identity.
  intros (A1 & A2 & A3 & A4 & A5 & A6 & A7 & A8)
         (B1 & B2 & B3 & B4 & B5 & B6 & B7 & B8).
  repeat split; congruence.
Qed.

Lemma only_grows_trans (a b c : Message) :
  only_grows a b -> only_grows b c -> only_grows a c.
Proof.
  unfold only_grows.
  intros ((x & Hx) & Hd1 & He1) ((y & Hy) & Hd2 & He2).
  split; [|split].
  - exists (x ++ y). now rewrite Hy, Hx, List.app_assoc.
  - intros Hd. destruct (Hd1 Hd) as (D1 & D2 & D3 & D4 & D5).
    destruct (Hd2 D1) as (E1 & E2 & E3 & E4 & E5).
    repeat split; congruence.
  - intros He. destruct (He1 He) as (D1 & D2).
    destruct (He2 D1) as (E1 & E2). split; congruence.
Qed.

Lemma Forall2_step_nth (l l' : list Message) (i : nat) (m : Message) :
  Forall2 step l l' ->
  List.nth_error l i = Some m ->
  exists m', List.nth_error l' i = Some m' /\ step m m'.
Proof.
  intros H. revert i. induction H as [|x x' l l' Hs _ IH]; intros i Hi.
  - destruct i; discriminate.
  - destruct i as [|i]; cbn in *.
    + inversion Hi; subst. eauto.
    + now apply IH.
Qed.

Lemma evolves_nth (db db' : Db) (i : nat) (m : Message) :
  evolves db db' ->
  List.nth_error (messages db) i = Some m ->
  exists m', List.nth_error (messages db') i = Some m' /\ step m m'.
Proof.
  intros (l' & new & E & Hst & _) Hi.
  destruct (Forall2_step_nth _ _ i m Hst Hi) as (m' & Hn & Hs).
  exists m'. split; [|exact Hs].
  rewrite E, List.nth_error_app1; [exact Hn|].
  apply List.nth_error_Some. congruence.
Qed.

Lemma evolves_length (db db' : Db) :
  evolves db db' ->
  List.length (messages db) <= List.length (messages db')
  /\ List.length (messages db') <= S (List.length (messages db)).
Proof.
  intros (l' & new & E & Hst & Hnew).
  apply Forall2_length in Hst. rewrite E, List.length_app, <- Hst.
  destruct Hnew as [-> | (m & -> & _)]; cbn; lia.
Qed.

(** X1. Whatever calls are made and in whatever order, the collection
    stays well formed: every stored message passes the schema validation
    (content of 1 to 2000 characters, a type of the enumeration), has at
    most one read receipt per user and at most one reaction per user and
    emoji, has exactly one of recipient and group set, with the key of
    sender and recipient on a direct message and none on a group message,
    has no mentions, and no two documents share an [_id]. *)
Theorem store_invariant (regex_test : string -> string -> bool)
    (cs : list Call) (db : Db) :
  store_ok db -> store_ok (run_all regex_test cs db).
Proof.
  revert db. induction cs as [|c cs IH]; intros db H; cbn; [exact H|].
  apply IH. apply (evolves_store_ok db); [apply run_evolves | exact H].
Qed.

Lemma store_invariant_witness :
  store_ok sample_start
  /\ store_ok (run_all (fun _ _ => true) sample_session sample_start)
  /\ List.map (fun m => (_id m, content m, isDeleted m, List.length (readBy m),
                          List.length (reactions m)))
       (messages (run_all (fun _ _ => true) sample_session sample_start))
     = [(Sample.d1, "hi!", true, 1, 1); (Sample.d2, "hello", false, 1, 0)].
Proof.
  assert (H0 : store_ok sample_start) by (split; constructor).
  split; [exact H0|]. split.
  - apply (store_invariant (fun _ _ => true) sample_session sample_start H0).
  - vm_compute. reflexivity.
Defined.

(** X2. Stored messages are never removed or moved, and a call adds at
    most one: after any sequence of calls the document at a position is
    the one that was there, with the same [_id], sender, recipient, group,
    type, reply target, attachments and creation time; its read receipts
    are the old ones followed by new ones; once soft-deleted it stays
    deleted with the same deletion time, content, edited record and
    reactions; and once edited it stays edited with the same original
    content. *)
Theorem documents_only_grow (regex_test : string -> string -> bool)
    (cs : list Call) (db : Db) (i : nat) (m : Message) :
  List.nth_error (messages db) i = Some m ->
  (exists m',
      List.nth_error (messages (run_all regex_test cs db)) i = Some m'
      /\ keeps_identity m m'
      /\ only_grows m m')
  /\ List.length (messages db) <= List.length (messages (run_all regex_test cs db))
  /\ List.length (messages (run_all regex_test cs db))
     <= List.length (messages db) + List.length cs.
Proof.
  revert db m. induction cs as [|c cs IH]; intros db m Hi; cbn [run_all].
  - split; [|cbn; lia]. exists m. split; [exact Hi|].
    split; [apply step_keeps_identity | apply step_only_grows]; constructor.
  - pose proof (run_evolves regex_test c db) as He.
    destruct (evolves_nth _ _ i m He Hi) as (m1 & H1 & Hs).
    destruct (IH _ m1 H1) as ((m' & Hn & Hk & Hg) & Hl1 & Hl2).
    destruct (evolves_length _ _ He) as [L1 L2].
    split; [|cbn [List.length]; lia].
    exists m'. split; [exact Hn|]. split.
    + eapply keeps_identity_trans; [apply (step_keeps_identity _ _ Hs) | exact Hk].
    + eapply only_grows_trans; [apply (step_only_grows _ _ Hs) | exact Hg].
Qed.

Lemma documents_only_grow_witness :
  exists m' : Message,
    List.nth_error (messages (run_all (fun _ _ => true) sample_rest sample_first)) 0
    = Some m'
    /\ keeps_identity (Sample.direct Sample.d1 1000 Sample.alice Sample.bob "hi") m'
    /\ List.length (readBy m') = 1
    /\ isDeleted m' = true.
Proof.
  destruct (documents_only_grow (fun _ _ => true) sample_rest sample_first 0
              (Sample.direct Sample.d1 1000 Sample.alice Sample.bob "hi") eq_refl)
    as ((m' & Hn & Hk & _) & _).
  exists m'. split; [exact Hn|]. split; [exact Hk|].
  vm_compute in Hn. inversion Hn. split; reflexivity.
Defined.

(* ------------------------------------------------------------------ *)
(** ** Authorization and the soft-delete gate of the REST routes *)





(** X4. A soft-deleted message is out of reach of the REST mutations: an
    edit, a reaction and a second delete addressed to it are answered 404
    (400 when the request body itself is invalid) and leave the database
    as it was. *)
Theorem deleted_message_immutable (user : User.t) (id : ObjectId)
    (body : string) (now : Date) (db : Db) (this : Message) :
  stored db id = Some this ->
  isDeleted this = true ->
  put_message user id body now db
  = (Return (if isLength 1 2000 (Js.trim body)
             then mkResponse 404 (BMessage "Message not found")
             else mkResponse 400 (BMessage "Validation failed")), db)
  /\ post_reaction user id body now db
     = (Return (if isLength 1 10 (Js.trim body)
                then mkResponse 404 (BMessage "Message not found")
                else mkResponse 400 (BMessage "Validation failed")), db)
  /\ delete_message user id now db
     = (Return (mkResponse 404 (BMessage "Message not found")), db).
Proof.
  intros Hs Hd. split; [|split].
  - rewrite (put_message_unfold user id body now this db Hs), Hd.
    destruct (isLength 1 2000 (Js.trim body)); reflexivity.
  - rewrite (post_reaction_unfold user id body now this db Hs), Hd.
    destruct (isLength 1 10 (Js.trim body)); reflexivity.
  - unfold delete_message, try_catch, server_error.
    unfold bind. rewrite findById_stored, Hs, Hd. reflexivity.
Qed.

Lemma deleted_message_immutable_witness :
  let db' := snd (delete_message Sample.u_bob Sample.d1 9000 Sample.db0) in
  put_message Sample.u_bob Sample.d1 "again" 9100 db'
  = (Return (mkResponse 404 (BMessage "Message not found")), db')
  /\ post_reaction Sample.u_alice Sample.d1 "+1" 9100 db'
     = (Return (mkResponse 404 (BMessage "Message not found")), db')
  /\ delete_message Sample.u_bob Sample.d1 9100 db'
     = (Return (mkResponse 404 (BMessage "Message not found")), db').
Proof.
  cbv zeta.
  assert (Hs : exists this,
             stored (snd (delete_message Sample.u_bob Sample.d1 9000 Sample.db0))
               Sample.d1 = Some this /\ isDeleted this = true).
  { eexists. split; vm_compute; reflexivity. }
  destruct Hs as (this & Hs & Hd).
  destruct (deleted_message_immutable Sample.u_bob Sample.d1 "again" 9100 _ this Hs Hd)
    as (H1 & _ & H3).
  destruct (deleted_message_immutable Sample.u_alice Sample.d1 "+1" 9100 _ this Hs Hd)
    as (_ & H2 & _).
  split; [exact H1|]. split; [exact H2 | exact H3].
Defined.

(* ------------------------------------------------------------------ *)
(** ** The reaction route *)

Lemma reacted_fields (u : ObjectId) (e : string) (t : Date) (m : Message) :
  keeps_identity m (reacted u e t m)
  /\ content (reacted u e t m) = content m
  /\ readBy (reacted u e t m) = readBy m
  /\ isDeleted (reacted u e t m) = isDeleted m.
Proof.
  unfold reacted.
  destruct (pre_save_fields false
              (set_reactions (reactions m ++ [Reaction.mk u e t]) m))
    as (K & C & _ & R & _ & D & _).
  repeat split; try apply K; assumption.
Qed.

Lemma unreacted_fields (u : ObjectId) (e : string) (m : Message) :
  keeps_identity m (unreacted u e m)
  /\ content (unreacted u e m) = content m
  /\ readBy (unreacted u e m) = readBy m
  /\ isDeleted (unreacted u e m) = isDeleted m.
Proof.
  unfold unreacted.
  match goal with
  | |- keeps_identity _ (pre_save ?cm ?x) /\ _ =>
      destruct (pre_save_fields cm x) as (K & C & _ & R & _ & D & _)
  end.
  repeat split; try apply K; assumption.
Qed.

Lemma has_access_ext (user : User.t) (m m' : Message) (db db' : Db) :
  keeps_identity m m' ->
  groups db' = groups db ->
  has_access user m' db' = has_access user m db.
Proof.
  intros (_ & Hs & Hr & Hg & _) Hgr. unfold has_access.
  now rewrite Hs, Hr, Hg, Hgr.
Qed.

Lemma unreacted_reacted (u : ObjectId) (e : string) (t : Date) (m : Message) :
  reaction_count u e m = 0 ->
  reactions (unreacted u e (reacted u e t m)) = reactions m.
Proof.
  intros Hc. rewrite unreacted_reactions, reacted_reactions.
  rewrite List.filter_app. simpl. rewrite !String.eqb_refl. simpl.
  rewrite List.app_nil_r.
  apply (filter_negb_none
           (fun r => String.eqb (Reaction.user r) u
                     && String.eqb (Reaction.emoji r) e)).
  exact Hc.
Qed.

Lemma has_access_iff (user : User.t) (m : Message) (db : Db) :
  has_access user m db = true
  <-> sender m = User._id user
      \/ recipient m = Some (User._id user)
      \/ exists g grp, group m = Some g
                       /\ In grp (groups db)
                       /\ Group._id grp = g
                       /\ In (User._id user) (Group.members grp).
Proof.
  unfold has_access.
  rewrite !orb_true_iff, String.eqb_eq, option_eqb_true. split.
  - intros [[H | H] | H]; auto.
    destruct (group m) as [g|]; [|discriminate].
    apply existsb_exists in H as (grp & Hin & H).
    apply andb_true_iff in H as [H1 H2].
    apply String.eqb_eq in H1.
    apply existsb_exists in H2 as (x & Hx & E). apply String.eqb_eq in E. subst x.
    right. right. exists g, grp. auto.
  - intros [H | [H | (g & grp & -> & Hin & Hid & Hm)]]; auto.
    right. apply existsb_exists. exists grp. split; [exact Hin|].
    apply andb_true_iff. split; [now apply String.eqb_eq|].
    apply existsb_exists. exists (User._id user). split; [exact Hm|].
    apply String.eqb_refl.
Qed.

(** X5. The reaction route is a toggle. For a user with access to a live,
    valid stored message who does not hold the reaction yet, a first
    [POST /:messageId/reaction] answers "Reaction added" with the reaction
    appended to the list, and a second one with the same emoji answers
    "Reaction removed" and leaves the stored message with the reaction
    list it had before the first. *)
Theorem post_reaction_toggles (user : User.t) (id : ObjectId) (e : string)
    (t1 t2 : Date) (db : Db) (this : Message) :
  stored db id = Some this ->
  validate this = true ->
  isDeleted this = false ->
  has_access user this db = true ->
  isLength 1 10 (Js.trim e) = true ->
  reaction_count (User._id user) (Js.trim e) this = 0 ->
  exists (db1 db2 : Db) (this2 : Message),
    post_reaction user id e t1 db
    = (Return (mkResponse 200
                 (BReactions "Reaction added"
                    (reactions this ++ [Reaction.mk (User._id user) (Js.trim e) t1]))),
       db1)
    /\ post_reaction user id e t2 db1
       = (Return (mkResponse 200 (BReactions "Reaction removed" (reactions this))),
          db2)
    /\ stored db2 id = Some this2
    /\ reactions this2 = reactions this
    /\ content this2 = content this
    /\ readBy this2 = readBy this.
Proof.
  intros Hs Hv Hd Ha Hl Hc.
  pose proof (stored_id _ _ _ Hs) as Hid.
  pose proof (stored_has_id _ _ _ Hs) as Hhas. rewrite <- Hid in Hhas.
  set (u := User._id user) in *. set (e1 := Js.trim e) in *.
  destruct (reacted_fields u e1 t1 this) as (K1 & C1 & R1 & D1).
  destruct (unreacted_fields u e1 (reacted u e1 t1 this)) as (K2 & C2 & R2 & D2).
  set (this1 := reacted u e1 t1 this) in *.
  set (db1 := set_messages (replace_doc this1 (messages db)) db).
  assert (Hi1 : _id this1 = _id this) by apply K1.
  assert (Hs1 : stored db1 id = Some this1).
  { rewrite <- Hid, <- Hi1. apply stored_after_replace. now rewrite Hi1. }
  assert (Hv1 : validate this1 = true).
  { unfold this1, reacted. now rewrite pre_save_validate. }
  pose proof (stored_has_id _ _ _ Hs1) as Hhas1. rewrite <- Hid, <- Hi1 in Hhas1.
  set (this2 := unreacted u e1 this1) in *.
  set (db2 := set_messages (replace_doc this2 (messages db1)) db1).
  assert (Hi2 : _id this2 = _id this1) by apply K2.
  exists db1, db2, this2.
  split; [|split; [|split; [|split; [|split]]]].
  - rewrite (post_reaction_unfold user id e t1 this db Hs). fold u e1.
    rewrite Hl, Hd, Ha. cbn [negb].
    rewrite (addReaction_absent u e1 t1 this db Hc Hv Hhas).
    fold this1 db1. unfold this1. now rewrite reacted_reactions.
  - rewrite (post_reaction_unfold user id e t2 this1 db1 Hs1). fold u e1.
    rewrite Hl, D1, Hd. cbn [negb].
    rewrite (has_access_ext user this this1 db db1 K1 eq_refl), Ha. cbn [negb].
    rewrite (addReaction_present u e1 t2 this1 db1)
      by (unfold this1; rewrite reacted_count; discriminate).
    rewrite (removeReaction_stored u e1 this1 db1 Hv1 Hhas1).
    fold this2 db2. unfold this2, this1. now rewrite unreacted_reacted.
  - rewrite <- Hid, <- Hi1, <- Hi2. apply stored_after_replace.
    now rewrite Hi2.
  - unfold this2, this1. now apply unreacted_reacted.
  - congruence.
  - congruence.
Qed.

Lemma post_reaction_toggles_witness :
  exists (db1 db2 : Db),
    post_reaction Sample.u_alice Sample.d1 " +1 " 5000 Sample.db0
    = (Return (mkResponse 200
                 (BReactions "Reaction added" [Reaction.mk Sample.alice "+1" 5000])),
       db1)
    /\ post_reaction Sample.u_alice Sample.d1 " +1 " 6000 db1
       = (Return (mkResponse 200 (BReactions "Reaction removed" [])), db2).
Proof.
  destruct (post_reaction_toggles Sample.u_alice Sample.d1 " +1 " 5000 6000
              Sample.db0 _ eq_refl eq_refl eq_refl eq_refl eq_refl eq_refl)
    as (db1 & db2 & this2 & H1 & H2 & _).
  exists db1, db2. split; [exact H1 | exact H2].
Defined.

(** X6. Editing and reacting are gated. On a live stored message, a valid
    edit request by anyone but the sender is answered 403, and a valid
    reaction request by a user who is neither the sender, nor the
    recipient, nor listed as a member of the message's group is answered
    403; both leave the database as it was. *)
Theorem edit_and_reaction_gates (user : User.t) (id : ObjectId)
    (body : string) (now : Date) (db : Db) (this : Message) :
  stored db id = Some this ->
  isDeleted this = false ->
  (isLength 1 2000 (Js.trim body) = true ->
   sender this <> User._id user ->
   put_message user id body now db
   = (Return (mkResponse 403 (BMessage "You can only edit your own messages")), db))
  /\ (isLength 1 10 (Js.trim body) = true ->
      has_access user this db = false ->
      post_reaction user id body now db
      = (Return (mkResponse 403 (BMessage "Access denied")), db))
  /\ (has_access user this db = true
      <-> sender this = User._id user
          \/ recipient this = Some (User._id user)
          \/ exists g grp, group this = Some g
                           /\ In grp (groups db)
                           /\ Group._id grp = g
                           /\ In (User._id user) (Group.members grp)).
Proof.
  intros Hs Hd. split; [|split].
  - intros Hl Hne.
    rewrite (put_message_unfold user id body now this db Hs), Hl, Hd.
    apply String.eqb_neq in Hne. now rewrite Hne.
  - intros Hl Ha.
    rewrite (post_reaction_unfold user id body now this db Hs), Hl, Hd, Ha.
    reflexivity.
  - apply has_access_iff.
Qed.

Lemma edit_and_reaction_gates_witness :
  put_message Sample.u_alice Sample.d1 "mine now" 1100 Sample.db0
  = (Return (mkResponse 403 (BMessage "You can only edit your own messages")),
     Sample.db0)
  /\ post_reaction Sample.u_carol Sample.d1 "+1" 1100 Sample.db0
     = (Return (mkResponse 403 (BMessage "Access denied")), Sample.db0).
Proof.
  destruct (edit_and_reaction_gates Sample.u_alice Sample.d1 "mine now" 1100
              Sample.db0 _ eq_refl eq_refl) as (H1 & _).
  destruct (edit_and_reaction_gates Sample.u_carol Sample.d1 "+1" 1100
              Sample.db0 _ eq_refl eq_refl) as (_ & H2 & _).
  split; [apply H1 | apply H2]; try reflexivity.
  vm_compute. discriminate.
Defined.

(* ------------------------------------------------------------------ *)
(** ** Order of the pages *)

Lemma insert_by_newest (x : Message) (l : list Message) :
  newest_first l -> newest_first (Js.insert_by newer_first x l).
Proof.
  unfold newest_first. intros H. induction H as [|y l Hl IH Hy]; simpl.
  - repeat constructor.
  - unfold newer_first at 1. destruct (Z.leb (createdAt y) (createdAt x)) eqn:E.
    + apply Z.leb_le in E. constructor; [constructor; assumption|].
      constructor; [exact E|].
      rewrite Forall_forall in Hy |- *. intros z Hz.
      specialize (Hy z Hz). cbn in Hy. lia.
    + apply Z.leb_gt in E. constructor; [exact IH|].
      apply Forall_forall. intros z Hz.
      apply In_insert_by in Hz as [-> | Hz]; [lia|].
      rewrite Forall_forall in Hy. now apply Hy.
Qed.

Lemma sort_by_newest (l : list Message) :
  newest_first (Js.sort_by newer_first l).
Proof.
  induction l as [|x l IH]; simpl; [constructor | now apply insert_by_newest].
Qed.

Lemma StronglySorted_skipn {A : Type} (R : A -> A -> Prop) (n : nat) (l : list A) :
  StronglySorted R l -> StronglySorted R (List.skipn n l).
Proof.
  revert l. induction n as [|n IH]; intros l H; [exact H|].
  destruct l as [|x l]; [exact H|]. cbn. apply IH. now inversion H.
Qed.

Lemma StronglySorted_firstn {A : Type} (R : A -> A -> Prop) (n : nat) (l : list A) :
  StronglySorted R l -> StronglySorted R (List.firstn n l).
Proof.
  revert l. induction n as [|n IH]; intros l H; [constructor|].
  destruct l as [|x l]; [constructor|]. cbn. inversion H; subst.
  constructor; [now apply IH|].
  apply Forall_forall. intros z Hz. apply In_firstn in Hz.
  rewrite Forall_forall in H3. now apply H3.
Qed.

Lemma StronglySorted_snoc {A : Type} (R : A -> A -> Prop) (l : list A) (x : A) :
  StronglySorted R l -> Forall (fun y => R y x) l -> StronglySorted R (l ++ [x]).
Proof.
  intros H. induction H as [|y l Hl IH Hy]; intros Hx; cbn.
  - repeat constructor.
  - inversion Hx; subst. constructor; [now apply IH|].
    apply Forall_app. split; [exact Hy | now constructor].
Qed.

Lemma newest_first_rev (l : list Message) :
  newest_first l -> oldest_first (List.rev l).
Proof.
  unfold newest_first, oldest_first.
  intros H. induction H as [|y l Hl IH Hy]; cbn; [constructor|].
  apply StronglySorted_snoc; [exact IH|].
  apply Forall_forall. intros z Hz. apply List.in_rev in Hz.
  rewrite Forall_forall in Hy. now apply Hy.
Qed.

Section PageOrder.

Variable regex_test : string -> string -> bool.

Lemma exec_newest_first (q : Query) (db : Db) (l : list Message) (db' : Db) :
  q_sortCreatedAtDesc q = true ->
  exec regex_test q db = (Return l, db') ->
  newest_first l.
Proof.
  intros Hq. unfold exec, bind, get, ret, throw. rewrite Hq.
  pose proof (sort_by_newest
                (List.filter (matches regex_test (q_filter q)) (messages db))) as Hs.
  destruct (q_skip q) as [k|]; [destruct (Z.ltb k 0); [discriminate|]|];
    destruct (q_limit q) as [n|]; try destruct (Z.eqb n 0);
    intros H; inversion H; subst; unfold newest_first in *;
    auto using StronglySorted_skipn, StronglySorted_firstn.
Qed.

(** X7. The page [GET /conversations/:userId] answers with lists stored,
    live messages of the conversation between the requester and the other
    user, oldest first, as they were before the request marked anything
    read; [hasMore] says that the page has exactly [limit] messages.
    [GET /groups/:groupId] does the same with the group's messages. *)
Theorem fetch_page_oldest_first (db : Db) (user : User.t) (now : Date)
    (qp ql : option Z) :
  (forall other msgs page hasMore db',
      get_conversation_messages regex_test user other qp ql now db
      = (Return (mkResponse 200 (BPage msgs page hasMore)), db') ->
      oldest_first msgs
      /\ Forall (fun m => In m (messages db)
                          /\ isDeleted m = false
                          /\ conversation m
                             = Some (conversationId (User._id user) other)) msgs
      /\ page = parseInt_or qp 1
      /\ hasMore = Z.eqb (Z.of_nat (List.length msgs)) (parseInt_or ql 50))
  /\ (forall g msgs page hasMore db',
         get_group_messages regex_test user g qp ql now db
         = (Return (mkResponse 200 (BPage msgs page hasMore)), db') ->
         oldest_first msgs
         /\ Forall (fun m => In m (messages db)
                             /\ isDeleted m = false
                             /\ group m = Some g) msgs
         /\ page = parseInt_or qp 1
         /\ hasMore = Z.eqb (Z.of_nat (List.length msgs)) (parseInt_or ql 50)).
Proof.
  split.
  - intros other msgs page hasMore db'.
    unfold get_conversation_messages, try_catch, server_error.
    unfold bind at 1. rewrite User_findById_eq.
    destruct (user_of db other) as [u|]; [|cbn; discriminate].
    unfold bind at 1. unfold getConversation.
    match goal with
    | |- context [exec regex_test ?Q db] =>
        pose proof (exec_newest_first Q db) as Hsorted;
        destruct (exec_cases regex_test Q db) as [(l & E & Hl) | (e & E)];
        rewrite E in *
    end; [|cbn; discriminate].
    specialize (Hsorted l db eq_refl eq_refl).
    cbn. intros H. inversion H; subst. clear H.
    split; [now apply newest_first_rev|].
    split; [|split; [reflexivity | now rewrite List.length_rev]].
    apply Forall_forall. intros m Hm. apply List.in_rev in Hm.
    rewrite Forall_forall in Hl. destruct (Hl m Hm) as [Hin Hmatch].
    split; [exact Hin|].
    cbn in Hmatch. apply andb_true_iff in Hmatch as [Hc Hd].
    split; [now destruct (isDeleted m)|].
    destruct (conversation m) as [k|]; [|discriminate].
    apply String.eqb_eq in Hc. now subst k.
  - intros g msgs page hasMore db'.
    unfold get_group_messages.
    unfold bind at 1. rewrite requireGroupMember_eq.
    destruct (member_gate user g db) as [denied|grp] eqn:Hg.
    { unfold member_gate in Hg. destruct (group_of db g) as [gr|].
      - destruct (Group.isMember gr (User._id user)); inversion Hg; subst;
          cbn; discriminate.
      - inversion Hg; subst; cbn; discriminate. }
    unfold try_catch, server_error.
    unfold bind at 1. unfold getGroupMessages.
    match goal with
    | |- context [exec regex_test ?Q db] =>
        pose proof (exec_newest_first Q db) as Hsorted;
        destruct (exec_cases regex_test Q db) as [(l & E & Hl) | (e & E)];
        rewrite E in *
    end; [|cbn; discriminate].
    specialize (Hsorted l db eq_refl eq_refl).
    cbn. intros H. inversion H; subst. clear H.
    split; [now apply newest_first_rev|].
    split; [|split; [reflexivity | now rewrite List.length_rev]].
    apply Forall_forall. intros m Hm. apply List.in_rev in Hm.
    rewrite Forall_forall in Hl. destruct (Hl m Hm) as [Hin Hmatch].
    split; [exact Hin|].
    cbn in Hmatch. apply andb_true_iff in Hmatch as [Hc Hd].
    split; [now destruct (isDeleted m)|].
    now apply option_eqb_true.
Qed.

End PageOrder.

Lemma fetch_page_oldest_first_witness :
  exists msgs db',
    get_conversation_messages (fun _ _ => true) Sample.u_alice Sample.bob
      None None 9000 Sample.db0
    = (Return (mkResponse 200 (BPage msgs 1 false)), db')
    /\ oldest_first msgs
    /\ List.map _id msgs = [Sample.d1; Sample.d2; Sample.d3].
Proof.
  assert (E : exists msgs db',
             get_conversation_messages (fun _ _ => true) Sample.u_alice Sample.bob
               None None 9000 Sample.db0
             = (Return (mkResponse 200 (BPage msgs 1 false)), db')
             /\ List.map _id msgs = [Sample.d1; Sample.d2; Sample.d3]).
  { eexists; eexists. split; vm_compute; reflexivity. }
  destruct E as (msgs & db' & E & Hids).
  destruct (fetch_page_oldest_first (fun _ _ => true) Sample.db0 Sample.u_alice
              9000 None None) as (H & _).
  destruct (H Sample.bob msgs 1%Z false db' E) as (Hs & _).
  exists msgs, db'. auto.
Defined.

(* ------------------------------------------------------------------ *)
(** ** Search pages *)




(* ------------------------------------------------------------------ *)
(** ** Trimming of the content, REST against the gateway *)

(** X9. [POST /direct] stores the trimmed body under the requester's id
    and refuses (400, nothing stored) a body that is empty once trimmed;
    the gateway's [send_message] stores the content exactly as sent, so a
    non-empty content of at most 2000 characters is stored even when it
    consists of white space only. *)
Theorem rest_trims_gateway_does_not (user : User.t) (r c : string)
    (ty : option string) (fresh : ObjectId) (now : Date) (db : Db) :
  (Js.trim c = "" ->
   post_direct user r c ty fresh now db
   = (Return (mkResponse 400 (BMessage "Validation failed")), db))
  /\ (forall resp db',
         post_direct user r c ty fresh now db = (Return resp, db') ->
         status resp = 201 ->
         exists m,
           messages db' = messages db ++ [m]
           /\ body resp = BData "Message sent successfully" m
           /\ content m = Js.trim c
           /\ sender m = User._id user
           /\ _id m = fresh /\ createdAt m = now
           /\ readBy m = [] /\ reactions m = [] /\ isDeleted m = false)
  /\ (forall me,
         c <> "" ->
         String.length c <= 2000 ->
         user_of db r <> None ->
         has_id fresh (messages db) = false ->
         optional_isIn type_enum ty = true ->
         exists m db',
           send_message (mkSocket (Some me)) r c ty fresh now db
           = (Return [emit_room ("user_" ++ r) "new_message" (Some m);
                      emit_self "message_sent" "" (Some m)], db')
           /\ messages db' = messages db ++ [m]
           /\ content m = c
           /\ sender m = me).
Proof.
  split; [|split].
  - intros Ht. unfold post_direct, try_catch, server_error. rewrite Ht.
    cbn [isLength String.length Nat.leb andb]. rewrite andb_false_r. reflexivity.
  - intros resp db'. unfold post_direct, try_catch, server_error.
    destruct (negb _); [intros H; inversion H; subst; cbn; discriminate|].
    unfold bind at 1. rewrite User_findById_eq.
    destruct (user_of db r) as [u|];
      [|intros H; inversion H; subst; cbn; discriminate].
    unfold bind.
    destruct (save_new_cases_valid
                (newMessage fresh now (User._id user) (Some r) None (Js.trim c)
                   (default_to ty "text") None) db)
      as [(-> & _) | (e & ->)];
      [|intros H; inversion H; subst; cbn; discriminate].
    unfold ret. intros H _. inversion H; subst. clear H.
    eexists. split; [reflexivity|]. repeat split.
  - intros me Hne Hlen Hu Hid Hty.
    unfold send_message, try_catch. cbn [userId].
    unfold bind at 1. rewrite User_findById_eq.
    destruct (user_of db r) as [u|]; [|contradiction].
    unfold bind.
    assert (Hv : validate (newMessage fresh now me (@Some ObjectId r) None c
                             (default_to ty "text") None) = true).
    { unfold validate. cbn [content type newMessage].
      apply String.eqb_neq in Hne. rewrite Hne.
      apply Nat.leb_le in Hlen. rewrite Hlen. cbn [negb andb].
      destruct ty as [t|]; [exact Hty | reflexivity]. }
    destruct (save_new_cases_valid
                (newMessage fresh now me (@Some ObjectId r) None c (default_to ty "text") None)
                db)
      as [(E & _) | (e & E)].
    + exists (pre_save true
                (newMessage fresh now me (@Some ObjectId r) None c (default_to ty "text") None)),
        (set_messages
           (messages db
            ++ [pre_save true
                  (newMessage fresh now me (@Some ObjectId r) None c (default_to ty "text")
                     None)]) db).
      rewrite E. split; [reflexivity|]. repeat split.
    + exfalso. revert E. unfold save. rewrite Hv.
      unfold bind, get. rewrite pre_save_id. cbn [_id newMessage]. rewrite Hid.
      discriminate.
Qed.

Lemma rest_trims_gateway_does_not_witness :
  post_direct Sample.u_alice Sample.bob "   " None Sample.d5 5000 Sample.db0
  = (Return (mkResponse 400 (BMessage "Validation failed")), Sample.db0)
  /\ exists m db',
       send_message (mkSocket (Some Sample.alice)) Sample.bob "   " None
         Sample.d5 5000 Sample.db0
       = (Return [emit_room ("user_" ++ Sample.bob) "new_message" (Some m);
                  emit_self "message_sent" "" (Some m)], db')
       /\ content m = "   ".
Proof.
  destruct (rest_trims_gateway_does_not Sample.u_alice Sample.bob "   " None
              Sample.d5 5000 Sample.db0) as (H1 & _ & H3).
  split; [apply H1; reflexivity|].
  destruct (H3 Sample.alice) as (m & db' & E & _ & Hc & _);
    try reflexivity; try discriminate.
  - vm_compute. repeat constructor.
  - exists m, db'. auto.
Defined.

(* ------------------------------------------------------------------ *)
(** ** Events of the gateway handlers *)

Lemma scoped_self (db' : Db) (ev msg : string) (m : option Message) :
  (ev = "error" -> m = None) -> scoped db' (emit_self ev msg m).
Proof.
  intros H. split; cbn.
  - intros E. split; [reflexivity | now apply H].
  - intros Hn. now contradiction Hn.
Qed.

Lemma scoped_room (db' : Db) (r ev : string) (m : Message) :
  ev <> "error" -> In m (messages db') -> scoped db' (emit_room r ev (Some m)).
Proof.
  intros Hne Hin. split; cbn.
  - intros E. contradiction.
  - intros _. now exists m.
Qed.

Lemma stored_In (db : Db) (id : ObjectId) (m : Message) :
  stored db id = Some m -> In m (messages db).
Proof. unfold stored. intros H. now apply List.find_some in H. Qed.

Lemma send_message_scoped (socket : Socket) (r : ObjectId) (c : string)
    (ty : option string) (fresh : ObjectId) (now : Date) (db : Db) :
  (exists evs, fst (send_message socket r c ty fresh now db) = Return evs)
  /\ Forall (scoped (snd (send_message socket r c ty fresh now db)))
       (events_of (send_message socket r c ty fresh now db)).
Proof.
  unfold events_of.
  remember (send_message socket r c ty fresh now db) as X eqn:HX.
  unfold send_message, try_catch in HX.
  destruct (userId socket) as [me|].
  2:{ subst X. cbn. split; [eauto|].
      apply Forall_cons; [apply scoped_self; reflexivity | apply Forall_nil]. }
  unfold bind at 1 in HX. rewrite User_findById_eq in HX.
  destruct (user_of db r) as [u|].
  2:{ subst X. cbn. split; [eauto|].
      apply Forall_cons; [apply scoped_self; reflexivity | apply Forall_nil]. }
  unfold bind in HX.
  destruct (save_new_cases_valid
              (newMessage fresh now me (@Some ObjectId r) None c
                 (default_to ty "text") None) db)
    as [(E & _) | (e & E)]; rewrite E in HX; subst X; cbn.
  - split; [eauto|].
    apply Forall_cons; [|apply Forall_cons; [|apply Forall_nil]].
    + apply scoped_room; [discriminate|]. cbn. apply List.in_or_app. right. now left.
    + apply scoped_self. discriminate.
  - split; [eauto|].
    apply Forall_cons; [apply scoped_self; reflexivity | apply Forall_nil].
Qed.

Lemma send_group_message_scoped (socket : Socket) (g : ObjectId) (c : string)
    (ty : option string) (rt : option ObjectId) (fresh : ObjectId) (now : Date)
    (db : Db) :
  (exists evs, fst (send_group_message socket g c ty rt fresh now db) = Return evs)
  /\ Forall (scoped (snd (send_group_message socket g c ty rt fresh now db)))
       (events_of (send_group_message socket g c ty rt fresh now db)).
Proof.
  unfold events_of.
  remember (send_group_message socket g c ty rt fresh now db) as X eqn:HX.
  unfold send_group_message, try_catch in HX.
  destruct (userId socket) as [me|].
  2:{ subst X. cbn. split; [eauto|].
      apply Forall_cons; [apply scoped_self; reflexivity | apply Forall_nil]. }
  unfold bind at 1 in HX.
  change (Group_findById g db) with (Return (group_of db g), db) in HX.
  destruct (group_of db g) as [grp|].
  2:{ subst X. cbn. split; [eauto|].
      apply Forall_cons; [apply scoped_self; reflexivity | apply Forall_nil]. }
  destruct (negb (Group.isMember grp me)).
  { subst X. cbn. split; [eauto|].
    apply Forall_cons; [apply scoped_self; reflexivity | apply Forall_nil]. }
  unfold bind in HX.
  destruct (save_new_cases_valid
              (newMessage fresh now me None (@Some ObjectId g) c
                 (default_to ty "text") rt) db)
    as [(E & _) | (e & E)]; rewrite E in HX; subst X; cbn.
  - split; [eauto|].
    apply Forall_cons; [|apply Forall_cons; [|apply Forall_nil]].
    + apply scoped_room; [discriminate|]. cbn. apply List.in_or_app. right. now left.
    + apply scoped_self. discriminate.
  - split; [eauto|].
    apply Forall_cons; [apply scoped_self; reflexivity | apply Forall_nil].
Qed.

Lemma mark_as_read_scoped (socket : Socket) (id : ObjectId)
    (g : option ObjectId) (now : Date) (db : Db) :
  (exists evs, fst (mark_as_read socket id g now db) = Return evs)
  /\ Forall (scoped (snd (mark_as_read socket id g now db)))
       (events_of (mark_as_read socket id g now db))
  /\ Forall (fun ev => event ev = "message_read")
       (events_of (mark_as_read socket id g now db)).
Proof.
  unfold events_of.
  remember (mark_as_read socket id g now db) as X eqn:HX.
  unfold mark_as_read, try_catch in HX.
  destruct (userId socket) as [me|].
  2:{ subst X. cbn. split; [eauto|]. split; constructor. }
  unfold bind at 1 in HX. rewrite findById_stored in HX.
  destruct (stored db id) as [this|] eqn:Hs.
  2:{ subst X. cbn. split; [eauto|]. split; constructor. }
  pose proof (stored_id _ _ _ Hs) as Hid.
  pose proof (stored_has_id _ _ _ Hs) as Hhas. rewrite <- Hid in Hhas.
  unfold bind in HX.
  destruct (markAsRead_cases me now this db)
    as [(E & _) | [(E & Hr & _) | (e & E)]]; rewrite E in HX; subst X.
  - destruct g; cbn; (split; [eauto|]);
      (split; [apply Forall_cons; [|apply Forall_nil]
              | apply Forall_cons; [reflexivity | apply Forall_nil]]);
      apply scoped_room; try discriminate; now apply (stored_In db id).
  - assert (Hin : In (marked me now this)
                    (messages (set_messages
                                 (replace_doc (marked me now this) (messages db)) db))).
    { apply (stored_In _ (_id (marked me now this))).
      apply stored_after_replace. unfold marked. now rewrite pre_save_id. }
    destruct g; cbn; (split; [eauto|]);
      (split; [apply Forall_cons; [|apply Forall_nil]
              | apply Forall_cons; [reflexivity | apply Forall_nil]]);
      apply scoped_room; try discriminate; exact Hin.
  - cbn. split; [eauto|]. split; constructor.
Qed.

(** X10. The three socket handlers that write messages never throw; every
    error they report goes to the emitting socket only and carries no
    message, and every event they send to a room carries a message that
    is stored in the database the handler leaves. An unauthenticated
    socket changes nothing: the two send handlers answer it with a
    "Not authenticated" error and [mark_as_read] with no event at all. *)
Theorem gateway_events_scoped (db : Db) :
  (forall socket r c ty fresh now,
      (exists evs, fst (send_message socket r c ty fresh now db) = Return evs)
      /\ Forall (scoped (snd (send_message socket r c ty fresh now db)))
           (events_of (send_message socket r c ty fresh now db)))
  /\ (forall socket g c ty rt fresh now,
         (exists evs,
             fst (send_group_message socket g c ty rt fresh now db) = Return evs)
         /\ Forall (scoped (snd (send_group_message socket g c ty rt fresh now db)))
              (events_of (send_group_message socket g c ty rt fresh now db)))
  /\ (forall socket id g now,
         (exists evs, fst (mark_as_read socket id g now db) = Return evs)
         /\ Forall (scoped (snd (mark_as_read socket id g now db)))
              (events_of (mark_as_read socket id g now db))
         /\ Forall (fun ev => event ev = "message_read")
              (events_of (mark_as_read socket id g now db)))
  /\ (forall r c ty fresh now,
         send_message (mkSocket None) r c ty fresh now db
         = (Return [emit_self "error" "Not authenticated" None], db))
  /\ (forall g c ty rt fresh now,
         send_group_message (mkSocket None) g c ty rt fresh now db
         = (Return [emit_self "error" "Not authenticated" None], db))
  /\ (forall id g now,
         mark_as_read (mkSocket None) id g now db = (Return [], db)).
Proof.
  repeat split; intros;
    try apply send_message_scoped;
    try apply send_group_message_scoped;
    try apply mark_as_read_scoped.
Qed.

(* ================================================================== *)
(** * Groups: members, admins, joining and leaving *)

Lemma update_first_none {A : Type} (p : A -> bool) (f : A -> A) (l : list A) :
  existsb p l = false -> update_first p f l = l.
Proof.
  induction l as [|x l IH]; simpl; [reflexivity|].
  destruct (p x); simpl; [discriminate|]. intros H. now rewrite IH.
Qed.

Lemma update_first_same {A : Type} (p : A -> bool) (f : A -> A) (l : list A) :
  (forall x, List.find p l = Some x -> f x = x) -> update_first p f l = l.
Proof.
  induction l as [|x l IH]; simpl; [reflexivity|].
  destruct (p x); intros H.
  - now rewrite (H x eq_refl).
  - now rewrite IH.
Qed.

Lemma find_update_first {A : Type} (p : A -> bool) (f : A -> A) (l : list A)
    (x : A) :
  List.find p l = Some x -> p (f x) = true ->
  List.find p (update_first p f l) = Some (f x).
Proof.
  induction l as [|y l IH]; simpl; [discriminate|].
  destruct (p y) eqn:E; intros H Hp.
  - inversion H; subst. simpl. now rewrite Hp.
  - simpl. rewrite E. now apply IH.
Qed.

Lemma update_first_length {A : Type} (p : A -> bool) (f : A -> A) (l : list A) :
  List.length (update_first p f l) = List.length l.
Proof.
  induction l as [|y l IH]; simpl; [reflexivity|].
  destruct (p y); simpl; congruence.
Qed.

Lemma update_first_map {A B : Type} (p : A -> bool) (f : A -> A) (k : A -> B)
    (l : list A) :
  (forall x, p x = true -> k (f x) = k x) ->
  List.map k (update_first p f l) = List.map k l.
Proof.
  intros H. induction l as [|y l IH]; simpl; [reflexivity|].
  destruct (p y) eqn:E; simpl; [now rewrite H | now rewrite IH].
Qed.

(** With unique keys, [update_first] on the key changes the document with
    that key and no other. *)
Lemma In_update_first {A : Type} (key : A -> string) (id : string) (f : A -> A)
    (l : list A) (y : A) :
  NoDup (List.map key l) ->
  In y (update_first (fun x => String.eqb (key x) id) f l) ->
  (In y l /\ key y <> id) \/ (exists x, In x l /\ key x = id /\ y = f x).
Proof.
  intros Hnd. induction l as [|x l IH]; simpl; [tauto|].
  inversion Hnd as [|? ? Hx Hnd']; subst.
  destruct (String.eqb (key x) id) eqn:E.
  - apply String.eqb_eq in E. intros [<- | Hy].
    + right. exists x. auto.
    + left. split; [now right|]. intros Hid. apply Hx.
      rewrite E, <- Hid. now apply List.in_map.
  - apply String.eqb_neq in E. intros [<- | Hy].
    + left. split; [now left | exact E].
    + destruct (IH Hnd' Hy) as [[H1 H2] | (z & H1 & H2 & H3)].
      * left. split; [now right | exact H2].
      * right. exists z. split; [now right | auto].
Qed.

Lemma group_save_ok (this : GroupDoc.t) (s : GDb) :
  GroupDoc.validate this = true ->
  group_at s (GroupDoc._id this) <> None ->
  group_save this s
  = (Return this,
     mkGDb (update_first (fun g => String.eqb (GroupDoc._id g) (GroupDoc._id this))
              (fun _ => this) (gdocs s)) (gusers s)).
Proof.
  intros Hv Hs. unfold group_save. rewrite Hv.
  unfold sbind, sget, sput, sret.
  destruct (existsb _ (gdocs s)) eqn:E; [reflexivity|].
  exfalso. apply Hs. unfold group_at.
  destruct (List.find _ (gdocs s)) as [g|] eqn:F; [|reflexivity].
  apply List.find_some in F.
  assert (existsb (fun g0 => String.eqb (GroupDoc._id g0) (GroupDoc._id this))
            (gdocs s) = true) by (apply existsb_exists; eauto).
  congruence.
Qed.

Lemma group_at_id (s : GDb) (id : ObjectId) (g : GroupDoc.t) :
  group_at s id = Some g -> GroupDoc._id g = id.
Proof.
  unfold group_at. intros H. apply List.find_some in H as [_ H].
  now apply String.eqb_eq.
Qed.

Lemma isMember_count (g : GroupDoc.t) (u : ObjectId) :
  GroupDoc.isMember g u = true
  <-> In u (List.map Member.user (GroupDoc.members g)).
Proof.
  unfold GroupDoc.isMember, Js.some, toString. rewrite existsb_exists, List.in_map_iff.
  split.
  - intros (m & Hin & E). apply String.eqb_eq in E. eauto.
  - intros (m & E & Hin). exists m. split; [exact Hin | now apply String.eqb_eq].
Qed.

Lemma isMember_view (g : GroupDoc.t) (u : ObjectId) :
  Group.isMember (GroupDoc.view g) u = GroupDoc.isMember g u
  /\ Group.isAdmin (GroupDoc.view g) u = GroupDoc.isAdmin g u.
Proof.
  unfold Group.isMember, GroupDoc.isMember, Group.isAdmin, GroupDoc.isAdmin,
    Js.some, GroupDoc.view. cbn. split; [|reflexivity].
  induction (GroupDoc.members g) as [|m l IH]; cbn; [reflexivity | now rewrite IH].
Qed.

Lemma find_member_none (g : GroupDoc.t) (u : ObjectId) :
  List.find (fun m => String.eqb (Member.user m) u) (GroupDoc.members g) = None
  <-> GroupDoc.isMember g u = false.
Proof.
  unfold GroupDoc.isMember, Js.some, toString.
  induction (GroupDoc.members g) as [|m l IH]; cbn; [tauto|].
  destruct (String.eqb (Member.user m) u); cbn; [split; discriminate | exact IH].
Qed.

Lemma validate_with_member (u : ObjectId) (now : Date) (g : GroupDoc.t) :
  GroupDoc.validate g = true -> GroupDoc.validate (with_member u now g) = true.
Proof.
  unfold GroupDoc.validate, with_member. cbn. intros H.
  apply andb_true_iff in H as [H1 H2]. rewrite H1. cbn.
  rewrite List.forallb_app, H2. reflexivity.
Qed.

Lemma validate_without_member (u : ObjectId) (g : GroupDoc.t) :
  GroupDoc.validate g = true -> GroupDoc.validate (without_member u g) = true.
Proof.
  unfold GroupDoc.validate, without_member. cbn. intros H.
  apply andb_true_iff in H as [H1 H2]. rewrite H1. cbn.
  rewrite List.forallb_forall in H2 |- *. intros m Hm.
  apply List.filter_In in Hm as [Hm _]. now apply H2.
Qed.

(** What [addMember] does, case by case. *)
Lemma addMember_cases (u : ObjectId) (now : Date) (g : GroupDoc.t) (s : GDb) :
  GroupDoc.validate g = true ->
  group_at s (GroupDoc._id g) <> None ->
  addMember u "member" now g s
  = if negb (GroupDoc.isMember g u)
       && Z.ltb (GroupDoc.memberCount g) (GroupDoc.maxMembers g)
    then (Return (with_member u now g, true),
          rewritten s (with_member u now g) u
            (addToSet_joinedGroups (GroupDoc._id g)))
    else (Return (g, false), s).
Proof.
  intros Hv Hs. unfold addMember, Js.find, toString, Js.push, GroupDoc.memberCount.
  destruct (GroupDoc.isMember g u) eqn:Hm; cbn [negb andb].
  - destruct (List.find _ (GroupDoc.members g)) eqn:F; [reflexivity|].
    apply find_member_none in F. congruence.
  - apply find_member_none in Hm. rewrite Hm.
    destruct (Z.ltb _ _); [|reflexivity].
    unfold sbind. fold (with_member u now g).
    rewrite (group_save_ok (with_member u now g) s
               (validate_with_member u now g Hv) Hs).
    reflexivity.
Qed.

Lemma removeMember_ok (u : ObjectId) (g : GroupDoc.t) (s : GDb) :
  GroupDoc.validate g = true ->
  group_at s (GroupDoc._id g) <> None ->
  removeMember u g s
  = (Return (without_member u g),
     rewritten s (without_member u g) u (pull_joinedGroups (GroupDoc._id g))).
Proof.
  intros Hv Hs. unfold removeMember, Js.filter, toString.
  unfold sbind. fold (without_member u g).
  rewrite (group_save_ok (without_member u g) s
             (validate_without_member u g Hv) Hs).
  reflexivity.
Qed.

Lemma group_at_rewritten (s : GDb) (id : ObjectId) (g g' : GroupDoc.t)
    (u : ObjectId) (f : User.t -> User.t) :
  group_at s id = Some g ->
  GroupDoc._id g' = id ->
  group_at (rewritten s g' u f) id = Some g'.
Proof.
  intros Hs Hid. unfold group_at, rewritten in *. cbn [gdocs]. rewrite Hid.
  apply (find_update_first _ (fun _ => g') _ g Hs).
  rewrite Hid. apply String.eqb_refl.
Qed.

Lemma user_at_rewritten (s : GDb) (g' : GroupDoc.t) (u : ObjectId)
    (f : User.t -> User.t) (usr : User.t) :
  user_at s u = Some usr ->
  User._id (f usr) = User._id usr ->
  user_at (rewritten s g' u f) u = Some (f usr).
Proof.
  intros Hs Hid. unfold user_at, rewritten in *. cbn [gusers].
  apply (find_update_first _ f _ usr Hs).
  rewrite Hid. apply List.find_some in Hs. apply Hs.
Qed.

Lemma post_join_unfold (user : User.t) (id : ObjectId) (now : Date)
    (s : GDb) (grp : GroupDoc.t) :
  group_at s id = Some grp ->
  GroupDoc.validate grp = true ->
  GroupDoc.isDeleted grp = false ->
  post_join user id now s
  = if negb (GroupDoc.isMember grp (User._id user))
       && Z.ltb (GroupDoc.memberCount grp) (GroupDoc.maxMembers grp)
    then (Return (mkResponse 200 (BMessage "Successfully joined the group")),
          rewritten s (with_member (User._id user) now grp) (User._id user)
            (addToSet_joinedGroups id))
    else (Return (mkResponse 400 (BMessage "Already a member or group is full")), s).
Proof.
  intros Hs Hv Hd.
  pose proof (group_at_id _ _ _ Hs) as Hid.
  unfold post_join, stry, gerror, GroupDoc_findById.
  unfold sbind at 1. unfold sbind at 1. unfold sget, sret.
  fold (group_at s id). rewrite Hs, Hd.
  unfold sbind.
  rewrite (addMember_cases (User._id user) now grp s Hv)
    by (rewrite Hid, Hs; discriminate).
  rewrite Hid.
  destruct (negb (GroupDoc.isMember grp (User._id user))
            && Z.ltb (GroupDoc.memberCount grp) (GroupDoc.maxMembers grp));
    reflexivity.
Qed.

(** X11. Joining a live, valid group succeeds exactly when the requester
    is not yet in the member list and the list is shorter than
    [maxMembers]: the requester is then appended as a "member", the member
    count grows by one and stays within [maxMembers], the group id is in
    the requester's [joinedGroups], and a second join is answered 400
    without any change. Otherwise the join is answered 400 and nothing
    changes. *)
Theorem join_once_within_capacity (user : User.t) (id : ObjectId)
    (now1 now2 : Date) (s : GDb) (grp : GroupDoc.t) :
  group_at s id = Some grp ->
  GroupDoc.validate grp = true ->
  GroupDoc.isDeleted grp = false ->
  (GroupDoc.isMember grp (User._id user) = false ->
   (GroupDoc.memberCount grp < GroupDoc.maxMembers grp)%Z ->
   exists s' : GDb,
     post_join user id now1 s
     = (Return (mkResponse 200 (BMessage "Successfully joined the group")), s')
     /\ group_at s' id = Some (with_member (User._id user) now1 grp)
     /\ GroupDoc.isMember (with_member (User._id user) now1 grp) (User._id user)
        = true
     /\ (GroupDoc.memberCount (with_member (User._id user) now1 grp)
         = GroupDoc.memberCount grp + 1)%Z
     /\ (GroupDoc.memberCount (with_member (User._id user) now1 grp)
         <= GroupDoc.maxMembers grp)%Z
     /\ (forall usr, user_at s (User._id user) = Some usr ->
           exists usr', user_at s' (User._id user) = Some usr'
                        /\ In id (User.joinedGroups usr')
                        /\ (NoDup (User.joinedGroups usr) ->
                            NoDup (User.joinedGroups usr')))
     /\ post_join user id now2 s'
        = (Return (mkResponse 400 (BMessage "Already a member or group is full")),
           s'))
  /\ ((GroupDoc.isMember grp (User._id user) = true
       \/ (GroupDoc.maxMembers grp <= GroupDoc.memberCount grp)%Z) ->
      post_join user id now1 s
      = (Return (mkResponse 400 (BMessage "Already a member or group is full")), s)).
Proof.
  intros Hs Hv Hd.
  pose proof (group_at_id _ _ _ Hs) as Hid.
  rewrite (post_join_unfold user id now1 s grp Hs Hv Hd).
  split.
  - intros Hm Hc.
    rewrite Hm. apply Z.ltb_lt in Hc. rewrite Hc. cbn [negb andb].
    set (u := User._id user) in *.
    set (grp' := with_member u now1 grp).
    set (s' := rewritten s grp' u (addToSet_joinedGroups id)).
    assert (Hs' : group_at s' id = Some grp')
      by (apply (group_at_rewritten s id grp); auto).
    assert (Hm' : GroupDoc.isMember grp' u = true).
    { apply isMember_count. unfold grp', with_member. cbn.
      rewrite List.map_app. apply List.in_or_app. right. now left. }
    assert (Hcount : (GroupDoc.memberCount grp' = GroupDoc.memberCount grp + 1)%Z).
    { unfold GroupDoc.memberCount, grp', with_member. cbn.
      rewrite List.length_app. cbn. lia. }
    exists s'. repeat split; auto.
    + apply Z.ltb_lt in Hc. lia.
    + intros usr Hu. exists (addToSet_joinedGroups id usr).
      split; [now apply user_at_rewritten|].
      unfold addToSet_joinedGroups. cbn.
      destruct (existsb (String.eqb id) (User.joinedGroups usr)) eqn:E.
      * split; [|auto].
        apply existsb_exists in E as (x & Hx & E).
        apply String.eqb_eq in E. now subst x.
      * split; [apply List.in_or_app; right; now left|].
        intros Hnd. apply NoDup_app; [exact Hnd | repeat constructor; auto |].
        intros x Hx [<- | []].
        assert (existsb (String.eqb id) (User.joinedGroups usr) = true)
          by (apply existsb_exists; exists id; split;
              [exact Hx | apply String.eqb_refl]).
        congruence.
    + rewrite (post_join_unfold user id now2 s' grp' Hs'
                 (validate_with_member u now1 grp Hv) Hd).
      fold u. now rewrite Hm'.
  - intros [Hm | Hc].
    + now rewrite Hm.
    + apply Z.ltb_ge in Hc. rewrite Hc. now rewrite andb_false_r.
Qed.

Lemma join_once_within_capacity_witness :
  (* Bob joins the two-seat group; Carol finds it full. *)
  exists s',
    post_join Sample.u_bob Sample.general 200 SampleG.s0
    = (Return (mkResponse 200 (BMessage "Successfully joined the group")), s')
    /\ post_join Sample.u_bob Sample.general 300 s'
       = (Return (mkResponse 400 (BMessage "Already a member or group is full")), s')
    /\ post_join Sample.u_carol Sample.general 300 s'
       = (Return (mkResponse 400 (BMessage "Already a member or group is full")), s').
Proof.
  destruct (join_once_within_capacity Sample.u_bob Sample.general 200 300
              SampleG.s0 SampleG.team eq_refl eq_refl eq_refl) as (H & _).
  destruct (H eq_refl eq_refl) as (s' & E1 & Hs' & _ & _ & _ & _ & E2).
  exists s'. split; [exact E1|]. split; [exact E2|].
  destruct (join_once_within_capacity Sample.u_carol Sample.general 300 300
              s' _ Hs' eq_refl eq_refl) as (_ & H2).
  apply H2. right. vm_compute. discriminate.
Defined.

Lemma update_first_idem {A : Type} (p : A -> bool) (f : A -> A) (l : list A) :
  (forall x, p x = true -> p (f x) = true) ->
  (forall x, f (f x) = f x) ->
  update_first p f (update_first p f l) = update_first p f l.
Proof.
  intros Hp Hf. induction l as [|x l IH]; simpl; [reflexivity|].
  destruct (p x) eqn:E; simpl.
  - now rewrite (Hp x E), Hf.
  - now rewrite E, IH.
Qed.

Lemma filter_idem {A : Type} (p : A -> bool) (l : list A) :
  List.filter p (List.filter p l) = List.filter p l.
Proof.
  induction l as [|x l IH]; simpl; [reflexivity|].
  destruct (p x) eqn:E; simpl; [rewrite E, IH; reflexivity | exact IH].
Qed.

Lemma without_member_idem (u : ObjectId) (g : GroupDoc.t) :
  without_member u (without_member u g) = without_member u g.
Proof.
  unfold without_member, GroupDoc.set_members. cbn. now rewrite filter_idem.
Qed.

Lemma pull_joinedGroups_idem (g : ObjectId) (u : User.t) :
  pull_joinedGroups g (pull_joinedGroups g u) = pull_joinedGroups g u.
Proof.
  unfold pull_joinedGroups. cbn. now rewrite filter_idem.
Qed.

Lemma post_leave_unfold (user : User.t) (id : ObjectId) (s : GDb)
    (grp : GroupDoc.t) :
  group_at s id = Some grp ->
  GroupDoc.validate grp = true ->
  GroupDoc.isDeleted grp = false ->
  post_leave user id s
  = if String.eqb (GroupDoc.owner grp) (User._id user)
    then (Return (mkResponse 400 (BMessage "Group owner cannot leave the group")), s)
    else (Return (mkResponse 200 (BMessage "Successfully left the group")),
          rewritten s (without_member (User._id user) grp) (User._id user)
            (pull_joinedGroups id)).
Proof.
  intros Hs Hv Hd.
  pose proof (group_at_id _ _ _ Hs) as Hid.
  unfold post_leave, stry, gerror, GroupDoc_findById, toString.
  unfold sbind at 1. unfold sbind at 1. unfold sget, sret.
  fold (group_at s id). rewrite Hs, Hd.
  destruct (String.eqb (GroupDoc.owner grp) (User._id user)); [reflexivity|].
  unfold sbind.
  rewrite (removeMember_ok (User._id user) grp s Hv)
    by (rewrite Hid, Hs; discriminate).
  now rewrite Hid.
Qed.

(** X12. Leaving a live, valid group: the owner is refused (400, nothing
    changes); anybody else is answered 200, is no longer in the member
    list while every other member stays, no longer has the group in
    [joinedGroups], and a second leave changes nothing more. The admin
    list is not touched, so a leaving admin is still reported as an admin
    of the group. *)
Theorem post_leave_removes_member (user : User.t) (id : ObjectId) (s : GDb)
    (grp : GroupDoc.t) :
  group_at s id = Some grp ->
  GroupDoc.validate grp = true ->
  GroupDoc.isDeleted grp = false ->
  (GroupDoc.owner grp = User._id user ->
   post_leave user id s
   = (Return (mkResponse 400 (BMessage "Group owner cannot leave the group")), s))
  /\ (GroupDoc.owner grp <> User._id user ->
      exists s' : GDb,
        post_leave user id s
        = (Return (mkResponse 200 (BMessage "Successfully left the group")), s')
        /\ group_at s' id = Some (without_member (User._id user) grp)
        /\ GroupDoc.isMember (without_member (User._id user) grp) (User._id user)
           = false
        /\ (forall v, v <> User._id user ->
              GroupDoc.isMember (without_member (User._id user) grp) v
              = GroupDoc.isMember grp v)
        /\ (forall v, GroupDoc.isAdmin (without_member (User._id user) grp) v
                      = GroupDoc.isAdmin grp v)
        /\ (forall usr, user_at s (User._id user) = Some usr ->
              exists usr', user_at s' (User._id user) = Some usr'
                           /\ ~ In id (User.joinedGroups usr'))
        /\ post_leave user id s'
           = (Return (mkResponse 200 (BMessage "Successfully left the group")), s')).
Proof.
  intros Hs Hv Hd.
  pose proof (group_at_id _ _ _ Hs) as Hid.
  rewrite (post_leave_unfold user id s grp Hs Hv Hd).
  split.
  - intros Ho. now rewrite Ho, String.eqb_refl.
  - intros Ho. apply String.eqb_neq in Ho. rewrite Ho.
    set (u := User._id user) in *.
    set (grp' := without_member u grp).
    set (s' := rewritten s grp' u (pull_joinedGroups id)).
    assert (Hs' : group_at s' id = Some grp')
      by (apply (group_at_rewritten s id grp); auto).
    assert (Hmem : forall v,
               GroupDoc.isMember grp' v
               = negb (String.eqb v u) && GroupDoc.isMember grp v).
    { intros v. unfold GroupDoc.isMember, Js.some, toString, grp', without_member.
      cbn. induction (GroupDoc.members grp) as [|m l IH]; cbn.
      - now rewrite andb_false_r.
      - destruct (String.eqb (Member.user m) u) eqn:E; cbn.
        + rewrite IH. apply String.eqb_eq in E. rewrite E.
          rewrite (String.eqb_sym u v).
          destruct (String.eqb v u); reflexivity.
        + rewrite IH.
          destruct (String.eqb (Member.user m) v) eqn:E2; cbn; [|reflexivity].
          apply String.eqb_eq in E2. subst v. now rewrite E. }
    exists s'. split; [reflexivity|]. split; [exact Hs'|].
    split; [rewrite Hmem, String.eqb_refl; reflexivity|].
    split; [intros v Hv'; rewrite Hmem; apply String.eqb_neq in Hv';
            now rewrite Hv'|].
    split; [reflexivity|]. split.
    + intros usr Hu. exists (pull_joinedGroups id usr).
      split; [now apply user_at_rewritten|].
      unfold pull_joinedGroups. cbn. intros Hin.
      apply List.filter_In in Hin as [_ Hin].
      now rewrite String.eqb_refl in Hin.
    + rewrite (post_leave_unfold user id s' grp' Hs'
                 (validate_without_member u grp Hv) Hd).
      change (GroupDoc.owner grp') with (GroupDoc.owner grp). fold u. rewrite Ho.
      f_equal. unfold grp'. rewrite without_member_idem. fold grp'.
      unfold s', rewritten. cbn [gdocs gusers]. f_equal.
      * apply update_first_idem; [|reflexivity].
        intros x Hx. apply String.eqb_refl.
      * apply update_first_idem; [|apply pull_joinedGroups_idem].
        intros x Hx. exact Hx.
Qed.

Lemma post_leave_removes_member_witness :
  post_leave Sample.u_alice Sample.general SampleG.s0
  = (Return (mkResponse 400 (BMessage "Group owner cannot leave the group")),
     SampleG.s0)
  /\ exists s2,
       post_leave Sample.u_bob Sample.general SampleG.s_bob
       = (Return (mkResponse 200 (BMessage "Successfully left the group")), s2)
       /\ List.map GroupDoc.members (gdocs s2)
          = List.map GroupDoc.members (gdocs SampleG.s0)
       /\ gusers s2 = gusers SampleG.s0.
Proof.
  destruct (post_leave_removes_member Sample.u_alice Sample.general SampleG.s0 SampleG.team
              eq_refl eq_refl eq_refl) as (H1 & _).
  split; [apply H1; reflexivity|].
  destruct (post_leave_removes_member Sample.u_bob Sample.general SampleG.s_bob SampleG.team_bob
              eq_refl eq_refl eq_refl) as (_ & H2).
  destruct H2 as (s2 & E2 & _); [vm_compute; discriminate|].
  exists s2. split; [exact E2|].
  assert (Es2 : s2 = snd (post_leave Sample.u_bob Sample.general SampleG.s_bob))
    by now rewrite E2.
  rewrite Es2. split; vm_compute; reflexivity.
Defined.

Lemma includes_In (l : list ObjectId) (x : ObjectId) :
  includes l x = true <-> In x l.
Proof.
  unfold includes. rewrite List.existsb_exists. split.
  - intros (y & Hy & E). apply String.eqb_eq in E. now subst.
  - intros H. exists x. split; [exact H | apply String.eqb_refl].
Qed.

Lemma some_id_In (l : list ObjectId) (x : ObjectId) :
  Js.some (fun a => String.eqb (toString a) (toString x)) l = true <-> In x l.
Proof.
  unfold Js.some, toString. rewrite List.existsb_exists. split.
  - intros (y & Hy & E). apply String.eqb_eq in E. now subst.
  - intros H. exists x. split; [exact H | apply String.eqb_refl].
Qed.

Lemma indexOf_range (l : list ObjectId) (x : ObjectId) :
  (-1 <= indexOf l x < Z.of_nat (List.length l))%Z.
Proof.
  induction l as [|y l IH]; cbn [indexOf List.length]; [lia|].
  destruct (String.eqb y x); [lia|].
  destruct (Z.ltb_spec (indexOf l x) 0); lia.
Qed.

Lemma indexOf_absent (l : list ObjectId) (x : ObjectId) :
  ~ In x l -> indexOf l x = (-1)%Z.
Proof.
  induction l as [|y l IH]; cbn [indexOf]; intros H; [reflexivity|].
  destruct (String.eqb y x) eqn:E.
  - apply String.eqb_eq in E. exfalso. apply H. now left.
  - rewrite IH by (intros K; apply H; now right). reflexivity.
Qed.

Lemma indexOf_present (l : list ObjectId) (x : ObjectId) :
  In x l -> (0 <= indexOf l x)%Z.
Proof.
  induction l as [|y l IH]; cbn [indexOf]; intros H; [destruct H|].
  destruct (String.eqb y x) eqn:E; [lia|].
  destruct H as [H|H]; [subst; now rewrite String.eqb_refl in E|].
  specialize (IH H). destruct (Z.ltb_spec (indexOf l x) 0); lia.
Qed.

Lemma indexOf_push_new (l : list ObjectId) (x : ObjectId) :
  ~ In x l -> indexOf (Js.push l x) x = Z.of_nat (List.length l).
Proof.
  unfold Js.push.
  induction l as [|y l IH]; intros H.
  - cbn. now rewrite String.eqb_refl.
  - cbn [app indexOf List.length].
    destruct (String.eqb y x) eqn:E.
    + apply String.eqb_eq in E. exfalso. apply H. now left.
    + rewrite IH by (intros K; apply H; now right).
      destruct (Z.ltb_spec (Z.of_nat (List.length l)) 0); lia.
Qed.

Lemma splice1_push_last {A : Type} (l : list A) (x : A) :
  splice1 (List.length l) (Js.push l x) = l.
Proof.
  unfold Js.push. induction l as [|y l IH]; cbn; [reflexivity|].
  now rewrite IH.
Qed.

Lemma splice1_indexOf (l : list ObjectId) (x : ObjectId) :
  NoDup l -> In x l ->
  let l' := splice1 (Z.to_nat (indexOf l x)) l in
  (forall v, In v l' <-> In v l /\ v <> x)
  /\ NoDup l'
  /\ S (List.length l') = List.length l.
Proof.
  induction l as [|y l IH]; intros Hn Hin; [destruct Hin|].
  inversion Hn as [|? ? Hy Hn']; subst.
  cbn [indexOf]. destruct (String.eqb y x) eqn:E.
  - apply String.eqb_eq in E. subst y. cbn.
    split; [|split; [exact Hn' | reflexivity]].
    intros v. split.
    + intros Hv. split; [now right|]. intros ->. contradiction.
    + intros [[Hv|Hv] Hne]; [congruence | exact Hv].
  - destruct Hin as [Hin|Hin]; [subst; now rewrite String.eqb_refl in E|].
    pose proof (indexOf_present l x Hin) as Hp.
    destruct (Z.ltb_spec (indexOf l x) 0) as [Hlt|_]; [lia|].
    replace (Z.to_nat (indexOf l x + 1)) with (S (Z.to_nat (indexOf l x))) by lia.
    cbn [splice1].
    destruct (IH Hn' Hin) as (H1 & H2 & H3). cbn zeta in H1, H2, H3.
    split; [|split].
    + intros v. cbn [In]. rewrite H1. split.
      * intros [Hv|[Hv Hne]]; [|tauto]. split; [now left|].
        intros ->. subst. apply String.eqb_neq in E. congruence.
      * tauto.
    + constructor; [|exact H2]. intros K. apply H1 in K. tauto.
    + cbn [List.length]. now rewrite H3.
Qed.

Lemma group_at_saved (s : GDb) (g' : GroupDoc.t) :
  group_at s (GroupDoc._id g') <> None ->
  group_at (saved s g') (GroupDoc._id g') = Some g'.
Proof.
  intros Hs. destruct (group_at s (GroupDoc._id g')) as [g|] eqn:E; [|congruence].
  unfold group_at, saved in *. cbn [gdocs].
  apply (find_update_first _ (fun _ => g') _ g E). apply String.eqb_refl.
Qed.

Lemma promoteToAdmin_cases (u : ObjectId) (g : GroupDoc.t) (s : GDb) :
  GroupDoc.validate g = true ->
  group_at s (GroupDoc._id g) <> None ->
  promoteToAdmin u g s
  = if GroupDoc.isMember g u && negb (includes (GroupDoc.admins g) u)
    then let g1 := GroupDoc.set_admins (Js.push (GroupDoc.admins g) u) g in
         (Return (g1, true), saved s g1)
    else (Return (g, false), s).
Proof.
  intros Hv Hs. unfold promoteToAdmin.
  destruct (GroupDoc.isMember g u && negb (includes (GroupDoc.admins g) u));
    [|reflexivity].
  unfold sbind. rewrite group_save_ok; [reflexivity | exact Hv | exact Hs].
Qed.

Lemma demoteFromAdmin_cases (u : ObjectId) (g : GroupDoc.t) (s : GDb) :
  GroupDoc.validate g = true ->
  group_at s (GroupDoc._id g) <> None ->
  demoteFromAdmin u g s
  = if Z.ltb (-1) (indexOf (GroupDoc.admins g) u)
    then let g1 := GroupDoc.set_admins
                     (splice1 (Z.to_nat (indexOf (GroupDoc.admins g) u))
                        (GroupDoc.admins g)) g in
         (Return (g1, true), saved s g1)
    else (Return (g, false), s).
Proof.
  intros Hv Hs. unfold demoteFromAdmin. cbn zeta.
  destruct (Z.ltb (-1) (indexOf (GroupDoc.admins g) u)); [|reflexivity].
  unfold sbind. rewrite group_save_ok; [reflexivity | exact Hv | exact Hs].
Qed.

(** X13. Promoting a user in a stored, valid group whose admin list has
    no duplicates: when the user is a member and not yet listed, the user
    is appended to the admin list (which stays duplicate-free), the stored
    document is the updated one, a second promotion is refused without a
    write, and demoting the user again gives back the original document;
    in every other case the answer is [false] and nothing is written. *)
Theorem promote_member_once (u : ObjectId) (g : GroupDoc.t) (s : GDb) :
  GroupDoc.validate g = true ->
  group_at s (GroupDoc._id g) <> None ->
  NoDup (GroupDoc.admins g) ->
  (GroupDoc.isMember g u = true /\ ~ In u (GroupDoc.admins g) ->
   exists g1 s1,
     promoteToAdmin u g s = (Return (g1, true), s1)
     /\ GroupDoc.admins g1 = GroupDoc.admins g ++ [u]
     /\ GroupDoc.members g1 = GroupDoc.members g
     /\ NoDup (GroupDoc.admins g1)
     /\ GroupDoc.isAdmin g1 u = true
     /\ group_at s1 (GroupDoc._id g) = Some g1
     /\ gusers s1 = gusers s
     /\ promoteToAdmin u g1 s1 = (Return (g1, false), s1)
     /\ exists s2, demoteFromAdmin u g1 s1 = (Return (g, true), s2)
                   /\ group_at s2 (GroupDoc._id g) = Some g)
  /\ (GroupDoc.isMember g u = false \/ In u (GroupDoc.admins g) ->
      promoteToAdmin u g s = (Return (g, false), s)).
Proof.
  intros Hv Hs Hn.
  rewrite (promoteToAdmin_cases u g s Hv Hs). split.
  - intros [Hm Hin].
    assert (Hi : includes (GroupDoc.admins g) u = false).
    { destruct (includes (GroupDoc.admins g) u) eqn:E; [|reflexivity].
      apply includes_In in E. contradiction. }
    rewrite Hm, Hi. cbn [andb negb].
    set (g1 := GroupDoc.set_admins (Js.push (GroupDoc.admins g) u) g).
    assert (Hv1 : GroupDoc.validate g1 = true) by exact Hv.
    assert (Hid : GroupDoc._id g1 = GroupDoc._id g) by reflexivity.
    assert (Hs1 : group_at (saved s g1) (GroupDoc._id g1) = Some g1)
      by (apply group_at_saved; rewrite Hid; exact Hs).
    exists g1, (saved s g1).
    split; [reflexivity|]. split; [reflexivity|]. split; [reflexivity|].
    split.
    { unfold g1, Js.push. cbn. apply NoDup_app; [exact Hn | repeat constructor; auto |].
      intros x Hx [<-|[]]. contradiction. }
    split.
    { unfold GroupDoc.isAdmin. apply orb_true_iff. right.
      apply some_id_In. unfold g1, Js.push. cbn. apply in_or_app. right. now left. }
    split; [exact Hs1|]. split; [reflexivity|]. split.
    { rewrite promoteToAdmin_cases; [|exact Hv1 | rewrite Hs1; discriminate].
      assert (Hi1 : includes (GroupDoc.admins g1) u = true).
      { apply includes_In. unfold g1, Js.push. cbn. apply in_or_app. right. now left. }
      rewrite Hi1, andb_false_r. reflexivity. }
    rewrite demoteFromAdmin_cases; [|exact Hv1 | rewrite Hs1; discriminate].
    change (GroupDoc.admins g1) with (Js.push (GroupDoc.admins g) u).
    rewrite (indexOf_push_new _ _ Hin).
    destruct (Z.ltb_spec (-1) (Z.of_nat (List.length (GroupDoc.admins g))))
      as [_|K]; [|lia].
    rewrite Nat2Z.id, splice1_push_last. cbn zeta.
    assert (Eg : GroupDoc.set_admins (GroupDoc.admins g) g1 = g)
      by (destruct g; reflexivity).
    rewrite Eg. eexists. split; [reflexivity|].
    apply group_at_saved. change (GroupDoc._id g) with (GroupDoc._id g1).
    rewrite Hs1. discriminate.
  - intros [Hm|Hin].
    + now rewrite Hm.
    + apply includes_In in Hin. rewrite Hin, andb_false_r. reflexivity.
Qed.

Lemma promote_member_once_witness :
  exists g1 s1,
    promoteToAdmin Sample.alice SampleG.team SampleG.s0 = (Return (g1, true), s1)
    /\ GroupDoc.admins g1 = [Sample.alice]
    /\ promoteToAdmin Sample.bob SampleG.team SampleG.s0
       = (Return (SampleG.team, false), SampleG.s0).
Proof.
  destruct (promote_member_once Sample.alice SampleG.team SampleG.s0 eq_refl)
    as (H1 & _); [vm_compute; discriminate | constructor |].
  destruct H1 as (g1 & s1 & E & Ha & _); [split; [reflexivity | intros []]|].
  destruct (promote_member_once Sample.bob SampleG.team SampleG.s0 eq_refl)
    as (_ & H2); [vm_compute; discriminate | constructor |].
  exists g1, s1. split; [exact E|]. split; [exact Ha|].
  apply H2. left. reflexivity.
Defined.

(** X14. Demoting a user in a stored, valid group whose admin list has no
    duplicates: a listed user is taken off the list, everybody else on it
    stays, the list is one shorter, and membership is not consulted or
    changed; after that the user counts as an admin exactly when the user
    is the owner. An unlisted user gets [false] and nothing is written. *)
Theorem demote_listed_admin (u : ObjectId) (g : GroupDoc.t) (s : GDb) :
  GroupDoc.validate g = true ->
  group_at s (GroupDoc._id g) <> None ->
  NoDup (GroupDoc.admins g) ->
  (In u (GroupDoc.admins g) ->
   exists g1 s1,
     demoteFromAdmin u g s = (Return (g1, true), s1)
     /\ (forall v, In v (GroupDoc.admins g1) <-> In v (GroupDoc.admins g) /\ v <> u)
     /\ NoDup (GroupDoc.admins g1)
     /\ S (List.length (GroupDoc.admins g1)) = List.length (GroupDoc.admins g)
     /\ GroupDoc.members g1 = GroupDoc.members g
     /\ GroupDoc.isAdmin g1 u = String.eqb (GroupDoc.owner g) u
     /\ group_at s1 (GroupDoc._id g) = Some g1
     /\ gusers s1 = gusers s
     /\ demoteFromAdmin u g1 s1 = (Return (g1, false), s1))
  /\ (~ In u (GroupDoc.admins g) ->
      demoteFromAdmin u g s = (Return (g, false), s)).
Proof.
  intros Hv Hs Hn.
  rewrite (demoteFromAdmin_cases u g s Hv Hs). split.
  - intros Hin.
    pose proof (indexOf_present _ _ Hin) as Hp.
    destruct (Z.ltb_spec (-1) (indexOf (GroupDoc.admins g) u)) as [_|K]; [|lia].
    destruct (splice1_indexOf _ _ Hn Hin) as (H1 & H2 & H3).
    cbn zeta in *.
    set (l' := splice1 (Z.to_nat (indexOf (GroupDoc.admins g) u)) (GroupDoc.admins g))
      in *.
    set (g1 := GroupDoc.set_admins l' g).
    assert (Hv1 : GroupDoc.validate g1 = true) by exact Hv.
    assert (Hs1 : group_at (saved s g1) (GroupDoc._id g1) = Some g1)
      by (apply group_at_saved; exact Hs).
    assert (Hout : ~ In u (GroupDoc.admins g1))
      by (intros K; apply H1 in K; tauto).
    exists g1, (saved s g1).
    split; [reflexivity|]. split; [exact H1|]. split; [exact H2|].
    split; [exact H3|]. split; [reflexivity|]. split.
    { unfold GroupDoc.isAdmin.
      destruct (Js.some _ (GroupDoc.admins g1)) eqn:E.
      - apply some_id_In in E. contradiction.
      - unfold toString. apply orb_false_r. }
    split; [exact Hs1|]. split; [reflexivity|].
    rewrite demoteFromAdmin_cases; [|exact Hv1 | rewrite Hs1; discriminate].
    rewrite (indexOf_absent _ _ Hout). reflexivity.
  - intros Hout. rewrite (indexOf_absent _ _ Hout). reflexivity.
Qed.

Lemma demote_listed_admin_witness :
  let g := GroupDoc.set_admins [Sample.alice; Sample.bob] SampleG.team in
  exists g1 s1,
    demoteFromAdmin Sample.alice g (saved SampleG.s0 g) = (Return (g1, true), s1)
    /\ GroupDoc.isAdmin g1 Sample.alice = true
    /\ demoteFromAdmin Sample.carol g (saved SampleG.s0 g)
       = (Return (g, false), saved SampleG.s0 g).
Proof.
  intros g.
  assert (Hn : NoDup (GroupDoc.admins g)).
  { repeat constructor; cbn; intros K; repeat destruct K as [K|K];
      try discriminate; try assumption. }
  destruct (demote_listed_admin Sample.alice g (saved SampleG.s0 g) eq_refl)
    as (H1 & _); [vm_compute; discriminate | exact Hn |].
  destruct H1 as (g1 & s1 & E & _ & _ & _ & _ & Ha & _); [now left|].
  destruct (demote_listed_admin Sample.carol g (saved SampleG.s0 g) eq_refl)
    as (_ & H2); [vm_compute; discriminate | exact Hn |].
  exists g1, s1. split; [exact E|]. split; [rewrite Ha; reflexivity|].
  apply H2. cbn. intros K; repeat destruct K as [K|K]; try discriminate; assumption.
Defined.

Lemma group_save_cases (this : GroupDoc.t) (s : GDb) :
  group_save this s = (Return this, saved s this)
  \/ exists e, group_save this s = (Throw e, s).
Proof.
  unfold group_save. destruct (GroupDoc.validate this); [|right; eexists; reflexivity].
  unfold sbind, sget, sput, sret, sthrow.
  destruct (existsb _ (gdocs s)); [left; reflexivity | right; eexists; reflexivity].
Qed.

Lemma post_join_state (user : User.t) (id : ObjectId) (now : Date) (s : GDb) :
  snd (post_join user id now s) = s
  \/ exists grp, group_at s id = Some grp
       /\ GroupDoc.isMember grp (User._id user) = false
       /\ snd (post_join user id now s)
          = rewritten s (with_member (User._id user) now grp) (User._id user)
              (addToSet_joinedGroups id).
Proof.
  remember (post_join user id now s) as r eqn:Hr.
  unfold post_join, stry, gerror, GroupDoc_findById in Hr.
  unfold sbind at 1 in Hr. unfold sbind at 1 in Hr. unfold sget, sret in Hr.
  fold (group_at s id) in Hr.
  destruct (group_at s id) as [grp|] eqn:Hs; [|left; now subst r].
  pose proof (group_at_id _ _ _ Hs) as Hid.
  destruct (GroupDoc.isDeleted grp); [left; now subst r|].
  unfold addMember, Js.find, toString, Js.push in Hr.
  destruct (List.find _ (GroupDoc.members grp)) eqn:F;
    [left; unfold sbind, sret in Hr; now subst r|].
  destruct (Z.ltb _ _); [|left; unfold sbind, sret in Hr; now subst r].
  fold (with_member (User._id user) now grp) in Hr.
  unfold sbind in Hr.
  destruct (group_save_cases (with_member (User._id user) now grp) s)
    as [E | (e & E)]; rewrite E in Hr.
  - right. exists grp. split; [reflexivity|]. split.
    + destruct (GroupDoc.isMember grp (User._id user)) eqn:Hm; [|reflexivity].
      unfold GroupDoc.isMember, Js.some, toString in Hm.
      apply List.existsb_exists in Hm as (m & Hm1 & Hm2).
      now rewrite (List.find_none _ _ F m Hm1) in Hm2.
    + subst id r. reflexivity.
  - left. now subst r.
Qed.

Lemma post_leave_state (user : User.t) (id : ObjectId) (s : GDb) :
  snd (post_leave user id s) = s
  \/ exists grp, group_at s id = Some grp
       /\ snd (post_leave user id s)
          = rewritten s (without_member (User._id user) grp) (User._id user)
              (pull_joinedGroups id).
Proof.
  remember (post_leave user id s) as r eqn:Hr.
  unfold post_leave, stry, gerror, GroupDoc_findById in Hr.
  unfold sbind at 1 in Hr. unfold sbind at 1 in Hr. unfold sget, sret in Hr.
  fold (group_at s id) in Hr.
  destruct (group_at s id) as [grp|] eqn:Hs; [|left; now subst r].
  pose proof (group_at_id _ _ _ Hs) as Hid.
  destruct (GroupDoc.isDeleted grp); [left; now subst r|].
  destruct (String.eqb _ _); [left; now subst r|].
  unfold removeMember, Js.filter, toString in Hr.
  fold (without_member (User._id user) grp) in Hr.
  unfold sbind in Hr.
  destruct (group_save_cases (without_member (User._id user) grp) s)
    as [E | (e & E)]; rewrite E in Hr.
  - right. exists grp. split; [reflexivity|].
    subst id r. reflexivity.
  - left. now subst r.
Qed.

Lemma unique_ids_rewritten (s : GDb) (g' : GroupDoc.t) (u : ObjectId)
    (f : User.t -> User.t) :
  (forall usr, User._id (f usr) = User._id usr) ->
  unique_ids s -> unique_ids (rewritten s g' u f).
Proof.
  intros Hf [H1 H2]. unfold unique_ids, rewritten. cbn [gdocs gusers].
  rewrite !update_first_map; [split; assumption | |].
  - intros x _. apply Hf.
  - intros x Hx. apply String.eqb_eq in Hx. now rewrite Hx.
Qed.

Lemma synced_rewritten (s : GDb) (id : ObjectId) (grp grp' : GroupDoc.t)
    (u : ObjectId) (f : User.t -> User.t) :
  unique_ids s -> synced s ->
  group_at s id = Some grp ->
  GroupDoc._id grp' = id ->
  (forall v, v <> u -> GroupDoc.isMember grp' v = GroupDoc.isMember grp v) ->
  (forall usr, User._id (f usr) = User._id usr) ->
  (forall usr g, g <> id ->
     (In g (User.joinedGroups (f usr)) <-> In g (User.joinedGroups usr))) ->
  (forall usr, GroupDoc.isMember grp' u = true
               <-> In id (User.joinedGroups (f usr))) ->
  synced (rewritten s grp' u f).
Proof.
  intros [U1 U2] Hsy Hs Hid Hoth Hf Hg Hu g' u' Hg' Hu'.
  pose proof (group_at_id _ _ _ Hs) as Hgid.
  assert (Hin : In grp (gdocs s)) by (apply (List.find_some _ _ Hs)).
  unfold rewritten in Hg', Hu'. cbn [gdocs gusers] in Hg', Hu'.
  apply (In_update_first GroupDoc._id) in Hg'; [|exact U1].
  apply (In_update_first User._id) in Hu'; [|exact U2].
  rewrite Hid in Hg'.
  destruct Hg' as [[G1 G2] | (x & _ & _ & ->)];
    destruct Hu' as [[V1 V2] | (usr & V1 & V2 & ->)].
  - apply Hsy; assumption.
  - rewrite Hf, (Hg usr _ G2). apply Hsy; assumption.
  - rewrite Hid, (Hoth _ V2), <- Hgid. apply Hsy; assumption.
  - rewrite Hid, Hf, V2. apply Hu.
Qed.

Lemma isMember_with_member (u v : ObjectId) (now : Date) (g : GroupDoc.t) :
  GroupDoc.isMember (with_member u now g) v
  = GroupDoc.isMember g v || String.eqb u v.
Proof.
  unfold GroupDoc.isMember, Js.some, toString, with_member. cbn.
  rewrite List.existsb_app. cbn. now rewrite orb_false_r.
Qed.

Lemma isMember_without_member (u v : ObjectId) (g : GroupDoc.t) :
  GroupDoc.isMember (without_member u g) v
  = negb (String.eqb v u) && GroupDoc.isMember g v.
Proof.
  unfold GroupDoc.isMember, Js.some, toString, without_member.
  cbn. induction (GroupDoc.members g) as [|m l IH]; cbn.
  - now rewrite andb_false_r.
  - destruct (String.eqb (Member.user m) u) eqn:E; cbn.
    + rewrite IH. apply String.eqb_eq in E. rewrite E.
      rewrite (String.eqb_sym u v).
      destruct (String.eqb v u); reflexivity.
    + rewrite IH.
      destruct (String.eqb (Member.user m) v) eqn:E2; cbn; [|reflexivity].
      apply String.eqb_eq in E2. subst v. now rewrite E.
Qed.

Lemma grun_keeps_synced (c : GCall) (s : GDb) :
  unique_ids s -> synced s ->
  unique_ids (snd (grun c s)) /\ synced (snd (grun c s)).
Proof.
  intros Hu Hsy. destruct c as [user id now | user id]; cbn [grun].
  - destruct (post_join_state user id now s) as [E | (grp & Hs & Hm & E)];
      rewrite E; [split; assumption|].
    split; [apply unique_ids_rewritten; [reflexivity | exact Hu]|].
    apply (synced_rewritten s id grp); auto.
    + apply (group_at_id _ _ _ Hs).
    + intros v Hv. rewrite isMember_with_member.
      apply not_eq_sym in Hv. apply String.eqb_neq in Hv. rewrite Hv.
      apply orb_false_r.
    + intros usr g Hg. unfold addToSet_joinedGroups. cbn.
      destruct (existsb _ _); [reflexivity|].
      rewrite List.in_app_iff. cbn. split; [|tauto].
      intros [H|[H|[]]]; [exact H | congruence].
    + intros usr. rewrite isMember_with_member, String.eqb_refl, orb_true_r.
      split; [|reflexivity]. intros _.
      unfold addToSet_joinedGroups. cbn.
      destruct (existsb _ _) eqn:Ex.
      * apply List.existsb_exists in Ex as (y & Hy & Ey).
        apply String.eqb_eq in Ey. now subst.
      * apply List.in_or_app. right. now left.
  - destruct (post_leave_state user id s) as [E | (grp & Hs & E)];
      rewrite E; [split; assumption|].
    split; [apply unique_ids_rewritten; [reflexivity | exact Hu]|].
    apply (synced_rewritten s id grp); auto.
    + apply (group_at_id _ _ _ Hs).
    + intros v Hv. rewrite isMember_without_member.
      apply String.eqb_neq in Hv. now rewrite Hv.
    + intros usr g Hg. unfold pull_joinedGroups. cbn.
      rewrite List.filter_In. split; [tauto|]. intros H. split; [exact H|].
      apply String.eqb_neq in Hg. now rewrite Hg.
    + intros usr. rewrite isMember_without_member, String.eqb_refl. cbn.
      split; [discriminate|]. unfold pull_joinedGroups. cbn.
      rewrite List.filter_In, String.eqb_refl. intros [_ H]. discriminate.
Qed.

(** X15. Member lists and [joinedGroups] stay in step: when ids are
    unique in both collections and every group's member list agrees with
    every user's [joinedGroups], this is still so after any sequence of
    join and leave requests, whatever each of them answered. *)
Theorem membership_stays_synced (cs : list GCall) (s : GDb) :
  unique_ids s -> synced s ->
  unique_ids (grun_all cs s) /\ synced (grun_all cs s).
Proof.
  revert s. induction cs as [|c cs IH]; intros s Hu Hsy; cbn [grun_all].
  - split; assumption.
  - destruct (grun_keeps_synced c s Hu Hsy) as [Hu' Hsy']. now apply IH.
Qed.

Lemma membership_stays_synced_witness :
  let cs := [Join Sample.u_bob Sample.general 200;
             Leave Sample.u_bob Sample.general;
             Join Sample.u_carol Sample.general 300;
             Leave Sample.u_alice Sample.general] in
  unique_ids (grun_all cs SampleG.s0) /\ synced (grun_all cs SampleG.s0).
Proof.
  intros cs. apply membership_stays_synced.
  - split; repeat constructor; cbn; intros K; repeat destruct K as [K|K];
      try discriminate; assumption.
  - intros g u [<-|[]] [<-|[<-|[<-|[]]]]; cbn; split; intros K;
      try discriminate; try reflexivity; try (now left);
      repeat destruct K as [K|K]; try discriminate; try assumption;
      try contradiction.
Defined.

(* ------------------------------------------------------------------ *)
(** ** Posts *)

Lemma sapp_nil_r (s : string) : (s ++ "")%string = s.
Proof. induction s as [|c s IH]; cbn; [reflexivity | now rewrite IH]. Qed.

Lemma sapp_assoc (a b c : string) :
  ((a ++ b) ++ c)%string = (a ++ (b ++ c))%string.
Proof. induction a as [|x a IH]; cbn; [reflexivity | now rewrite IH]. Qed.

Lemma all_chars_app (p : ascii -> bool) (a b : string) :
  all_chars p (a ++ b)%string = all_chars p a && all_chars p b.
Proof.
  induction a as [|x a IH]; cbn; [reflexivity|].
  now rewrite IH, andb_assoc.
Qed.

Lemma is_word_hash : Str.is_word Str.hash = false.
Proof. reflexivity. Qed.

Lemma start_cases (c : ascii) :
  (c = Str.hash /\ Str.start c = Some EmptyString)
  \/ (c <> Str.hash /\ Str.start c = None).
Proof.
  unfold Str.start. destruct (Ascii.eqb_spec c Str.hash); [left | right]; auto.
Qed.

Lemma flush_In (cur : option string) (m : string) :
  In m (Str.flush cur) <->
  exists w, cur = Some w /\ w <> EmptyString /\ m = String Str.hash w.
Proof.
  destruct cur as [[|c w]|]; cbn; split.
  - tauto.
  - intros (w & E & N & _). inversion E; subst. congruence.
  - intros [<-|[]]. exists (String c w). repeat split. discriminate.
  - intros (w' & E & _ & ->). inversion E; subst. now left.
  - tauto.
  - intros (w & E & _). discriminate.
Qed.

(** Every match of the scan is a run written after a [#]: either the one
    in progress, completed by the start of the text, or one that lies in
    the text. *)
Lemma scan_sound (s : string) : forall (cur : option string) (m : string),
  (forall acc, cur = Some acc -> all_chars Str.is_word acc = true) ->
  In m (Str.scan cur s) ->
  (exists acc w post,
      cur = Some acc /\ s = (w ++ post)%string
      /\ all_chars Str.is_word w = true /\ boundary post
      /\ (acc ++ w)%string <> EmptyString
      /\ m = String Str.hash (acc ++ w)%string)
  \/ (exists w, tagged s w /\ m = String Str.hash w).
Proof.
  induction s as [|c s IH]; intros cur m Hcur Hin.
  - cbn in Hin. apply flush_In in Hin as (w & -> & Hw & ->).
    left. exists w, EmptyString, EmptyString.
    rewrite !sapp_nil_r. repeat split; auto.
  - assert (Hnext : In m (Str.scan (Str.start c) s) ->
              exists w, tagged (String c s) w /\ m = String Str.hash w).
    { intros H. apply IH in H.
      - destruct H as [(acc & w & post & Ec & -> & Hw & Hb & Hn & ->)
                      | (w & (pre & post & -> & Hn & Hw & Hb) & ->)].
        + destruct (start_cases c) as [[-> E] | [_ E]]; rewrite E in Ec;
            [|discriminate].
          inversion Ec; subst acc. cbn in *.
          exists w. split; [|reflexivity].
          exists EmptyString, post. cbn. auto.
        + exists w. split; [|reflexivity].
          exists (String c pre), post. cbn. auto.
      - intros acc E. destruct (start_cases c) as [[_ E'] | [_ E']];
          rewrite E' in E; [|discriminate].
        now inversion E. }
    cbn [Str.scan] in Hin. destruct cur as [acc|]; [|right; auto].
    pose proof (Hcur acc eq_refl) as Hacc.
    destruct (Str.is_word c) eqn:Hc.
    + apply IH in Hin.
      * destruct Hin as [(acc' & w & post & Ec & -> & Hw & Hb & Hn & ->)
                        | (w & (pre & post & -> & Hn & Hw & Hb) & ->)].
        -- inversion Ec; subst acc'. left.
           exists acc, (String c w), post. cbn. rewrite Hc, Hw.
           rewrite sapp_assoc in Hn |- *. cbn in Hn |- *. repeat split; auto.
        -- right. exists w. split; [|reflexivity].
           exists (String c pre), post. cbn. auto.
      * intros acc' E. inversion E; subst.
        rewrite all_chars_app, Hacc. cbn. now rewrite Hc.
    + apply List.in_app_or in Hin as [Hin | Hin]; [|right; auto].
      apply flush_In in Hin as (w & E & Hw & ->). inversion E; subst w.
      left. exists acc, EmptyString, (String c s).
      rewrite !sapp_nil_r. cbn. repeat split; auto.
Qed.

Lemma scan_run (w : string) : forall (acc post : string),
  all_chars Str.is_word w = true ->
  Str.scan (Some acc) (w ++ post)%string = Str.scan (Some (acc ++ w)%string) post.
Proof.
  induction w as [|c w IH]; intros acc post Hw; cbn.
  - now rewrite sapp_nil_r.
  - cbn in Hw. apply andb_true_iff in Hw as [Hc Hw]. rewrite Hc.
    rewrite (IH _ _ Hw), sapp_assoc. reflexivity.
Qed.

Lemma scan_boundary (acc post : string) :
  acc <> EmptyString -> boundary post ->
  In (String Str.hash acc) (Str.scan (Some acc) post).
Proof.
  intros Hn Hb. destruct post as [|c post]; cbn [Str.scan].
  - apply flush_In. exists acc. auto.
  - cbn in Hb. rewrite Hb. apply List.in_or_app. left.
    apply flush_In. exists acc. auto.
Qed.

Lemma scan_from_hash (cur : option string) (s : string) (m : string) :
  In m (Str.scan (Some EmptyString) s) ->
  In m (Str.scan cur (String Str.hash s)).
Proof.
  intros H. cbn [Str.scan]. rewrite is_word_hash.
  change (Str.start Str.hash) with (Some EmptyString).
  destruct cur; [apply List.in_or_app; right|]; exact H.
Qed.

Lemma scan_skip (pre rest m : string) :
  (forall cur, In m (Str.scan cur rest)) ->
  forall cur, In m (Str.scan cur (pre ++ rest)%string).
Proof.
  intros H. induction pre as [|c pre IH]; intros cur; cbn [String.append];
    [apply H|].
  cbn [Str.scan]. destruct cur as [acc|]; [|apply IH].
  destruct (Str.is_word c); [apply IH|].
  apply List.in_or_app. right. apply IH.
Qed.

(** The matches of the pattern are the runs written after a [#]. *)
Lemma match_hashtags_In (s m : string) :
  In m (Str.match_hashtags s) <-> exists w, tagged s w /\ m = String Str.hash w.
Proof.
  unfold Str.match_hashtags. split.
  - intros H. apply scan_sound in H; [|discriminate].
    destruct H as [(acc & w & post & E & _) | H]; [discriminate | exact H].
  - intros (w & (pre & post & -> & Hn & Hw & Hb) & ->).
    apply scan_skip. intros cur. apply scan_from_hash.
    rewrite (scan_run w EmptyString post Hw). cbn.
    now apply scan_boundary.
Qed.

Lemma Set_of_acc (l : list string) : forall acc : list string,
  NoDup acc ->
  let r := List.fold_left
             (fun acc x => if existsb (String.eqb x) acc then acc else acc ++ [x])
             l acc in
  NoDup r /\ forall x, In x r <-> In x acc \/ In x l.
Proof.
  induction l as [|y l IH]; intros acc Hn; cbn.
  - split; [exact Hn | tauto].
  - destruct (existsb (String.eqb y) acc) eqn:E.
    + destruct (IH acc Hn) as [H1 H2]. split; [exact H1|].
      intros x. rewrite H2. split; [tauto|].
      intros [H|[<-|H]]; auto. left.
      apply List.existsb_exists in E as (z & Hz & Ez).
      apply String.eqb_eq in Ez. now subst.
    + assert (Hy : ~ In y acc).
      { intros K. apply Bool.not_true_iff_false in E. apply E.
        apply List.existsb_exists. exists y. split; [exact K|].
        apply String.eqb_refl. }
      destruct (IH (acc ++ [y])) as [H1 H2].
      { apply NoDup_app; [exact Hn | repeat constructor; auto |].
        intros x Hx [<-|[]]. contradiction. }
      split; [exact H1|]. intros x. rewrite H2, List.in_app_iff. cbn. tauto.
Qed.

Lemma Set_of_spec (l : list string) :
  NoDup (Str.Set_of l) /\ forall x, In x (Str.Set_of l) <-> In x l.
Proof.
  destruct (Set_of_acc l [] (NoDup_nil _)) as [H1 H2]. split; [exact H1|].
  intros x. unfold Str.Set_of. rewrite H2. cbn. tauto.
Qed.

Lemma lower_idem (c : ascii) : Str.lower (Str.lower c) = Str.lower c.
Proof. destruct c as [[] [] [] [] [] [] [] []]; reflexivity. Qed.

Lemma lower_word (c : ascii) :
  Str.is_word c = true -> is_tag_char (Str.lower c) = true.
Proof.
  destruct c as [[] [] [] [] [] [] [] []]; vm_compute; intros H; congruence.
Qed.

Lemma toLowerCase_idem (s : string) :
  Str.toLowerCase (Str.toLowerCase s) = Str.toLowerCase s.
Proof.
  induction s as [|c s IH]; cbn; [reflexivity|]. now rewrite lower_idem, IH.
Qed.

Lemma toLowerCase_word (w : string) :
  all_chars Str.is_word w = true ->
  all_chars is_tag_char (Str.toLowerCase w) = true.
Proof.
  induction w as [|c w IH]; cbn; [reflexivity|]. intros H.
  apply andb_true_iff in H as [Hc Hw]. now rewrite (lower_word c Hc), IH.
Qed.

Lemma map_fixed {A : Type} (f : A -> A) (l : list A) :
  (forall x, In x l -> f x = x) -> List.map f l = l.
Proof.
  induction l as [|x l IH]; cbn; intros H; [reflexivity|].
  rewrite H by now left. rewrite IH; [reflexivity|]. intros y Hy. apply H. now right.
Qed.

(** What the hook leaves in [hashtags]. *)
Lemma pre_save_hashtags_In (p : PostDoc.t) (t : string) :
  In t (PostDoc.hashtags (PostDoc.pre_save true p)) <->
  exists w, tagged (PostDoc.description p) w /\ t = Str.toLowerCase w.
Proof.
  cbn [PostDoc.pre_save PostDoc.set_hashtags PostDoc.hashtags].
  set (tags := List.map _ (Str.match_hashtags (PostDoc.description p))).
  assert (Htags : forall x, In x tags <->
            exists w, tagged (PostDoc.description p) w /\ x = Str.toLowerCase w).
  { intros x. unfold tags. rewrite List.in_map_iff. split.
    - intros (m & <- & Hm). apply match_hashtags_In in Hm as (w & Hw & ->).
      exists w. split; [exact Hw | reflexivity].
    - intros (w & Hw & ->). exists (String Str.hash w). split; [reflexivity|].
      apply match_hashtags_In. exists w. auto. }
  destruct (Set_of_spec tags) as [_ Hset].
  rewrite map_fixed.
  - now rewrite Hset.
  - intros x Hx. apply Hset, Htags in Hx as (w & _ & ->).
    apply toLowerCase_idem.
Qed.

Lemma hashtags_extracted_parts (p : PostDoc.t) :
  NoDup (PostDoc.hashtags (PostDoc.pre_save true p))
  /\ forall t, In t (PostDoc.hashtags (PostDoc.pre_save true p)) <->
               exists w, tagged (PostDoc.description p) w /\ t = Str.toLowerCase w.
Proof.
  split; [|apply pre_save_hashtags_In].
  cbn [PostDoc.pre_save PostDoc.set_hashtags PostDoc.hashtags].
  set (tags := List.map _ (Str.match_hashtags (PostDoc.description p))).
  destruct (Set_of_spec tags) as [Hn Hset].
  rewrite map_fixed; [exact Hn|].
  intros x Hx. apply Hset in Hx. unfold tags in Hx.
  apply List.in_map_iff in Hx as (m & <- & Hm).
  apply match_hashtags_In in Hm as (w & _ & ->). cbn.
  apply toLowerCase_idem.
Qed.

(** X16. The pre-save hook of a post whose description was modified
    sets [hashtags] to the lower-cased runs of [[a-zA-Z0-9_]] written
    right after a [#] in the description (each run taken whole), without
    duplicates; every hashtag is non-empty and made of lower-case
    letters, digits and underscores; no other field changes. When the
    description was not modified the document is left as it is. *)
Theorem hashtags_extracted (p : PostDoc.t) :
  let p' := PostDoc.pre_save true p in
  NoDup (PostDoc.hashtags p')
  /\ (forall t, In t (PostDoc.hashtags p') <->
                exists w, tagged (PostDoc.description p) w
                          /\ t = Str.toLowerCase w)
  /\ (forall t, In t (PostDoc.hashtags p') ->
                t <> EmptyString /\ all_chars is_tag_char t = true)
  /\ p' = PostDoc.set_hashtags (PostDoc.hashtags p') p
  /\ PostDoc.pre_save false p = p.
Proof.
  cbn zeta. split; [|split; [|split; [|split]]].
  - cbn [PostDoc.pre_save PostDoc.set_hashtags PostDoc.hashtags].
    set (tags := List.map _ (Str.match_hashtags (PostDoc.description p))).
    destruct (Set_of_spec tags) as [Hn Hset].
    rewrite map_fixed; [exact Hn|].
    intros x Hx. apply Hset in Hx. unfold tags in Hx.
    apply List.in_map_iff in Hx as (m & <- & Hm).
    apply match_hashtags_In in Hm as (w & _ & ->). cbn.
    apply toLowerCase_idem.
  - apply pre_save_hashtags_In.
  - intros t Ht. apply pre_save_hashtags_In in Ht
      as (w & (pre & post & _ & Hn & Hw & _) & ->).
    split; [|now apply toLowerCase_word].
    destruct w; [congruence | discriminate].
  - reflexivity.
  - reflexivity.
Qed.

Lemma keeps_ret {A : Type} (a : A) (Q : A -> Prop) : Q a -> keeps (sret a) Q.
Proof. intros H s Hs. split; [exact Hs | exact H]. Qed.

Lemma keeps_throw {A : Type} (e : string) (Q : A -> Prop) : keeps (sthrow e) Q.
Proof. intros s Hs. split; [exact Hs | exact I]. Qed.

Lemma keeps_bind {A B : Type} (c : St PDb A) (k : A -> St PDb B)
    (Q : A -> Prop) (R : B -> Prop) :
  keeps c Q -> (forall a, Q a -> keeps (k a) R) -> keeps (sbind c k) R.
Proof.
  intros Hc Hk s Hs. unfold sbind. destruct (Hc s Hs) as [H1 H2].
  destruct (c s) as [[a|e] s']; cbn in *.
  - apply (Hk a H2 s' H1).
  - split; [exact H1 | exact I].
Qed.

Lemma keeps_try {A : Type} (body : St PDb A) (h : string -> St PDb A)
    (Q : A -> Prop) :
  keeps body Q -> (forall e, keeps (h e) Q) -> keeps (stry body h) Q.
Proof.
  intros Hb Hh s Hs. unfold stry. destruct (Hb s Hs) as [H1 H2].
  destruct (body s) as [[a|e] s']; cbn in *.
  - split; assumption.
  - apply (Hh e s' H1).
Qed.

Lemma keeps_weaken {A : Type} (c : St PDb A) (Q R : A -> Prop) :
  keeps c Q -> (forall a, Q a -> R a) -> keeps c R.
Proof.
  intros Hc H s Hs. destruct (Hc s Hs) as [H1 H2]. split; [exact H1|].
  destruct (fst (c s)); auto.
Qed.

Lemma Forall_update_first {A : Type} (P : A -> Prop) (p : A -> bool) (f : A -> A)
    (l : list A) :
  Forall P l -> (forall x, In x l -> p x = true -> P (f x)) ->
  Forall P (update_first p f l).
Proof.
  induction l as [|x l IH]; intros H Hf; cbn; [constructor|].
  inversion H; subst. destruct (p x) eqn:E.
  - constructor; [apply Hf; [now left | exact E] | assumption].
  - constructor; [assumption|]. apply IH; [assumption|].
    intros y Hy. apply Hf. now right.
Qed.

Lemma pstore_ok_with_post (s : PDb) (p' : PostDoc.t) :
  pstore_ok s -> post_ok p' -> pstore_ok (with_post s p').
Proof.
  intros (H1 & H2 & H3 & H4) Hp. unfold pstore_ok, with_post. cbn [posts accounts].
  split; [|split; [|split; assumption]].
  - rewrite update_first_map; [exact H1|].
    intros x Hx. apply String.eqb_eq in Hx. now rewrite Hx.
  - apply Forall_update_first; auto.
Qed.

Lemma pstore_ok_with_account (s : PDb) (a' : UserDoc.t) :
  pstore_ok s -> account_ok a' -> pstore_ok (with_account s a').
Proof.
  intros (H1 & H2 & H3 & H4) Ha. unfold pstore_ok, with_account.
  cbn [posts accounts].
  split; [assumption|]. split; [assumption|]. split.
  - rewrite update_first_map; [exact H3|].
    intros x Hx. apply String.eqb_eq in Hx. now rewrite Hx.
  - apply Forall_update_first; auto.
Qed.

Lemma existsb_id_false {A : Type} (key : A -> string) (id : string) (l : list A) :
  existsb (fun x => String.eqb (key x) id) l = false -> ~ In id (List.map key l).
Proof.
  intros E K. apply List.in_map_iff in K as (x & <- & Hx).
  apply Bool.not_true_iff_false in E. apply E.
  apply List.existsb_exists. exists x. split; [exact Hx | apply String.eqb_refl].
Qed.

Lemma pre_save_post_fields (dm : bool) (p : PostDoc.t) :
  PostDoc._id (PostDoc.pre_save dm p) = PostDoc._id p
  /\ PostDoc.author (PostDoc.pre_save dm p) = PostDoc.author p
  /\ PostDoc.title (PostDoc.pre_save dm p) = PostDoc.title p
  /\ PostDoc.description (PostDoc.pre_save dm p) = PostDoc.description p
  /\ PostDoc.link (PostDoc.pre_save dm p) = PostDoc.link p
  /\ PostDoc.likes (PostDoc.pre_save dm p) = PostDoc.likes p
  /\ PostDoc.comments (PostDoc.pre_save dm p) = PostDoc.comments p
  /\ PostDoc.group (PostDoc.pre_save dm p) = PostDoc.group p
  /\ PostDoc.isDeleted (PostDoc.pre_save dm p) = PostDoc.isDeleted p
  /\ PostDoc.validate (PostDoc.pre_save dm p) = PostDoc.validate p.
Proof. destruct dm; repeat split; reflexivity. Qed.

Lemma post_save_cases (isNew dm : bool) (this : PostDoc.t) (s : PDb) :
  let this' := PostDoc.pre_save dm this in
  (PostDoc.validate this = true
   /\ post_at s (PostDoc._id this) = None /\ isNew = true
   /\ post_save isNew dm this s
      = (Return this', mkPDb (posts s ++ [this']) (accounts s)))
  \/ (PostDoc.validate this = true
      /\ post_at s (PostDoc._id this) <> None /\ isNew = false
      /\ post_save isNew dm this s = (Return this', with_post s this'))
  \/ exists e, post_save isNew dm this s = (Throw e, s).
Proof.
  cbn zeta. unfold post_save.
  destruct (pre_save_post_fields dm this) as (Hid & _).
  destruct (PostDoc.validate this) eqn:Hv; [|right; right; eexists; reflexivity].
  unfold sbind, sget, sput, sret, sthrow. rewrite Hid.
  destruct (existsb _ (posts s)) eqn:E.
  - destruct isNew; [right; right; eexists; reflexivity|].
    right. left. split; [reflexivity|]. split; [|split; [reflexivity|]].
    + unfold post_at. intros K.
      apply Bool.not_false_iff_true in E. apply E.
      apply Bool.not_true_iff_false. intros E'.
      apply List.existsb_exists in E' as (x & Hx & Ex).
      now rewrite (List.find_none _ _ K x Hx) in Ex.
    + unfold with_post. now rewrite Hid.
  - destruct isNew; [|right; right; eexists; reflexivity].
    left. split; [reflexivity|]. split; [|split; reflexivity].
    unfold post_at. destruct (List.find _ (posts s)) as [x|] eqn:F; [|reflexivity].
    apply List.find_some in F as [F1 F2].
    apply Bool.not_true_iff_false in E. exfalso. apply E.
    apply List.existsb_exists. exists x. auto.
Qed.

Lemma keeps_post_save (isNew dm : bool) (this : PostDoc.t) :
  NoDup (PostDoc.likes this) ->
  keeps (post_save isNew dm this)
    (fun r => r = PostDoc.pre_save dm this /\ post_ok r).
Proof.
  intros Hl s Hs.
  destruct (pre_save_post_fields dm this)
    as (Hid & _ & _ & _ & _ & Hlk & _ & _ & _ & Hval).
  assert (Hok : PostDoc.validate this = true -> post_ok (PostDoc.pre_save dm this)).
  { intros Hv. split; [now rewrite Hval | now rewrite Hlk]. }
  destruct (post_save_cases isNew dm this s)
    as [(Hv & Hn & _ & E) | [(Hv & Hn & _ & E) | (e & E)]]; rewrite E; cbn [fst snd].
  - split; [|auto]. destruct Hs as (H1 & H2 & H3 & H4).
    unfold pstore_ok. cbn [posts accounts].
    split; [|split; [|split; assumption]].
    + rewrite List.map_app. cbn. apply NoDup_app; [exact H1 | repeat constructor; auto|].
      intros x Hx [<-|[]]. rewrite Hid in Hx.
      apply List.in_map_iff in Hx as (y & Ey & Hy).
      unfold post_at in Hn. apply (List.find_none _ _ Hn) in Hy.
      rewrite Ey, String.eqb_refl in Hy. discriminate.
    + apply Forall_app. split; [exact H2|]. constructor; [auto | constructor].
  - split; [|auto]. apply pstore_ok_with_post; auto.
  - split; [exact Hs | exact I].
Qed.

Lemma firstn_50_length {A : Type} (l : list A) : List.length (List.firstn 50 l) <= 50.
Proof. rewrite List.length_firstn. lia. Qed.

Lemma addNotification_unfold (n : Notification.t) (a : UserDoc.t) :
  addNotification n a = user_save (notified n a).
Proof.
  unfold addNotification, notified, unshift, slice0.
  destruct (Nat.ltb_spec 50 (List.length (n :: UserDoc.notifications a)));
    [reflexivity|].
  now rewrite List.firstn_all2 by assumption.
Qed.

Lemma user_save_cases (this : UserDoc.t) (s : PDb) :
  (UserDoc.validate this = true /\ account_at s (UserDoc._id this) <> None
   /\ user_save this s = (Return this, with_account s this))
  \/ exists e, user_save this s = (Throw e, s).
Proof.
  unfold user_save.
  destruct (UserDoc.validate this) eqn:Hv; [|right; eexists; reflexivity].
  unfold sbind, sget, sput, sret, sthrow.
  destruct (existsb _ (accounts s)) eqn:E; [|right; eexists; reflexivity].
  left. split; [reflexivity|]. split; [|reflexivity].
  unfold account_at. intros K.
  apply List.existsb_exists in E as (x & Hx & Ex).
  now rewrite (List.find_none _ _ K x Hx) in Ex.
Qed.

Lemma keeps_addNotification (n : Notification.t) (a : UserDoc.t) :
  keeps (addNotification n a) (fun _ => True).
Proof.
  intros s Hs. rewrite addNotification_unfold.
  destruct (user_save_cases (notified n a) s) as [(Hv & _ & E) | (e & E)];
    rewrite E; cbn [fst snd].
  - split; [|exact I]. apply pstore_ok_with_account; [exact Hs|].
    split; [exact Hv|]. unfold notified, UserDoc.set_notifications.
    cbn [UserDoc.notifications]. apply firstn_50_length.
  - split; [exact Hs | exact I].
Qed.

Lemma keeps_Post_findById (id : ObjectId) :
  keeps (Post_findById id) (fun r => forall p, r = Some p -> post_ok p).
Proof.
  intros s Hs. unfold Post_findById, sbind, sget, sret. cbn.
  split; [exact Hs|]. intros p Hp. apply List.find_some in Hp as [Hp _].
  destruct Hs as (_ & H2 & _). rewrite List.Forall_forall in H2. now apply H2.
Qed.

Lemma keeps_UserDoc_findById (id : ObjectId) :
  keeps (UserDoc_findById id) (fun _ => True).
Proof.
  intros s Hs. unfold UserDoc_findById, sbind, sget, sret. cbn.
  split; [exact Hs | exact I].
Qed.

Lemma keeps_notify_author (authorId : ObjectId) (n : Notification.t) :
  keeps (notify_author authorId n) (fun _ => True).
Proof.
  unfold notify_author. eapply keeps_bind; [apply keeps_UserDoc_findById|].
  intros [a|] _; [|apply keeps_throw].
  eapply keeps_bind; [apply keeps_addNotification|].
  intros _ _. now apply keeps_ret.
Qed.

Lemma NoDup_push (l : list ObjectId) (x : ObjectId) :
  NoDup l -> ~ In x l -> NoDup (Js.push l x).
Proof.
  intros Hn Hx. unfold Js.push. apply NoDup_app; [exact Hn | repeat constructor; auto|].
  intros y Hy [<-|[]]. contradiction.
Qed.

Lemma keeps_addLike (u : ObjectId) (p : PostDoc.t) :
  post_ok p -> keeps (addLike u p) (fun _ => True).
Proof.
  intros [Hv Hn]. unfold addLike.
  destruct (includes (PostDoc.likes p) u) eqn:E; cbn [negb];
    [now apply keeps_ret|].
  eapply keeps_bind.
  - apply keeps_post_save. cbn. apply NoDup_push; [exact Hn|].
    intros K. apply includes_In in K. congruence.
  - intros r _. now apply keeps_ret.
Qed.

Lemma keeps_removeLike (u : ObjectId) (p : PostDoc.t) :
  post_ok p -> keeps (removeLike u p) (fun _ => True).
Proof.
  intros [Hv Hn]. unfold removeLike. cbn zeta.
  destruct (Z.ltb_spec (-1) (indexOf (PostDoc.likes p) u)) as [Hi|Hi];
    [|now apply keeps_ret].
  eapply keeps_bind.
  - apply keeps_post_save. cbn.
    assert (Hin : In u (PostDoc.likes p)).
    { destruct (List.in_dec String.string_dec u (PostDoc.likes p)) as [H|H];
        [exact H|].
      rewrite (indexOf_absent _ _ H) in Hi. lia. }
    apply (splice1_indexOf _ _ Hn Hin).
  - intros r _. now apply keeps_ret.
Qed.

Lemma keeps_addComment (u : ObjectId) (content : string) (p : PostDoc.t) :
  post_ok p ->
  keeps (addComment u content p) (fun r => PostDoc.author (fst r) = PostDoc.author p).
Proof.
  intros [Hv Hn]. unfold addComment.
  eapply keeps_bind; [apply keeps_post_save; exact Hn|].
  intros r [-> _]. apply keeps_ret. reflexivity.
Qed.

Lemma keeps_perror (Q : PResponse -> Prop) :
  (forall r, Q r) -> forall e, keeps (perror e) Q.
Proof. intros H e. apply keeps_ret. apply H. Qed.

Lemma keeps_post_like (user : UserDoc.t) (id : ObjectId) :
  keeps (post_like user id) (fun _ => True).
Proof.
  unfold post_like. apply keeps_try; [|apply keeps_perror; auto].
  eapply keeps_bind; [apply keeps_Post_findById|].
  intros [p|] Hp; [|now apply keeps_ret].
  specialize (Hp p eq_refl).
  destruct (PostDoc.isDeleted p); [now apply keeps_ret|].
  cbn zeta. eapply keeps_bind with (Q := fun _ => True).
  - destruct (includes (PostDoc.likes p) (UserDoc._id user)).
    + eapply keeps_bind; [apply keeps_removeLike; exact Hp|].
      intros _ _. now apply keeps_ret.
    + eapply keeps_bind; [apply keeps_addLike; exact Hp|].
      intros _ _. eapply keeps_bind with (Q := fun _ => True).
      * destruct (negb _); [apply keeps_notify_author | now apply keeps_ret].
      * intros _ _. now apply keeps_ret.
  - intros m _. eapply keeps_bind; [apply keeps_Post_findById|].
    intros r _. now apply keeps_ret.
Qed.

Lemma keeps_post_comment (user : UserDoc.t) (id : ObjectId) (content : string) :
  keeps (post_comment user id content) (fun _ => True).
Proof.
  unfold post_comment. apply keeps_try; [|apply keeps_perror; auto].
  cbn zeta. destruct (negb _); [now apply keeps_ret|].
  eapply keeps_bind; [apply keeps_Post_findById|].
  intros [p|] Hp; [|now apply keeps_ret].
  specialize (Hp p eq_refl).
  destruct (PostDoc.isDeleted p); [now apply keeps_ret|].
  eapply keeps_bind; [apply keeps_addComment; exact Hp|].
  intros [p1 c] _. eapply keeps_bind with (Q := fun _ => True).
  - destruct (negb _); [apply keeps_notify_author | now apply keeps_ret].
  - intros _ _. now apply keeps_ret.
Qed.

Lemma keeps_delete_post (user : UserDoc.t) (id : ObjectId) :
  keeps (delete_post user id) (fun _ => True).
Proof.
  unfold delete_post. apply keeps_try; [|apply keeps_perror; auto].
  eapply keeps_bind; [apply keeps_Post_findById|].
  intros [p|] Hp; [|now apply keeps_ret].
  specialize (Hp p eq_refl).
  destruct (PostDoc.isDeleted p); [now apply keeps_ret|].
  cbn zeta. destruct (negb _); [now apply keeps_ret|].
  eapply keeps_bind; [apply keeps_post_save; apply Hp|].
  intros _ _. now apply keeps_ret.
Qed.

Lemma keeps_create_post (isURL : string -> bool) (user : UserDoc.t)
    (title description : string) (link groupId : option string) (fresh : ObjectId) :
  keeps (create_post isURL user title description link groupId fresh)
    (fun _ => True).
Proof.
  unfold create_post. apply keeps_try; [|apply keeps_perror; auto].
  cbn zeta. destruct (negb _); [now apply keeps_ret|].
  eapply keeps_bind; [apply keeps_post_save; constructor|].
  intros r _. now apply keeps_ret.
Qed.

Lemma required_max_length (n : nat) (s : string) :
  PostDoc.required_max n s = isLength 1 n s.
Proof.
  unfold PostDoc.required_max, isLength. destruct s; reflexivity.
Qed.

Lemma keeps_Post_findByIdAndUpdate (id : ObjectId) (t d : option string)
    (l : option (option string)) :
  keeps (Post_findByIdAndUpdate id t d l) (fun _ => True).
Proof.
  intros s Hs. unfold Post_findByIdAndUpdate.
  destruct (optional (PostDoc.required_max 100) t) eqn:Ht; cbn [andb];
    [|split; [exact Hs | exact I]].
  destruct (optional (PostDoc.required_max 2000) d) eqn:Hd; cbn [andb];
    [|split; [exact Hs | exact I]].
  destruct (optional PostDoc.link_valid l) eqn:Hl; [|split; [exact Hs | exact I]].
  unfold sbind, sget, sput, sret.
  destruct (List.find _ (posts s)) as [p|] eqn:F; cbn [fst snd];
    [|split; [exact Hs | exact I]].
  split; [|exact I].
  pose proof (List.find_some _ _ F) as [Fin Fid]. apply String.eqb_eq in Fid.
  destruct Hs as (H1 & H2 & H3 & H4).
  pose proof H2 as H2'. rewrite List.Forall_forall in H2'.
  destruct (H2' p Fin) as [Hv Hn].
  unfold pstore_ok. cbn [posts accounts].
  split; [|split; [|split; assumption]].
  - rewrite update_first_map; [exact H1|].
    intros x Hx. apply String.eqb_eq in Hx. rewrite Hx.
    destruct t, d, l; cbn; congruence.
  - apply Forall_update_first; [exact H2|]. intros x _ _.
    unfold PostDoc.validate in Hv.
    apply andb_true_iff in Hv as [Hv Hc]. apply andb_true_iff in Hv as [Hv Hk].
    apply andb_true_iff in Hv as [Ht0 Hd0].
    split.
    + unfold PostDoc.validate.
      destruct t, d, l; cbn in *; rewrite ?Ht, ?Hd, ?Hl, ?Ht0, ?Hd0, ?Hk, ?Hc;
        reflexivity.
    + destruct t, d, l; cbn; exact Hn.
Qed.

Lemma keeps_put_post (isURL : string -> bool) (user : UserDoc.t) (id : ObjectId)
    (title description link : option string) :
  keeps (put_post isURL user id title description link) (fun _ => True).
Proof.
  unfold put_post. apply keeps_try; [|apply keeps_perror; auto].
  cbn zeta. destruct (negb _); [now apply keeps_ret|].
  eapply keeps_bind; [apply keeps_Post_findById|].
  intros [p|] Hp; [|now apply keeps_ret].
  destruct (PostDoc.isDeleted p); [now apply keeps_ret|].
  destruct (negb _); [now apply keeps_ret|].
  eapply keeps_bind; [apply keeps_Post_findByIdAndUpdate|].
  intros r _. now apply keeps_ret.
Qed.

(** X17. The posts and users collections stay well-formed under the
    post routes: when post ids and user ids are unique, every post passes
    the schema validation and has no user twice in [likes], and every
    user passes validation and holds at most 50 notifications, this is
    still so after any sequence of create, edit, delete, like and comment
    requests, whatever each of them answered. *)
Theorem post_store_invariant (isURL : string -> bool) (cs : list PCall) (s : PDb) :
  pstore_ok s -> pstore_ok (prun_all isURL cs s).
Proof.
  revert s. induction cs as [|c cs IH]; intros s Hs; cbn [prun_all];
    [exact Hs|].
  apply IH. destruct c; cbn [prun].
  - now apply keeps_create_post.
  - now apply keeps_put_post.
  - now apply keeps_delete_post.
  - now apply keeps_post_like.
  - now apply keeps_post_comment.
Qed.

Lemma sample_pstore_ok : pstore_ok SampleP.s0.
Proof.
  unfold pstore_ok, SampleP.s0. cbn [posts accounts].
  split; [repeat constructor; cbn; tauto|].
  split; [repeat constructor|].
  split.
  - repeat constructor; cbn; intros K; repeat destruct K as [K|K];
      try discriminate; assumption.
  - repeat constructor; cbn; lia.
Qed.

Lemma post_store_invariant_witness :
  pstore_ok (prun_all SampleP.accept_all SampleP.session SampleP.s0)
  /\ List.map PostDoc.hashtags
       (posts (prun_all SampleP.accept_all SampleP.session SampleP.s0))
     = [["post"; "team"]; ["news"; "more_news"]].
Proof.
  split.
  - apply post_store_invariant. exact sample_pstore_ok.
  - vm_compute. reflexivity.
Defined.

Lemma sbind_return {S A B : Type} (c : St S A) (k : A -> St S B) (s s' : S) (a : A) :
  c s = (Return a, s') -> sbind c k s = k a s'.
Proof. intros E. unfold sbind. now rewrite E. Qed.

Lemma sbind_throw {S A B : Type} (c : St S A) (k : A -> St S B) (s s' : S)
    (e : string) :
  c s = (Throw e, s') -> sbind c k s = (Throw e, s').
Proof. intros E. unfold sbind. now rewrite E. Qed.

Lemma stry_return {S A : Type} (c : St S A) (h : string -> St S A) (s s' : S) (a : A) :
  c s = (Return a, s') -> stry c h s = (Return a, s').
Proof. intros E. unfold stry. now rewrite E. Qed.

Lemma stry_throw {S A : Type} (c : St S A) (h : string -> St S A) (s s' : S)
    (e : string) :
  c s = (Throw e, s') -> stry c h s = h e s'.
Proof. intros E. unfold stry. now rewrite E. Qed.

Lemma Post_findById_eq (id : ObjectId) (s : PDb) :
  Post_findById id s = (Return (post_at s id), s).
Proof. reflexivity. Qed.

Lemma UserDoc_findById_eq (id : ObjectId) (s : PDb) :
  UserDoc_findById id s = (Return (account_at s id), s).
Proof. reflexivity. Qed.

Lemma post_at_id (s : PDb) (id : ObjectId) (p : PostDoc.t) :
  post_at s id = Some p -> PostDoc._id p = id.
Proof.
  intros H. apply List.find_some in H as [_ H]. now apply String.eqb_eq in H.
Qed.

Lemma account_at_id (s : PDb) (id : ObjectId) (a : UserDoc.t) :
  account_at s id = Some a -> UserDoc._id a = id.
Proof.
  intros H. apply List.find_some in H as [_ H]. now apply String.eqb_eq in H.
Qed.

Lemma post_at_with_post (s : PDb) (p' : PostDoc.t) :
  post_at s (PostDoc._id p') <> None ->
  post_at (with_post s p') (PostDoc._id p') = Some p'.
Proof.
  intros Hs. destruct (post_at s (PostDoc._id p')) as [p|] eqn:E; [|congruence].
  unfold post_at, with_post in *. cbn [posts].
  apply (find_update_first _ (fun _ => p') _ p E). apply String.eqb_refl.
Qed.

Lemma account_at_with_account (s : PDb) (a' : UserDoc.t) :
  account_at s (UserDoc._id a') <> None ->
  account_at (with_account s a') (UserDoc._id a') = Some a'.
Proof.
  intros Hs. destruct (account_at s (UserDoc._id a')) as [a|] eqn:E; [|congruence].
  unfold account_at, with_account in *. cbn [accounts].
  apply (find_update_first _ (fun _ => a') _ a E). apply String.eqb_refl.
Qed.

(** Writing a post back and then writing the original back gives the
    collection as it was. *)
Lemma with_post_back (s : PDb) (p p' : PostDoc.t) :
  post_at s (PostDoc._id p) = Some p ->
  PostDoc._id p' = PostDoc._id p ->
  posts (with_post (with_post s p') p) = posts s.
Proof.
  intros Hs Hid. unfold with_post, post_at in *. cbn [posts]. rewrite Hid.
  induction (posts s) as [|x l IH]; cbn in *; [reflexivity|].
  destruct (String.eqb (PostDoc._id x) (PostDoc._id p)) eqn:E; cbn.
  - rewrite Hid, String.eqb_refl. now inversion Hs.
  - rewrite E. now rewrite IH.
Qed.

Lemma post_save_existing (this : PostDoc.t) (s : PDb) :
  PostDoc.validate this = true ->
  post_at s (PostDoc._id this) <> None ->
  post_save false false this s = (Return this, with_post s this).
Proof.
  intros Hv Hs.
  destruct (post_save_cases false false this s)
    as [(_ & _ & K & _) | [(_ & _ & _ & E) | (e & E)]];
    [discriminate | exact E |].
  exfalso. unfold post_save in E. rewrite Hv in E.
  unfold sbind, sget, sput, sret, sthrow in E. cbn [PostDoc.pre_save] in E.
  destruct (existsb _ (posts s)) eqn:X; [discriminate|].
  apply Hs. unfold post_at.
  destruct (List.find _ (posts s)) as [x|] eqn:F; [|reflexivity].
  apply List.find_some in F as [F1 F2].
  apply Bool.not_true_iff_false in X. exfalso. apply X.
  apply List.existsb_exists. exists x. auto.
Qed.

Lemma user_save_existing (this : UserDoc.t) (s : PDb) :
  UserDoc.validate this = true ->
  account_at s (UserDoc._id this) <> None ->
  user_save this s = (Return this, with_account s this).
Proof.
  intros Hv Hs. unfold user_save. rewrite Hv.
  unfold sbind, sget, sput, sret, sthrow.
  destruct (existsb _ (accounts s)) eqn:X; [reflexivity|].
  exfalso. apply Hs. unfold account_at.
  destruct (List.find _ (accounts s)) as [x|] eqn:F; [|reflexivity].
  apply List.find_some in F as [F1 F2].
  apply Bool.not_true_iff_false in X. exfalso. apply X.
  apply List.existsb_exists. exists x. auto.
Qed.

Lemma forallb_firstn {A : Type} (p : A -> bool) (n : nat) (l : list A) :
  forallb p l = true -> forallb p (List.firstn n l) = true.
Proof.
  revert n. induction l as [|x l IH]; intros [|n] H; cbn in *; try reflexivity.
  apply andb_true_iff in H as [H1 H2]. now rewrite H1, IH.
Qed.

Lemma validate_notified (n : Notification.t) (a : UserDoc.t) :
  UserDoc.validate a = true ->
  In (Notification.type n) Notification.type_enum ->
  UserDoc.validate (notified n a) = true.
Proof.
  unfold UserDoc.validate, notified, UserDoc.set_notifications.
  cbn [UserDoc.name UserDoc.role UserDoc.notifications].
  intros H Hn. apply andb_true_iff in H as [H1 H2]. rewrite H1. cbn [andb].
  apply forallb_firstn. cbn [forallb]. rewrite H2, andb_true_r.
  apply List.existsb_exists. exists (Notification.type n).
  split; [exact Hn | apply String.eqb_refl].
Qed.

Lemma notify_author_present (authorId : ObjectId) (n : Notification.t)
    (a : UserDoc.t) (s : PDb) :
  account_at s authorId = Some a ->
  UserDoc.validate a = true ->
  In (Notification.type n) Notification.type_enum ->
  notify_author authorId n s = (Return tt, with_account s (notified n a)).
Proof.
  intros Ha Hv Hn. unfold notify_author.
  rewrite (sbind_return _ _ _ _ _ (UserDoc_findById_eq authorId s)), Ha.
  rewrite addNotification_unfold.
  erewrite sbind_return;
    [reflexivity | apply user_save_existing; [now apply validate_notified|]].
  change (UserDoc._id (notified n a)) with (UserDoc._id a).
  rewrite (account_at_id _ _ _ Ha), Ha. discriminate.
Qed.

Lemma notify_author_absent (authorId : ObjectId) (n : Notification.t) (s : PDb) :
  account_at s authorId = None ->
  notify_author authorId n s = (Throw "TypeError", s).
Proof.
  intros Ha. unfold notify_author.
  now rewrite (sbind_return _ _ _ _ _ (UserDoc_findById_eq authorId s)), Ha.
Qed.

Lemma addLike_fresh (u : ObjectId) (p : PostDoc.t) (s : PDb) :
  PostDoc.validate p = true ->
  post_at s (PostDoc._id p) <> None ->
  ~ In u (PostDoc.likes p) ->
  addLike u p s = (Return (liked_by u p, true), with_post s (liked_by u p)).
Proof.
  intros Hv Hs Hin. unfold addLike.
  destruct (includes (PostDoc.likes p) u) eqn:E;
    [apply includes_In in E; contradiction|].
  cbn [negb]. unfold Js.push. fold (liked_by u p).
  erewrite sbind_return; [reflexivity|].
  apply post_save_existing; [exact Hv | exact Hs].
Qed.

Lemma removeLike_present (u : ObjectId) (p : PostDoc.t) (s : PDb) :
  PostDoc.validate p = true ->
  post_at s (PostDoc._id p) <> None ->
  In u (PostDoc.likes p) ->
  removeLike u p s = (Return (unliked_by u p, true), with_post s (unliked_by u p)).
Proof.
  intros Hv Hs Hin. unfold removeLike. cbn zeta.
  pose proof (indexOf_present _ _ Hin) as Hp.
  destruct (Z.ltb_spec (-1) (indexOf (PostDoc.likes p) u)) as [_|K]; [|lia].
  fold (unliked_by u p).
  erewrite sbind_return; [reflexivity|].
  apply post_save_existing; [exact Hv | exact Hs].
Qed.

Lemma unliked_liked (u : ObjectId) (p : PostDoc.t) :
  ~ In u (PostDoc.likes p) -> unliked_by u (liked_by u p) = p.
Proof.
  intros Hin. unfold unliked_by, liked_by, PostDoc.set_likes.
  cbn [PostDoc.likes PostDoc._id PostDoc.author PostDoc.title PostDoc.description
       PostDoc.link PostDoc.hashtags PostDoc.comments PostDoc.group
       PostDoc.isDeleted].
  pose proof (indexOf_push_new _ _ Hin) as Hi. unfold Js.push in Hi. rewrite Hi.
  rewrite Nat2Z.id.
  pose proof (splice1_push_last (PostDoc.likes p) u) as Hsp.
  unfold Js.push in Hsp. rewrite Hsp. destruct p; reflexivity.
Qed.

Lemma post_like_liked (user : UserDoc.t) (id : ObjectId) (s : PDb)
    (p : PostDoc.t) :
  post_at s id = Some p ->
  PostDoc.validate p = true ->
  PostDoc.isDeleted p = false ->
  In (UserDoc._id user) (PostDoc.likes p) ->
  post_like user id s
  = (Return (mkPResponse 200
               (PLiked "Post unliked" (Some (unliked_by (UserDoc._id user) p)) false)),
     with_post s (unliked_by (UserDoc._id user) p)).
Proof.
  intros Hs Hv Hd Hin. pose proof (post_at_id _ _ _ Hs) as Hid.
  assert (Hst : post_at s (PostDoc._id p) <> None) by (rewrite Hid, Hs; discriminate).
  unfold post_like. apply stry_return.
  rewrite (sbind_return _ _ _ _ _ (Post_findById_eq id s)), Hs, Hd. cbn zeta.
  assert (Hi : includes (PostDoc.likes p) (UserDoc._id user) = true)
    by now apply includes_In.
  rewrite Hi. cbn [negb].
  erewrite sbind_return;
    [|erewrite sbind_return;
      [reflexivity | apply removeLike_present; assumption]].
  rewrite (sbind_return _ _ _ _ _ (Post_findById_eq id _)).
  rewrite <- Hid.
  change (PostDoc._id p) with (PostDoc._id (unliked_by (UserDoc._id user) p)).
  rewrite post_at_with_post by exact Hst. reflexivity.
Qed.

Lemma post_like_fresh (user : UserDoc.t) (id : ObjectId) (s : PDb)
    (p : PostDoc.t) :
  post_at s id = Some p ->
  PostDoc.validate p = true ->
  PostDoc.isDeleted p = false ->
  ~ In (UserDoc._id user) (PostDoc.likes p) ->
  let p1 := liked_by (UserDoc._id user) p in
  post_like user id s
  = if String.eqb (PostDoc.author p) (UserDoc._id user)
    then (Return (mkPResponse 200 (PLiked "Post liked" (Some p1) true)),
          with_post s p1)
    else match account_at s (PostDoc.author p) with
         | None => (Return (mkPResponse 500 (PMessage "Server error")),
                    with_post s p1)
         | Some a =>
             if UserDoc.validate (notified (like_notice user p) a)
             then (Return (mkPResponse 200 (PLiked "Post liked" (Some p1) true)),
                   with_account (with_post s p1) (notified (like_notice user p) a))
             else (Return (mkPResponse 500 (PMessage "Server error")),
                   with_post s p1)
         end.
Proof.
  intros Hs Hv Hd Hin p1. pose proof (post_at_id _ _ _ Hs) as Hid.
  assert (Hst : post_at s (PostDoc._id p) <> None) by (rewrite Hid, Hs; discriminate).
  assert (Hp1 : post_at (with_post s p1) id = Some p1).
  { rewrite <- Hid. change (PostDoc._id p) with (PostDoc._id p1).
    now apply post_at_with_post. }
  assert (Hi : includes (PostDoc.likes p) (UserDoc._id user) = false).
  { destruct (includes _ _) eqn:E; [|reflexivity].
    apply includes_In in E. contradiction. }
  unfold post_like, toString.
  destruct (String.eqb (PostDoc.author p) (UserDoc._id user)) eqn:Ea.
  - apply stry_return.
    rewrite (sbind_return _ _ _ _ _ (Post_findById_eq id s)), Hs, Hd. cbn zeta.
    rewrite Hi, Ea. cbn [negb]. fold (like_notice user p).
    erewrite sbind_return;
      [|erewrite sbind_return;
        [reflexivity | apply addLike_fresh; assumption]].
    rewrite (sbind_return _ _ _ _ _ (Post_findById_eq id _)).
    fold p1. now rewrite Hp1.
  - destruct (account_at s (PostDoc.author p)) as [a|] eqn:Hacc.
    + destruct (UserDoc.validate (notified (like_notice user p) a)) eqn:Hva.
      * apply stry_return.
        rewrite (sbind_return _ _ _ _ _ (Post_findById_eq id s)), Hs, Hd. cbn zeta.
        rewrite Hi, Ea. cbn [negb]. fold (like_notice user p).
        erewrite sbind_return;
          [|erewrite sbind_return;
            [|apply addLike_fresh; assumption]].
        2:{ fold p1. erewrite sbind_return; [reflexivity|].
            unfold notify_author.
            rewrite (sbind_return _ _ _ _ _ (UserDoc_findById_eq _ _)).
            change (account_at (with_post s p1) (PostDoc.author p))
              with (account_at s (PostDoc.author p)).
            rewrite Hacc, addNotification_unfold.
            erewrite sbind_return; [reflexivity|].
            apply user_save_existing; [exact Hva|].
            change (account_at s (UserDoc._id a) <> None).
            rewrite (account_at_id _ _ _ Hacc), Hacc. discriminate. }
        rewrite (sbind_return _ _ _ _ _ (Post_findById_eq id _)).
        change (post_at (with_account (with_post s p1) _) id)
          with (post_at (with_post s p1) id).
        now rewrite Hp1.
      * erewrite stry_throw; [reflexivity|].
        rewrite (sbind_return _ _ _ _ _ (Post_findById_eq id s)), Hs, Hd. cbn zeta.
        rewrite Hi, Ea. cbn [negb]. fold (like_notice user p).
        erewrite sbind_throw; [reflexivity|].
        erewrite sbind_return; [|apply addLike_fresh; assumption].
        fold p1. erewrite sbind_throw; [reflexivity|].
        unfold notify_author.
        rewrite (sbind_return _ _ _ _ _ (UserDoc_findById_eq _ _)).
        change (account_at (with_post s p1) (PostDoc.author p))
          with (account_at s (PostDoc.author p)).
        rewrite Hacc, addNotification_unfold.
        erewrite sbind_throw; [reflexivity|].
        unfold user_save. rewrite Hva. reflexivity.
    + erewrite stry_throw; [reflexivity|].
      rewrite (sbind_return _ _ _ _ _ (Post_findById_eq id s)), Hs, Hd. cbn zeta.
      rewrite Hi, Ea. cbn [negb]. fold (like_notice user p).
      erewrite sbind_throw; [reflexivity|].
      erewrite sbind_return; [|apply addLike_fresh; assumption].
      fold p1. erewrite sbind_throw; [reflexivity|].
      now apply notify_author_absent.
Qed.

(** X18. POST /:id/like on a live, valid stored post without duplicate
    likes is a toggle. A user already in [likes] is taken out ("Post
    unliked", [isLiked] false), the other likes stay and nobody is
    notified. A user not in [likes] is appended ("Post liked", [isLiked]
    true); when the author is somebody else, the author's stored document
    receives the like notification, and for the author's own like the
    users are untouched; a second request then gives back the original
    post and sends no further notification. When the author's user
    document does not exist, the like is still recorded but the answer
    is 500. *)
Theorem post_like_toggles (user : UserDoc.t) (id : ObjectId) (s : PDb)
    (p : PostDoc.t) :
  post_at s id = Some p ->
  post_ok p ->
  PostDoc.isDeleted p = false ->
  let u := UserDoc._id user in
  (In u (PostDoc.likes p) ->
   exists p',
     post_like user id s
     = (Return (mkPResponse 200 (PLiked "Post unliked" (Some p') false)),
        with_post s p')
     /\ ~ In u (PostDoc.likes p')
     /\ (forall v, v <> u -> (In v (PostDoc.likes p') <-> In v (PostDoc.likes p))))
  /\ (~ In u (PostDoc.likes p) ->
      (PostDoc.author p = u
       \/ exists a, account_at s (PostDoc.author p) = Some a
                    /\ UserDoc.validate a = true) ->
      exists s1,
        post_like user id s
        = (Return (mkPResponse 200 (PLiked "Post liked" (Some (liked_by u p)) true)),
           s1)
        /\ post_at s1 id = Some (liked_by u p)
        /\ (PostDoc.author p = u -> accounts s1 = accounts s)
        /\ (forall a, PostDoc.author p <> u ->
              account_at s (PostDoc.author p) = Some a ->
              account_at s1 (PostDoc.author p)
              = Some (notified (like_notice user p) a))
        /\ exists s2,
             post_like user id s1
             = (Return (mkPResponse 200 (PLiked "Post unliked" (Some p) false)), s2)
             /\ posts s2 = posts s
             /\ accounts s2 = accounts s1)
  /\ (~ In u (PostDoc.likes p) ->
      PostDoc.author p <> u ->
      account_at s (PostDoc.author p) = None ->
      post_like user id s
      = (Return (mkPResponse 500 (PMessage "Server error")),
         with_post s (liked_by u p))).
Proof.
  intros Hs [Hv Hn] Hd u. pose proof (post_at_id _ _ _ Hs) as Hid.
  assert (Hst : post_at s (PostDoc._id p) <> None) by (rewrite Hid, Hs; discriminate).
  split; [|split].
  - intros Hin. exists (unliked_by u p).
    split; [now apply post_like_liked|].
    destruct (splice1_indexOf _ _ Hn Hin) as (H1 & _ & _). cbn zeta in H1.
    unfold unliked_by. cbn [PostDoc.set_likes PostDoc.likes].
    split.
    + intros K. apply H1 in K. tauto.
    + intros v Hvu. rewrite H1. tauto.
  - intros Hin Hauth.
    pose proof (post_like_fresh user id s p Hs Hv Hd Hin) as E. cbn zeta in E.
    fold u in E.
    set (p1 := liked_by u p) in *.
    assert (Hp1 : post_at (with_post s p1) id = Some p1).
    { rewrite <- Hid. change (PostDoc._id p) with (PostDoc._id p1).
      now apply post_at_with_post. }
    assert (Hback : forall s1, posts s1 = posts (with_post s p1) ->
              post_at s1 id = Some p1 ->
              exists s2,
                post_like user id s1
                = (Return (mkPResponse 200 (PLiked "Post unliked" (Some p) false)), s2)
                /\ posts s2 = posts s /\ accounts s2 = accounts s1).
    { intros s1 Hposts Hs1. exists (with_post s1 p).
      assert (Hu : In u (PostDoc.likes p1)).
      { unfold p1, liked_by. cbn. apply List.in_or_app. right. now left. }
      pose proof (post_like_liked user id s1 p1 Hs1 Hv Hd Hu) as E1.
      fold u in E1. unfold p1 in E1 at 1 2.
      rewrite (unliked_liked u p Hin) in E1.
      split; [exact E1|]. split; [|reflexivity].
      unfold with_post at 1. cbn [posts]. rewrite Hposts.
      apply (with_post_back s p p1); [now rewrite Hid | reflexivity]. }
    destruct (String.eqb_spec (PostDoc.author p) u) as [Ea|Ea].
    + exists (with_post s p1). split; [exact E|]. split; [exact Hp1|].
      split; [reflexivity|]. split; [intros a K; contradiction|].
      now apply Hback.
    + destruct Hauth as [K | (a & Ha & Hva)]; [contradiction|].
      rewrite Ha in E.
      rewrite (validate_notified (like_notice user p) a Hva) in E
        by (cbn; auto).
      exists (with_account (with_post s p1) (notified (like_notice user p) a)).
      split; [exact E|]. split; [exact Hp1|].
      split; [intros K; contradiction|]. split.
      * intros a' _ Ha'. rewrite Ha in Ha'. inversion Ha'; subst a'.
        rewrite <- (account_at_id _ _ _ Ha).
        change (UserDoc._id a) with (UserDoc._id (notified (like_notice user p) a)).
        apply account_at_with_account.
        change (account_at s (UserDoc._id a) <> None).
        rewrite (account_at_id _ _ _ Ha), Ha. discriminate.
      * apply Hback; [reflexivity | exact Hp1].
  - intros Hin Ea Ha.
    pose proof (post_like_fresh user id s p Hs Hv Hd Hin) as E. cbn zeta in E.
    fold u in E. apply String.eqb_neq in Ea. now rewrite Ea, Ha in E.
Qed.

Lemma post_like_toggles_witness :
  exists s1 s2,
    post_like SampleP.a_bob SampleP.p1 SampleP.s0
    = (Return (mkPResponse 200
                 (PLiked "Post liked"
                    (Some (liked_by Sample.bob SampleP.hello)) true)), s1)
    /\ List.map UserDoc.notifications (accounts s1)
       = [[like_notice SampleP.a_bob SampleP.hello]; []; []]
    /\ post_like SampleP.a_bob SampleP.p1 s1
       = (Return (mkPResponse 200 (PLiked "Post unliked" (Some SampleP.hello) false)),
          s2)
    /\ posts s2 = posts SampleP.s0.
Proof.
  destruct (post_like_toggles SampleP.a_bob SampleP.p1 SampleP.s0 SampleP.hello
              eq_refl) as (_ & H & _).
  { split; [reflexivity | constructor]. }
  { reflexivity. }
  destruct H as (s1 & E1 & _ & _ & _ & s2 & E2 & Hp & _).
  { intros []. }
  { right. exists SampleP.a_alice. split; reflexivity. }
  exists s1, s2. split; [exact E1|]. split; [|split; [exact E2 | exact Hp]].
  assert (Es1 : s1 = snd (post_like SampleP.a_bob SampleP.p1 SampleP.s0))
    by now rewrite E1.
  rewrite Es1. vm_compute. reflexivity.
Defined.

Lemma truthy_nonempty (x : option string) (lo hi : nat) :
  1 <= lo -> optional (isLength lo hi) x = true -> truthy x = x.
Proof.
  intros Hlo H. destruct x as [[|c v]|]; cbn in *; try reflexivity.
  unfold isLength in H. cbn in H. destruct lo; [lia | discriminate].
Qed.

Lemma Post_findByIdAndUpdate_eq (id : ObjectId) (t d bl : option string)
    (s : PDb) (p : PostDoc.t) :
  post_at s id = Some p ->
  optional (isLength 1 100) t = true ->
  optional (isLength 1 2000) d = true ->
  Post_findByIdAndUpdate id t d (option_map Some bl) s
  = if optional (fun v => PostDoc.link_valid (Some v)) bl
    then (Return (Some (edited_post t d bl p)), with_post s (edited_post t d bl p))
    else (Throw "ValidationError", s).
Proof.
  intros Hs Ht Hd. pose proof (post_at_id _ _ _ Hs) as Hid.
  unfold Post_findByIdAndUpdate.
  assert (Ht' : optional (PostDoc.required_max 100) t = true)
    by (destruct t; cbn in *; [now rewrite required_max_length | reflexivity]).
  assert (Hd' : optional (PostDoc.required_max 2000) d = true)
    by (destruct d; cbn in *; [now rewrite required_max_length | reflexivity]).
  rewrite Ht', Hd'. cbn [andb].
  assert (El : optional PostDoc.link_valid (option_map Some bl)
               = optional (fun v => PostDoc.link_valid (Some v)) bl)
    by (destruct bl; reflexivity).
  rewrite El. destruct (optional _ bl); [|reflexivity].
  unfold sbind, sget, sput, sret. fold (post_at s id). rewrite Hs.
  assert (Ep : match option_map Some bl with
               | Some v =>
                   PostDoc.set_link v
                     match d with
                     | Some v0 =>
                         PostDoc.set_description v0
                           match t with
                           | Some v1 => PostDoc.set_title v1 p
                           | None => p
                           end
                     | None => match t with
                               | Some v1 => PostDoc.set_title v1 p
                               | None => p
                               end
                     end
               | None =>
                   match d with
                   | Some v0 =>
                       PostDoc.set_description v0
                         match t with
                         | Some v1 => PostDoc.set_title v1 p
                         | None => p
                         end
                   | None => match t with
                             | Some v1 => PostDoc.set_title v1 p
                             | None => p
                             end
                   end
               end = edited_post t d bl p)
    by (destruct t, d, bl, p; reflexivity).
  rewrite Ep. unfold with_post.
  change (PostDoc._id (edited_post t d bl p)) with (PostDoc._id p).
  now rewrite Hid.
Qed.

Section PostEdits.

Variable isURL : string -> bool.

Lemma put_post_unfold (user : UserDoc.t) (id : ObjectId)
    (bt bd bl : option string) (s : PDb) (p : PostDoc.t) :
  post_at s id = Some p ->
  PostDoc.isDeleted p = false ->
  optional (isLength 1 100) (option_map Js.trim bt) = true ->
  optional (isLength 1 2000) (option_map Js.trim bd) = true ->
  optional isURL bl = true ->
  let p' := edited_post (option_map Js.trim bt) (option_map Js.trim bd) bl p in
  put_post isURL user id bt bd bl s
  = if negb (String.eqb (PostDoc.author p) (UserDoc._id user))
    then (Return (mkPResponse 403 (PMessage "You can only edit your own posts")), s)
    else if optional (fun v => PostDoc.link_valid (Some v)) bl
    then (Return (mkPResponse 200 (PPost "Post updated successfully" (Some p'))),
          with_post s p')
    else (Return (mkPResponse 500 (PMessage "Server error")), s).
Proof.
  intros Hs Hd Ht Hde Hl p'. unfold put_post, toString. cbn zeta.
  rewrite Ht, Hde, Hl. cbn [andb negb].
  destruct (String.eqb (PostDoc.author p) (UserDoc._id user)) eqn:Ea; cbn [negb].
  - pose proof (Post_findByIdAndUpdate_eq id _ _ bl s p Hs Ht Hde) as E.
    rewrite <- (truthy_nonempty _ 1 100 (le_n 1) Ht) in E at 1.
    rewrite <- (truthy_nonempty (option_map Js.trim bd) 1 2000 (le_n 1) Hde) in E at 1.
    destruct (optional (fun v => PostDoc.link_valid (Some v)) bl).
    + apply stry_return.
      rewrite (sbind_return _ _ _ _ _ (Post_findById_eq id s)), Hs, Hd, Ea.
      cbn [negb]. erewrite sbind_return; [reflexivity | exact E].
    + erewrite stry_throw; [reflexivity|].
      rewrite (sbind_return _ _ _ _ _ (Post_findById_eq id s)), Hs, Hd, Ea.
      cbn [negb]. erewrite sbind_throw; [reflexivity | exact E].
  - apply stry_return.
    rewrite (sbind_return _ _ _ _ _ (Post_findById_eq id s)), Hs, Hd, Ea.
    reflexivity.
Qed.

(** X19. PUT /:id on a live stored post with a body that passes the
    request validation: anyone but the author is answered 403 and nothing
    is written; for the author the given title and description (trimmed)
    and the link replace the stored ones and everything else, the
    hashtags included, stays as it was: the hashtags are not extracted
    again, so a hashtag written in the new description that the old one
    did not have is missing from [hashtags]. A link the schema validator
    rejects is answered 500 and nothing is written. *)
Theorem put_post_keeps_hashtags (user : UserDoc.t) (id : ObjectId)
    (bt bd bl : option string) (s : PDb) (p : PostDoc.t) :
  post_at s id = Some p ->
  PostDoc.isDeleted p = false ->
  optional (isLength 1 100) (option_map Js.trim bt) = true ->
  optional (isLength 1 2000) (option_map Js.trim bd) = true ->
  optional isURL bl = true ->
  (PostDoc.author p <> UserDoc._id user ->
   put_post isURL user id bt bd bl s
   = (Return (mkPResponse 403 (PMessage "You can only edit your own posts")), s))
  /\ (PostDoc.author p = UserDoc._id user ->
      optional (fun v => PostDoc.link_valid (Some v)) bl = true ->
      exists p',
        put_post isURL user id bt bd bl s
        = (Return (mkPResponse 200 (PPost "Post updated successfully" (Some p'))),
           with_post s p')
        /\ post_at (with_post s p') id = Some p'
        /\ PostDoc.title p' = default_to (option_map Js.trim bt) (PostDoc.title p)
        /\ PostDoc.description p'
           = default_to (option_map Js.trim bd) (PostDoc.description p)
        /\ PostDoc.link p' = match bl with Some v => Some v | None => PostDoc.link p end
        /\ PostDoc.hashtags p' = PostDoc.hashtags p
        /\ PostDoc.likes p' = PostDoc.likes p
        /\ PostDoc.comments p' = PostDoc.comments p
        /\ PostDoc.author p' = PostDoc.author p
        /\ (PostDoc.hashtags p = PostDoc.hashtags (PostDoc.pre_save true p) ->
            forall w, tagged (PostDoc.description p') w ->
              (forall w0, tagged (PostDoc.description p) w0 ->
                          Str.toLowerCase w0 <> Str.toLowerCase w) ->
              ~ In (Str.toLowerCase w) (PostDoc.hashtags p')))
  /\ (PostDoc.author p = UserDoc._id user ->
      optional (fun v => PostDoc.link_valid (Some v)) bl = false ->
      put_post isURL user id bt bd bl s
      = (Return (mkPResponse 500 (PMessage "Server error")), s)).
Proof.
  intros Hs Hd Ht Hde Hl. pose proof (post_at_id _ _ _ Hs) as Hid.
  rewrite (put_post_unfold user id bt bd bl s p Hs Hd Ht Hde Hl). cbn zeta.
  split; [|split].
  - intros Ha. apply String.eqb_neq in Ha. now rewrite Ha.
  - intros Ha Hlv. rewrite Ha, String.eqb_refl, Hlv. cbn [negb].
    eexists. split; [reflexivity|]. split.
    + set (p' := edited_post _ _ bl p).
      assert (Hid' : PostDoc._id p' = id) by exact Hid.
      rewrite <- Hid'. apply post_at_with_post.
      rewrite Hid', Hs. discriminate.
    + repeat (split; [reflexivity|]). split; [exact Ha|].
      cbn [edited_post PostDoc.hashtags PostDoc.description].
      intros Hsync w Hw Hold Hin. rewrite Hsync in Hin.
      apply pre_save_hashtags_In in Hin as (w0 & Hw0 & E).
      apply (Hold w0 Hw0). now rewrite E.
  - intros Ha Hlv. rewrite Ha, String.eqb_refl, Hlv. reflexivity.
Qed.

End PostEdits.

Lemma put_post_keeps_hashtags_witness :
  exists p',
    put_post SampleP.accept_all SampleP.a_alice SampleP.p1 None
      (Some " Now about #cats ") None SampleP.s0
    = (Return (mkPResponse 200 (PPost "Post updated successfully" (Some p'))),
       with_post SampleP.s0 p')
    /\ PostDoc.description p' = "Now about #cats"
    /\ PostDoc.hashtags p' = ["post"; "team"]
    /\ ~ In "cats" (PostDoc.hashtags p')
    /\ put_post SampleP.accept_all SampleP.a_alice SampleP.p1 None None
         (Some "example.com") SampleP.s0
       = (Return (mkPResponse 500 (PMessage "Server error")), SampleP.s0).
Proof.
  destruct (put_post_keeps_hashtags SampleP.accept_all SampleP.a_alice SampleP.p1
              None (Some " Now about #cats ") None SampleP.s0 SampleP.hello
              eq_refl eq_refl eq_refl eq_refl eq_refl) as (_ & H & _).
  destruct (H eq_refl eq_refl)
    as (p' & E & _ & _ & Hdesc & _ & Hh & _ & _ & _ & Hstale).
  destruct (put_post_keeps_hashtags SampleP.accept_all SampleP.a_alice SampleP.p1
              None None (Some "example.com") SampleP.s0 SampleP.hello
              eq_refl eq_refl eq_refl eq_refl eq_refl) as (_ & _ & H500).
  exists p'. split; [exact E|]. split; [exact Hdesc|]. split; [exact Hh|].
  split; [|apply H500; reflexivity].
  apply (Hstale eq_refl "cats").
  - rewrite Hdesc. exists "Now about ", "". repeat split. discriminate.
  - intros w0 Hw0 K.
    assert (Hin : In (Str.toLowerCase w0)
                    (PostDoc.hashtags (PostDoc.pre_save true SampleP.hello))).
    { apply pre_save_hashtags_In. exists w0. auto. }
    rewrite K in Hin. vm_compute in Hin.
    repeat destruct Hin as [Hin|Hin]; try discriminate; assumption.
Defined.

Lemma post_save_new (dm : bool) (this : PostDoc.t) (s : PDb) :
  PostDoc.validate this = true ->
  post_at s (PostDoc._id this) = None ->
  post_save true dm this s
  = (Return (PostDoc.pre_save dm this),
     mkPDb (posts s ++ [PostDoc.pre_save dm this]) (accounts s)).
Proof.
  intros Hv Hs.
  destruct (post_save_cases true dm this s)
    as [(_ & _ & _ & E) | [(_ & _ & K & _) | (e & E)]];
    [exact E | discriminate |].
  exfalso. unfold post_save in E. rewrite Hv in E.
  unfold sbind, sget, sput, sret, sthrow in E.
  destruct (pre_save_post_fields dm this) as (Hid & _). rewrite Hid in E.
  destruct (existsb _ (posts s)) eqn:X; [|discriminate].
  apply List.existsb_exists in X as (x & Hx & Ex).
  unfold post_at in Hs. now rewrite (List.find_none _ _ Hs x Hx) in Ex.
Qed.

Lemma validate_newPost (fresh author0 : ObjectId) (t d : string)
    (l g : option ObjectId) :
  PostDoc.validate (newPost fresh author0 t d l g)
  = isLength 1 100 t && isLength 1 2000 d && PostDoc.link_valid l.
Proof.
  unfold PostDoc.validate, newPost.
  cbn [PostDoc.title PostDoc.description PostDoc.link PostDoc.comments forallb].
  now rewrite !required_max_length, andb_true_r.
Qed.

Lemma link_valid_truthy (l : option string) :
  PostDoc.link_valid (truthy l) = optional (fun v => PostDoc.link_valid (Some v)) l.
Proof.
  destruct l as [v|]; cbn; [|reflexivity].
  destruct (String.eqb v "") eqn:E; cbn; [reflexivity | now rewrite E].
Qed.

Section PostCreation.

Variable isURL : string -> bool.

(** X20. POST / with a title and a description that are 1..100 and
    1..2000 characters long after trimming, a link [isURL] accepts and a
    well-formed group id, for an unused document id: when the schema's
    link validator accepts the link, the answer is 201 and the post is
    stored at the end of the collection with the trimmed title and
    description, the requester as author, no likes or comments, and as
    hashtags exactly the lower-cased hashtags written in the trimmed
    description, each once; a non-empty link that [isURL] accepted but
    that does not start with http:// or https:// is answered 500 and
    nothing is stored. *)
Theorem create_post_extracts_hashtags (user : UserDoc.t) (bt bd : string)
    (bl bg : option string) (fresh : ObjectId) (s : PDb) :
  post_at s fresh = None ->
  isLength 1 100 (Js.trim bt) = true ->
  isLength 1 2000 (Js.trim bd) = true ->
  optional isURL bl = true ->
  optional isMongoId bg = true ->
  (optional (fun v => PostDoc.link_valid (Some v)) bl = true ->
   exists p',
     create_post isURL user bt bd bl bg fresh s
     = (Return (mkPResponse 201 (PPost "Post created successfully" (Some p'))),
        mkPDb (posts s ++ [p']) (accounts s))
     /\ PostDoc._id p' = fresh
     /\ PostDoc.author p' = UserDoc._id user
     /\ PostDoc.title p' = Js.trim bt
     /\ PostDoc.description p' = Js.trim bd
     /\ PostDoc.link p' = truthy bl
     /\ PostDoc.group p' = truthy bg
     /\ PostDoc.likes p' = []
     /\ PostDoc.comments p' = []
     /\ PostDoc.isDeleted p' = false
     /\ NoDup (PostDoc.hashtags p')
     /\ (forall t, In t (PostDoc.hashtags p') <->
                   exists w, tagged (Js.trim bd) w /\ t = Str.toLowerCase w))
  /\ (optional (fun v => PostDoc.link_valid (Some v)) bl = false ->
      create_post isURL user bt bd bl bg fresh s
      = (Return (mkPResponse 500 (PMessage "Server error")), s)).
Proof.
  intros Hs Ht Hd Hl Hg.
  set (post := newPost fresh (UserDoc._id user) (Js.trim bt) (Js.trim bd)
                 (truthy bl) (truthy bg)).
  assert (Hval : PostDoc.validate post
                 = optional (fun v => PostDoc.link_valid (Some v)) bl).
  { unfold post. now rewrite validate_newPost, Ht, Hd, link_valid_truthy. }
  split; intros Hlv; rewrite Hlv in Hval.
  - exists (PostDoc.pre_save true post). split.
    + unfold create_post. cbn zeta. rewrite Ht, Hd, Hl, Hg. cbn [andb negb].
      apply stry_return. fold post.
      erewrite sbind_return; [reflexivity|].
      apply post_save_new; [exact Hval | exact Hs].
    + repeat (split; [reflexivity|]).
      destruct (hashtags_extracted_parts post) as [H1 H2]. split; assumption.
  - unfold create_post. cbn zeta. rewrite Ht, Hd, Hl, Hg. cbn [andb negb].
    erewrite stry_throw; [reflexivity|]. fold post.
    erewrite sbind_throw; [reflexivity|].
    unfold post_save. rewrite Hval. reflexivity.
Qed.

End PostCreation.

Lemma create_post_extracts_hashtags_witness :
  exists p',
    create_post SampleP.accept_all SampleP.a_bob " News "
      "Some #news, #News and #more_news" None None SampleP.p2 SampleP.s0
    = (Return (mkPResponse 201 (PPost "Post created successfully" (Some p'))),
       mkPDb (posts SampleP.s0 ++ [p']) (accounts SampleP.s0))
    /\ PostDoc.title p' = "News"
    /\ PostDoc.hashtags p' = ["news"; "more_news"].
Proof.
  destruct (create_post_extracts_hashtags SampleP.accept_all SampleP.a_bob " News "
              "Some #news, #News and #more_news" None None SampleP.p2 SampleP.s0
              eq_refl eq_refl eq_refl eq_refl eq_refl) as (H & _).
  destruct (H eq_refl) as (p' & E & _).
  exists p'. split; [exact E|].
  assert (Ep : Some p' = match fst (create_post SampleP.accept_all SampleP.a_bob
                                      " News " "Some #news, #News and #more_news"
                                      None None SampleP.p2 SampleP.s0) with
                         | Return (mkPResponse _ (PPost _ r)) => r
                         | _ => None
                         end)
    by now rewrite E.
  vm_compute in Ep. inversion Ep. split; reflexivity.
Defined.

Lemma deleted_post_gone (isURL : string -> bool) (user : UserDoc.t) (id : ObjectId)
    (s : PDb) (p : PostDoc.t) :
  post_at s id = Some p ->
  PostDoc.isDeleted p = true ->
  post_like user id s = (Return not_found, s)
  /\ delete_post user id s = (Return not_found, s)
  /\ (forall content, exists r,
        post_comment user id content s = (Return r, s)
        /\ (pstatus r = 404 \/ pstatus r = 400))
  /\ (forall bt bd bl, exists r,
        put_post isURL user id bt bd bl s = (Return r, s)
        /\ (pstatus r = 404 \/ pstatus r = 400)).
Proof.
  intros Hs Hd. split; [|split; [|split]].
  - unfold post_like. apply stry_return.
    now rewrite (sbind_return _ _ _ _ _ (Post_findById_eq id s)), Hs, Hd.
  - unfold delete_post. apply stry_return.
    now rewrite (sbind_return _ _ _ _ _ (Post_findById_eq id s)), Hs, Hd.
  - intros content. unfold post_comment. cbn zeta.
    destruct (negb (isLength 1 500 (Js.trim content))).
    + eexists. split; [apply stry_return; reflexivity | right; reflexivity].
    + exists not_found. split; [|left; reflexivity]. apply stry_return.
      now rewrite (sbind_return _ _ _ _ _ (Post_findById_eq id s)), Hs, Hd.
  - intros bt bd bl. unfold put_post. cbn zeta.
    destruct (negb _).
    + eexists. split; [apply stry_return; reflexivity | right; reflexivity].
    + exists not_found. split; [|left; reflexivity]. apply stry_return.
      now rewrite (sbind_return _ _ _ _ _ (Post_findById_eq id s)), Hs, Hd.
Qed.

Lemma delete_post_unfold (user : UserDoc.t) (id : ObjectId) (s : PDb)
    (p : PostDoc.t) :
  post_at s id = Some p ->
  PostDoc.validate p = true ->
  PostDoc.isDeleted p = false ->
  delete_post user id s
  = if String.eqb (PostDoc.author p) (UserDoc._id user)
       || String.eqb (UserDoc.role user) "admin"
    then (Return (mkPResponse 200 (PMessage "Post deleted successfully")),
          with_post s (PostDoc.set_isDeleted true p))
    else (Return (mkPResponse 403 (PMessage "You can only delete your own posts")), s).
Proof.
  intros Hs Hv Hd. pose proof (post_at_id _ _ _ Hs) as Hid.
  unfold delete_post, toString.
  destruct (String.eqb (PostDoc.author p) (UserDoc._id user)
            || String.eqb (UserDoc.role user) "admin") eqn:Ec;
    apply stry_return;
    rewrite (sbind_return _ _ _ _ _ (Post_findById_eq id s)), Hs, Hd; cbn zeta;
    rewrite Ec; cbn [negb]; [|reflexivity].
  erewrite sbind_return; [reflexivity|].
  apply post_save_existing; [exact Hv|].
  cbn [PostDoc.set_isDeleted PostDoc._id]. rewrite Hid, Hs. discriminate.
Qed.

(** X21. DELETE /:id on a live, valid stored post succeeds exactly when
    the requester is the author or has the role admin. It then marks the
    stored post deleted and changes nothing else, and from then on every
    like, comment, edit and delete request for that post is answered 404
    (400 when its own body is invalid) without writing anything. Any
    other requester is answered 403 and nothing is written. *)
Theorem delete_post_authorization (isURL : string -> bool) (user : UserDoc.t)
    (id : ObjectId) (s : PDb) (p : PostDoc.t) :
  post_at s id = Some p ->
  PostDoc.validate p = true ->
  PostDoc.isDeleted p = false ->
  (PostDoc.author p = UserDoc._id user \/ UserDoc.role user = "admin" ->
   exists s',
     delete_post user id s
     = (Return (mkPResponse 200 (PMessage "Post deleted successfully")), s')
     /\ post_at s' id = Some (PostDoc.set_isDeleted true p)
     /\ accounts s' = accounts s
     /\ List.length (posts s') = List.length (posts s)
     /\ forall other : UserDoc.t,
          post_like other id s' = (Return not_found, s')
          /\ delete_post other id s' = (Return not_found, s')
          /\ (forall content, exists r,
                post_comment other id content s' = (Return r, s')
                /\ (pstatus r = 404 \/ pstatus r = 400))
          /\ (forall bt bd bl, exists r,
                put_post isURL other id bt bd bl s' = (Return r, s')
                /\ (pstatus r = 404 \/ pstatus r = 400)))
  /\ (PostDoc.author p <> UserDoc._id user -> UserDoc.role user <> "admin" ->
      delete_post user id s
      = (Return (mkPResponse 403 (PMessage "You can only delete your own posts")),
         s)).
Proof.
  intros Hs Hv Hd. pose proof (post_at_id _ _ _ Hs) as Hid.
  rewrite (delete_post_unfold user id s p Hs Hv Hd). split.
  - intros Hcan.
    assert (E : String.eqb (PostDoc.author p) (UserDoc._id user)
                || String.eqb (UserDoc.role user) "admin" = true).
    { apply orb_true_iff.
      destruct Hcan as [H|H]; [left | right]; now apply String.eqb_eq. }
    rewrite E. set (p' := PostDoc.set_isDeleted true p).
    assert (Hs' : post_at (with_post s p') id = Some p').
    { rewrite <- Hid. change (PostDoc._id p) with (PostDoc._id p').
      apply post_at_with_post. change (PostDoc._id p') with (PostDoc._id p).
      rewrite Hid, Hs. discriminate. }
    exists (with_post s p'). split; [reflexivity|]. split; [exact Hs'|].
    split; [reflexivity|]. split.
    + unfold with_post. cbn [posts]. apply update_first_length.
    + intros other. apply (deleted_post_gone isURL other id _ p' Hs'). reflexivity.
  - intros Ha Hr. apply String.eqb_neq in Ha, Hr. now rewrite Ha, Hr.
Qed.

Lemma delete_post_authorization_witness :
  (exists s',
     delete_post SampleP.a_carol SampleP.p1 SampleP.s0
     = (Return (mkPResponse 200 (PMessage "Post deleted successfully")), s')
     /\ post_like SampleP.a_alice SampleP.p1 s' = (Return not_found, s'))
  /\ delete_post SampleP.a_bob SampleP.p1 SampleP.s0
     = (Return (mkPResponse 403 (PMessage "You can only delete your own posts")),
        SampleP.s0).
Proof.
  destruct (delete_post_authorization SampleP.accept_all SampleP.a_carol SampleP.p1
              SampleP.s0 SampleP.hello eq_refl eq_refl eq_refl) as (H & _).
  destruct H as (s' & E & _ & _ & _ & Hgone); [right; reflexivity|].
  destruct (delete_post_authorization SampleP.accept_all SampleP.a_bob SampleP.p1
              SampleP.s0 SampleP.hello eq_refl eq_refl eq_refl) as (_ & H403).
  split.
  - exists s'. split; [exact E|]. apply (Hgone SampleP.a_alice).
  - apply H403; vm_compute; discriminate.
Defined.

Lemma addComment_eq (u : ObjectId) (content : string) (p : PostDoc.t) (s : PDb) :
  PostDoc.validate p = true ->
  isLength 1 500 content = true ->
  post_at s (PostDoc._id p) <> None ->
  addComment u content p s
  = (Return (commented u content p, Some (Comment.mk u content)),
     with_post s (commented u content p)).
Proof.
  intros Hv Hc Hs. unfold addComment, Js.push. fold (commented u content p).
  erewrite sbind_return.
  2:{ apply post_save_existing; [|exact Hs].
      unfold PostDoc.validate, commented in *.
      cbn [PostDoc.set_comments PostDoc.title PostDoc.description PostDoc.link
           PostDoc.comments] in *.
      apply andb_true_iff in Hv as [Hv1 Hv2]. rewrite Hv1. cbn [andb].
      rewrite List.forallb_app, Hv2. cbn.
      now rewrite required_max_length, Hc. }
  unfold sret. f_equal. f_equal. f_equal.
  unfold commented. cbn [PostDoc.set_comments PostDoc.comments].
  rewrite List.map_app. cbn. apply List.last_last.
Qed.

(** X22. POST /:id/comment on a live, valid stored post: a content of
    1..500 characters after trimming is appended, trimmed, as the last
    comment with the requester as author (201, the comment in the
    answer), while likes, hashtags and the earlier comments stay; when
    the author is somebody else and has a valid user document, that
    document gets the comment notification put in front of the others
    and the list is cut to the 50 newest; a content that is empty after
    trimming is answered 400 and nothing is written. *)
Theorem post_comment_appends (user : UserDoc.t) (id : ObjectId) (content : string)
    (s : PDb) (p : PostDoc.t) :
  post_at s id = Some p ->
  PostDoc.validate p = true ->
  PostDoc.isDeleted p = false ->
  (isLength 1 500 (Js.trim content) = true ->
   (PostDoc.author p = UserDoc._id user
    \/ exists a, account_at s (PostDoc.author p) = Some a
                 /\ UserDoc.validate a = true) ->
   exists s',
     post_comment user id content s
     = (Return (mkPResponse 201
                  (PComment "Comment added successfully"
                     (Some (Comment.mk (UserDoc._id user) (Js.trim content))))),
        s')
     /\ post_at s' id = Some (commented (UserDoc._id user) (Js.trim content) p)
     /\ (PostDoc.author p = UserDoc._id user -> accounts s' = accounts s)
     /\ (forall a, PostDoc.author p <> UserDoc._id user ->
           account_at s (PostDoc.author p) = Some a ->
           exists a', account_at s' (PostDoc.author p) = Some a'
             /\ UserDoc.notifications a'
                = comment_notice user p :: List.firstn 49 (UserDoc.notifications a)
             /\ List.length (UserDoc.notifications a') <= 50))
  /\ (Js.trim content = "" ->
      post_comment user id content s
      = (Return (mkPResponse 400 (PMessage "Validation failed")), s)).
Proof.
  intros Hs Hv Hd. pose proof (post_at_id _ _ _ Hs) as Hid.
  assert (Hst : post_at s (PostDoc._id p) <> None) by (rewrite Hid, Hs; discriminate).
  split.
  - intros Hc Hauth. set (u := UserDoc._id user) in *.
    set (c := Js.trim content) in *. set (p1 := commented u c p).
    assert (Hp1 : post_at (with_post s p1) id = Some p1).
    { rewrite <- Hid. change (PostDoc._id p) with (PostDoc._id p1).
      now apply post_at_with_post. }
    assert (Hadd : addComment u c p s
                   = (Return (p1, Some (Comment.mk u c)), with_post s p1))
      by now apply addComment_eq.
    assert (Hlast : List.last (List.map Some (PostDoc.comments p1)) None
                    = Some (Comment.mk u c)).
    { unfold p1, commented. cbn [PostDoc.set_comments PostDoc.comments].
      rewrite List.map_app. cbn. apply List.last_last. }
    destruct (String.eqb_spec (PostDoc.author p) u) as [Ea|Ea].
    + exists (with_post s p1). split; [|split; [exact Hp1|split; [reflexivity|]]].
      * unfold post_comment. cbn zeta. fold c. rewrite Hc. cbn [negb].
        apply stry_return.
        rewrite (sbind_return _ _ _ _ _ (Post_findById_eq id s)), Hs, Hd.
        fold u. rewrite (sbind_return _ _ _ _ _ Hadd).
        unfold toString. change (PostDoc.author p1) with (PostDoc.author p).
        rewrite Ea, String.eqb_refl. cbn [negb].
        unfold sbind, sret. now rewrite Hlast.
      * intros a K. contradiction.
    + destruct Hauth as [K | (a & Ha & Hva)]; [contradiction|].
      set (n := comment_notice user p).
      assert (Hnot : notify_author (PostDoc.author p) n (with_post s p1)
                     = (Return tt, with_account (with_post s p1) (notified n a))).
      { apply notify_author_present; [exact Ha | exact Hva | cbn; auto]. }
      exists (with_account (with_post s p1) (notified n a)).
      split; [|split; [exact Hp1 | split; [intros K; contradiction|]]].
      * unfold post_comment. cbn zeta. fold c. rewrite Hc. cbn [negb].
        apply stry_return.
        rewrite (sbind_return _ _ _ _ _ (Post_findById_eq id s)), Hs, Hd.
        fold u. rewrite (sbind_return _ _ _ _ _ Hadd).
        unfold toString. change (PostDoc.author p1) with (PostDoc.author p).
        apply String.eqb_neq in Ea. rewrite Ea. cbn [negb].
        change (PostDoc._id p1) with (PostDoc._id p). fold (comment_notice user p).
        fold n. rewrite (sbind_return _ _ _ _ _ Hnot).
        unfold sret. now rewrite Hlast.
      * intros a0 _ Ha0. rewrite Ha in Ha0. inversion Ha0; subst a0.
        exists (notified n a). split; [|split].
        -- rewrite <- (account_at_id _ _ _ Ha).
           change (UserDoc._id a) with (UserDoc._id (notified n a)).
           apply account_at_with_account.
           change (account_at s (UserDoc._id a) <> None).
           rewrite (account_at_id _ _ _ Ha), Ha. discriminate.
        -- reflexivity.
        -- unfold notified, UserDoc.set_notifications.
           cbn [UserDoc.notifications]. apply firstn_50_length.
  - intros Hc. unfold post_comment. cbn zeta. rewrite Hc. reflexivity.
Qed.

Lemma post_comment_appends_witness :
  (exists s',
     post_comment SampleP.a_carol SampleP.p1 " nice " SampleP.s0
     = (Return (mkPResponse 201
                  (PComment "Comment added successfully"
                     (Some (Comment.mk Sample.carol "nice")))), s')
     /\ post_at s' SampleP.p1 = Some (commented Sample.carol "nice" SampleP.hello))
  /\ post_comment SampleP.a_carol SampleP.p1 "   " SampleP.s0
     = (Return (mkPResponse 400 (PMessage "Validation failed")), SampleP.s0).
Proof.
  destruct (post_comment_appends SampleP.a_carol SampleP.p1 " nice " SampleP.s0
              SampleP.hello eq_refl eq_refl eq_refl) as (H & _).
  destruct H as (s' & E & Hp & _); [reflexivity | |].
  { right. exists SampleP.a_alice. split; reflexivity. }
  destruct (post_comment_appends SampleP.a_carol SampleP.p1 "   " SampleP.s0
              SampleP.hello eq_refl eq_refl eq_refl) as (_ & H400).
  split; [exists s'; split; [exact E | exact Hp] | apply H400; reflexivity].
Defined.

(* ------------------------------------------------------------------ *)
(** ** The socket hub *)

Lemma JsMap_has_set {V : Type} (k : string) (v : V) (m : list (string * V)) :
  JsMap.has k (JsMap.set k v m) = true.
Proof.
  unfold JsMap.has. induction m as [|[k' v'] m IH]; cbn.
  - now rewrite String.eqb_refl.
  - destruct (String.eqb k' k) eqn:E; cbn.
    + now rewrite String.eqb_refl.
    + now rewrite E, IH.
Qed.

Lemma JsMap_get_set {V : Type} (k : string) (v : V) (m : list (string * V)) :
  JsMap.get k (JsMap.set k v m) = Some v.
Proof.
  unfold JsMap.get. induction m as [|[k' v'] m IH]; cbn.
  - now rewrite String.eqb_refl.
  - destruct (String.eqb k' k) eqn:E; cbn.
    + now rewrite String.eqb_refl.
    + now rewrite E.
Qed.

Lemma JsMap_set_other {V : Type} (k k0 : string) (v : V) (m : list (string * V)) :
  k0 <> k ->
  JsMap.has k0 (JsMap.set k v m) = JsMap.has k0 m
  /\ JsMap.get k0 (JsMap.set k v m) = JsMap.get k0 m.
Proof.
  intros Hk. apply not_eq_sym in Hk. apply String.eqb_neq in Hk.
  unfold JsMap.has, JsMap.get. induction m as [|[k' v'] m IH]; cbn.
  - rewrite Hk. split; reflexivity.
  - destruct (String.eqb k' k) eqn:E; cbn.
    + apply String.eqb_eq in E. subst k'. rewrite Hk. split; reflexivity.
    + destruct IH as [I1 I2]. destruct (String.eqb k' k0); cbn; auto.
Qed.

Lemma JsMap_delete_same {V : Type} (k : string) (m : list (string * V)) :
  JsMap.has k (JsMap.delete k m) = false /\ JsMap.get k (JsMap.delete k m) = None.
Proof.
  unfold JsMap.has, JsMap.get, JsMap.delete.
  induction m as [|[k' v'] m IH]; cbn; [split; reflexivity|].
  destruct (String.eqb k' k) eqn:E; cbn; [exact IH|].
  rewrite E. exact IH.
Qed.

Lemma JsMap_delete_other {V : Type} (k k0 : string) (m : list (string * V)) :
  k0 <> k ->
  JsMap.has k0 (JsMap.delete k m) = JsMap.has k0 m
  /\ JsMap.get k0 (JsMap.delete k m) = JsMap.get k0 m.
Proof.
  intros Hk. unfold JsMap.has, JsMap.get, JsMap.delete.
  induction m as [|[k' v'] m IH]; cbn; [split; reflexivity|].
  destruct IH as [I1 I2].
  destruct (String.eqb k' k) eqn:E; cbn.
  - apply String.eqb_eq in E. subst k'.
    apply not_eq_sym in Hk. apply String.eqb_neq in Hk. rewrite Hk. auto.
  - destruct (String.eqb k' k0); cbn; auto.
Qed.

Lemma JsMap_set_keys_In {V : Type} (k : string) (v : V) (m : list (string * V))
    (x : string) :
  In x (List.map fst (JsMap.set k v m)) -> x = k \/ In x (List.map fst m).
Proof.
  induction m as [|[k' v'] m IH]; cbn.
  - intros [<-|[]]. now left.
  - destruct (String.eqb k' k) eqn:E; cbn.
    + intros [<-|H]; [now left | right; now right].
    + intros [<-|H]; [right; now left|].
      destruct (IH H) as [->|K]; [now left | right; now right].
Qed.

Lemma JsMap_set_NoDup {V : Type} (k : string) (v : V) (m : list (string * V)) :
  NoDup (List.map fst m) -> NoDup (List.map fst (JsMap.set k v m)).
Proof.
  induction m as [|[k' v'] m IH]; cbn; intros H.
  - repeat constructor. intros [].
  - inversion H as [|? ? Hk Hm]; subst.
    destruct (String.eqb k' k) eqn:E; cbn.
    + apply String.eqb_eq in E. subst k'. now constructor.
    + constructor; [|now apply IH].
      intros K. apply JsMap_set_keys_In in K as [->|K]; [|contradiction].
      now rewrite String.eqb_refl in E.
Qed.

Lemma JsMap_set_Forall {V : Type} (P : string * V -> Prop) (k : string) (v : V)
    (m : list (string * V)) :
  P (k, v) -> Forall P m -> Forall P (JsMap.set k v m).
Proof.
  intros Hk. induction m as [|[k' v'] m IH]; cbn; intros H.
  - now constructor.
  - inversion H; subst. destruct (String.eqb k' k); constructor; auto.
Qed.

Lemma NoDup_map_filter {A B : Type} (f : A -> B) (p : A -> bool) (l : list A) :
  NoDup (List.map f l) -> NoDup (List.map f (List.filter p l)).
Proof.
  induction l as [|x l IH]; cbn; intros H; [constructor|].
  inversion H as [|? ? Hx Hl]; subst.
  destruct (p x); cbn; [|now apply IH].
  constructor; [|now apply IH].
  intros K. apply Hx. apply List.in_map_iff in K as (y & Ey & Hy).
  apply List.filter_In in Hy as [Hy _]. rewrite <- Ey. now apply List.in_map.
Qed.

Lemma Forall_filter_keep {A : Type} (P : A -> Prop) (p : A -> bool) (l : list A) :
  Forall P l -> Forall P (List.filter p l).
Proof.
  induction l as [|x l IH]; cbn; intros H; [constructor|].
  inversion H; subst. destruct (p x); [constructor|]; auto.
Qed.

Lemma socket_join_rooms (r x : string) (k : Sock) :
  In x (rooms (socket_join r k)) <-> In x (rooms k) \/ x = r.
Proof.
  unfold socket_join. cbn [rooms].
  destruct (existsb (String.eqb r) (rooms k)) eqn:E.
  - split; [tauto|]. intros [H| ->]; [exact H|].
    apply List.existsb_exists in E as (y & Hy & Ey).
    apply String.eqb_eq in Ey. now subst.
  - rewrite List.in_app_iff. cbn. split; [|intros [H|H]; auto].
    intros [H|[H|[]]]; auto.
Qed.

Lemma join_all_groups (gs : list ObjectId) : forall k : Sock,
  let k' := List.fold_left
              (fun s groupId => socket_join (group_room (Some groupId)) s) gs k in
  sock_id k' = sock_id k /\ sock_userId k' = sock_userId k
  /\ sock_user k' = sock_user k
  /\ forall x, In x (rooms k') <->
               In x (rooms k) \/ exists g, In g gs /\ x = group_room (Some g).
Proof.
  induction gs as [|g gs IH]; intros k; cbn [List.fold_left]; cbn zeta.
  - repeat split; auto. intros [H|(g & [] & _)]. exact H.
  - destruct (IH (socket_join (group_room (Some g)) k)) as (H1 & H2 & H3 & H4).
    cbn zeta in *.
    split; [exact H1|]. split; [exact H2|]. split; [exact H3|].
    intros x. split; intros H.
    + apply H4 in H. destruct H as [H|(g' & Hg & E)].
      * apply socket_join_rooms in H as [H|H]; [now left | right].
        exists g. split; [now left | exact H].
      * right. exists g'. split; [now right | exact E].
    + apply H4. destruct H as [H|(g' & [<-|Hg] & E)].
      * left. apply socket_join_rooms. now left.
      * left. apply socket_join_rooms. now right.
      * right. exists g'. auto.
Qed.

Lemma profile_at_id (h : Hub) (id : ObjectId) (u : Profile.t) :
  profile_at h id = Some u -> Profile._id u = id.
Proof.
  intros H. apply List.find_some in H as [_ H]. now apply String.eqb_eq in H.
Qed.

Lemma profile_at_update (h : Hub) (id : ObjectId) (f : Profile.t -> Profile.t)
    (u : Profile.t) :
  profile_at h id = Some u ->
  Profile._id (f u) = Profile._id u ->
  profile_at (Profile_update id f h) id = Some (f u).
Proof.
  intros Hs Hid. unfold profile_at, Profile_update in *. cbn [profiles].
  apply (find_update_first _ f _ u Hs).
  rewrite Hid. apply List.find_some in Hs. apply Hs.
Qed.

Section SocketPresence.

Variable verify : string -> option (option ObjectId).

Lemma authenticate_success (token : option string) (now : Date) (k : Sock)
    (h : Hub) (t : string) (id : ObjectId) (user : Profile.t) :
  registered h ->
  truthy token = Some t -> verify t = Some (Some id) ->
  profile_at h id = Some user ->
  let r := authenticate verify token now k h in
  sock_id (sock_of r) = sock_id k
  /\ sock_userId (sock_of r) = Some id
  /\ sock_user (sock_of r) = Some user
  /\ (forall x, In x (rooms (sock_of r)) <->
                In x (rooms k) \/ x = user_room (Some id)
                \/ exists g, In g (Profile.joinedGroups user)
                             /\ x = group_room (Some g))
  /\ isUserOnline id (hub_of r) = true
  /\ getUserSocketId id (hub_of r) = Some (sock_id k)
  /\ (forall v, v <> id ->
        isUserOnline v (hub_of r) = isUserOnline v h
        /\ getUserSocketId v (hub_of r) = getUserSocketId v h)
  /\ profile_at (hub_of r) id = Some (Profile.set_presence true now user)
  /\ registered (hub_of r)
  /\ hub_groups (hub_of r) = hub_groups h
  /\ signals_of r
     = [mkSignal ToSelf "authenticated"
          [("message", VStr "Authentication successful"); ("user", VStr id)];
        mkSignal ToOthers "user_online"
          [("userId", VStr id); ("name", VStr (Profile.name user))]].
Proof.
  intros [Hn Hf] Ht Hv Hu. cbn zeta.
  pose proof (profile_at_id _ _ _ Hu) as Hid.
  unfold authenticate. rewrite Ht, Hv. fold (profile_at h id). rewrite Hu.
  cbn zeta. unfold toString. rewrite Hid.
  unfold sock_of, hub_of, signals_of. cbn [fst snd].
  set (k2 := socket_join (user_room (Some id))
               (mkSock (sock_id k) (Some id) (Some user) (rooms k))).
  destruct (join_all_groups (Profile.joinedGroups user) k2) as (J1 & J2 & J3 & J4).
  cbn zeta in J1, J2, J3, J4.
  split; [exact J1|]. split; [exact J2|]. split; [exact J3|]. split.
  { intros x. split; intros H.
    - apply J4 in H. destruct H as [H|H]; [|right; right; exact H].
      unfold k2 in H. apply socket_join_rooms in H. cbn [rooms] in H. tauto.
    - apply J4. destruct H as [H|[H|H]]; [left | left | right; exact H];
        unfold k2; apply socket_join_rooms; cbn [rooms]; tauto. }
  unfold isUserOnline, getUserSocketId, toString, Profile_update.
  cbn [connectedUsers profiles hub_groups].
  split; [apply JsMap_has_set|]. split; [now rewrite JsMap_get_set|]. split.
  { intros v Hvne.
    destruct (JsMap_set_other id v (mkConnection (sock_id k) user now)
                (connectedUsers h) Hvne) as [E1 E2].
    now rewrite E1, E2. }
  split.
  { apply (profile_at_update
             (mkHub (JsMap.set id (mkConnection (sock_id k) user now)
                       (connectedUsers h)) (profiles h) (hub_groups h))
             id (Profile.set_presence true now) user); [exact Hu | reflexivity]. }
  split; [|split; reflexivity].
  split; [now apply JsMap_set_NoDup|].
  apply JsMap_set_Forall; [now cbn | exact Hf].
Qed.

(** X23. [authenticate] with a token that verifies to the id of a stored
    user: the socket becomes that user's, it enters the user's own room
    and the room of every group in the user's [joinedGroups] and no other
    room; the registry holds the user under this socket ([isUserOnline],
    [getUserSocketId]), nobody else's presence changes, the registry
    keeps one entry per user, and the stored user is marked online. The
    socket gets [authenticated] and everybody else [user_online]. With a
    missing or empty token, a token that does not verify, or a user that
    does not exist, the only effect is one [auth_error] to the socket. *)
Theorem authenticate_registers (token : option string) (now : Date) (k : Sock)
    (h : Hub) :
  registered h ->
  (forall t id user,
     truthy token = Some t -> verify t = Some (Some id) ->
     profile_at h id = Some user ->
     let r := authenticate verify token now k h in
     sock_id (sock_of r) = sock_id k
     /\ sock_userId (sock_of r) = Some id
     /\ sock_user (sock_of r) = Some user
     /\ (forall x, In x (rooms (sock_of r)) <->
                   In x (rooms k) \/ x = user_room (Some id)
                   \/ exists g, In g (Profile.joinedGroups user)
                                /\ x = group_room (Some g))
     /\ isUserOnline id (hub_of r) = true
     /\ getUserSocketId id (hub_of r) = Some (sock_id k)
     /\ (forall v, v <> id ->
           isUserOnline v (hub_of r) = isUserOnline v h
           /\ getUserSocketId v (hub_of r) = getUserSocketId v h)
     /\ profile_at (hub_of r) id = Some (Profile.set_presence true now user)
     /\ registered (hub_of r)
     /\ hub_groups (hub_of r) = hub_groups h
     /\ signals_of r
        = [mkSignal ToSelf "authenticated"
             [("message", VStr "Authentication successful"); ("user", VStr id)];
           mkSignal ToOthers "user_online"
             [("userId", VStr id); ("name", VStr (Profile.name user))]])
  /\ (truthy token = None ->
      authenticate verify token now k h
      = (k, h, [message_to_self "auth_error" "Token required"]))
  /\ (forall t, truthy token = Some t -> verify t = None ->
      authenticate verify token now k h
      = (k, h, [message_to_self "auth_error" "Authentication failed"]))
  /\ (forall t, truthy token = Some t ->
      (verify t = Some None
       \/ exists id, verify t = Some (Some id) /\ profile_at h id = None) ->
      authenticate verify token now k h
      = (k, h, [message_to_self "auth_error" "User not found"])).
Proof.
  intros Hreg. split; [|split; [|split]].
  - intros t id user Ht Hv Hu. now apply (authenticate_success token now k h t).
  - intros Ht. unfold authenticate. now rewrite Ht.
  - intros t Ht Hv. unfold authenticate. now rewrite Ht, Hv.
  - intros t Ht [Hv | (id & Hv & Hu)]; unfold authenticate; rewrite Ht, Hv.
    + reflexivity.
    + fold (profile_at h id). now rewrite Hu.
Qed.

Lemma disconnect_eq (now : Date) (k : Sock) (h : Hub) (u : string) :
  sock_userId k = Some u ->
  disconnect now k h
  = (k,
     Profile_update u (Profile.set_presence false now)
       (mkHub (JsMap.delete u (connectedUsers h)) (profiles h) (hub_groups h)),
     [mkSignal ToOthers "user_offline" [("userId", VStr u); ("lastSeen", VDate now)]]).
Proof. intros H. unfold disconnect. now rewrite H. Qed.

(** X24. Presence is kept per user, not per socket: when two sockets
    authenticate as the same user one after the other, the registry
    holds the second socket for that user; when the first socket then
    disconnects, the user is taken out of the registry and the stored
    user is marked offline, and everybody else is told [user_offline],
    although the second socket is still authenticated as that user and
    its signals still go out. Other users' presence is not touched. *)
Theorem disconnect_clears_user_presence (t : string) (id : ObjectId)
    (user : Profile.t) (n1 n2 n3 : Date) (k1 k2 : Sock) (h : Hub) :
  registered h ->
  truthy (Some t) = Some t ->
  verify t = Some (Some id) ->
  profile_at h id = Some user ->
  let r1 := authenticate verify (Some t) n1 k1 h in
  let r2 := authenticate verify (Some t) n2 k2 (hub_of r1) in
  let r3 := disconnect n3 (sock_of r1) (hub_of r2) in
  getUserSocketId id (hub_of r1) = Some (sock_id k1)
  /\ getUserSocketId id (hub_of r2) = Some (sock_id k2)
  /\ sock_userId (sock_of r2) = Some id
  /\ isUserOnline id (hub_of r3) = false
  /\ getUserSocketId id (hub_of r3) = None
  /\ profile_at (hub_of r3) id = Some (Profile.set_presence false n3 user)
  /\ signals_of r3
     = [mkSignal ToOthers "user_offline" [("userId", VStr id); ("lastSeen", VDate n3)]]
  /\ (forall v, v <> id ->
        isUserOnline v (hub_of r3) = isUserOnline v h
        /\ getUserSocketId v (hub_of r3) = getUserSocketId v h)
  /\ (forall g, truthy (Some g) = Some g ->
        signals_of (typing_stop None (Some g) None (sock_of r2) (hub_of r3))
        = [mkSignal (ToRoom (group_room (Some g))) "user_stop_typing"
             [("userId", VStr id); ("groupId", VStr g)]]).
Proof.
  intros Hreg Ht Hv Hu r1 r2 r3.
  destruct (authenticate_success (Some t) n1 k1 h t id user Hreg Ht Hv Hu)
    as (_ & A2 & _ & _ & _ & A6 & A7 & A8 & A9 & _).
  fold r1 in A2, A6, A7, A8, A9.
  destruct (authenticate_success (Some t) n2 k2 (hub_of r1) t id _ A9 Ht Hv A8)
    as (_ & B2 & _ & _ & _ & B6 & B7 & B8 & _).
  fold r2 in B2, B6, B7, B8.
  split; [exact A6|]. split; [exact B6|]. split; [exact B2|].
  set (h3 := Profile_update id (Profile.set_presence false n3)
               (mkHub (JsMap.delete id (connectedUsers (hub_of r2)))
                  (profiles (hub_of r2)) (hub_groups (hub_of r2)))).
  assert (E3 : hub_of r3 = h3)
    by (unfold r3; now rewrite (disconnect_eq n3 (sock_of r1) (hub_of r2) id A2)).
  assert (S3 : signals_of r3
               = [mkSignal ToOthers "user_offline"
                    [("userId", VStr id); ("lastSeen", VDate n3)]])
    by (unfold r3; now rewrite (disconnect_eq n3 (sock_of r1) (hub_of r2) id A2)).
  rewrite E3, S3.
  destruct (JsMap_delete_same id (connectedUsers (hub_of r2))) as [D1 D2].
  split; [exact D1|].
  split; [unfold getUserSocketId, toString, h3; cbn [Profile_update connectedUsers];
          now rewrite D2|].
  split.
  { apply (profile_at_update
             (mkHub (JsMap.delete id (connectedUsers (hub_of r2)))
                (profiles (hub_of r2)) (hub_groups (hub_of r2)))
             id (Profile.set_presence false n3)
             (Profile.set_presence true n2 (Profile.set_presence true n1 user)));
      [exact B8 | reflexivity]. }
  split; [reflexivity|]. split.
  { intros v Hvne.
    destruct (JsMap_delete_other id v (connectedUsers (hub_of r2)) Hvne) as [E1 E2].
    destruct (A7 v Hvne) as [A7a A7b]. destruct (B7 v Hvne) as [B7a B7b].
    unfold isUserOnline, getUserSocketId, toString in *.
    unfold h3. cbn [Profile_update connectedUsers].
    rewrite E1, E2. split; congruence. }
  intros g Hg. unfold typing_stop. rewrite B2, Hg. reflexivity.
Qed.

End SocketPresence.

Lemma sample_registered : registered SampleH.h0.
Proof. split; constructor. Qed.

Lemma authenticate_registers_witness :
  let r := authenticate SampleH.verify (Some Sample.alice) 5 SampleH.k1 SampleH.h0 in
  rooms (sock_of r)
  = [user_room (Some Sample.alice); group_room (Some Sample.general)]
  /\ getUserSocketId Sample.alice (hub_of r) = Some "socket-1"
  /\ authenticate SampleH.verify (Some "bad") 5 SampleH.k1 SampleH.h0
     = (SampleH.k1, SampleH.h0,
        [message_to_self "auth_error" "Authentication failed"]).
Proof.
  destruct (authenticate_registers SampleH.verify (Some Sample.alice) 5 SampleH.k1
              SampleH.h0 sample_registered) as (H & _).
  destruct (H Sample.alice Sample.alice SampleH.dave eq_refl eq_refl eq_refl)
    as (_ & _ & _ & _ & _ & Hsock & _).
  destruct (authenticate_registers SampleH.verify (Some "bad") 5 SampleH.k1
              SampleH.h0 sample_registered) as (_ & _ & Hbad & _).
  cbn zeta. split; [reflexivity|]. split; [exact Hsock|].
  apply (Hbad "bad"); reflexivity.
Defined.

Lemma disconnect_clears_user_presence_witness :
  let r1 := authenticate SampleH.verify (Some Sample.alice) 5 SampleH.k1 SampleH.h0 in
  let r2 := authenticate SampleH.verify (Some Sample.alice) 6 SampleH.k2 (hub_of r1) in
  let r3 := disconnect 7 (sock_of r1) (hub_of r2) in
  getUserSocketId Sample.alice (hub_of r2) = Some "socket-2"
  /\ sock_userId (sock_of r2) = Some Sample.alice
  /\ isUserOnline Sample.alice (hub_of r3) = false.
Proof.
  destruct (disconnect_clears_user_presence SampleH.verify Sample.alice Sample.alice
              SampleH.dave 5 6 7 SampleH.k1 SampleH.k2 SampleH.h0
              sample_registered eq_refl eq_refl eq_refl)
    as (_ & H2 & H3 & H4 & _).
  cbn zeta. split; [exact H2|]. split; [exact H3 | exact H4].
Defined.

Lemma socket_leave_nil (r : string) (k : Sock) :
  rooms k = [] -> socket_leave r k = k.
Proof. destruct k as [i u p rs]. cbn. intros ->. reflexivity. Qed.

Lemma anonymous_step (verify : string -> option (option ObjectId)) (e : Ev)
    (k : Sock) (h : Hub) :
  anonymous k -> rooms k = [] -> refused verify h e ->
  sock_of (handle verify e k h) = k
  /\ hub_of (handle verify e k h) = h
  /\ Forall (fun g => outbound g = true -> relayed g)
       (signals_of (handle verify e k h)).
Proof.
  unfold anonymous. intros Ha Hr Hrefused.
  destruct e; cbn [handle].
  - unfold authenticate. cbn [refused] in Hrefused.
    destruct (truthy token) as [t|];
      [|repeat split; repeat constructor; discriminate].
    destruct (verify t) as [[id|]|];
      [| repeat split; repeat constructor; discriminate
       | repeat split; repeat constructor; discriminate].
    fold (profile_at h id). rewrite Hrefused.
    repeat split; repeat constructor; discriminate.
  - unfold join_group. rewrite Ha. repeat split; repeat constructor; discriminate.
  - unfold leave_group, sock_of, hub_of, signals_of. cbn [fst snd].
    rewrite (socket_leave_nil _ _ Hr).
    repeat split; repeat constructor; discriminate.
  - unfold typing_start. rewrite Ha. repeat split; constructor.
  - unfold typing_stop. rewrite Ha. repeat split; constructor.
  - unfold update_status. rewrite Ha. repeat split; constructor.
  - unfold send_notification.
    destruct (truthy recipientId) as [r|]; [|repeat split; constructor].
    destruct (truthy notification) as [n|]; [|repeat split; constructor].
    repeat split. constructor; [|constructor]. intros _.
    exists (Some r). split; [reflexivity | left; reflexivity].
  - unfold call_user. rewrite Ha. repeat split; constructor.
  - unfold answer_call. repeat split. constructor; [|constructor]. intros _.
    exists callerId. rewrite Ha. split; [reflexivity|]. right.
    split; [now left | left; reflexivity].
  - unfold end_call. repeat split. constructor; [|constructor]. intros _.
    exists recipientId. rewrite Ha. split; [reflexivity|]. right.
    split; [now left | right; reflexivity].
  - unfold disconnect. rewrite Ha. repeat split; constructor.
Qed.

(** X25. A socket that is in no room and never gets a token accepted
    stays as it is, leaves the hub (registry, users, groups) unchanged
    and enters no room, whatever events it sends; the typing, status and
    call_user events and the disconnect send nothing for it. But the
    hub still relays for it: every signal that leaves the socket is a
    [new_notification], a [call_answered] or a [call_ended] delivered to
    the room of the user the client named, the call signals with an
    undefined sender. *)
Theorem anonymous_session (verify : string -> option (option ObjectId))
    (es : list Ev) (k : Sock) (h : Hub) :
  anonymous k -> rooms k = [] ->
  Forall (refused verify h) es ->
  let r := handle_all verify es k h in
  sock_of r = k
  /\ hub_of r = h
  /\ Forall (fun g => outbound g = true -> relayed g) (signals_of r)
  /\ (forall c g t st o now,
        signals_of (typing_start c g t k h) = []
        /\ signals_of (typing_stop c g t k h) = []
        /\ signals_of (update_status st now k h) = []
        /\ signals_of (call_user t st o k h) = []
        /\ signals_of (disconnect now k h) = []).
Proof.
  intros Ha Hr Hes. cbn zeta. split; [|split; [|split]].
  1-3: induction es as [|e es IH]; cbn [handle_all]; [try reflexivity; constructor|];
       inversion Hes as [|? ? He Hes']; subst;
       destruct (anonymous_step verify e k h Ha Hr He) as (E1 & E2 & E3);
       rewrite E1, E2; unfold sock_of, hub_of, signals_of in *; cbn [fst snd].
  - now apply IH.
  - now apply IH.
  - apply Forall_app. split; [exact E3 | now apply IH].
  - unfold anonymous in Ha. intros c g t st o now.
    unfold typing_start, typing_stop, update_status, call_user, disconnect.
    rewrite Ha. repeat split; reflexivity.
Qed.

Lemma anonymous_session_witness :
  let r := handle_all SampleH.verify
             [EvAuthenticate (Some "bad") 1; EvJoinGroup (Some Sample.general);
              EvTypingStart None (Some Sample.general) None;
              EvSendNotification (Some Sample.bob) (Some "hello");
              EvEndCall (Some Sample.alice); EvDisconnect 2]
             SampleH.k1 SampleH.h0 in
  sock_of r = SampleH.k1
  /\ hub_of r = SampleH.h0
  /\ List.map signal (List.filter outbound (signals_of r))
     = ["new_notification"; "call_ended"].
Proof.
  destruct (anonymous_session SampleH.verify
             [EvAuthenticate (Some "bad") 1; EvJoinGroup (Some Sample.general);
              EvTypingStart None (Some Sample.general) None;
              EvSendNotification (Some Sample.bob) (Some "hello");
              EvEndCall (Some Sample.alice); EvDisconnect 2]
             SampleH.k1 SampleH.h0 eq_refl eq_refl) as (H1 & H2 & _).
  { repeat constructor. }
  cbn zeta. split; [exact H1|]. split; [exact H2|]. reflexivity.
Defined.





(* ------------------------------------------------------------------ *)
(** ** Following *)

Lemma update_first_unique {A : Type} (key : A -> string) (k : string) (f : A -> A)
    (l : list A) :
  NoDup (List.map key l) ->
  update_first (fun x => String.eqb (key x) k) f l
  = List.map (fun x => if String.eqb (key x) k then f x else x) l.
Proof.
  induction l as [|x l IH]; cbn; intros H; [reflexivity|].
  inversion H as [|? ? Hx Hl]; subst.
  destruct (String.eqb (key x) k) eqn:E; [|now rewrite IH].
  f_equal. apply String.eqb_eq in E. symmetry. apply map_fixed.
  intros y Hy. destruct (String.eqb_spec (key y) k) as [Ey|]; [|reflexivity].
  exfalso. apply Hx. rewrite E, <- Ey. now apply List.in_map.
Qed.

Lemma at_user_ids (id : ObjectId) (f : Account.t -> Account.t) (s : FDb) :
  (forall u, Account._id (f u) = Account._id u) ->
  List.map Account._id (at_user id f s) = List.map Account._id s.
Proof.
  intros Hf. unfold at_user. rewrite List.map_map. apply List.map_ext.
  intros u. destruct (String.eqb (Account._id u) id); [apply Hf | reflexivity].
Qed.





Lemma Account_findByIdAndUpdate_eq (id : ObjectId) (f : Account.t -> Account.t)
    (s : FDb) :
  NoDup (List.map Account._id s) ->
  Account_findByIdAndUpdate id f s = (Return tt, at_user id f s).
Proof.
  intros Hn. unfold Account_findByIdAndUpdate, sbind, sget, sput, at_user.
  now rewrite (update_first_unique Account._id).
Qed.



Lemma addToSet_In (x y : ObjectId) (l : list ObjectId) :
  In y (addToSet x l) <-> In y l \/ y = x.
Proof.
  unfold addToSet. destruct (existsb (String.eqb x) l) eqn:E.
  - split; [tauto|]. intros [H| ->]; [exact H|].
    apply List.existsb_exists in E as (z & Hz & Ez).
    apply String.eqb_eq in Ez. now subst.
  - rewrite List.in_app_iff. cbn. split; [|intros [H|H]; auto].
    intros [H|[H|[]]]; auto.
Qed.

Lemma pull_In (x y : ObjectId) (l : list ObjectId) :
  In y (pull x l) <-> In y l /\ y <> x.
Proof.
  unfold pull. rewrite List.filter_In. split; intros [H1 H2]; split; auto.
  - intros ->. now rewrite String.eqb_refl in H2.
  - apply String.eqb_neq in H2. now rewrite H2.
Qed.

Lemma mutual_at_users (s : FDb) (F : Account.t -> Account.t) :
  (forall a b, In a s -> In b s ->
     Account._id (F a) = Account._id a
     /\ (In (Account._id b) (Account.following (F a))
         <-> In (Account._id a) (Account.followers (F b)))) ->
  mutual (List.map F s).
Proof.
  intros H a' b' Ha' Hb'.
  apply List.in_map_iff in Ha' as (a & <- & Ha).
  apply List.in_map_iff in Hb' as (b & <- & Hb).
  destruct (H a b Ha Hb) as [Ia Hab]. destruct (H b a Hb Ha) as [Ib _].
  now rewrite Ia, Ib.
Qed.

Lemma mutual_follow (s : FDb) (uid id : ObjectId) :
  mutual s ->
  mutual (at_user id (followed_by uid) (at_user uid (now_following id) s)).
Proof.
  intros Hm. unfold at_user. rewrite List.map_map. apply mutual_at_users.
  intros a b Ha Hb. specialize (Hm a b Ha Hb).
  assert (Fid : forall x,
            Account._id
              (if String.eqb
                    (Account._id (if String.eqb (Account._id x) uid
                                  then now_following id x else x)) id
               then followed_by uid
                      (if String.eqb (Account._id x) uid
                       then now_following id x else x)
               else if String.eqb (Account._id x) uid
                    then now_following id x else x)
            = Account._id x).
  { intros x. destruct (String.eqb (Account._id x) uid); cbn;
      destruct (String.eqb (Account._id x) id); reflexivity. }
  split; [apply Fid|].
  destruct (String.eqb_spec (Account._id a) uid) as [Ea|Ea];
    destruct (String.eqb_spec (Account._id b) uid) as [Eb|Eb];
    cbn [now_following Account.set_following Account._id];
    destruct (String.eqb_spec (Account._id a) id) as [Ea'|Ea'];
    destruct (String.eqb_spec (Account._id b) id) as [Eb'|Eb'];
    cbn [followed_by now_following Account.set_following Account.set_followers
         Account.following Account.followers Account._id];
    rewrite ?List.in_app_iff, ?addToSet_In; cbn [In];
    intuition congruence.
Qed.

Lemma mutual_unfollow (s : FDb) (uid id : ObjectId) :
  mutual s ->
  mutual (at_user id
            (fun u => Account.set_followers (pull uid (Account.followers u)) u)
            (at_user uid
               (fun u => Account.set_following (pull id (Account.following u)) u)
               s)).
Proof.
  intros Hm. unfold at_user. rewrite List.map_map. apply mutual_at_users.
  intros a b Ha Hb. specialize (Hm a b Ha Hb).
  split.
  { destruct (String.eqb (Account._id a) uid); cbn;
      destruct (String.eqb (Account._id a) id); reflexivity. }
  destruct (String.eqb_spec (Account._id a) uid) as [Ea|Ea];
    destruct (String.eqb_spec (Account._id b) uid) as [Eb|Eb];
    cbn [Account.set_following Account._id];
    destruct (String.eqb_spec (Account._id a) id) as [Ea'|Ea'];
    destruct (String.eqb_spec (Account._id b) id) as [Eb'|Eb'];
    cbn [Account.set_following Account.set_followers
         Account.following Account.followers Account._id];
    rewrite ?pull_In; intuition congruence.
Qed.

Lemma mutual_told (s : FDb) (id : ObjectId) (n : Notification.t)
    (l : list Notification.t) :
  mutual s -> mutual (at_user id (Account.set_notifications l) s).
Proof.
  intros Hm. unfold at_user. apply mutual_at_users.
  intros a b Ha Hb. specialize (Hm a b Ha Hb).
  destruct (String.eqb (Account._id a) id), (String.eqb (Account._id b) id);
    cbn; tauto.
Qed.

Lemma account_save_state (this : Account.t) (write : Account.t -> Account.t)
    (s : FDb) :
  NoDup (List.map Account._id s) ->
  account_save this write s = (Return tt, at_user (Account._id this) write s)
  \/ exists e, account_save this write s = (Throw e, s).
Proof.
  intros Hn. unfold account_save.
  destruct (Account.validate this); [|right; eexists; reflexivity].
  unfold sbind, sget, sput, sthrow.
  destruct (existsb _ s); [|right; eexists; reflexivity].
  left. unfold at_user. now rewrite (update_first_unique Account._id).
Qed.

Lemma follow_keeps_mutual_step (user : Account.t) (id : ObjectId) (s : FDb) :
  NoDup (List.map Account._id s) -> mutual s ->
  NoDup (List.map Account._id (snd (follow id user s)))
  /\ mutual (snd (follow id user s)).
Proof.
  intros Hn Hm. unfold follow.
  destruct (includes (Account.following user) id); cbn [negb];
    [split; assumption|].
  unfold sbind.
  destruct (account_save_state
              (Account.set_following (Js.push (Account.following user) id) user)
              (fun stored => Account.set_following
                               (Js.push (Account.following stored) id) stored)
              s Hn) as [E | (e & E)]; rewrite E; [|split; assumption].
  cbn [Account.set_following Account._id].
  rewrite Account_findByIdAndUpdate_eq by now rewrite at_user_ids.
  cbn [snd]. split; [now rewrite !at_user_ids|].
  apply (mutual_follow s (Account._id user) id Hm).
Qed.

Lemma unfollow_keeps_mutual_step (user : Account.t) (id : ObjectId) (s : FDb) :
  NoDup (List.map Account._id s) -> mutual s ->
  NoDup (List.map Account._id (snd (unfollow id user s)))
  /\ mutual (snd (unfollow id user s)).
Proof.
  intros Hn Hm. unfold unfollow. cbn zeta. unfold sbind.
  destruct (account_save_state
              (Account.set_following (pull id (Account.following user)) user)
              (fun stored => Account.set_following
                               (pull id (Account.following stored)) stored)
              s Hn) as [E | (e & E)]; rewrite E; [|split; assumption].
  cbn [Account.set_following Account._id].
  rewrite Account_findByIdAndUpdate_eq by now rewrite at_user_ids.
  cbn [snd]. split; [now rewrite !at_user_ids|].
  apply (mutual_unfollow s (Account._id user) id Hm).
Qed.

Lemma addNotification_keeps_mutual (n : Notification.t) (t : Account.t) (s : FDb) :
  NoDup (List.map Account._id s) -> mutual s ->
  NoDup (List.map Account._id (snd (account_addNotification n t s)))
  /\ mutual (snd (account_addNotification n t s)).
Proof.
  intros Hn Hm. unfold account_addNotification. cbn zeta.
  match goal with
  | |- context [account_save ?x ?w s] =>
      destruct (account_save_state x w s Hn) as [E | (e & E)]; rewrite E
  end; [|split; assumption].
  cbn [snd]. split; [now rewrite at_user_ids|]. now apply mutual_told.
Qed.

(** X28. Who follows whom stays recorded on both sides alike: when user
    ids are unique and, for all users a and b, b is in a's [following]
    exactly when a is in b's [followers], this is still so after a
    follow request and after an unfollow request, whatever they
    answered. *)
Theorem follow_keeps_mutual (user : Account.t) (id : ObjectId) (s : FDb) :
  NoDup (List.map Account._id s) -> mutual s ->
  (NoDup (List.map Account._id (snd (post_follow user id s)))
   /\ mutual (snd (post_follow user id s)))
  /\ (NoDup (List.map Account._id (snd (delete_follow user id s)))
      /\ mutual (snd (delete_follow user id s))).
Proof.
  intros Hn Hm. split.
  - remember (post_follow user id s) as r eqn:Hr.
    unfold post_follow, stry, ferror in Hr.
    destruct (String.eqb id (toString (Account._id user)));
      [subst r; split; assumption|].
    unfold sbind at 1 in Hr. unfold Account_findById in Hr.
    unfold sbind at 1 in Hr. unfold sget, sret in Hr.
    destruct (List.find _ s) as [target|]; [|subst r; split; assumption].
    unfold sbind at 1 in Hr.
    destruct (follow_keeps_mutual_step user id s Hn Hm) as [Hn1 Hm1].
    destruct (follow id user s) as [[[]|e] s1]; cbn [snd] in Hn1, Hm1;
      [|subst r; split; assumption].
    unfold sbind in Hr.
    match type of Hr with
    | context [account_addNotification ?n target s1] =>
        destruct (addNotification_keeps_mutual n target s1 Hn1 Hm1) as [Hn2 Hm2];
        destruct (account_addNotification n target s1) as [[[]|e] s2]
    end; cbn [snd] in Hn2, Hm2; subst r; split; assumption.
  - remember (delete_follow user id s) as r eqn:Hr.
    unfold delete_follow, stry, ferror in Hr. unfold sbind in Hr.
    destruct (unfollow_keeps_mutual_step user id s Hn Hm) as [Hn1 Hm1].
    destruct (unfollow id user s) as [[[]|e] s1]; cbn [snd] in Hn1, Hm1;
      subst r; split; assumption.
Qed.

Lemma sample_mutual : NoDup (List.map Account._id SampleF.s0) /\ mutual SampleF.s0.
Proof.
  split.
  - repeat constructor; cbn; intros K; repeat destruct K as [K|K];
      try discriminate; assumption.
  - intros a b [<-|[<-|[]]] [<-|[<-|[]]]; cbn; tauto.
Qed.

Lemma follow_keeps_mutual_witness :
  mutual (snd (post_follow SampleF.ann Sample.bob SampleF.s0))
  /\ List.map Account.following (snd (post_follow SampleF.ann Sample.bob SampleF.s0))
     = [[Sample.bob]; []]
  /\ List.map Account.followers (snd (post_follow SampleF.ann Sample.bob SampleF.s0))
     = [[]; [Sample.alice]].
Proof.
  destruct sample_mutual as [Hn Hm].
  destruct (follow_keeps_mutual SampleF.ann Sample.bob SampleF.s0 Hn Hm)
    as [[_ H] _].
  split; [exact H|]. split; reflexivity.
Defined.



(* ------------------------------------------------------------------ *)
(** ** The admin routes *)

Lemma admin_set_deleted (id : ObjectId) (s : PDb) (p : PostDoc.t) (flag : bool) :
  post_at s id = Some p ->
  PostDoc.validate p = true ->
  post_save false false (PostDoc.set_isDeleted flag p) s
  = (Return (PostDoc.set_isDeleted flag p),
     with_post s (PostDoc.set_isDeleted flag p))
  /\ post_at (with_post s (PostDoc.set_isDeleted flag p)) id
     = Some (PostDoc.set_isDeleted flag p).
Proof.
  intros Hs Hv. pose proof (post_at_id _ _ _ Hs) as Hid.
  assert (Hst : post_at s (PostDoc._id (PostDoc.set_isDeleted flag p)) <> None)
    by (cbn [PostDoc.set_isDeleted PostDoc._id]; rewrite Hid, Hs; discriminate).
  split.
  - apply post_save_existing; [exact Hv | exact Hst].
  - set (p' := PostDoc.set_isDeleted flag p) in *.
    assert (Hid' : PostDoc._id p' = id) by exact Hid.
    rewrite <- Hid'. now apply post_at_with_post.
Qed.

Lemma admin_delete_post_eq (id : ObjectId) (s : PDb) (p : PostDoc.t) :
  post_at s id = Some p ->
  PostDoc.validate p = true ->
  admin_delete_post id s
  = (Return (mkPResponse 200 (PMessage "Post deleted successfully")),
     with_post s (PostDoc.set_isDeleted true p)).
Proof.
  intros Hs Hv. unfold admin_delete_post. apply stry_return.
  rewrite (sbind_return _ _ _ _ _ (Post_findById_eq id s)), Hs.
  erewrite sbind_return; [reflexivity|].
  apply (admin_set_deleted id s p true Hs Hv).
Qed.

Lemma admin_restore_post_eq (id : ObjectId) (s : PDb) (p : PostDoc.t) :
  post_at s id = Some p ->
  PostDoc.validate p = true ->
  admin_restore_post id s
  = (Return (mkPResponse 200 (PMessage "Post restored successfully")),
     with_post s (PostDoc.set_isDeleted false p)).
Proof.
  intros Hs Hv. unfold admin_restore_post. apply stry_return.
  rewrite (sbind_return _ _ _ _ _ (Post_findById_eq id s)), Hs.
  erewrite sbind_return; [reflexivity|].
  apply (admin_set_deleted id s p false Hs Hv).
Qed.

(** X29. The admin's restore undoes a deletion: for a valid stored post,
    the admin delete is answered 200 whether or not the post was already
    deleted (the author's route answers 404 on a deleted post) and marks
    it deleted, after which likes are answered 404; the restore is
    answered 200 and leaves the post as it was except that it is live.
    So deleting a live post and restoring it gives back the collection,
    and a post its author deleted is live again after the restore, with
    likes accepted again. An unknown id is answered 404 by both. *)
Theorem admin_restore_undoes_delete (id : ObjectId) (s : PDb) (p : PostDoc.t)
    (user : UserDoc.t) :
  post_at s id = Some p ->
  post_ok p ->
  exists s1 s2,
    admin_delete_post id s
    = (Return (mkPResponse 200 (PMessage "Post deleted successfully")), s1)
    /\ post_at s1 id = Some (PostDoc.set_isDeleted true p)
    /\ post_like user id s1 = (Return not_found, s1)
    /\ delete_post user id s1 = (Return not_found, s1)
    /\ admin_restore_post id s1
       = (Return (mkPResponse 200 (PMessage "Post restored successfully")), s2)
    /\ post_at s2 id = Some (PostDoc.set_isDeleted false p)
    /\ accounts s2 = accounts s
    /\ (PostDoc.isDeleted p = false -> posts s2 = posts s)
    /\ (exists r s3, post_like user id s2 = (Return r, s3)
                     /\ pstatus r <> 404).
Proof.
  intros Hs [Hv Hn]. pose proof (post_at_id _ _ _ Hs) as Hid.
  set (p1 := PostDoc.set_isDeleted true p).
  set (p2 := PostDoc.set_isDeleted false p).
  destruct (admin_set_deleted id s p true Hs Hv) as [_ Hs1]. fold p1 in Hs1.
  exists (with_post s p1), (with_post (with_post s p1) p2).
  split; [now apply admin_delete_post_eq|]. split; [exact Hs1|].
  destruct (deleted_post_gone (fun _ => true) user id (with_post s p1) p1 Hs1
              eq_refl) as (G1 & G2 & _).
  split; [exact G1|]. split; [exact G2|].
  destruct (admin_set_deleted id (with_post s p1) p1 false Hs1 Hv) as [_ Hs2].
  change (PostDoc.set_isDeleted false p1) with p2 in Hs2.
  split; [apply (admin_restore_post_eq id (with_post s p1) p1 Hs1 Hv)|].
  split; [exact Hs2|]. split; [reflexivity|]. split.
  - intros Hd. assert (Ep : p2 = p) by (unfold p2; destruct p; cbn in *; now subst).
    rewrite Ep. apply (with_post_back s p p1); [now rewrite Hid | reflexivity].
  - destruct (List.in_dec String.string_dec (UserDoc._id user) (PostDoc.likes p2))
      as [Hin|Hin].
    + eexists. eexists. split;
        [apply (post_like_liked user id _ p2 Hs2 Hv eq_refl Hin) | discriminate].
    + pose proof (post_like_fresh user id _ p2 Hs2 Hv eq_refl Hin) as E.
      cbn zeta in E. rewrite E.
      destruct (String.eqb (PostDoc.author p2) (UserDoc._id user));
        [eexists; eexists; split; [reflexivity | discriminate]|].
      destruct (account_at _ (PostDoc.author p2)) as [a|];
        [|eexists; eexists; split; [reflexivity | discriminate]].
      destruct (UserDoc.validate _);
        eexists; eexists; (split; [reflexivity | discriminate]).
Qed.

Lemma admin_restore_undoes_delete_witness :
  exists s1 s2,
    admin_delete_post SampleP.p1 SampleP.s0
    = (Return (mkPResponse 200 (PMessage "Post deleted successfully")), s1)
    /\ admin_restore_post SampleP.p1 s1
       = (Return (mkPResponse 200 (PMessage "Post restored successfully")), s2)
    /\ posts s2 = posts SampleP.s0.
Proof.
  destruct (admin_restore_undoes_delete SampleP.p1 SampleP.s0 SampleP.hello
              SampleP.a_bob eq_refl)
    as (s1 & s2 & E1 & _ & _ & _ & E2 & _ & _ & Hback & _).
  { split; [reflexivity | constructor]. }
  exists s1, s2. split; [exact E1|]. split; [exact E2|]. now apply Hback.
Defined.



